(** * Campus Insight: chunking, retrieval, extraction and document lifecycle

  A shallow embedding of [embeddings_search.py], [app.py],
  [backend_main.py] and [ocr_processor.py], followed by the properties
  established for them.

  Conventions of the embedding.
  - A Python [str] is a [string]; its characters are 8-bit code points
    (the Latin-1 range of Python's [str]).
  - A Python [int] is a [Z]; lengths and indices are [nat].
  - A [float] score is an exact rational ([Qc]); rounding is not modelled.
  - A [dict] with string keys is a [gmap string _].
  - A raised exception is the [Raise] alternative of [result]; code that
    mutates the collection or calls the language model runs in the monad
    [M], which threads the state through raised exceptions as Python does.
  - Collaborators that live outside the repository (embedding model,
    optical character recognition, language model, clock) are the fields
    of the class [Env], each a function of its argument: two runs are
    compared under the same behaviour of the collaborators.  The random
    part of a chunk id is an explicit argument.
  - [print] writes to the standard output and may raise (a text that the
    stream cannot encode, a closed stream); it is the collaborator [print].
    The calls of [logging] are left out: a handler that fails reports it on
    the standard error and the call returns.
  - The calls that [app.py] hands to its pool of three worker threads take
    effect in an order that the program does not decide; it is the
    collaborator [pool_order]. *)

From Stdlib Require Import ZArith QArith Qcanon Ascii String List Lia.
From stdpp Require Import base tactics option gmap fin_maps strings pretty sorting numbers.
From stdpp Require Import list.

Local Open Scope Z_scope.
Local Open Scope nat_scope.

(** ** Python primitives *)

Module Py.

Definition chars (s : string) : list ascii := list_ascii_of_string s.
Definition of_chars (l : list ascii) : string := string_of_list_ascii l.

(** [len(s)] *)
Definition len (s : string) : nat := String.length s.

(** [s[:n]] *)
Fixpoint take (n : nat) (s : string) : string :=
  match n, s with
  | S k, String c s' => String c (take k s')
  | _, _ => ""
  end.

(** [s[n:]] *)
Fixpoint drop (n : nat) (s : string) : string :=
  match n, s with
  | S k, String _ s' => drop k s'
  | _, _ => s
  end.

(** [s[i:j]] for non-negative [i] and [j]. *)
Definition slice (s : string) (i j : nat) : string := take (j - i) (drop i s).

(** [''.join(l)] *)
Definition join (l : list string) : string := foldr String.append "" l.

(** [range(start, stop, step)] for a positive [step]. *)
Definition range3 (start stop step : nat) : list nat :=
  (λ k, start + k * step) <$> seq 0 ((stop - start + (step - 1)) / step).

(** [range(n)] *)
Definition range (n : nat) : list nat := seq 0 n.

(** Character tests of [str] on code points below 256. *)
Definition isdigit (c : ascii) : bool :=
  match c with
  | "0" | "1" | "2" | "3" | "4" | "5" | "6" | "7" | "8" | "9" => true
  | _ => false
  end%char.

(** Whitespace as [str.isspace], [str.strip] and the pattern [\s] see it. *)
Definition isspace (c : ascii) : bool :=
  match c with
  | "009" | "010" | "011" | "012" | "013"
  | "028" | "029" | "030" | "031" | " " | "133" | "160" => true
  | _ => false
  end%char.

Definition isalpha_ascii (c : ascii) : bool :=
  let n := N_of_ascii c in
  ((65 <=? n) && (n <=? 90) || (97 <=? n) && (n <=? 122))%N.

(** [c.lower()] for one character. *)
Definition lower_char (c : ascii) : ascii :=
  let n := N_of_ascii c in
  if ((65 <=? n) && (n <=? 90)
      || (192 <=? n) && (n <=? 222) && negb (n =? 215))%N
  then ascii_of_N (n + 32) else c.

(** [s.lower()] *)
Fixpoint lower (s : string) : string :=
  match s with
  | "" => ""
  | String c s' => String (lower_char c) (lower s')
  end.

(** [s.startswith(p)] *)
Fixpoint startswith (p s : string) : bool :=
  match p, s with
  | "", _ => true
  | String a p', String b s' => bool_decide (a = b) && startswith p' s'
  | String _ _, "" => false
  end.

(** [p in s] *)
Fixpoint contains (p s : string) : bool :=
  startswith p s ||
  match s with
  | "" => false
  | String _ s' => contains p s'
  end.

(** [s.lstrip(chars)], with the characters to strip given as a test. *)
Fixpoint lstrip_with (p : ascii → bool) (s : string) : string :=
  match s with
  | String c s' => if p c then lstrip_with p s' else s
  | "" => ""
  end.

(** [s.rstrip(chars)]: a character stays when something follows it that
    stays, or when it is not one of the characters to strip. *)
Fixpoint rstrip_with (p : ascii → bool) (s : string) : string :=
  match s with
  | String c s' =>
      match rstrip_with p s' with
      | "" => if p c then "" else String c ""
      | t => String c t
      end
  | "" => ""
  end.

Definition strip_with (p : ascii → bool) (s : string) : string :=
  rstrip_with p (lstrip_with p s).

(** [s.strip()] *)
Definition strip (s : string) : string := strip_with isspace s.

(** [s.replace(c, '')] for a one-character [c]. *)
Fixpoint remove_char (c : ascii) (s : string) : string :=
  match s with
  | "" => ""
  | String a s' => if bool_decide (a = c) then remove_char c s' else String a (remove_char c s')
  end.

(** Exceptions (all of them subclasses of [Exception]). *)
Inductive exn :=
| KeyError (key : string)
| IndexError
| TypeError
| AttributeError
| ValueError
| ExternalError (what : string).

Inductive result (A : Type) :=
| Ok (a : A)
| Raise (e : exn).
Global Arguments Ok {A} a.
Global Arguments Raise {A} e.

Global Instance exn_eq_dec : EqDecision exn.
Proof. solve_decision. Defined.

Global Instance result_eq_dec {A} `{EqDecision A} : EqDecision (result A).
Proof. solve_decision. Defined.

Definition rbind {A B} (r : result A) (k : A → result B) : result B :=
  match r with
  | Ok a => k a
  | Raise e => Raise e
  end.

(** A comprehension [[f(x) for x in l]] whose body may raise. *)
Fixpoint traverse {A B} (f : A → result B) (l : list A) : result (list B) :=
  match l with
  | [] => Ok []
  | x :: l' => rbind (f x) (λ y, rbind (traverse f l') (λ ys, Ok (y :: ys)))
  end.

(** [l[i]] *)
Definition index {A} (l : list A) (i : nat) : result A :=
  match l !! i with
  | Some x => Ok x
  | None => Raise IndexError
  end.

(** [d[k]] *)
Definition getitem {A} (d : gmap string A) (k : string) : result A :=
  match d !! k with
  | Some x => Ok x
  | None => Raise (KeyError k)
  end.

Definition digit_value (c : ascii) : Z := Z.of_N (N_of_ascii c) - 48.

Fixpoint int_digits (acc : Z) (s : string) : result Z :=
  match s with
  | "" => Ok acc
  | String c s' =>
      if isdigit c then int_digits (10 * acc + digit_value c) s'
      else Raise ValueError
  end.

(** [int(s)] on a string of decimal digits; anything else is reported as
    [ValueError] (signs, blanks and underscores, which Python's [int] also
    accepts, never reach it in the sources). *)
Definition int (s : string) : result Z :=
  match s with
  | "" => Raise ValueError
  | _ => int_digits 0 s
  end.

(** [max(l)] of a non-empty list [x :: l]. *)
Definition max (x : Z) (l : list Z) : Z := foldl Z.max x l.

(** Values as they come out of a collaborator's [dict]. *)
Inductive value :=
| VNone
| VInt (n : Z)
| VStr (s : string).

(** Truth value of an object in a condition. *)
Definition truthy (v : option value) : bool :=
  match v with
  | None | Some VNone => false
  | Some (VInt n) => negb (n =? 0)%Z
  | Some (VStr s) => negb (bool_decide (s = ""))
  end.

(** Use of a value where the code needs a [str] ([re.search], [.lower()],
    slicing). *)
Definition as_str (e : exn) (v : value) : result string :=
  match v with
  | VStr s => Ok s
  | _ => Raise e
  end.

(** *** State and exceptions

    [M St A] is a computation on a state [St] that returns an [A] or raises;
    what it did to the state before raising stays done. *)
Definition M (St A : Type) : Type := St → result A * St.

Definition ret {St A} (a : A) : M St A := λ s, (Ok a, s).

Definition raise {St A} (e : exn) : M St A := λ s, (Raise e, s).

Definition bind {St A B} (m : M St A) (k : A → M St B) : M St B :=
  λ s, match m s with
       | (Ok a, s') => k a s'
       | (Raise e, s') => (Raise e, s')
       end.

(** A pure step that may raise. *)
Definition lift {St A} (r : result A) : M St A := λ s, (r, s).

(** [try: body  except Exception: handler] *)
Definition try_except {St A} (body : M St A) (handler : exn → M St A) : M St A :=
  λ s, match body s with
       | (Ok a, s') => (Ok a, s')
       | (Raise e, s') => handler e s'
       end.

Definition get {St} : M St St := λ s, (Ok s, s).
Definition put {St} (s : St) : M St unit := λ _, (Ok tt, s).

(** A loop [for i, x in enumerate(l)] that collects one value per element. *)
Fixpoint for_each {St A B} (f : nat → A → M St B) (i : nat) (l : list A) : M St (list B) :=
  match l with
  | [] => ret []
  | x :: l' => bind (f i x) (λ y, bind (for_each f (S i) l') (λ ys, ret (y :: ys)))
  end.

(** *** A pool of three worker threads

    [ThreadPoolExecutor(max_workers=3)] with at most three calls submitted:
    every call runs, each in a thread of its own, and the order in which
    they take effect is one of the six orders of the positions 0, 1, 2. *)
Inductive schedule :=
| Order012 | Order021 | Order102 | Order120 | Order201 | Order210.

Definition positions (o : schedule) : list nat :=
  match o with
  | Order012 => [0; 1; 2]
  | Order021 => [0; 2; 1]
  | Order102 => [1; 0; 2]
  | Order120 => [1; 2; 0]
  | Order201 => [2; 0; 1]
  | Order210 => [2; 1; 0]
  end.

(** The calls [f x] for the [tasks] at the given positions, one after the
    other; a call that raises does not stop the others, and what each call
    returned or raised is kept under its position. *)
Fixpoint run_at {St A B} (f : A → M St B) (tasks : list A) (order : list nat)
    : M St (list (nat * result B)) :=
  match order with
  | [] => ret []
  | i :: order' =>
      match tasks !! i with
      | Some x =>
          λ s, let '(r, s1) := f x s in
               bind (run_at f tasks order') (λ rs, ret ((i, r) :: rs)) s1
      | None => run_at f tasks order'
      end
  end.

(** What is kept under position [i]. *)
Fixpoint outcome_at {B} (i : nat) (rs : list (nat * result B)) : option (result B) :=
  match rs with
  | [] => None
  | (j, r) :: rs' => if bool_decide (j = i) then Some r else outcome_at i rs'
  end.

(** [[executor.submit(f, x) for x in tasks]] for at most three tasks, up to
    the point where all of them are done: the futures, in the order of
    submission, each holding what its call returned or raised. *)
Definition submit_all {St A B} (o : schedule) (f : A → M St B) (tasks : list A)
    : M St (list (result B)) :=
  bind (run_at f tasks (positions o))
    (λ rs, ret (omap (λ i, outcome_at i rs) (seq 0 (length tasks)))).

End Py.
Export Py (result(..), exn(..), value(..)).

Notation "'let*' x ':=' m 'in' k" := (Py.bind m (λ x, k))
  (at level 10, x name, m at level 100, k at level 200, only parsing).
Notation "'let?' x ':=' r 'in' k" := (Py.rbind r (λ x, k))
  (at level 10, x name, r at level 100, k at level 200, only parsing).

(** ** The fragment of [re] the sources use

    A backtracking matcher: [matches r s] lists, in the order in which
    Python's engine tries them, the lengths of the prefixes of [s] that [r]
    matches.  Repetition is only ever applied to a single character class in
    the sources ([\d{2}], [\d{1,2}], [[a-z]*], [\s+], [,?]), so [Rep] takes a
    class. *)

Module Re.

Inductive re :=
| Eps                                             (* the empty pattern *)
| Cls (p : ascii → bool)                          (* one character of a class *)
| Cat (r1 r2 : re)                                (* r1 r2 *)
| Alt (r1 r2 : re)                                (* r1|r2 *)
| Opt (r : re)                                    (* (?:r)?, greedy *)
| Rep (p : ascii → bool) (lo : nat) (hi : option nat). (* p{lo,hi}, greedy *)

(** Length of the longest run of [p]-characters at the head of [s], at most
    [cap]. *)
Fixpoint span (p : ascii → bool) (cap : nat) (s : string) : nat :=
  match cap, s with
  | S k, String c s' => if p c then S (span p k s') else 0
  | _, _ => 0
  end.

(** [hi, hi-1, ..., lo] *)
Definition countdown (hi lo : nat) : list nat := reverse (seq lo (S hi - lo)).

Fixpoint matches (r : re) (s : string) : list nat :=
  match r with
  | Eps => [0]
  | Cls p =>
      match s with
      | String c _ => if p c then [1] else []
      | "" => []
      end
  | Cat r1 r2 =>
      n1 ← matches r1 s; (λ n2, n1 + n2) <$> matches r2 (Py.drop n1 s)
  | Alt r1 r2 => matches r1 s ++ matches r2 s
  | Opt r' => matches r' s ++ [0]
  | Rep p lo hi => countdown (span p (default (Py.len s) hi) s) lo
  end.

(** [re.search(r, s)]: the leftmost position with a match, and there the
    first match in the engine's order; [match.group(0)] is returned. *)
Fixpoint search (r : re) (s : string) : option string :=
  match matches r s with
  | n :: _ => Some (Py.take n s)
  | [] =>
      match s with
      | "" => None
      | String _ s' => search r s'
      end
  end.

(** [re.findall(r, s)] for a pattern that is one group: the matches from left
    to right, the scan resuming where the previous match ended ([skip]
    characters of a match are still to be stepped over). *)
Fixpoint findall_from (r : re) (skip : nat) (s : string) {struct s} : list string :=
  match s with
  | "" =>
      match skip, matches r "" with
      | 0, _ :: _ => [""]
      | _, _ => []
      end
  | String _ s' =>
      match skip with
      | S k => findall_from r k s'
      | 0 =>
          match matches r s with
          | n :: _ => Py.take n s :: findall_from r (n - 1) s'
          | [] => findall_from r 0 s'
          end
      end
  end.

Definition findall (r : re) (s : string) : list string := findall_from r 0 s.

(** Pattern constructors. *)
Definition chr (c : ascii) : re := Cls (λ x, bool_decide (x = c)).
Definition chr_i (c : ascii) : re :=
  Cls (λ x, bool_decide (Py.lower_char x = Py.lower_char c)).
Definition digit : re := Cls Py.isdigit.
Definition digits (lo hi : nat) : re := Rep Py.isdigit lo (Some hi).

(** A literal; [lit_i] is the literal under [re.IGNORECASE]. *)
Fixpoint lit (s : string) : re :=
  match s with
  | "" => Eps
  | String c s' => Cat (chr c) (lit s')
  end.
Fixpoint lit_i (s : string) : re :=
  match s with
  | "" => Eps
  | String c s' => Cat (chr_i c) (lit_i s')
  end.

(** [r|r1|...|rn] and [r1 r2 ... rn] *)
Definition alts (r : re) (rs : list re) : re := foldl Alt r rs.
Definition cats (rs : list re) : re := foldr Cat Eps rs.

End Re.

(** ** Collaborators outside the repository *)

Class Env := {
  (** an embedding vector *)
  vec : Type;
  (** [SentenceTransformer.encode] on one text *)
  encode : string → result vec;
  (** the dissimilarity the collection ranks by *)
  distance : vec → vec → Qc;
  (** [OCRProcessor.process_document(path)] as [process_file] sees it: a
      [dict], or an exception *)
  process_document : string → result (gmap string value);
  (** [model.generate_content(prompt).text] *)
  generate_content : string → result string;
  (** [datetime.now().year] *)
  current_year : Z;
  (** [datetime.now().strftime("%Y-%m-%d")] *)
  today : string;
  (** [print(s)] *)
  print : string → result unit;
  (** the order in which the calls submitted to the thread pool take effect *)
  pool_order : Py.schedule;
}.

(** ** The Index Store *)

Module Chroma.
Section collection.
Context `{Env}.

Record Entry := {
  embedding : vec;
  document : string;
  metadata : gmap string string;
}.

(** Modelled from the spec: the Index Store (a [chromadb] collection, which
    is a library outside the repository).  Entries are keyed by id; [upsert]
    "inserts or overwrites entries keyed by id ... same semantics as a
    key-value map". *)
Fixpoint rows (ids : list string) (embeddings : list vec)
    (documents : list string) (metadatas : list (gmap string string))
    : result (list (string * Entry)) :=
  match ids, embeddings, documents, metadatas with
  | [], [], [], [] => Ok []
  | i :: ids', e :: embeddings', d :: documents', m :: metadatas' =>
      let? rs := rows ids' embeddings' documents' metadatas' in
      Ok ((i, {| embedding := e; document := d; metadata := m |}) :: rs)
  | _, _, _, _ => Raise ValueError
  end.

(** Modelled from the spec: a colliding id "overwrites in place". *)
Definition insert_rows (rs : list (string * Entry)) (c : gmap string Entry)
    : gmap string Entry :=
  foldl (λ c r, <[r.1 := r.2]> c) c rs.

(** Modelled from the spec: "[upsert(ids, vectors, texts, metadatas)]". *)
Definition upsert (ids : list string) (embeddings : list vec)
    (documents : list string) (metadatas : list (gmap string string))
    : Py.M (gmap string Entry) unit :=
  let* rs := Py.lift (rows ids embeddings documents metadatas) in
  let* c := Py.get in
  Py.put (insert_rows rs c).

(** Modelled from the spec: "[filter] is an equality predicate over metadata
    fields (e.g. exact match on [source_url])": every field the filter lists
    is present in the entry's metadata with that value. *)
Definition where_matches (filter_ : gmap string string) (e : Entry) : Prop :=
  map_Forall (λ k v, metadata e !! k = Some v) filter_.

Global Instance where_matches_dec filter_ e : Decision (where_matches filter_ e).
Proof. unfold where_matches. apply _. Defined.

(** Modelled from the spec: "absent filter scans entire corpus". *)
Definition selected (filter_ : option (gmap string string)) (e : Entry) : Prop :=
  match filter_ with
  | Some f => where_matches f e
  | None => True
  end.

Global Instance selected_dec filter_ e : Decision (selected filter_ e).
Proof. destruct filter_; simpl; apply _. Defined.

Record Row := {
  row_id : string;
  row_entry : Entry;
  row_distance : Qc;
}.

Definition nearer (a b : Row) : Prop := (row_distance a ≤ row_distance b)%Qc.

Global Instance nearer_dec : RelDecision nearer.
Proof. intros a b. unfold nearer. apply _. Defined.

(** Modelled from the spec: "[query(query_vector, k, filter)] -> k nearest
    entries by similarity, each with id/text/metadata/distance ... absent
    filter scans entire corpus. If fewer than [k] entries exist, returns all
    available, still ranked." *)
Definition nearest (q : vec) (k : nat) (filter_ : option (gmap string string))
    (c : gmap string Entry) : list Row :=
  let candidates := filter (λ r, selected filter_ r.2) (map_to_list c) in
  let scored :=
    (λ r, {| row_id := r.1; row_entry := r.2;
             row_distance := distance q (embedding r.2) |}) <$> candidates in
  take k (merge_sort nearer scored).

(** What [collection.query] returns: one inner list per query embedding. *)
Record QueryResult := {
  ids : list (list string);
  documents : list (list string);
  metadatas : list (list (gmap string string));
  distances : list (list Qc);
}.

(** Modelled from the spec: [query] answers each query vector with its
    nearest entries.  The library's check of its argument is added: a number
    of results that is not positive is refused with an exception. *)
Definition query (query_embeddings : list vec) (n_results : Z)
    (filter_ : option (gmap string string)) : Py.M (gmap string Entry) QueryResult :=
  if (n_results <=? 0)%Z then Py.raise ValueError
  else
    let* c := Py.get in
    let found := (λ q, nearest q (Z.to_nat n_results) filter_ c) <$> query_embeddings in
    Py.ret {| ids := fmap row_id <$> found;
              documents := fmap (document ∘ row_entry) <$> found;
              metadatas := fmap (metadata ∘ row_entry) <$> found;
              distances := fmap row_distance <$> found |}.

(** Modelled from the spec: "[delete(filter)]: removes all entries whose
    metadata matches [filter]. No-op (not an error) if nothing matches." *)
Definition delete (filter_ : gmap string string) : Py.M (gmap string Entry) unit :=
  let* c := Py.get in
  Py.put (filter (λ r, ¬ where_matches filter_ r.2) c).

(** Modelled from the spec: "[count() -> integer]: total entries currently
    stored." *)
Definition count : Py.M (gmap string Entry) nat :=
  let* c := Py.get in
  Py.ret (size c).

End collection.
End Chroma.

(** ** [embeddings_search.py] *)

Module SemanticSearchEngine.
Section engine.
Context `{Env}.

(** Line 13:
    [[text[i:i+chunk_size] for i in range(0, len(text), chunk_size - 50)]] *)
Definition chunk_text (text : string) : list string :=
  let chunk_size := 500 in
  (λ i, Py.slice text i (i + chunk_size))
    <$> Py.range3 0 (Py.len text) (chunk_size - 50).

(** The id of chunk [i]: [f"{metadata['title']}_{i}_{str(uuid.uuid4())[:8]}"];
    [uuid8 i] is the random part drawn for it. *)
Definition chunk_id (uuid8 : nat → string) (metadata : gmap string string)
    (i : nat) : result string :=
  let? title := Py.getitem metadata "title" in
  Ok (title +:+ "_" +:+ pretty i +:+ "_" +:+ uuid8 i).

Definition index_document (uuid8 : nat → string) (text : string)
    (metadata : gmap string string) : Py.M (gmap string Chroma.Entry) unit :=
  let chunks := chunk_text text in
  if bool_decide (chunks = []) then Py.ret tt
  else
    let* embeddings := Py.lift (Py.traverse encode chunks) in
    let* ids := Py.lift (Py.traverse (chunk_id uuid8 metadata) (Py.range (length chunks))) in
    let metadatas := (λ _, metadata) <$> Py.range (length chunks) in
    let* _ := Chroma.upsert ids embeddings chunks metadatas in
    let* title := Py.lift (Py.getitem metadata "title") in
    Py.lift (print ("Indexed " +:+ pretty (length chunks) +:+ " chunks for " +:+ title)).

(** One element of [clean_results]. *)
Record Hit := {
  id : string;
  document : string;
  metadata : gmap string string;
  relevance_score : Qc;
}.

Definition search (query : string) (n_results : Z)
    (filters : option (gmap string string)) : Py.M (gmap string Chroma.Entry) (list Hit) :=
  let* query_embedding := Py.lift (Py.traverse encode [query]) in
  let* results := Chroma.query query_embedding n_results filters in
  if bool_decide (Chroma.documents results ≠ []) then
    Py.lift
      (let? documents0 := Py.index (Chroma.documents results) 0 in
       Py.traverse
         (λ i,
            let? ids0 := Py.index (Chroma.ids results) 0 in
            let? id_i := Py.index ids0 i in
            let? document_i := Py.index documents0 i in
            let? metadatas0 := Py.index (Chroma.metadatas results) 0 in
            let? metadata_i := Py.index metadatas0 i in
            let? distances0 := Py.index (Chroma.distances results) 0 in
            let? distance_i := Py.index distances0 i in
            Ok {| id := id_i; document := document_i; metadata := metadata_i;
                  relevance_score := (1 - distance_i)%Qc |})
         (Py.range (length documents0)))
  else Py.ret [].

Definition get_document_count : Py.M (gmap string Chroma.Entry) nat := Chroma.count.

Definition target_url (filename : string) : string :=
  "http://localhost:8000/files/" +:+ filename.

Definition delete_document (filename : string) : Py.M (gmap string Chroma.Entry) unit :=
  let* _ := Py.lift (print ("Deleting vectors for: " +:+ target_url filename)) in
  Chroma.delete {[ "source_url" := target_url filename ]}.

End engine.
End SemanticSearchEngine.

(** ** What [app.py] and [backend_main.py] share *)

Module Service.
Section service.
Context `{Env}.

(** A [pathlib.Path], by the attributes the code reads: [str(p)], [p.name]
    and [p.stem]. *)
Record Path := {
  to_str : string;
  name : string;
  stem : string;
}.

(** The module-level objects: the collection behind [search_engine], and the
    prompts that have been sent to [model] so far. *)
Record World := {
  collection : gmap string Chroma.Entry;
  prompts : list string;
}.

(** A method call on [search_engine]. *)
Definition on_engine {A} (m : Py.M (gmap string Chroma.Entry) A) : Py.M World A :=
  λ w, let '(r, c) := m (collection w) in
       (r, {| collection := c; prompts := prompts w |}).

(** [model.generate_content(prompt).text] *)
Definition model_generate (prompt : string) : Py.M World string :=
  λ w, (generate_content prompt,
        {| collection := collection w; prompts := prompts w ++ [prompt] |}).

Definition nl : string := String "010" "".
Definition dq : string := String "034" "".

Definition month : Re.re :=
  Re.alts (Re.lit_i "Jan")
    (Re.lit_i <$> ["Feb"; "Mar"; "Apr"; "May"; "Jun"; "Jul"; "Aug"; "Sep"; "Oct"; "Nov"; "Dec"]).

(** [\d{2}/\d{2}/\d{4}] *)
Definition pattern_dmy : Re.re :=
  Re.cats [Re.digits 2 2; Re.chr "/"; Re.digits 2 2; Re.chr "/"; Re.digits 4 4].

(** [\d{4}-\d{2}-\d{2}] *)
Definition pattern_ymd : Re.re :=
  Re.cats [Re.digits 4 4; Re.chr "-"; Re.digits 2 2; Re.chr "-"; Re.digits 2 2].

(** [\d{1,2}(?:st|nd|rd|th)?\s+(?:Jan|...|Dec)[a-z]*\s+\d{4}] under
    [re.IGNORECASE] *)
Definition pattern_day_month_year : Re.re :=
  Re.cats [Re.digits 1 2;
           Re.Opt (Re.alts (Re.lit_i "st") (Re.lit_i <$> ["nd"; "rd"; "th"]));
           Re.Rep Py.isspace 1 None;
           month;
           Re.Rep Py.isalpha_ascii 0 None;
           Re.Rep Py.isspace 1 None;
           Re.digits 4 4].

(** [(?:Jan|...|Dec)[a-z]*\s+\d{1,2},?\s+\d{4}] under [re.IGNORECASE] *)
Definition pattern_month_day_year : Re.re :=
  Re.cats [month;
           Re.Rep Py.isalpha_ascii 0 None;
           Re.Rep Py.isspace 1 None;
           Re.digits 1 2;
           Re.Opt (Re.chr ",");
           Re.Rep Py.isspace 1 None;
           Re.digits 4 4].

(** The date forms as the specification writes them, [DD/MM/YYYY] and
    [YYYY-MM-DD], for comparison with the patterns of the code: a text has
    the form at its head when it has a digit where the form has a letter and
    the character of the form where the form has another character. *)
Fixpoint has_date_form (form s : string) : bool :=
  match form, s with
  | "", _ => true
  | String f form', String c s' =>
      (if Py.isalpha_ascii f then Py.isdigit c else bool_decide (c = f))
      && has_date_form form' s'
  | String _ _, "" => false
  end.

(** [[f for f in entries if f.is_file()]], where [is_file] may raise (an
    [OSError] other than the ones it reads as "no such file"). *)
Fixpoint files_among (is_file : Path → result bool) (entries : list Path)
    : result (list Path) :=
  match entries with
  | [] => Ok []
  | f :: rest =>
      let? keep := is_file f in
      let? files := files_among is_file rest in
      Ok (if keep then f :: files else files)
  end.

(** [for pattern in patterns: match = re.search(...); if match: return
    match.group(0)] *)
Fixpoint first_match (patterns : list Re.re) (text : string) : option string :=
  match patterns with
  | [] => None
  | pattern :: rest =>
      match Re.search pattern text with
      | Some m => Some m
      | None => first_match rest text
      end
  end.

End service.
End Service.

(** ** [app.py] *)

Module App.
Section app.
Context `{Env}.
Import Service.

Record SearchQuery := {
  query : string;
  filters : option (gmap string string);
  limit : Z;
}.

Record SearchResult := {
  id : string;
  title : string;
  content : string;
  source_url : string;
  date : string;
  relevance_score : Qc;
  category : string;
  extracted_answer : option string;
}.

Definition patterns : list Re.re :=
  [pattern_dmy; pattern_ymd; pattern_month_day_year].

Definition extract_date_from_text (text : string) : string :=
  default today (first_match patterns text).

(** [(199\d|200\d|201\d)] *)
Definition year_pattern : Re.re :=
  Re.alts (Re.Cat (Re.lit "199") Re.digit)
    [Re.Cat (Re.lit "200") Re.digit; Re.Cat (Re.lit "201") Re.digit].

(** The loop of [calculate_smart_age] over [year_matches]. *)
Fixpoint possible_ages (year_matches : list string) : result (list Z) :=
  match year_matches with
  | [] => Ok []
  | year_str :: rest =>
      let? y := Py.int year_str in
      let? ages := possible_ages rest in
      Ok (if ((1980 <? y) && (y <? current_year - 15))%Z
          then (current_year - y)%Z :: ages else ages)
  end.

Definition calculate_smart_age (text : string) : option string :=
  match possible_ages (Re.findall year_pattern text) with
  | Ok (age :: ages) => Some (pretty (Py.max age ages))
  | Ok [] => None
  | Raise _ => None
  end.

Definition prompt_for (text query : string) : string :=
  nl +:+ "        Extract the exact answer." +:+ nl
  +:+ "        Query: " +:+ dq +:+ query +:+ dq +:+ nl
  +:+ "        Context: " +:+ dq +:+ Py.take 2000 text +:+ dq +:+ nl
  +:+ "        Current Year: " +:+ pretty current_year +:+ nl
  +:+ "        " +:+ nl
  +:+ "        Rules:" +:+ nl
  +:+ "        - If query is 'Age' and you see a birth year or probable birth year (e.g. in email), calculate age." +:+ nl
  +:+ "        - Return ONLY the result (e.g. " +:+ dq +:+ "21" +:+ dq +:+ "). No text." +:+ nl
  +:+ "        - If not found, return " +:+ dq +:+ "None" +:+ dq +:+ "." +:+ nl
  +:+ "        ".

(** [response.text.strip()] followed by three [replace] calls that delete
    every double quote, every apostrophe and every period. *)
Definition clean_answer (response_text : string) : string :=
  Py.remove_char "." (Py.remove_char "'" (Py.remove_char "034" (Py.strip response_text))).

(** The post-processing as the specification words it, for comparison with
    [clean_answer]: "strip surrounding quotes/periods/whitespace". *)
Definition strip_surrounding (response_text : string) : string :=
  Py.strip_with
    (λ c, Py.isspace c || bool_decide (c = "034"%char) || bool_decide (c = "'"%char)
          || bool_decide (c = "."%char))
    response_text.

Definition get_ai_extraction (text query : string) : Py.M World (option string) :=
  let ask_model : Py.M World (option string) :=
    Py.try_except
      (let prompt := prompt_for text query in
       let* response_text := model_generate prompt in
       let answer := clean_answer response_text in
       if Py.contains "None" answer || (50 <? Py.len answer) then Py.ret None
       else Py.ret (Some answer))
      (λ _, Py.ret None) in
  if Py.contains "age" (Py.lower query) then
    match calculate_smart_age text with
    | Some math_age =>
        if bool_decide (math_age = "") then ask_model else Py.ret (Some math_age)
    | None => ask_model
    end
  else ask_model.

Definition categorize (text_lower : string) : string :=
  if Py.contains "resume" text_lower || Py.contains "cv" text_lower then "Resume"
  else if Py.contains "exam" text_lower then "Exams"
  else if Py.contains "fee" text_lower then "Fees"
  else "General".

(** The body of the [try] of [process_file]. *)
Definition process_file_body (uuid8 : nat → string) (file_path : Path) : Py.M World bool :=
  let* processed_data := Py.lift (process_document (to_str file_path)) in
  if negb (Py.truthy (processed_data !! "text")) then Py.ret false
  else
    let* text_object := Py.lift (Py.getitem processed_data "text") in
    let* text := Py.lift (Py.as_str TypeError text_object) in
    let doc_date := extract_date_from_text text in
    let category := categorize (Py.lower text) in
    let metadata : gmap string string :=
      {[ "title" := stem file_path;
         "source_url" := "http://localhost:8000/files/" +:+ name file_path;
         "date" := doc_date;
         "category" := category ]} in
    let* _ := on_engine (SemanticSearchEngine.index_document uuid8 text metadata) in
    Py.ret true.

Definition process_file (uuid8 : nat → string) (file_path : Path) : Py.M World bool :=
  Py.try_except (process_file_body uuid8 file_path) (λ _, Py.ret false).

(** The first three results get a future, the others [None]; the calls run
    in the worker threads, and [futures[i].result()] gives what the call
    returned or raises what it raised.  The program leaves the [with] block
    when all submitted calls are done, so what they did to the state is
    done when the endpoint returns or raises. *)
Definition search_documents (q : SearchQuery) : Py.M World (list SearchResult) :=
  let* results := on_engine (SemanticSearchEngine.search (query q) (limit q) None) in
  let* futures :=
    Py.submit_all pool_order
      (λ r, get_ai_extraction (SemanticSearchEngine.document r) (query q))
      (take 3 results) in
  Py.for_each
    (λ i r,
       let meta := SemanticSearchEngine.metadata r in
       let* extracted :=
         match futures !! i with
         | Some future => Py.lift future
         | None => Py.ret None
         end in
       Py.ret {| id := SemanticSearchEngine.id r;
                 title := default "Untitled" (meta !! "title");
                 content := SemanticSearchEngine.document r;
                 source_url := default "#" (meta !! "source_url");
                 date := default "N/A" (meta !! "date");
                 relevance_score := SemanticSearchEngine.relevance_score r;
                 category := default "General" (meta !! "category");
                 extracted_answer := extracted |})
    0 results.

End app.
End App.

(** ** [backend_main.py] *)

Module Backend.
Section backend.
Context `{Env}.
Import Service.

Record SearchQuery := {
  query : string;
  filters : option (gmap string string);
  limit : Z;
}.

Record SearchResult := {
  id : string;
  title : string;
  content : string;
  source_url : string;
  date : string;
  relevance_score : Qc;
  category : string;
}.

Definition patterns : list Re.re :=
  [pattern_dmy; pattern_ymd; pattern_day_month_year; pattern_month_day_year].

Definition extract_date_from_text (text : string) : string :=
  default today (first_match patterns text).

Definition categorize (text_lower : string) : string :=
  if Py.contains "exam" text_lower || Py.contains "schedule" text_lower then "Exams"
  else if Py.contains "fee" text_lower || Py.contains "payment" text_lower then "Fees"
  else if Py.contains "scholarship" text_lower || Py.contains "st/sc" text_lower
          || Py.contains "obc" text_lower then "Scholarships"
  else if Py.contains "lab" text_lower || Py.contains "syllabus" text_lower then "Academics"
  else "General".

(** The body of the [try] of [process_file]. *)
Definition process_file_body (uuid8 : nat → string) (file_path : Path) : Py.M World bool :=
  let* processed_data := Py.lift (process_document (to_str file_path)) in
  if negb (Py.truthy (processed_data !! "text")) then Py.ret false
  else
    let* text_object := Py.lift (Py.getitem processed_data "text") in
    let* text := Py.lift (Py.as_str TypeError text_object) in
    let doc_date := extract_date_from_text text in
    let category := categorize (Py.lower text) in
    let metadata : gmap string string :=
      {[ "title" := stem file_path;
         "source_url" := "http://localhost:8000/files/" +:+ name file_path;
         "date" := doc_date;
         "category" := category ]} in
    let* _ := on_engine (SemanticSearchEngine.index_document uuid8 text metadata) in
    Py.ret true.

Definition process_file (uuid8 : nat → string) (file_path : Path) : Py.M World bool :=
  Py.try_except (process_file_body uuid8 file_path) (λ _, Py.ret false).

Definition search_documents (q : SearchQuery) : Py.M World (list SearchResult) :=
  let* results := on_engine (SemanticSearchEngine.search (query q) (limit q) None) in
  Py.ret
    ((λ r,
        let meta := SemanticSearchEngine.metadata r in
        {| id := SemanticSearchEngine.id r;
           title := default "Untitled" (meta !! "title");
           content := SemanticSearchEngine.document r;
           source_url := default "#" (meta !! "source_url");
           date := default "N/A" (meta !! "date");
           relevance_score := SemanticSearchEngine.relevance_score r;
           category := default "General" (meta !! "category") |}) <$> results).

End backend.
End Backend.

(** ** More of [str] *)

Module PyStr.

(** [s.split(sep)] for a one-character separator. *)
Fixpoint split (sep : ascii) (s : string) : list string :=
  match s with
  | "" => [""]
  | String c s' =>
      if bool_decide (c = sep) then "" :: split sep s'
      else
        match split sep s' with
        | x :: xs => String c x :: xs
        | [] => [String c ""]
        end
  end.

(** [sep.join(l)] *)
Fixpoint join (sep : string) (l : list string) : string :=
  match l with
  | [] => ""
  | x :: l' =>
      match l' with
      | [] => x
      | _ :: _ => x +:+ sep +:+ join sep l'
      end
  end.

(** The class [[a-zA-Z0-9]]. *)
Definition isalnum_ascii (c : ascii) : bool :=
  let n := N_of_ascii c in
  ((48 <=? n) && (n <=? 57) || (65 <=? n) && (n <=? 90)
   || (97 <=? n) && (n <=? 122))%N.

(** [c.isalnum()] on code points below 256: the letters and digits of ASCII,
    the ordinal indicators, the superscript digits, the micro sign, the
    vulgar fractions, and the letters from 192 on (all but the multiplication
    and the division sign). *)
Definition isalnum (c : ascii) : bool :=
  let n := N_of_ascii c in
  (isalnum_ascii c
   || (n =? 170) || (n =? 178) || (n =? 179) || (n =? 181) || (n =? 185)
   || (n =? 186) || (n =? 188) || (n =? 189) || (n =? 190)
   || (192 <=? n) && negb (n =? 215) && negb (n =? 247))%N.

(** [sum(test(c) for c in s)] *)
Fixpoint count (test : ascii → bool) (s : string) : nat :=
  match s with
  | "" => 0
  | String c s' => (if test c then 1 else 0) + count test s'
  end.

(** [s.split()]: the maximal runs of characters that are not white space. *)
Fixpoint split_whitespace (s : string) : list string :=
  match s with
  | "" => []
  | String c s' =>
      if Py.isspace c then split_whitespace s'
      else
        match s' with
        | "" => [String c ""]
        | String d _ =>
            if Py.isspace d then String c "" :: split_whitespace s'
            else
              match split_whitespace s' with
              | word :: words => String c word :: words
              | [] => [String c ""]
              end
        end
  end.

End PyStr.

(** ** [ocr_processor.py] *)

Module OCRProcessor.

(** The loop of [cleanup_text] over the lines.  The quotient
    [alnum_count / len(line)] is taken exactly. *)
Fixpoint cleaned_lines (lines : list string) : list string :=
  match lines with
  | [] => []
  | line :: rest =>
      let line := Py.strip line in
      if bool_decide (line = "") then cleaned_lines rest
      else if length (Re.findall (Re.Cls PyStr.isalnum_ascii) line) <? 2
      then cleaned_lines rest
      else
        let alnum_count := PyStr.count PyStr.isalnum line in
        if (0 <? Py.len line)
           && bool_decide (Q2Qc (Z.of_nat alnum_count # Pos.of_nat (Py.len line))
                           < Q2Qc (1 # 2))%Qc
        then cleaned_lines rest
        else line :: cleaned_lines rest
  end.

Definition cleanup_text (text : string) : string :=
  let lines := PyStr.split "010" text in
  PyStr.join (String "010" "") (cleaned_lines lines).

Section documents.

(** The state outside the program that the recognition works on: the files
    on disk.  Nothing is assumed about it; the steps below are arbitrary
    operations on it, each of which may raise. *)
Variable FS : Type.

(** A page image as [pdf2image] gives it. *)
Variable Image : Type.

(** Everything between the path and the raw text of the page: opening or
    preprocessing the image (by the flag) and [pytesseract.image_to_string]. *)
Variable image_to_string : bool → string → Py.M FS string.

(** [pdf2image.convert_from_path(pdf_path, dpi=dpi, poppler_path=...)] *)
Variable convert_from_path : string → Py.M FS (list Image).

(** [image.save(temp_path, 'PNG')] *)
Variable save : Image → string → Py.M FS unit.

(** [Path(temp_path).unlink()] *)
Variable unlink : string → Py.M FS unit.

(** [Path(file_path).suffix], [Path(file_path).name] and
    [str(Path(file_path))] *)
Variable path_suffix : string → string.
Variable path_name : string → string.
Variable path_str : string → string.

Definition extract_text_from_image (image_path : string) (preprocess : bool)
    : Py.M FS string :=
  Py.try_except
    (let* text := image_to_string preprocess image_path in
     let clean_text := cleanup_text text in
     Py.ret (Py.strip clean_text))
    (λ _, Py.ret "").

Definition extract_text_from_pdf (pdf_path : string) : Py.M FS string :=
  Py.try_except
    (let* images := convert_from_path pdf_path in
     let* all_text :=
       Py.for_each
         (λ i image,
            let temp_path := "temp_page_" +:+ pretty i +:+ ".png" in
            let* _ := save image temp_path in
            let* page_text := extract_text_from_image temp_path true in
            let* _ := unlink temp_path in
            Py.ret page_text)
         0 images in
     Py.ret (PyStr.join (String "010" (String "010" "")) all_text))
    (λ _, Py.ret "").

Definition process_document (file_path : string) : Py.M FS (gmap string value) :=
  let* text :=
    if bool_decide (Py.lower (path_suffix file_path) = ".pdf")
    then extract_text_from_pdf (path_str file_path)
    else extract_text_from_image (path_str file_path) true in
  let word_count := length (PyStr.split_whitespace text) in
  Py.ret {[ "text" := VStr text;
            "filename" := VStr (path_name file_path);
            "format" := VStr (Py.lower (path_suffix file_path));
            "word_count" := VInt (Z.of_nat word_count) ]}.

End documents.

End OCRProcessor.

(** ** [app.py]: the endpoints and the scraper jobs *)

Module AppApi.
Section api.
Context `{Env}.
Import Service.

Record ChatQuery := {
  question : string;
}.

(** The returned [dict]: ["answer"], and ["sources"] when it is there. *)
Record ChatReply := {
  answer : string;
  sources : option (list (gmap string string));
}.

Definition chat_with_data (query : ChatQuery) : Py.M World ChatReply :=
  let* results := on_engine (SemanticSearchEngine.search (question query) 5 None) in
  match results with
  | [] => Py.ret {| answer := "No relevant info found."; sources := None |}
  | _ :: _ =>
      let context :=
        PyStr.join (nl +:+ nl)
          ((λ r, "Source: " +:+ SemanticSearchEngine.document r) <$> results) in
      Py.try_except
        (let* response_text :=
           model_generate
             ("Context:" +:+ nl +:+ context +:+ nl +:+ nl
              +:+ "Question: " +:+ question query) in
         Py.ret {| answer := response_text; sources := Some [] |})
        (λ _, Py.ret {| answer := "AI Error"; sources := Some [] |})
  end.

(** [DOCS_FOLDER / filename] *)
Variable docs_file : string → Path.

(** [scrape_website(url, DOCS_FOLDER)]: the names of the files it saved. *)
Variable scrape_website : string → list string.

Definition TARGET_WEBSITE : string := "https://www.giet.edu/news-events/notice-board/".

(** [uuid8 i] is the random source of the [i]-th [process_file] of the
    job. *)
Definition scheduled_scraper_job (uuid8 : nat → nat → string) : Py.M World unit :=
  let new_files := scrape_website TARGET_WEBSITE in
  match new_files with
  | [] => Py.ret tt
  | _ :: _ =>
      let* _ := Py.for_each
                  (λ i filename, App.process_file (uuid8 i) (docs_file filename))
                  0 new_files in
      Py.ret tt
  end.

(** [file_path.suffix] *)
Variable suffix : Path → string.

(** The loop of [scan_documents_folder]; [i] numbers the files. *)
Fixpoint scan_loop (uuid8 : nat → nat → string) (i : nat) (files : list Path)
    (count : nat) : Py.M World nat :=
  match files with
  | [] => Py.ret count
  | file_path :: rest =>
      if bool_decide (Py.lower (suffix file_path) ∈ [".pdf"; ".png"; ".jpg"; ".jpeg"])
      then
        let* indexed := App.process_file (uuid8 i) file_path in
        scan_loop uuid8 (S i) rest (if indexed then count + 1 else count)
      else scan_loop uuid8 (S i) rest count
  end.

(** [DOCS_FOLDER.iterdir()], read to its end: the entries of the folder, or
    the exception of the listing. *)
Variable iterdir : result (list Path).

(** [f.is_file()] *)
Variable is_file : Path → result bool.

(** The endpoint has no [try]: an exception of the listing is raised to the
    caller.  The value of ["message"] is returned. *)
Definition scan_documents_folder (uuid8 : nat → nat → string) : Py.M World string :=
  let* files := Py.lift (let? entries := iterdir in files_among is_file entries) in
  let* count := scan_loop uuid8 0 files 0 in
  Py.ret ("Rescanned. Indexed " +:+ pretty count +:+ ".").

(** The nested [scrape_and_index] of [manual_scrape], for [request.url]. *)
Definition scrape_and_index (url : string) (uuid8 : nat → nat → string)
    : Py.M World unit :=
  let new_files := scrape_website url in
  let* _ := Py.for_each
              (λ i filename, App.process_file (uuid8 i) (docs_file filename))
              0 new_files in
  Py.ret tt.

(** The reply of an endpoint: [{"status": ..., "message": ...}]. *)
Record Reply := {
  status : string;
  message : string;
}.

(** [with open(file_path, "wb") as buffer: shutil.copyfileobj(file.file,
    buffer)] *)
Variable write_upload : Path → result unit.

(** [if file_path.exists(): os.remove(file_path)]: whether there was a file
    to remove. *)
Variable remove_file : Path → result bool.

(** [str(e)] *)
Variable str_of : exn → string.

(** [HTTPException(status_code=500, detail=detail)], an exception of the web
    framework. *)
Definition HTTPException_500 (detail : string) : exn :=
  ExternalError ("500: " +:+ detail).

Definition upload_file (filename : string) (uuid8 : nat → string) : Py.M World Reply :=
  Py.try_except
    (let file_path := docs_file filename in
     let* _ := Py.lift (write_upload file_path) in
     let* indexed := App.process_file uuid8 file_path in
     if indexed
     then Py.ret {| status := "success"; message := "Uploaded " +:+ filename |}
     else Py.ret {| status := "warning"; message := "Failed to process text." |})
    (λ e, Py.raise (HTTPException_500 (str_of e))).

Definition delete_document (filename : string) : Py.M World Reply :=
  Py.try_except
    (let file_path := docs_file filename in
     let* _ := Py.lift (remove_file file_path) in
     let* _ := on_engine (SemanticSearchEngine.delete_document filename) in
     Py.ret {| status := "success"; message := "Deleted " +:+ filename |})
    (λ e, Py.raise (HTTPException_500 (str_of e))).

End api.
End AppApi.

(** ** [backend_main.py]: the endpoints and the scraper jobs *)

Module BackendApi.
Section api.
Context `{Env}.
Import Service.

Record ChatQuery := {
  question : string;
}.

Record ChatReply := {
  answer : string;
  sources : option (list (gmap string string));
}.

Definition chat_with_data (query : ChatQuery) : Py.M World ChatReply :=
  let* results := on_engine (SemanticSearchEngine.search (question query) 5 None) in
  match results with
  | [] => Py.ret {| answer := "I couldn't find relevant documents."; sources := None |}
  | _ :: _ =>
      let context_text :=
        PyStr.join (nl +:+ nl)
          ((λ r, "Source (" +:+ default "None" (SemanticSearchEngine.metadata r !! "title")
                 +:+ "): " +:+ SemanticSearchEngine.document r) <$> results) in
      let prompt :=
        "Context:" +:+ nl +:+ context_text +:+ nl +:+ nl
        +:+ "Question: " +:+ question query +:+ nl +:+ nl
        +:+ "Answer (be direct and cite the source name):" in
      Py.try_except
        (let* response_text := model_generate prompt in
         Py.ret {| answer := response_text;
                   sources := Some (SemanticSearchEngine.metadata <$> results) |})
        (λ _, Py.ret {| answer := "AI Service Error"; sources := Some [] |})
  end.

(** [DOCS_FOLDER / filename] *)
Variable docs_file : string → Path.

(** [scrape_website(url, DOCS_FOLDER)]: the names of the files it saved. *)
Variable scrape_website : string → list string.

(** [file_path.suffix] *)
Variable suffix : Path → string.

Definition TARGET_WEBSITE : string := "https://www.giet.edu/news-events/notice-board/".

(** The loop of [scrape_and_index]; [i] numbers the files. *)
Fixpoint index_loop (uuid8 : nat → nat → string) (i : nat) (new_files : list string)
    (indexed_count : nat) : Py.M World nat :=
  match new_files with
  | [] => Py.ret indexed_count
  | filename :: rest =>
      let* indexed := Backend.process_file (uuid8 i) (docs_file filename) in
      index_loop uuid8 (S i) rest (if indexed then indexed_count + 1 else indexed_count)
  end.

(** The nested [scrape_and_index] of [manual_scrape], for [request.url]; the
    count goes to the log only. *)
Definition scrape_and_index (url : string) (uuid8 : nat → nat → string)
    : Py.M World unit :=
  let new_files := scrape_website url in
  let* indexed_count := index_loop uuid8 0 new_files 0 in
  Py.ret tt.

Definition scheduled_scraper_job (uuid8 : nat → nat → string) : Py.M World unit :=
  let new_files := scrape_website TARGET_WEBSITE in
  match new_files with
  | [] => Py.ret tt
  | _ :: _ =>
      let* _ := Py.for_each
                  (λ i filename, Backend.process_file (uuid8 i) (docs_file filename))
                  0 new_files in
      Py.ret tt
  end.

(** The loop of [scan_documents_folder]. *)
Fixpoint scan_loop (uuid8 : nat → nat → string) (i : nat) (files : list Path)
    (indexed_count : nat) : Py.M World nat :=
  match files with
  | [] => Py.ret indexed_count
  | file_path :: rest =>
      if bool_decide (Py.lower (suffix file_path) ∈ [".pdf"; ".png"; ".jpg"; ".jpeg"])
      then
        let* indexed := Backend.process_file (uuid8 i) file_path in
        scan_loop uuid8 (S i) rest (if indexed then indexed_count + 1 else indexed_count)
      else scan_loop uuid8 (S i) rest indexed_count
  end.

(** [DOCS_FOLDER.iterdir()], read to its end, and [f.is_file()] *)
Variable iterdir : result (list Path).
Variable is_file : Path → result bool.

Definition scan_documents_folder (uuid8 : nat → nat → string) : Py.M World string :=
  let* files := Py.lift (let? entries := iterdir in files_among is_file entries) in
  let* indexed_count := scan_loop uuid8 0 files 0 in
  Py.ret ("Rescanned folder. Indexed " +:+ pretty indexed_count +:+ " documents.").

Record Reply := {
  status : string;
  message : string;
}.

(** [with open(file_path, "wb") as buffer: shutil.copyfileobj(file.file,
    buffer)] *)
Variable write_upload : Path → result unit.

(** [if file_path.exists(): os.remove(file_path)]: whether there was a file
    to remove. *)
Variable remove_file : Path → result bool.

(** [str(e)] *)
Variable str_of : exn → string.

(** [HTTPException(status_code=500, detail=detail)], an exception of the web
    framework. *)
Definition HTTPException_500 (detail : string) : exn :=
  ExternalError ("500: " +:+ detail).

Definition upload_file (filename : string) (uuid8 : nat → string) : Py.M World Reply :=
  Py.try_except
    (let file_path := docs_file filename in
     let* _ := Py.lift (write_upload file_path) in
     let* indexed := Backend.process_file uuid8 file_path in
     if indexed
     then Py.ret {| status := "success";
                    message := "Uploaded and indexed " +:+ filename |}
     else Py.ret {| status := "warning";
                    message := "Uploaded but text extraction failed." |})
    (λ e, Py.raise (HTTPException_500 (str_of e))).

Definition delete_document (filename : string) : Py.M World Reply :=
  Py.try_except
    (let file_path := docs_file filename in
     let* file_deleted := Py.lift (remove_file file_path) in
     let* _ := on_engine (SemanticSearchEngine.delete_document filename) in
     if file_deleted
     then Py.ret {| status := "success";
                    message := "Deleted " +:+ filename +:+ " from disk and memory." |}
     else Py.ret {| status := "success";
                    message := "Cleaned " +:+ filename
                               +:+ " from memory (file was already gone)." |})
    (λ e, Py.raise (HTTPException_500 (str_of e))).

End api.
End BackendApi.

(** ** Callers of the engine *)

Module Client.
Section client.
Context `{Env}.

(** One call of a method of [SemanticSearchEngine] that writes to the
    collection. *)
Inductive call :=
| IndexDocument (uuid8 : nat → string) (text : string) (metadata : gmap string string)
| DeleteDocument (filename : string).

Definition run_call (k : call) : Py.M (gmap string Chroma.Entry) unit :=
  match k with
  | IndexDocument uuid8 text metadata =>
      SemanticSearchEngine.index_document uuid8 text metadata
  | DeleteDocument filename => SemanticSearchEngine.delete_document filename
  end.

(** The collection after a sequence of calls, each in a [try] of its caller
    (as [process_file] and the endpoints have it): after a call that raised
    the next one is made. *)
Fixpoint run_calls (ks : list call) (c : gmap string Chroma.Entry)
    : gmap string Chroma.Entry :=
  match ks with
  | [] => c
  | k :: ks' => run_calls ks' (run_call k c).2
  end.

End client.
End Client.

(** ** A concrete environment

    Embeddings are text lengths, the distance is their absolute difference,
    two files are known to the recogniser, and the language model answers
    from a fixed table. *)

Module Demo.

Definition env : Env := {|
  vec := Z;
  encode s := Ok (Z.of_nat (Py.len s));
  distance a b := Q2Qc (inject_Z (Z.abs (a - b)));
  process_document p :=
    if bool_decide (p = "documents/a.pdf")
    then Ok {[ "text" := VStr "Exam schedule, 15/03/2024, issued March 20, 2024" ]}
    else if bool_decide (p = "documents/b.png")
    then Ok {[ "text" := VStr "Fee payment notice for john.1999@mail.com" ]}
    else if bool_decide (p = "documents/broken.pdf")
    then Raise (ExternalError "unreadable")
    else Ok {[ "text" := VStr "" ]};
  generate_content prompt :=
    if Py.contains "pi" prompt then Ok "3.14"
    else if Py.contains "quota" prompt then Raise (ExternalError "quota")
    else Ok "  '42'. ";
  current_year := 2025;
  today := "2025-06-01";
  print s := Ok tt;
  pool_order := Py.Order012;
|}.

Definition path_a : Service.Path :=
  {| Service.to_str := "documents/a.pdf"; Service.name := "a.pdf"; Service.stem := "a" |}.
Definition path_b : Service.Path :=
  {| Service.to_str := "documents/b.png"; Service.name := "b.png"; Service.stem := "b" |}.

Definition world0 : @Service.World env :=
  {| Service.collection := ∅; Service.prompts := [] |}.

Definition uuid_a (i : nat) : string := "0a1b2c3d".
Definition uuid_b (i : nat) : string := "4e5f6a7b".

(** The state after [process_file] on the first file, and then on the
    second. *)
Definition world1 : @Service.World env :=
  (@App.process_file env uuid_a path_a world0).2.
Definition world2 : @Service.World env :=
  (@App.process_file env uuid_b path_b world1).2.

(** A collection after one pass over a small document, and after a second
    pass over the same document. *)
Definition notes : gmap string string := {[ "title" := "notes" ]}.
Definition pass1 : gmap string (@Chroma.Entry env) :=
  (@SemanticSearchEngine.index_document env uuid_a "Lab syllabus" notes ∅).2.
Definition pass2 : gmap string (@Chroma.Entry env) :=
  (@SemanticSearchEngine.index_document env uuid_b "Lab syllabus" notes pass1).2.

(** What a search for two results returns once both files are indexed. *)
Definition hits : list SemanticSearchEngine.Hit :=
  match (@SemanticSearchEngine.search env "fee payment" 2 None
           (Service.collection world2)).1 with
  | Ok hits => hits
  | Raise _ => []
  end.

End Demo.

(** ** Sample texts *)

Module Samples.

(** A text of 460 characters: two chunks. *)
Definition two_chunks : string := Py.of_chars (replicate 460 "a"%char).

(** Two texts of 2001 characters that differ in the last one. *)
Definition long_x : string := Py.of_chars (replicate 2000 "a"%char) +:+ "x".
Definition long_y : string := Py.of_chars (replicate 2000 "a"%char) +:+ "y".

(** A document with a locator, and the collection that holds it alone. *)
Definition fees : gmap string string :=
  {[ "title" := "fees"; "source_url" := "http://localhost:8000/files/fees.pdf" ]}.
Definition fees_indexed : gmap string (@Chroma.Entry Demo.env) :=
  (@SemanticSearchEngine.index_document Demo.env Demo.uuid_a "Fee payment is due" fees ∅).2.

(** [p.suffix]: what the name has after the stem. *)
Definition suffix_of (p : Service.Path) : string :=
  Py.drop (Py.len (Service.stem p)) (Service.name p).

(** A documents folder with two files and a subfolder, every entry of
    which can be tested. *)
Definition archive : Service.Path :=
  {| Service.to_str := "documents/archive"; Service.name := "archive";
     Service.stem := "archive" |}.
Definition folder : result (list Service.Path) :=
  Ok [Demo.path_a; archive; Demo.path_b].
Definition is_file_of (p : Service.Path) : result bool :=
  Ok (negb (bool_decide (Service.name p = "archive"))).

(** The random parts of the chunk ids of a job's files. *)
Definition uuid_of (i : nat) : nat → string :=
  match i with
  | 0 => Demo.uuid_a
  | _ => Demo.uuid_b
  end.

(** A scanner that finds nothing to read on any page, every document a PDF
    of two pages, and a disk on which page images are written and removed
    without error. *)
Definition nothing_readable : bool → string → Py.M unit string :=
  λ _ _ fs, (Ok "| | )", fs).
Definition two_pages : string → Py.M unit (list unit) := λ _ fs, (Ok [tt; tt], fs).
Definition written : unit → string → Py.M unit unit := λ _ _ fs, (Ok tt, fs).
Definition removed : string → Py.M unit unit := λ _ fs, (Ok tt, fs).
Definition last_four (file_path : string) : string :=
  Py.drop (Py.len file_path - 4) file_path.

Definition blank_scanner : Env := {|
  vec := Z;
  encode s := Ok (Z.of_nat (Py.len s));
  distance a b := Q2Qc (inject_Z (Z.abs (a - b)));
  process_document p :=
    (OCRProcessor.process_document unit unit nothing_readable two_pages written removed
       last_four id id p tt).1;
  generate_content prompt := Ok "None";
  current_year := 2025;
  today := "2025-06-01";
  print s := Ok tt;
  pool_order := Py.Order012;
|}.

Definition path_scan : Service.Path :=
  {| Service.to_str := "documents/scan.pdf"; Service.name := "scan.pdf";
     Service.stem := "scan" |}.

End Samples.

(** * Properties *)

Section py_facts.

Lemma of_chars_chars s : Py.of_chars (Py.chars s) = s.
Proof. apply string_of_list_ascii_of_string. Qed.

Lemma len_chars s : Py.len s = length (Py.chars s).
Proof. induction s as [|c s IH]; simpl; [done | by rewrite <- IH]. Qed.

Lemma chars_app s t : Py.chars (s +:+ t) = Py.chars s ++ Py.chars t.
Proof. induction s as [|c s IH]; simpl; [done | by rewrite <- IH]. Qed.

Lemma chars_join l : Py.chars (Py.join l) = concat (Py.chars <$> l).
Proof.
  induction l as [|s l IH]; simpl; [done|].
  by rewrite chars_app, IH.
Qed.

Lemma chars_inj s t : Py.chars s = Py.chars t → s = t.
Proof. intros H. by rewrite <- (of_chars_chars s), H, of_chars_chars. Qed.

Lemma chars_take n s : Py.chars (Py.take n s) = take n (Py.chars s).
Proof.
  revert s. induction n as [|n IH]; intros [|c s]; simpl; try done.
  by rewrite IH.
Qed.

Lemma chars_drop n s : Py.chars (Py.drop n s) = drop n (Py.chars s).
Proof.
  revert s. induction n as [|n IH]; intros [|c s]; simpl; try done.
Qed.

Lemma chars_slice s i j :
  Py.chars (Py.slice s i j) = take (j - i) (drop i (Py.chars s)).
Proof. unfold Py.slice. by rewrite chars_take, chars_drop. Qed.

Lemma len_slice s i j : Py.len (Py.slice s i j) ≤ j - i.
Proof. rewrite len_chars, chars_slice, length_take. lia. Qed.

End py_facts.

(** ** The chunker *)

Section chunker_facts.

Lemma take_add_drop {A} (a b : nat) (l : list A) :
  take (a + b) l = take a l ++ take b (drop a l).
Proof.
  revert l. induction a as [|a IH]; intros [|x l]; simpl; try done.
  - by destruct b.
  - by rewrite IH.
Qed.

(** Windows of [size] taken every [step]: their first [step] elements, laid
    end to end, are a prefix of the list. *)
Lemma windows_prefix {A} (size step m : nat) (l : list A) :
  step ≤ size →
  concat ((λ k, take step (take size (drop (k * step) l))) <$> seq 0 m)
  = take (m * step) l.
Proof.
  intros Hle. induction m as [|m IH].
  - done.
  - rewrite seq_S, fmap_app, concat_app, IH. simpl.
    rewrite app_nil_r, take_take, Nat.min_l by done.
    by rewrite (Nat.add_comm step), take_add_drop.
Qed.

Lemma window_count_covers (n step : nat) :
  0 < step → n ≤ (n + (step - 1)) / step * step.
Proof.
  intros Hs.
  pose proof (Nat.div_mod_eq (n + (step - 1)) step) as Hd.
  pose proof (Nat.mod_upper_bound (n + (step - 1)) step) as Hm.
  nia.
Qed.

Lemma chunk_text_chars text :
  Py.chars <$> SemanticSearchEngine.chunk_text text
  = (λ k, take 500 (drop (k * 450) (Py.chars text)))
      <$> seq 0 ((Py.len text + 449) / 450).
Proof.
  unfold SemanticSearchEngine.chunk_text, Py.range3. cbv zeta.
  change (500 - 50) with 450. change (450 - 1) with 449.
  rewrite Nat.sub_0_r, <- !list_fmap_compose.
  apply list_fmap_ext. intros _ k _. simpl.
  rewrite chars_slice. f_equal. lia.
Qed.

Lemma string_app_empty_r s : s +:+ "" = s.
Proof. apply chars_inj. by rewrite chars_app, app_nil_r. Qed.

Lemma chunk_text_lengths text :
  Forall (λ c, Py.len c ≤ 500) (SemanticSearchEngine.chunk_text text).
Proof.
  unfold SemanticSearchEngine.chunk_text. cbv zeta.
  apply Forall_fmap, Forall_forall. intros i _. simpl.
  etrans; [apply len_slice|]. lia.
Qed.

Lemma chunk_text_join text :
  Py.join (Py.take 450 <$> SemanticSearchEngine.chunk_text text) = text.
Proof.
  apply chars_inj. rewrite chars_join, <- list_fmap_compose.
  assert (∀ l : list string,
            Py.chars ∘ Py.take 450 <$> l = take 450 <$> (Py.chars <$> l)) as ->.
  { intros l. rewrite <- list_fmap_compose. apply list_fmap_ext.
    intros _ c _. unfold compose. apply chars_take. }
  rewrite chunk_text_chars, <- list_fmap_compose.
  trans (take ((Py.len text + 449) / 450 * 450) (Py.chars text)).
  - rewrite <- (windows_prefix 500 450) by lia. reflexivity.
  - apply take_ge. rewrite <- len_chars.
    apply (window_count_covers _ 450). lia.
Qed.

Lemma chunk_text_last_short text c :
  last (SemanticSearchEngine.chunk_text text) = Some c → Py.len c ≤ 450.
Proof.
  intros Hlast.
  assert (last (Py.chars <$> SemanticSearchEngine.chunk_text text) = Some (Py.chars c)) as Hc.
  { by rewrite fmap_last, Hlast. }
  rewrite chunk_text_chars, fmap_last in Hc.
  destruct ((Py.len text + 449) / 450) as [|m] eqn:Hm; [done|].
  rewrite seq_S, last_snoc in Hc. simpl in Hc. injection Hc as Hc.
  rewrite len_chars, <- Hc, length_take, length_drop, <- len_chars.
  assert (0 < Py.len text) as Hpos.
  { destruct (Py.len text) as [|n] eqn:Hn; [|lia].
    change ((0 + 449) / 450) with 0 in Hm. done. }
  pose proof (window_count_covers (Py.len text) 450 ltac:(lia)) as Hcov.
  change (450 - 1) with 449 in Hcov. rewrite Hm in Hcov. lia.
Qed.

End chunker_facts.

(** ** Comprehensions and the monad *)

Section traverse_facts.
Context {A B : Type}.

Lemma traverse_ok_fmap (f : A → result B) (g : A → B) (l : list A) :
  (∀ x, x ∈ l → f x = Ok (g x)) → Py.traverse f l = Ok (g <$> l).
Proof.
  induction l as [|x l IH]; intros Hf; simpl; [done|].
  rewrite Hf by apply list_elem_of_here. simpl.
  rewrite IH; [done|]. intros y Hy. apply Hf. by apply list_elem_of_further.
Qed.

(** A loop over [range(len(rows))] that reads position [i] of lists built
    from [rows] produces one value per row. *)
Lemma traverse_range_rows {R} (f : nat → result B) (h : R → B) (rows : list R) (k : nat) :
  (∀ i r, rows !! i = Some r → f (k + i) = Ok (h r)) →
  Py.traverse f (seq k (length rows)) = Ok (h <$> rows).
Proof.
  revert k. induction rows as [|r rows IH]; intros k Hf; simpl; [done|].
  rewrite <- (Nat.add_0_r k) at 1. rewrite (Hf 0 r) by done. simpl.
  rewrite IH; [done|]. intros i r' Hr'.
  replace (S k + i) with (k + S i) by lia. by apply Hf.
Qed.

End traverse_facts.

Lemma drop_beyond (n : nat) (s : string) : Py.len s ≤ n → Py.drop n s = "".
Proof.
  intros Hn. apply chars_inj. rewrite chars_drop. simpl.
  apply drop_ge. by rewrite <- len_chars.
Qed.

(** ** The retrieval engine *)

Section engine_facts.
Context `{Env}.
Import SemanticSearchEngine.

Lemma chunk_text_empty : chunk_text "" = [].
Proof. reflexivity. Qed.

Lemma index_document_no_chunks uuid8 text metadata c :
  chunk_text text = [] → index_document uuid8 text metadata c = (Ok tt, c).
Proof.
  intros Hc. unfold index_document. cbv zeta.
  rewrite bool_decide_eq_true_2 by done. reflexivity.
Qed.

End engine_facts.

(** C1.  With size 500 and overlap 50 (step 450): every chunk has at most 500
    characters; the first 450 characters of each chunk, followed by what the
    last chunk has beyond its first 450, give the text back; the empty text
    has no chunk, and [index_document] on it leaves the collection as it
    was. *)
Theorem chunking_reconstructs `{Env} (text : string) :
  let chunks := SemanticSearchEngine.chunk_text text in
  Forall (λ c, Py.len c ≤ 500) chunks
  ∧ Py.join (Py.take 450 <$> chunks) +:+ Py.drop 450 (default "" (last chunks)) = text
  ∧ SemanticSearchEngine.chunk_text "" = []
  ∧ ∀ uuid8 metadata c,
      SemanticSearchEngine.index_document uuid8 "" metadata c = (Ok tt, c).
Proof.
  intros chunks. split; [apply chunk_text_lengths|]. split; [|split].
  - subst chunks. rewrite chunk_text_join.
    destruct (last (SemanticSearchEngine.chunk_text text)) as [c|] eqn:Hlast.
    + change (default "" (Some c)) with c.
      rewrite (drop_beyond 450 c) by eauto using chunk_text_last_short.
      apply string_app_empty_r.
    + apply string_app_empty_r.
  - apply chunk_text_empty.
  - intros. by apply index_document_no_chunks, chunk_text_empty.
Qed.

(** ** Search *)

Section search_facts.
Context `{Env}.
Import SemanticSearchEngine.

(** [search] without the plumbing: one hit per row the collection returns. *)
Lemma search_unfold query n filters c :
  search query n filters c =
  match encode query with
  | Raise e => (Raise e, c)
  | Ok v =>
      if (n <=? 0)%Z then (Raise ValueError, c)
      else (Ok ((λ r, {| id := Chroma.row_id r;
                         document := Chroma.document (Chroma.row_entry r);
                         metadata := Chroma.metadata (Chroma.row_entry r);
                         relevance_score := (1 - Chroma.row_distance r)%Qc |})
                  <$> Chroma.nearest v (Z.to_nat n) filters c), c)
  end.
Proof.
  unfold search, Py.bind, Py.lift. simpl.
  destruct (encode query) as [v|e]; simpl; [|done].
  unfold Chroma.query. destruct (n <=? 0)%Z; [done|].
  unfold Py.bind, Py.get, Py.ret. simpl.
  set (rows := Chroma.nearest v (Z.to_nat n) filters c).
  rewrite length_fmap.
  erewrite (traverse_range_rows _ _ rows 0); [done|].
  intros i r Hr. simpl. unfold Py.index. simpl.
  by rewrite !list_lookup_fmap, Hr.
Qed.

Global Instance nearer_total : Total Chroma.nearer.
Proof. intros a b. unfold Chroma.nearer. apply (total Qcle). Qed.

Global Instance nearer_refl : Reflexive Chroma.nearer.
Proof. intros a. unfold Chroma.nearer. apply (reflexivity (R:=Qcle)). Qed.

Global Instance nearer_trans : Transitive Chroma.nearer.
Proof. intros a b d. unfold Chroma.nearer. apply (transitivity (R:=Qcle)). Qed.

Lemma StronglySorted_take {A} (R : relation A) (k : nat) (l : list A) :
  StronglySorted R l → StronglySorted R (take k l).
Proof.
  intros Hl. rewrite <- (take_drop k l) in Hl.
  by apply StronglySorted_app_1_l in Hl.
Qed.

Lemma StronglySorted_lookup_le {A} (R : relation A) `{!Reflexive R}
    (l : list A) (i j : nat) (x y : A) :
  StronglySorted R l → i ≤ j → l !! i = Some x → l !! j = Some y → R x y.
Proof.
  intros Hl. revert i j. induction Hl as [|a l Hl IH Ha]; intros i j Hij Hi Hj.
  - done.
  - destruct i as [|i], j as [|j]; simpl in *; simplify_eq.
    + done.
    + rewrite Forall_forall in Ha. apply Ha. by eapply list_elem_of_lookup_2.
    + lia.
    + eapply IH; [|done..]. lia.
Qed.

Lemma nearest_sorted q k filters c :
  StronglySorted Chroma.nearer (Chroma.nearest q k filters c).
Proof.
  unfold Chroma.nearest. cbv zeta.
  apply StronglySorted_take, StronglySorted_merge_sort; apply _.
Qed.

Lemma nearest_length q k filters c : length (Chroma.nearest q k filters c) ≤ k.
Proof. unfold Chroma.nearest. cbv zeta. rewrite length_take. lia. Qed.

(** Every row the collection returns is one of its entries, selected by the
    filter, with the distance of its embedding to the query. *)
Lemma nearest_elem q k filters c r :
  r ∈ Chroma.nearest q k filters c →
  c !! Chroma.row_id r = Some (Chroma.row_entry r)
  ∧ Chroma.selected filters (Chroma.row_entry r)
  ∧ Chroma.row_distance r = distance q (Chroma.embedding (Chroma.row_entry r)).
Proof.
  unfold Chroma.nearest. cbv zeta. intros Hr.
  apply subseteq_take in Hr. rewrite merge_sort_Permutation in Hr.
  apply list_elem_of_fmap in Hr as ([i e] & -> & Hr).
  apply list_elem_of_filter in Hr as [Hsel Hr].
  apply elem_of_map_to_list in Hr. simpl in *. done.
Qed.

Lemma Qc_one_minus_antitone (x y : Qc) : (x ≤ y → 1 - y ≤ 1 - x)%Qc.
Proof.
  intros Hxy. unfold Qcminus. apply Qcplus_le_mono_l.
  by apply Qcopp_le_compat.
Qed.

(** [search] returns when the query can be embedded and the limit is
    positive, and it leaves the collection as it was. *)
Lemma search_returns query n filters c v :
  encode query = Ok v → (0 < n)%Z →
  ∃ hits, search query n filters c = (Ok hits, c).
Proof.
  intros Hv Hn. rewrite search_unfold, Hv.
  destruct (n <=? 0)%Z eqn:Hn'; [lia|]. eauto.
Qed.

End search_facts.

(** C2.  Whatever [search] returns: each result carries 1 minus the distance
    the Index Store reported at its position (for the entry with its id), the
    results are in non-increasing order of relevance score, and there are at
    most [n_results] of them. *)
Theorem search_scores_ranked_bounded `{Env} query n_results filters c hits c' :
  SemanticSearchEngine.search query n_results filters c = (Ok hits, c') →
  (∃ v results,
      encode query = Ok v
      ∧ Chroma.query [v] n_results filters c = (Ok results, c)
      ∧ ∀ i h, hits !! i = Some h →
          ∃ d, Chroma.distances results !! 0 ≫= (.!! i) = Some d
               ∧ Chroma.ids results !! 0 ≫= (.!! i) = Some (SemanticSearchEngine.id h)
               ∧ SemanticSearchEngine.relevance_score h = (1 - d)%Qc)
  ∧ (∀ i j hi hj, i ≤ j → hits !! i = Some hi → hits !! j = Some hj →
       (SemanticSearchEngine.relevance_score hj ≤ SemanticSearchEngine.relevance_score hi)%Qc)
  ∧ (Z.of_nat (length hits) ≤ n_results)%Z.
Proof.
  rewrite search_unfold. destruct (encode query) as [v|e] eqn:Hv; [|done].
  destruct (n_results <=? 0)%Z eqn:Hn; [done|]. intros [= <- <-].
  apply Z.leb_gt in Hn. split; [|split].
  - exists v. eexists. split; [done|]. split.
    + unfold Chroma.query. apply Z.leb_gt in Hn. rewrite Hn. reflexivity.
    + intros i h Hh. apply list_lookup_fmap_Some in Hh as (r & -> & Hr).
      exists (Chroma.row_distance r). simpl.
      by rewrite !list_lookup_fmap, Hr.
  - intros i j hi hj Hij Hi Hj.
    apply list_lookup_fmap_Some in Hi as (ri & -> & Hi).
    apply list_lookup_fmap_Some in Hj as (rj & -> & Hj). simpl.
    apply Qc_one_minus_antitone.
    apply (StronglySorted_lookup_le Chroma.nearer _ i j ri rj
             (nearest_sorted v _ filters c) Hij Hi Hj).
  - rewrite length_fmap. pose proof (nearest_length v (Z.to_nat n_results) filters c). lia.
Qed.

(** ** Chunk ids *)

Section id_facts.

Lemma pretty_N_go_no_underscore (x : N) (s : string) :
  Forall (λ c, c ≠ "_"%char) (Py.chars s) →
  Forall (λ c, c ≠ "_"%char) (Py.chars (pretty_N_go x s)).
Proof.
  revert s. induction (N.lt_wf_0 x) as [x _ IH]; intros s Hs.
  destruct (decide (x = 0)%N) as [->|Hx]; [by rewrite pretty_N_go_0|].
  rewrite pretty_N_go_step by lia. apply IH.
  - apply N.div_lt; lia.
  - simpl. constructor; [|done].
    unfold pretty_N_char. by repeat case_match.
Qed.

Lemma pretty_nat_no_underscore (i : nat) :
  Forall (λ c, c ≠ "_"%char) (Py.chars (pretty i)).
Proof.
  unfold pretty, pretty_nat, pretty, pretty_N. case_decide.
  - simpl. by repeat constructor.
  - by apply pretty_N_go_no_underscore.
Qed.

Lemma app_separator_inj {A} (u : A) (a b x y : list A) :
  Forall (λ c, c ≠ u) a → Forall (λ c, c ≠ u) b →
  a ++ u :: x = b ++ u :: y → a = b ∧ x = y.
Proof.
  intros Ha. revert b. induction Ha as [|c a Hc Ha IH]; intros b Hb Heq.
  - destruct Hb as [|d b Hd Hb]; simpl in *; simplify_eq; done.
  - destruct Hb as [|d b Hd Hb]; simpl in *; simplify_eq.
    destruct (IH b Hb) as [-> ->]; done.
Qed.

(** Two ids of one title with different chunk indices differ, whatever the
    random parts are. *)
Lemma chunk_id_index_inj (title : string) (i j : nat) (u u' : string) :
  title +:+ "_" +:+ pretty i +:+ "_" +:+ u = title +:+ "_" +:+ pretty j +:+ "_" +:+ u' →
  i = j ∧ u = u'.
Proof.
  intros Heq. apply (inj (String.app title)) in Heq.
  apply (inj (String.app "_")) in Heq.
  apply (f_equal Py.chars) in Heq. rewrite !chars_app in Heq. simpl in Heq.
  apply app_separator_inj in Heq as [Hi Hu]; [|apply pretty_nat_no_underscore..].
  apply chars_inj in Hi, Hu. split; [|done]. by apply (inj pretty).
Qed.

End id_facts.

(** ** Upsert *)

Section upsert_facts.
Context `{Env}.
Import SemanticSearchEngine.

Lemma rows_ok ids embeddings documents metadatas rs :
  Chroma.rows ids embeddings documents metadatas = Ok rs →
  rs.*1 = ids
  ∧ (Chroma.document ∘ snd) <$> rs = documents
  ∧ (Chroma.metadata ∘ snd) <$> rs = metadatas.
Proof.
  revert embeddings documents metadatas rs.
  induction ids as [|i ids IH]; intros [|e es] [|d ds] [|m ms] rs; simpl; try done.
  - by intros [= <-].
  - destruct (Chroma.rows ids es ds ms) as [rs'|] eqn:Hrs; simpl; [|done].
    intros [= <-]. destruct (IH _ _ _ _ Hrs) as (Hk & Hd & Hm).
    rewrite !fmap_cons, Hk, Hd, Hm. done.
Qed.

Lemma insert_rows_cons r rs c :
  Chroma.insert_rows (r :: rs) c = Chroma.insert_rows rs (<[r.1 := r.2]> c).
Proof. done. Qed.

Lemma insert_rows_lookup_other rs c k :
  k ∉ rs.*1 → Chroma.insert_rows rs c !! k = c !! k.
Proof.
  revert c. induction rs as [|r rs IH]; intros c Hk; [done|].
  rewrite insert_rows_cons. rewrite fmap_cons, not_elem_of_cons in Hk.
  destruct Hk as [Hne Hk]. rewrite IH by done. by rewrite lookup_insert_ne.
Qed.

Lemma insert_rows_lookup rs c k e :
  NoDup rs.*1 → (k, e) ∈ rs → Chroma.insert_rows rs c !! k = Some e.
Proof.
  revert c. induction rs as [|r rs IH]; intros c Hnd Hin.
  - by apply elem_of_nil in Hin.
  - rewrite insert_rows_cons. rewrite fmap_cons in Hnd.
    apply NoDup_cons in Hnd as [Hr Hnd].
    apply elem_of_cons in Hin as [<-|Hin].
    + rewrite insert_rows_lookup_other by done. simpl. apply lookup_insert_eq.
    + by apply IH.
Qed.

Lemma insert_rows_size rs c :
  NoDup rs.*1 → (∀ k, k ∈ rs.*1 → c !! k = None) →
  size (Chroma.insert_rows rs c) = size c + length rs.
Proof.
  revert c. induction rs as [|r rs IH]; intros c Hnd Hfresh.
  - simpl. lia.
  - rewrite insert_rows_cons. rewrite fmap_cons in Hnd.
    apply NoDup_cons in Hnd as [Hr Hnd]. rewrite IH; [|done|].
    + rewrite map_size_insert_None; [simpl; lia|].
      apply Hfresh. rewrite fmap_cons. apply list_elem_of_here.
    + intros k Hk. rewrite lookup_insert_ne.
      * apply Hfresh. rewrite fmap_cons. by apply list_elem_of_further.
      * intros <-. done.
Qed.

Lemma insert_rows_filter_keep (P : string * Chroma.Entry → Prop)
    `{!∀ x, Decision (P x)} rs c :
  Forall P rs →
  filter P (Chroma.insert_rows rs c) = Chroma.insert_rows rs (filter P c).
Proof.
  intros HP. revert c. induction HP as [|[k e] rs Hr HP IH]; intros c; [done|].
  rewrite !insert_rows_cons, IH. simpl. by rewrite map_filter_insert_True.
Qed.

(** What was stored under the ids of the rows does not matter: it is
    overwritten. *)
Lemma insert_rows_ext rs (c1 c2 : gmap string Chroma.Entry) :
  (∀ j, j ∉ rs.*1 → c1 !! j = c2 !! j) →
  Chroma.insert_rows rs c1 = Chroma.insert_rows rs c2.
Proof.
  revert c1 c2. induction rs as [|r rs IH]; intros c1 c2 Hc.
  - apply map_eq. intros j. apply Hc. apply not_elem_of_nil.
  - rewrite !insert_rows_cons. apply IH. intros j Hj.
    destruct (decide (r.1 = j)) as [<-|Hne].
    + by rewrite !lookup_insert_eq.
    + rewrite !lookup_insert_ne by done. apply Hc.
      rewrite fmap_cons, not_elem_of_cons. split; [congruence|done].
Qed.

Lemma insert_rows_idemp rs (c : gmap string Chroma.Entry) :
  Chroma.insert_rows rs (Chroma.insert_rows rs c) = Chroma.insert_rows rs c.
Proof. apply insert_rows_ext. intros j Hj. by apply insert_rows_lookup_other. Qed.

Lemma insert_rows_filter_drop (P : string * Chroma.Entry → Prop)
    `{!∀ x, Decision (P x)} rs c :
  Forall (λ r, ¬ P r) rs → (∀ k, k ∈ rs.*1 → c !! k = None) →
  filter P (Chroma.insert_rows rs c) = filter P c.
Proof.
  intros HP. revert c. induction HP as [|[k e] rs Hr HP IH]; intros c Hfresh; [done|].
  rewrite insert_rows_cons. simpl.
  destruct (decide (k ∈ rs.*1)) as [Hin|Hnotin].
  - (* a later row overwrites this one *)
    rewrite (insert_rows_ext rs (<[k:=e]> c) c).
    + apply IH. intros j Hj. apply Hfresh. rewrite fmap_cons. by apply list_elem_of_further.
    + intros j Hj. apply lookup_insert_ne. intros <-. done.
  - rewrite IH.
    + rewrite map_filter_insert_False by done.
      rewrite delete_id; [done|]. apply Hfresh. rewrite fmap_cons. apply list_elem_of_here.
    + intros j Hj. rewrite lookup_insert_ne.
      * apply Hfresh. rewrite fmap_cons. by apply list_elem_of_further.
      * intros <-. done.
Qed.

(** What a successful [index_document] on a text with chunks has done. *)
Lemma index_document_ok uuid8 text md c c' :
  chunk_text text ≠ [] →
  index_document uuid8 text md c = (Ok tt, c') →
  ∃ title rs,
    md !! "title" = Some title
    ∧ c' = Chroma.insert_rows rs c
    ∧ rs.*1 = (λ i, title +:+ "_" +:+ pretty i +:+ "_" +:+ uuid8 i)
                <$> seq 0 (length (chunk_text text))
    ∧ (Chroma.document ∘ snd) <$> rs = chunk_text text
    ∧ Forall (λ r, Chroma.metadata r.2 = md) rs.
Proof.
  intros Hne. unfold index_document. cbv zeta.
  rewrite bool_decide_eq_false_2 by done.
  unfold Py.bind, Py.lift, Chroma.upsert, Py.bind, Py.lift, Py.get, Py.put.
  destruct (Py.traverse encode (chunk_text text)) as [embs|] eqn:Hembs; [|done].
  destruct (Py.traverse _ (Py.range _)) as [ids|] eqn:Hids; [|done].
  destruct (Chroma.rows _ _ _ _) as [rs|] eqn:Hrs; [|done].
  destruct (Py.getitem md "title") as [title0|]; [|done].
  destruct (print _) as [[]|]; [|done].
  intros [= <-].
  destruct (chunk_text text) as [|ch chs] eqn:Hch; [done|].
  assert (∃ title, md !! "title" = Some title) as [title Htitle].
  { unfold Py.range in Hids. simpl in Hids. unfold chunk_id at 1 in Hids.
    unfold Py.getitem in Hids. destruct (md !! "title"); [eauto|done]. }
  exists title, rs. split; [done|]. split; [done|].
  apply rows_ok in Hrs as (Hk & Hd & Hm). split; [|split; [done|]].
  - rewrite Hk. unfold Py.range in Hids.
    erewrite traverse_ok_fmap in Hids; [by injection Hids as <-|].
    intros i _. unfold chunk_id, Py.getitem. by rewrite Htitle.
  - apply Forall_forall. intros r Hr.
    assert (Chroma.metadata r.2 ∈ (Chroma.metadata ∘ snd) <$> rs) as Hin.
    { apply list_elem_of_fmap. by exists r. }
    rewrite Hm in Hin. apply list_elem_of_fmap in Hin as (? & -> & _). done.
Qed.

Lemma chunk_ids_NoDup title uuid8 n :
  NoDup ((λ i, title +:+ "_" +:+ pretty i +:+ "_" +:+ uuid8 i) <$> seq 0 n).
Proof.
  apply NoDup_fmap_2_strong; [|apply NoDup_seq].
  intros i j _ _ Heq. by apply chunk_id_index_inj in Heq as [-> _].
Qed.

End upsert_facts.

Section reindex_facts.
Context `{Env}.
Import SemanticSearchEngine.

(** The entries one successful pass leaves in the collection, by chunk. *)
Lemma index_document_stored uuid8 text md c c' title i ch :
  index_document uuid8 text md c = (Ok tt, c') →
  md !! "title" = Some title →
  chunk_text text !! i = Some ch →
  ∃ e, c' !! (title +:+ "_" +:+ pretty i +:+ "_" +:+ uuid8 i) = Some e
       ∧ Chroma.document e = ch ∧ Chroma.metadata e = md.
Proof.
  intros Hidx Htitle Hch.
  assert (chunk_text text ≠ []) as Hne by (intros Hnil; by rewrite Hnil in Hch).
  destruct (index_document_ok _ _ _ _ _ Hne Hidx)
    as (title' & rs & Htitle' & -> & Hk & Hd & Hm).
  assert (title' = title) as -> by congruence.
  rewrite <- Hd in Hch. apply list_lookup_fmap_Some in Hch as ([k e] & -> & Hr).
  exists e. simpl. split; [|split; [done|]].
  - assert (rs.*1 !! i = Some k) as Hki by (by rewrite list_lookup_fmap, Hr).
    rewrite Hk, list_lookup_fmap in Hki.
    assert (seq 0 (length (chunk_text text)) !! i = Some i) as Hseq.
    { apply lookup_seq. split; [done|]. apply lookup_lt_Some in Hr.
      rewrite <- Hd, length_fmap. done. }
    rewrite Hseq in Hki. simpl in Hki. injection Hki as <-.
    apply insert_rows_lookup.
    + rewrite Hk. apply chunk_ids_NoDup.
    + by eapply list_elem_of_lookup_2.
  - rewrite Forall_forall in Hm. apply (Hm (k, e)). by eapply list_elem_of_lookup_2.
Qed.

(** Without fresh ids the second pass overwrites the first: with the same
    random parts, indexing the same document again leaves the collection, and
    so [count()], as it was. *)
Lemma reindex_same_ids_overwrites uuid8 text md c0 c1 c2 :
  index_document uuid8 text md c0 = (Ok tt, c1) →
  index_document uuid8 text md c1 = (Ok tt, c2) →
  c2 = c1.
Proof.
  intros H1 H2. destruct (decide (chunk_text text = [])) as [Hnil|Hne].
  - rewrite index_document_no_chunks in H2 by done. by injection H2.
  - revert H1 H2. unfold index_document. cbv zeta.
    rewrite bool_decide_eq_false_2 by done.
    unfold Py.bind, Py.lift, Chroma.upsert, Py.bind, Py.lift, Py.get, Py.put.
    destruct (Py.traverse encode (chunk_text text)) as [embs|]; [|done].
    destruct (Py.traverse _ (Py.range _)) as [ids|]; [|done].
    destruct (Chroma.rows _ _ _ _) as [rs|]; [|done].
    destruct (Py.getitem md "title") as [title0|]; [|done].
    destruct (print _) as [[]|]; [|done].
    intros [= <-] [= <-]. apply insert_rows_idemp.
Qed.

End reindex_facts.

Section reindex_count_facts.
Context `{Env}.
Import SemanticSearchEngine.

Lemma filter_fresh_insert (c : gmap string Chroma.Entry) k e (ks : list string) :
  k ∉ ks →
  filter (λ j, <[k:=e]> c !! j = None) ks = filter (λ j, c !! j = None) ks.
Proof.
  induction ks as [|j ks IH]; intros Hk; [done|].
  apply not_elem_of_cons in Hk as [Hj Hk]. rewrite !filter_cons, IH by done.
  by rewrite lookup_insert_ne by done.
Qed.

(** [upsert] adds one entry for each id that is not in the collection yet,
    and overwrites the others. *)
Lemma insert_rows_size_fresh rs (c : gmap string Chroma.Entry) :
  NoDup rs.*1 →
  size (Chroma.insert_rows rs c) = size c + length (filter (λ k, c !! k = None) rs.*1).
Proof.
  revert c. induction rs as [|[k e] rs IH]; intros c Hnd.
  - simpl. lia.
  - rewrite insert_rows_cons. rewrite fmap_cons in Hnd |- *.
    apply NoDup_cons in Hnd as [Hk Hnd]. rewrite IH by done. simpl in *.
    rewrite filter_fresh_insert by done. rewrite filter_cons.
    destruct (decide (c !! k = None)) as [Hnone|Hsome].
    + rewrite map_size_insert_None by done. simpl. lia.
    + apply not_eq_None_Some in Hsome. rewrite map_size_insert_Some by done. lia.
Qed.

Lemma length_filter_fmap {A B} (f : A → B) (P : B → Prop) `{!∀ y, Decision (P y)}
    (l : list A) :
  length (filter P (f <$> l)) = length (filter (λ x, P (f x)) l).
Proof.
  induction l as [|x l IH]; [done|]. rewrite fmap_cons, !filter_cons.
  destruct (decide (P (f x))); simpl; by rewrite IH.
Qed.

Lemma length_filter_all {A} (P : A → Prop) `{!∀ x, Decision (P x)} (l : list A) :
  (∀ x, x ∈ l → P x) → length (filter P l) = length l.
Proof.
  induction l as [|x l IH]; intros HP; [done|].
  rewrite filter_cons_True by (apply HP, list_elem_of_here).
  simpl. rewrite IH; [done|]. intros y Hy. by apply HP, list_elem_of_further.
Qed.

Lemma traverse_ext {A B} (f g : A → result B) (l : list A) :
  (∀ x, x ∈ l → f x = g x) → Py.traverse f l = Py.traverse g l.
Proof.
  induction l as [|x l IH]; intros Hfg; simpl; [done|].
  rewrite Hfg by apply list_elem_of_here.
  rewrite IH; [done|]. intros y Hy. apply Hfg. by apply list_elem_of_further.
Qed.

(** Only the random parts drawn for the chunks of the text are read. *)
Lemma index_document_ext uuid1 uuid2 text md c :
  (∀ i, i < length (chunk_text text) → uuid1 i = uuid2 i) →
  index_document uuid1 text md c = index_document uuid2 text md c.
Proof.
  intros Hsame. unfold index_document. cbv zeta.
  rewrite (traverse_ext (chunk_id uuid1 md) (chunk_id uuid2 md)); [done|].
  intros i Hi. apply elem_of_seq in Hi. unfold chunk_id. by rewrite Hsame by lia.
Qed.

End reindex_count_facts.

(** C4, as the code has it.  Each chunk id is
    [{title}_{chunk_index}_{random_suffix}], and nothing compares the random
    parts of a pass with the ids in the collection.  When a document is
    indexed again, an entry of the collection whose id is not an id of the
    new pass stays, and [count()] grows by the number of new ids that were
    not in the collection.  So when all the ids of the new pass are new,
    nothing is overwritten: the chunks of the earlier pass are still stored
    under their old ids next to the new ones, and [count()] grows by the
    number of chunks.  When the random parts repeat, the new pass overwrites
    the earlier one and [count()] stays as it was. *)
Theorem reindex_accumulates `{Env} uuid_old uuid_new text md c0 c1 c2 :
  let chunks := SemanticSearchEngine.chunk_text text in
  chunks ≠ [] →
  SemanticSearchEngine.index_document uuid_old text md c0 = (Ok tt, c1) →
  SemanticSearchEngine.index_document uuid_new text md c1 = (Ok tt, c2) →
  ∃ title n1 n2,
    let old_id i := title +:+ "_" +:+ pretty i +:+ "_" +:+ uuid_old i in
    let new_id i := title +:+ "_" +:+ pretty i +:+ "_" +:+ uuid_new i in
    let fresh i := c1 !! new_id i = None in
    md !! "title" = Some title
    ∧ SemanticSearchEngine.get_document_count c1 = (Ok n1, c1)
    ∧ SemanticSearchEngine.get_document_count c2 = (Ok n2, c2)
    ∧ (∀ i ch, chunks !! i = Some ch →
         SemanticSearchEngine.chunk_id uuid_old md i = Ok (old_id i)
         ∧ SemanticSearchEngine.chunk_id uuid_new md i = Ok (new_id i)
         ∧ (∃ e, c1 !! old_id i = Some e
                 ∧ Chroma.document e = ch ∧ Chroma.metadata e = md)
         ∧ (∃ e, c2 !! new_id i = Some e
                 ∧ Chroma.document e = ch ∧ Chroma.metadata e = md))
    ∧ (∀ k e, c1 !! k = Some e → (∀ i, i < length chunks → k ≠ new_id i) →
         c2 !! k = Some e)
    ∧ n2 = n1 + length (filter fresh (seq 0 (length chunks)))
    ∧ (n1 < n2 ↔ ∃ i, i < length chunks ∧ fresh i)
    ∧ ((∀ i, i < length chunks → fresh i) →
       (∀ k e, c1 !! k = Some e → c2 !! k = Some e)
       ∧ (∀ i ch, chunks !! i = Some ch →
            ∃ e, c2 !! old_id i = Some e
                 ∧ Chroma.document e = ch ∧ Chroma.metadata e = md)
       ∧ n2 = n1 + length chunks ∧ n1 < n2)
    ∧ ((∀ i, i < length chunks → uuid_new i = uuid_old i) → c2 = c1 ∧ n2 = n1).
Proof.
  intros chunks Hne Hold Hnew. subst chunks.
  destruct (index_document_ok _ _ _ _ _ Hne Hnew)
    as (title & rs & Htitle & Hc2 & Hk & Hd & Hm).
  set (n := length (SemanticSearchEngine.chunk_text text)) in *.
  assert (∀ uuid8 i, SemanticSearchEngine.chunk_id uuid8 md i
                     = Ok (title +:+ "_" +:+ pretty i +:+ "_" +:+ uuid8 i)) as Hid.
  { intros uuid8 i. unfold SemanticSearchEngine.chunk_id, Py.getitem. by rewrite Htitle. }
  assert (∀ k e, c1 !! k = Some e →
            (∀ i, i < n → k ≠ title +:+ "_" +:+ pretty i +:+ "_" +:+ uuid_new i) →
            c2 !! k = Some e) as Hkeep.
  { intros k e Hke Hother. rewrite Hc2, insert_rows_lookup_other; [done|].
    rewrite Hk. intros (i & -> & Hi)%list_elem_of_fmap.
    apply elem_of_seq in Hi. by apply (Hother i); [lia|]. }
  assert (size c2
          = size c1
            + length (filter
                        (λ i, c1 !! (title +:+ "_" +:+ pretty i +:+ "_" +:+ uuid_new i) = None)
                        (seq 0 n))) as Hsize.
  { rewrite Hc2, insert_rows_size_fresh by (rewrite Hk; apply chunk_ids_NoDup).
    by rewrite Hk, length_filter_fmap. }
  assert (0 < n) as Hpos.
  { subst n. destruct (SemanticSearchEngine.chunk_text text); [done|simpl; lia]. }
  exists title, (size c1), (size c2). cbv zeta.
  split; [done|]. split; [done|]. split; [done|].
  split; [|split; [exact Hkeep|split; [exact Hsize|split; [|split]]]].
  - intros i ch Hch. split; [apply Hid|]. split; [apply Hid|].
    split; by eapply index_document_stored.
  - rewrite Hsize. split.
    + intros Hlt.
      destruct (filter _ (seq 0 n)) as [|i l] eqn:Hf; [simpl in Hlt; lia|].
      assert (i ∈ filter
                (λ i, c1 !! (title +:+ "_" +:+ pretty i +:+ "_" +:+ uuid_new i) = None)
                (seq 0 n)) as Hi by (rewrite Hf; apply list_elem_of_here).
      apply list_elem_of_filter in Hi as [Hfresh Hi]. apply elem_of_seq in Hi.
      exists i. split; [lia|done].
    + intros (i & Hi & Hfresh).
      assert (i ∈ filter
                (λ i, c1 !! (title +:+ "_" +:+ pretty i +:+ "_" +:+ uuid_new i) = None)
                (seq 0 n)) as Hin.
      { apply list_elem_of_filter. split; [done|]. apply elem_of_seq. lia. }
      destruct (filter _ (seq 0 n)); [by apply elem_of_nil in Hin|simpl; lia].
  - intros Hfresh.
    assert (∀ k e, c1 !! k = Some e → c2 !! k = Some e) as Hall.
    { intros k e Hke. apply Hkeep; [done|]. intros i Hi ->.
      specialize (Hfresh i Hi). congruence. }
    split; [exact Hall|]. split.
    + intros i ch Hch.
      destruct (index_document_stored _ _ _ _ _ _ _ _ Hold Htitle Hch) as (e & He & Hdoc & Hmd).
      exists e. split; [by apply Hall|done].
    + rewrite Hsize, length_filter_all, length_seq; [lia|].
      intros i Hi. apply elem_of_seq in Hi. apply Hfresh. lia.
  - intros Hsame.
    rewrite (index_document_ext uuid_new uuid_old) in Hnew by exact Hsame.
    by rewrite (reindex_same_ids_overwrites _ _ _ _ _ _ Hold Hnew).
Qed.

(** C4, as the specification words it, fails: the random part of an id is
    not compared with the ids in the collection.  When the second pass draws
    the random parts of the first again, it writes under the same ids: the
    pass returns, the collection is as before and [count()] has not grown. *)
Lemma reindex_repeated_suffix_overwrites :
  ¬ (∀ (E : Env) (uuid_old uuid_new : nat → string) (text : string)
       (md : gmap string string) (c0 c1 c2 : gmap string Chroma.Entry),
       SemanticSearchEngine.chunk_text text ≠ [] →
       SemanticSearchEngine.index_document uuid_old text md c0 = (Ok tt, c1) →
       SemanticSearchEngine.index_document uuid_new text md c1 = (Ok tt, c2) →
       ∃ n1 n2,
         SemanticSearchEngine.get_document_count c1 = (Ok n1, c1)
         ∧ SemanticSearchEngine.get_document_count c2 = (Ok n2, c2)
         ∧ n1 < n2).
Proof.
  intros Hclaim.
  destruct (Hclaim Demo.env Demo.uuid_a Demo.uuid_a "Lab syllabus" Demo.notes
              ∅ Demo.pass1 Demo.pass1)
    as (n1 & n2 & Hn1 & Hn2 & Hlt); [discriminate|reflexivity|reflexivity|].
  rewrite Hn1 in Hn2. injection Hn2 as ->. lia.
Qed.

(** ** The document lifecycle *)

Section lifecycle_facts.
Context `{Env}.
Import Service SemanticSearchEngine.

Lemma chunk_text_nonempty text : text ≠ "" → chunk_text text ≠ [].
Proof.
  intros Htext Hnil. apply (f_equal (fmap Py.chars)) in Hnil.
  rewrite chunk_text_chars in Hnil. apply fmap_nil_inv in Hnil.
  assert ((Py.len text + 449) / 450 = 0) as Hz.
  { destruct ((Py.len text + 449) / 450); [done|]. by rewrite seq_S in Hnil; destruct (seq 0 n). }
  apply Nat.div_small_iff in Hz; [|lia].
  destruct text; [done|]. simpl in Hz. lia.
Qed.

(** [process_file] of [app.py] answers [True] exactly when the recognised
    text is a non-empty [str] and [index_document] returned normally on it,
    with the metadata built from the path. *)
Lemma app_process_file_true uuid8 p w w' :
  App.process_file uuid8 p w = (Ok true, w') ↔
  ∃ d text,
    process_document (to_str p) = Ok d
    ∧ d !! "text" = Some (VStr text) ∧ text ≠ ""
    ∧ index_document uuid8 text
        {[ "title" := stem p;
           "source_url" := "http://localhost:8000/files/" +:+ name p;
           "date" := App.extract_date_from_text text;
           "category" := App.categorize (Py.lower text) ]} (collection w)
      = (Ok tt, collection w')
    ∧ prompts w' = prompts w.
Proof.
  unfold App.process_file, App.process_file_body, Py.try_except, Py.bind, Py.lift, Py.ret.
  split.
  - destruct (process_document (to_str p)) as [d|e]; [|done].
    destruct (d !! "text") as [[| n |text]|] eqn:Htext; simpl; [done| |..|done].
    + destruct (negb (n =? 0)%Z); simpl; [|done].
      unfold Py.getitem. rewrite Htext. done.
    + case_bool_decide as Hempty; simpl; [done|].
      unfold Py.getitem. rewrite Htext. simpl. unfold on_engine.
      destruct (index_document _ _ _ _) as [[[]|e] c] eqn:Hidx; simpl; [|done].
      intros [= <-]. exists d, text. by simpl.
  - intros (d & text & -> & Htext & Hne & Hidx & Hp).
    rewrite Htext. simpl. rewrite bool_decide_eq_false_2 by done. simpl.
    unfold Py.getitem. rewrite Htext. simpl. unfold on_engine. rewrite Hidx.
    destruct w'. simpl in *. by subst.
Qed.

Lemma where_source_url url (e : Chroma.Entry) :
  Chroma.where_matches {[ "source_url" := url ]} e
  ↔ Chroma.metadata e !! "source_url" = Some url.
Proof. unfold Chroma.where_matches. by rewrite map_Forall_singleton. Qed.

Lemma delete_document_unfold filename c :
  delete_document filename c
  = match print ("Deleting vectors for: " +:+ target_url filename) with
    | Ok _ =>
        (Ok tt,
         filter (λ r, ¬ Chroma.where_matches {[ "source_url" := target_url filename ]} r.2) c)
    | Raise e => (Raise e, c)
    end.
Proof. unfold delete_document, Py.bind, Py.lift. by destruct (print _). Qed.

(** Hits are entries of the collection. *)
Lemma search_hit_stored query n filters c hits c' h :
  search query n filters c = (Ok hits, c') → h ∈ hits →
  ∃ e, c !! id h = Some e ∧ metadata h = Chroma.metadata e
       ∧ document h = Chroma.document e.
Proof.
  rewrite search_unfold. destruct (encode query) as [v|]; [|done].
  destruct (n <=? 0)%Z; [done|]. intros [= <- <-] Hh.
  apply list_elem_of_fmap in Hh as (r & -> & Hr).
  apply nearest_elem in Hr as (Hr & _). simpl. eauto.
Qed.

End lifecycle_facts.

Section delete_facts.
Context `{Env}.
Import Service SemanticSearchEngine.

Lemma app_metadata_fields (title url date category : string) :
  let md : gmap string string :=
    {[ "title" := title; "source_url" := url; "date" := date; "category" := category ]} in
  md !! "title" = Some title ∧ md !! "source_url" = Some url.
Proof. intros md. subst md. split; by simplify_map_eq. Qed.

(** Deleting by locator twice is deleting once. *)
Lemma delete_document_twice filename c c' :
  delete_document filename c = (Ok tt, c') →
  delete_document filename c' = (Ok tt, c').
Proof.
  rewrite !delete_document_unfold. destruct (print _); [|done].
  intros [= <-]. f_equal.
  apply map_filter_id. intros k e Hke.
  by apply map_lookup_filter_Some in Hke as [_ Hke].
Qed.

(** After the deletion no stored entry bears the locator. *)
Lemma delete_document_gone filename c c' k e :
  delete_document filename c = (Ok tt, c') → c' !! k = Some e →
  Chroma.metadata e !! "source_url" ≠ Some (target_url filename).
Proof.
  rewrite delete_document_unfold. destruct (print _); [|done].
  intros [= <-] Hke.
  apply map_lookup_filter_Some in Hke as [_ Hke]. simpl in Hke.
  by rewrite where_source_url in Hke.
Qed.

End delete_facts.

(** C3.  Two documents with different file names are processed, then the
    first is deleted.  The filter of [delete_document] is the [source_url]
    stored with every chunk of that file; afterwards no search returns a
    chunk with that locator, [count()] is lower by exactly the number of
    chunks of the deleted document, and deleting once more changes nothing
    and raises nothing.  The collection held no entry with that locator
    before, the chunk ids drawn were not in use, and the line that
    [delete_document] prints before it deletes can be printed. *)
Theorem delete_after_index `{Env} uuid_a uuid_b (pa pb : Service.Path) w0 w1 w2 :
  let locator := SemanticSearchEngine.target_url (Service.name pa) in
  App.process_file uuid_a pa w0 = (Ok true, w1) →
  App.process_file uuid_b pb w1 = (Ok true, w2) →
  print ("Deleting vectors for: " +:+ locator) = Ok tt →
  Service.name pa ≠ Service.name pb →
  (∀ k e, Service.collection w0 !! k = Some e →
     Chroma.metadata e !! "source_url" ≠ Some locator) →
  (∀ i, Service.collection w0
          !! (Service.stem pa +:+ "_" +:+ pretty i +:+ "_" +:+ uuid_a i) = None) →
  (∀ i, Service.collection w1
          !! (Service.stem pb +:+ "_" +:+ pretty i +:+ "_" +:+ uuid_b i) = None) →
  ∃ d text_a c3,
    process_document (Service.to_str pa) = Ok d ∧ d !! "text" = Some (VStr text_a)
    ∧ (∀ i ch, SemanticSearchEngine.chunk_text text_a !! i = Some ch →
         ∃ e, Service.collection w2
                !! (Service.stem pa +:+ "_" +:+ pretty i +:+ "_" +:+ uuid_a i) = Some e
              ∧ Chroma.document e = ch
              ∧ Chroma.metadata e !! "source_url" = Some locator)
    ∧ SemanticSearchEngine.delete_document (Service.name pa) (Service.collection w2)
      = Chroma.delete {[ "source_url" := locator ]} (Service.collection w2)
    ∧ SemanticSearchEngine.delete_document (Service.name pa) (Service.collection w2)
      = (Ok tt, c3)
    ∧ (∀ query n filters hits c' h,
         SemanticSearchEngine.search query n filters c3 = (Ok hits, c') → h ∈ hits →
         SemanticSearchEngine.metadata h !! "source_url" ≠ Some locator)
    ∧ (∃ n2 n3,
         SemanticSearchEngine.get_document_count (Service.collection w2)
           = (Ok n2, Service.collection w2)
         ∧ SemanticSearchEngine.get_document_count c3 = (Ok n3, c3)
         ∧ n3 + length (SemanticSearchEngine.chunk_text text_a) = n2)
    ∧ SemanticSearchEngine.delete_document (Service.name pa) c3 = (Ok tt, c3).
Proof.
  intros locator H1 H2 Hprint Hname Hclean HfreshA HfreshB. subst locator.
  assert (∀ c, SemanticSearchEngine.delete_document (Service.name pa) c
               = Chroma.delete
                   {[ "source_url" := SemanticSearchEngine.target_url (Service.name pa) ]} c)
    as Hdel.
  { intros c. by rewrite delete_document_unfold, Hprint. }
  apply app_process_file_true in H1 as (da & ta & Hda & Hta & HneA & HidxA & _).
  apply app_process_file_true in H2 as (db & tb & Hdb & Htb & HneB & HidxB & _).
  destruct (index_document_ok _ _ _ _ _ (chunk_text_nonempty _ HneA) HidxA)
    as (titleA & rsA & HtA & Hc1 & HkA & HdA & HmA).
  destruct (index_document_ok _ _ _ _ _ (chunk_text_nonempty _ HneB) HidxB)
    as (titleB & rsB & HtB & Hc2 & HkB & HdB & HmB).
  destruct (app_metadata_fields (Service.stem pa)
    ("http://localhost:8000/files/" +:+ Service.name pa)
    (App.extract_date_from_text ta) (App.categorize (Py.lower ta))) as [HA1 HA2].
  destruct (app_metadata_fields (Service.stem pb)
    ("http://localhost:8000/files/" +:+ Service.name pb)
    (App.extract_date_from_text tb) (App.categorize (Py.lower tb))) as [HB1 HB2].
  cbv zeta in HA1, HA2, HB1, HB2.
  rewrite HA1 in HtA. injection HtA as <-.
  rewrite HB1 in HtB. injection HtB as <-.
  set (P := λ r : string * Chroma.Entry,
         ¬ Chroma.where_matches
             {[ "source_url" := SemanticSearchEngine.target_url (Service.name pa) ]} r.2).
  assert (Forall (λ r, ¬ P r) rsA) as HPA.
  { eapply Forall_impl; [exact HmA|]. intros [k e] Hm HP. apply HP.
    apply where_source_url. simpl in *. by rewrite Hm. }
  assert (Forall P rsB) as HPB.
  { eapply Forall_impl; [exact HmB|]. intros [k e] Hm HP.
    apply where_source_url in HP. simpl in *. rewrite Hm, HB2 in HP.
    injection HP as HP. by apply (inj (String.app _)) in HP. }
  assert (∀ k, k ∈ rsA.*1 → Service.collection w0 !! k = None) as HfA.
  { intros k Hk. rewrite HkA in Hk. apply list_elem_of_fmap in Hk as (i & -> & _). apply HfreshA. }
  assert (∀ k, k ∈ rsB.*1 → Service.collection w1 !! k = None) as HfB.
  { intros k Hk. rewrite HkB in Hk. apply list_elem_of_fmap in Hk as (i & -> & _). apply HfreshB. }
  assert (filter P (Service.collection w0) = Service.collection w0) as HP0.
  { apply map_filter_id. intros k e Hke HP. apply where_source_url in HP.
    by apply (Hclean k e). }
  assert (filter P (Service.collection w2)
          = Chroma.insert_rows rsB (Service.collection w0)) as Hc3.
  { rewrite Hc2, insert_rows_filter_keep by done.
    by rewrite Hc1, insert_rows_filter_drop, HP0. }
  exists da, ta, (filter P (Service.collection w2)).
  split; [done|]. split; [done|].
  split; [|split; [apply Hdel|split; [by rewrite Hdel|split; [|split]]]].
  - intros i ch Hch.
    destruct (index_document_stored _ _ _ _ _ _ _ _ HidxA HA1 Hch) as (e & He & Hdoc & Hmd).
    exists e. split; [|split; [done|by rewrite Hmd]].
    rewrite Hc2, insert_rows_lookup_other; [done|].
    intros Hin. apply HfB in Hin. congruence.
  - intros query n filters hits c' h Hs Hh.
    destruct (search_hit_stored _ _ _ _ _ _ _ Hs Hh) as (e & He & -> & _).
    eapply (delete_document_gone (Service.name pa) (Service.collection w2)); [|done].
    by rewrite Hdel.
  - exists (size (Service.collection w2)), (size (filter P (Service.collection w2))).
    split; [done|]. split; [done|].
    rewrite Hc3, Hc2, Hc1.
    rewrite !insert_rows_size.
    + rewrite <- (length_fmap fst rsA), HkA, length_fmap, length_seq. lia.
    + rewrite HkA. apply chunk_ids_NoDup.
    + done.
    + rewrite HkB. apply chunk_ids_NoDup.
    + intros k Hk. rewrite <- Hc1. by apply HfB.
    + rewrite HkB. apply chunk_ids_NoDup.
    + intros k Hk. specialize (HfB k Hk). rewrite Hc1 in HfB.
      destruct (decide (k ∈ rsA.*1)) as [Hin|Hnotin].
      * apply list_elem_of_fmap in Hin as ([k' e] & -> & Hin).
        rewrite (insert_rows_lookup rsA _ k' e) in HfB; [done| |done].
        rewrite HkA. apply chunk_ids_NoDup.
      * by rewrite insert_rows_lookup_other in HfB.
  - apply (delete_document_twice _ (Service.collection w2)). by rewrite Hdel.
Qed.

Section process_file_facts.
Context `{Env}.
Import Service SemanticSearchEngine.

(** [try ... except Exception: return False] never raises. *)
Lemma try_except_false_total {St} (body : Py.M St bool) (s : St) :
  ∃ b s', Py.try_except body (λ _, Py.ret false) s = (Ok b, s').
Proof. unfold Py.try_except, Py.ret. destruct (body s) as [[b|e] s']; eauto. Qed.

Lemma try_except_false_raise {St} (body : Py.M St bool) (s s' : St) e :
  body s = (Raise e, s') → Py.try_except body (λ _, Py.ret false) s = (Ok false, s').
Proof. unfold Py.try_except, Py.ret. by intros ->. Qed.

Lemma backend_process_file_true uuid8 p w w' :
  Backend.process_file uuid8 p w = (Ok true, w') ↔
  ∃ d text,
    process_document (to_str p) = Ok d
    ∧ d !! "text" = Some (VStr text) ∧ text ≠ ""
    ∧ index_document uuid8 text
        {[ "title" := stem p;
           "source_url" := "http://localhost:8000/files/" +:+ name p;
           "date" := Backend.extract_date_from_text text;
           "category" := Backend.categorize (Py.lower text) ]} (collection w)
      = (Ok tt, collection w')
    ∧ prompts w' = prompts w.
Proof.
  unfold Backend.process_file, Backend.process_file_body, Py.try_except, Py.bind, Py.lift, Py.ret.
  split.
  - destruct (process_document (to_str p)) as [d|e]; [|done].
    destruct (d !! "text") as [[| n |text]|] eqn:Htext; simpl; [done| |..|done].
    + destruct (negb (n =? 0)%Z); simpl; [|done].
      unfold Py.getitem. rewrite Htext. done.
    + case_bool_decide as Hempty; simpl; [done|].
      unfold Py.getitem. rewrite Htext. simpl. unfold on_engine.
      destruct (index_document _ _ _ _) as [[[]|e] c] eqn:Hidx; simpl; [|done].
      intros [= <-]. exists d, text. by simpl.
  - intros (d & text & -> & Htext & Hne & Hidx & Hp).
    rewrite Htext. simpl. rewrite bool_decide_eq_false_2 by done. simpl.
    unfold Py.getitem. rewrite Htext. simpl. unfold on_engine. rewrite Hidx.
    destruct w'. simpl in *. by subst.
Qed.

Lemma app_process_file_no_text uuid8 p w d :
  process_document (to_str p) = Ok d → Py.truthy (d !! "text") = false →
  App.process_file uuid8 p w = (Ok false, w).
Proof.
  intros Hd Ht.
  unfold App.process_file, App.process_file_body, Py.try_except, Py.bind, Py.lift, Py.ret.
  by rewrite Hd, Ht.
Qed.

Lemma backend_process_file_no_text uuid8 p w d :
  process_document (to_str p) = Ok d → Py.truthy (d !! "text") = false →
  Backend.process_file uuid8 p w = (Ok false, w).
Proof.
  intros Hd Ht.
  unfold Backend.process_file, Backend.process_file_body, Py.try_except, Py.bind, Py.lift, Py.ret.
  by rewrite Hd, Ht.
Qed.

(** An exception of the collaborators reaches the body of the [try]. *)
Lemma app_process_file_body_raises uuid8 p w :
  (∀ e, process_document (to_str p) = Raise e →
        App.process_file_body uuid8 p w = (Raise e, w))
  ∧ (∀ d n, process_document (to_str p) = Ok d → d !! "text" = Some (VInt n) → n ≠ 0%Z →
        App.process_file_body uuid8 p w = (Raise TypeError, w))
  ∧ (∀ d text e c,
        process_document (to_str p) = Ok d → d !! "text" = Some (VStr text) → text ≠ "" →
        index_document uuid8 text
          {[ "title" := stem p;
             "source_url" := "http://localhost:8000/files/" +:+ name p;
             "date" := App.extract_date_from_text text;
             "category" := App.categorize (Py.lower text) ]} (collection w) = (Raise e, c) →
        App.process_file_body uuid8 p w
        = (Raise e, {| collection := c; prompts := prompts w |})).
Proof.
  unfold App.process_file_body, Py.bind, Py.lift, Py.ret. split; [|split].
  - by intros e ->.
  - intros d n -> Ht Hn. rewrite Ht. simpl.
    destruct (n =? 0)%Z eqn:Hz; [lia|]. simpl. unfold Py.getitem. by rewrite Ht.
  - intros d text e c -> Ht Hne Hidx. rewrite Ht. simpl.
    rewrite bool_decide_eq_false_2 by done. simpl.
    unfold Py.getitem. rewrite Ht. simpl. unfold on_engine. by rewrite Hidx.
Qed.

End process_file_facts.

(** C7.  [process_file] (in [app.py] and in [backend_main.py]) always returns
    a boolean.  It returns [False], with the collection untouched, when the
    text of the recognised document is empty or missing; it returns [False]
    whenever its body raises, for instance when the recogniser raises, when
    the text is not a string, or when indexing raises; and it returns [True]
    only when the text was a non-empty string and [index_document] returned
    normally on it. *)
Theorem process_file_never_raises `{Env} uuid8 (p : Service.Path) (w : Service.World) :
  (* app.py *)
  ((∃ b w', App.process_file uuid8 p w = (Ok b, w'))
   ∧ (∀ d, process_document (Service.to_str p) = Ok d → Py.truthy (d !! "text") = false →
        App.process_file uuid8 p w = (Ok false, w))
   ∧ (∀ e w', App.process_file_body uuid8 p w = (Raise e, w') →
        App.process_file uuid8 p w = (Ok false, w'))
   ∧ (∀ e, process_document (Service.to_str p) = Raise e →
        App.process_file uuid8 p w = (Ok false, w))
   ∧ (∀ d text e c,
        process_document (Service.to_str p) = Ok d → d !! "text" = Some (VStr text) →
        text ≠ "" →
        SemanticSearchEngine.index_document uuid8 text
          {[ "title" := Service.stem p;
             "source_url" := "http://localhost:8000/files/" +:+ Service.name p;
             "date" := App.extract_date_from_text text;
             "category" := App.categorize (Py.lower text) ]} (Service.collection w)
        = (Raise e, c) →
        ∃ w', App.process_file uuid8 p w = (Ok false, w'))
   ∧ (∀ w', App.process_file uuid8 p w = (Ok true, w') →
        ∃ d text md,
          process_document (Service.to_str p) = Ok d
          ∧ d !! "text" = Some (VStr text) ∧ text ≠ ""
          ∧ SemanticSearchEngine.index_document uuid8 text md (Service.collection w)
            = (Ok tt, Service.collection w')))
  (* backend_main.py *)
  ∧ ((∃ b w', Backend.process_file uuid8 p w = (Ok b, w'))
     ∧ (∀ d, process_document (Service.to_str p) = Ok d → Py.truthy (d !! "text") = false →
          Backend.process_file uuid8 p w = (Ok false, w))
     ∧ (∀ e w', Backend.process_file_body uuid8 p w = (Raise e, w') →
          Backend.process_file uuid8 p w = (Ok false, w'))
     ∧ (∀ w', Backend.process_file uuid8 p w = (Ok true, w') →
          ∃ d text md,
            process_document (Service.to_str p) = Ok d
            ∧ d !! "text" = Some (VStr text) ∧ text ≠ ""
            ∧ SemanticSearchEngine.index_document uuid8 text md (Service.collection w)
              = (Ok tt, Service.collection w'))).
Proof.
  split.
  - split; [apply try_except_false_total|].
    split; [apply app_process_file_no_text|].
    split; [intros e w'; apply try_except_false_raise|].
    destruct (app_process_file_body_raises uuid8 p w) as (Hocr & _ & Hidx).
    split; [|split].
    + intros e He. apply (try_except_false_raise _ _ _ e). by apply Hocr.
    + intros d text e c Hd Ht Hne Hi. eexists.
      apply (try_except_false_raise _ _ _ e). by eapply Hidx.
    + intros w' Ht. apply app_process_file_true in Ht as (d & text & ? & ? & ? & ? & _).
      eauto 10.
  - split; [apply try_except_false_total|].
    split; [apply backend_process_file_no_text|].
    split; [intros e w'; apply try_except_false_raise|].
    intros w' Ht. apply backend_process_file_true in Ht as (d & text & ? & ? & ? & ? & _).
    eauto 10.
Qed.


(** ** The search endpoint *)

Section endpoint_facts.
Context `{Env}.
Import Service.

(** The engine's [search] does look at its [filters] argument: a filter that
    no entry satisfies empties the result. *)
Lemma engine_search_uses_filters query n c f hits :
  (∀ k e, c !! k = Some e → ¬ Chroma.where_matches f e) →
  SemanticSearchEngine.search query n (Some f) c = (Ok hits, c) → hits = [].
Proof.
  intros Hno Hs. destruct hits as [|h hits]; [done|].
  rewrite search_unfold in Hs. destruct (encode query) as [v|]; [|done].
  destruct (n <=? 0)%Z; [done|]. injection Hs as Hs.
  assert (∃ r, r ∈ Chroma.nearest v (Z.to_nat n) (Some f) c) as [r Hr].
  { destruct (Chroma.nearest v (Z.to_nat n) (Some f) c) as [|r rs]; [done|].
    exists r. apply list_elem_of_here. }
  apply nearest_elem in Hr as (Hr & Hsel & _). by apply Hno in Hr.
Qed.

(** [get_ai_extraction] always returns, and leaves the collection alone. *)
Lemma get_ai_extraction_returns text query w :
  ∃ answer w', App.get_ai_extraction text query w = (Ok answer, w')
               ∧ collection w' = collection w.
Proof.
  assert (∀ body : Py.M World (option string),
            (∀ w0 r w1, body w0 = (r, w1) → collection w1 = collection w0) →
            ∃ answer w', Py.try_except body (λ _, Py.ret None) w = (Ok answer, w')
                         ∧ collection w' = collection w) as Htry.
  { intros body Hbody. unfold Py.try_except, Py.ret.
    destruct (body w) as [[a|e] w1] eqn:Hb; eauto using Hbody. }
  unfold App.get_ai_extraction. cbv zeta.
  assert (∀ w0 r w1,
            (let prompt := App.prompt_for text query in
             let* response_text := model_generate prompt in
             let answer := App.clean_answer response_text in
             if Py.contains "None" answer || (50 <? Py.len answer) then Py.ret None
             else Py.ret (Some answer)) w0 = (r, w1) →
            collection w1 = collection w0) as Hbody.
  { intros w0 r w1. unfold Py.bind, model_generate, Py.ret. cbv zeta.
    destruct (generate_content _); [destruct (_ || _)|]; by intros [= <- <-]. }
  destruct (Py.contains "age" (Py.lower query)); [|by apply Htry].
  destruct (App.calculate_smart_age text) as [math_age|]; [|by apply Htry].
  case_bool_decide; [by apply Htry|]. unfold Py.ret. eauto.
Qed.

(** A loop whose body always returns and keeps the collection returns, with
    one item per element. *)
Lemma for_each_returns {A B} (f : nat → A → Py.M World B) (g : A → B → Prop) :
  (∀ i x w, ∃ y w', f i x w = (Ok y, w') ∧ collection w' = collection w ∧ g x y) →
  ∀ l i w, ∃ ys w', Py.for_each f i l w = (Ok ys, w')
                    ∧ collection w' = collection w ∧ Forall2 g l ys.
Proof.
  intros Hf l. induction l as [|x l IH]; intros i w.
  - exists [], w. split; [done|]. split; [done|constructor].
  - destruct (Hf i x w) as (y & w1 & Hy & Hc1 & Hg).
    destruct (IH (S i) w1) as (ys & w2 & Hys & Hc2 & Hgs).
    exists (y :: ys), w2. simpl. unfold Py.bind, Py.ret. rewrite Hy, Hys.
    split; [done|]. split; [congruence|by constructor].
Qed.

(** All that [get_ai_extraction] does to the state is to send prompts. *)
Lemma get_ai_extraction_sends text query w :
  ∃ answer sent,
    App.get_ai_extraction text query w
    = (Ok answer, {| collection := collection w; prompts := prompts w ++ sent |}).
Proof.
  assert (∃ answer,
            Py.try_except
              (let prompt := App.prompt_for text query in
               let* response_text := model_generate prompt in
               let answer := App.clean_answer response_text in
               if Py.contains "None" answer || (50 <? Py.len answer) then Py.ret None
               else Py.ret (Some answer))
              (λ _, Py.ret None) w
            = (Ok answer,
               {| collection := collection w;
                  prompts := prompts w ++ [App.prompt_for text query] |})) as [a Hllm].
  { unfold Py.try_except, Py.bind, model_generate, Py.ret. cbv zeta.
    destruct (generate_content _); [destruct (_ || _)|]; eauto. }
  assert (∀ a0 : option string,
            ∃ answer sent,
              (Ok a0, w)
              = (Ok answer, {| collection := collection w; prompts := prompts w ++ sent |}))
    as Hpure.
  { intros a0. exists a0, []. rewrite app_nil_r. by destruct w. }
  unfold App.get_ai_extraction. cbv zeta in Hllm |- *.
  destruct (Py.contains "age" (Py.lower query)); [|rewrite Hllm; eauto].
  destruct (App.calculate_smart_age text) as [math_age|]; [|rewrite Hllm; eauto].
  case_bool_decide; [rewrite Hllm; eauto|]. apply Hpure.
Qed.

(** The calls handed to the pool, when each of them returns and only sends
    prompts: every future holds what its call returned, and the prompts
    sent are those of the calls, in the order in which the pool ran them. *)
Lemma submit_all_outcome {A B} (R : A → B → list string → Prop) (o : Py.schedule)
    (f : A → Py.M World B) (tasks : list A) (w : World) :
  (∀ x w0, ∃ y sent,
     f x w0 = (Ok y, {| collection := collection w0; prompts := prompts w0 ++ sent |})
     ∧ R x y sent) →
  length tasks ≤ 3 →
  ∃ ys sents sent,
    Py.submit_all o f tasks w
    = (Ok (Ok <$> ys), {| collection := collection w; prompts := prompts w ++ sent |})
    ∧ Forall3 R tasks ys sents
    ∧ sent ≡ₚ concat sents.
Proof.
  intros Hf Hlen. destruct w as [c ps].
  destruct tasks as [|a [|b [|d [|x tasks]]]]; [| | | |simpl in Hlen; lia];
    destruct o; unfold Py.submit_all; cbn [Py.positions Py.run_at lookup list_lookup];
    repeat (unfold Py.bind at 1, Py.ret at 1; simpl;
            try match goal with
                | |- context [f ?x ?w0] =>
                    let y := fresh "y" in
                    let sent := fresh "sent" in
                    let HR := fresh "HR" in
                    destruct (Hf x w0) as (y & sent & -> & HR); simpl
                end);
    unfold Py.ret; rewrite <- ?(assoc_L (++));
    first
      [ by (exists [], [], []; rewrite app_nil_r; repeat constructor)
      | by (eexists [_], [_], _; split; [reflexivity|];
            split; [repeat constructor; eassumption|simpl; solve_Permutation])
      | by (eexists [_; _], [_; _], _; split; [reflexivity|];
            split; [repeat constructor; eassumption|simpl; solve_Permutation])
      | by (eexists [_; _; _], [_; _; _], _; split; [reflexivity|];
            split; [repeat constructor; eassumption|simpl; solve_Permutation]) ].
Qed.

(** The loop that builds the answer from the hits and the futures. *)
Lemma for_each_futures {A B C} (mk : A → option B → C) (ys : list (option B))
    (l : list A) (i : nat) (w : World) :
  Py.for_each
    (λ i r,
       let* extracted :=
         match (Ok <$> ys) !! i with
         | Some future => Py.lift future
         | None => Py.ret None
         end in
       Py.ret (mk r extracted))
    i l w
  = (Ok (zip_with mk l ((λ j, default None (ys !! j)) <$> seq i (length l))), w).
Proof.
  revert i. induction l as [|x l IH]; intros i; [done|].
  cbn [Py.for_each length seq fmap list_fmap zip_with]. unfold Py.bind at 1 2.
  rewrite list_lookup_fmap. destruct (ys !! i) as [y|]; simpl;
    unfold Py.ret at 1; unfold Py.bind at 1; rewrite IH; done.
Qed.

End endpoint_facts.

(** C9.  The answer of [/api/search] does not depend on the [filters] field
    of the request, in [app.py] and in [backend_main.py]: two requests with
    the same query and limit get the same results in the same order (and
    leave the same state), because the engine is called with no filter. *)
Theorem search_documents_ignores_filters `{Env} (query : string) (limit : Z)
    (filters1 filters2 : option (gmap string string)) (w : Service.World) :
  App.search_documents
    {| App.query := query; App.filters := filters1; App.limit := limit |} w
  = App.search_documents
      {| App.query := query; App.filters := filters2; App.limit := limit |} w
  ∧ Backend.search_documents
      {| Backend.query := query; Backend.filters := filters1; Backend.limit := limit |} w
    = Backend.search_documents
        {| Backend.query := query; Backend.filters := filters2; Backend.limit := limit |} w
  ∧ (∀ q results w',
       App.search_documents q w = (Ok results, w') →
       ∃ hits,
         SemanticSearchEngine.search (App.query q) (App.limit q) None
           (Service.collection w) = (Ok hits, Service.collection w')
         ∧ App.id <$> results = SemanticSearchEngine.id <$> hits)
  ∧ (∀ q results w',
       Backend.search_documents q w = (Ok results, w') →
       ∃ hits,
         SemanticSearchEngine.search (Backend.query q) (Backend.limit q) None
           (Service.collection w) = (Ok hits, Service.collection w')
         ∧ Backend.id <$> results = SemanticSearchEngine.id <$> hits).
Proof.
  split; [|split; [|split]].
  - unfold App.search_documents. reflexivity.
  - unfold Backend.search_documents. reflexivity.
  - intros q results w'. unfold App.search_documents. unfold Py.bind at 1 2.
    unfold Service.on_engine.
    destruct (SemanticSearchEngine.search _ _ _ _) as [[hits|e] c] eqn:Hs; [|done].
    match goal with
    | |- context [Py.submit_all _ ?f _ ?w1] =>
        destruct (submit_all_outcome (λ _ _ _, True) pool_order f (take 3 hits) w1)
          as (ys & sents & sent & -> & Hys & _)
    end.
    { intros r w0.
      destruct (get_ai_extraction_sends (SemanticSearchEngine.document r) (App.query q) w0)
        as (answer & sent & ->). eauto. }
    { rewrite length_take. lia. }
    cbv beta zeta. rewrite for_each_futures. intros [= <- <-]. exists hits.
    split; [done|]. clear.
    generalize 0. induction hits as [|h hits IH]; intros i; [done|].
    simpl. by rewrite IH.
  - intros q results w'. unfold Backend.search_documents, Py.bind, Py.ret, Service.on_engine.
    destruct (SemanticSearchEngine.search _ _ _ _) as [[hits|e] c] eqn:Hs; [|done].
    intros [= <- <-]. exists hits. split; [done|].
    rewrite <- list_fmap_compose. by apply list_fmap_ext.
Qed.

(** ** The answer extractor: the language-model path *)

Section extraction_facts.
Context `{Env}.
Import Service.

(** What the [try] block of [get_ai_extraction] does. *)
Lemma ask_model_unfold (text query : string) (w : World) :
  Py.try_except
    (let prompt := App.prompt_for text query in
     let* response_text := model_generate prompt in
     let answer := App.clean_answer response_text in
     if Py.contains "None" answer || (50 <? Py.len answer) then Py.ret None
     else Py.ret (Some answer))
    (λ _, Py.ret None) w
  = (match generate_content (App.prompt_for text query) with
     | Ok raw =>
         let answer := App.clean_answer raw in
         Ok (if Py.contains "None" answer || (50 <? Py.len answer)
             then None else Some answer)
     | Raise _ => Ok None
     end,
     {| collection := collection w;
        prompts := prompts w ++ [App.prompt_for text query] |}).
Proof.
  unfold Py.try_except, Py.bind, model_generate, Py.ret. cbv zeta.
  destruct (generate_content _) as [raw|e]; [|done].
  by destruct (_ || _).
Qed.

(** When the age shortcut does not apply, [get_ai_extraction] is its [try]
    block. *)
Lemma get_ai_extraction_fallback (text query : string) (w : World) :
  Py.contains "age" (Py.lower query) = false ∨ App.calculate_smart_age text = None →
  App.get_ai_extraction text query w
  = (match generate_content (App.prompt_for text query) with
     | Ok raw =>
         let answer := App.clean_answer raw in
         Ok (if Py.contains "None" answer || (50 <? Py.len answer)
             then None else Some answer)
     | Raise _ => Ok None
     end,
     {| collection := collection w;
        prompts := prompts w ++ [App.prompt_for text query] |}).
Proof.
  intros Hpath. unfold App.get_ai_extraction. cbv zeta.
  destruct Hpath as [-> | ->].
  - apply ask_model_unfold.
  - destruct (Py.contains "age" (Py.lower query)); apply ask_model_unfold.
Qed.

Lemma remove_char_gone c s : c ∉ Py.chars (Py.remove_char c s).
Proof.
  induction s as [|a s IH]; simpl; [apply not_elem_of_nil|].
  case_bool_decide; [done|]. simpl. rewrite not_elem_of_cons. split; [congruence|done].
Qed.

Lemma remove_char_subset c s x :
  x ∈ Py.chars (Py.remove_char c s) → x ∈ Py.chars s.
Proof.
  induction s as [|a s IH]; simpl; [done|].
  case_bool_decide; simpl; rewrite !elem_of_cons.
  - intros Hx. right. by apply IH.
  - intros [->|Hx]; [by left|]. right. by apply IH.
Qed.

(** No double quote, apostrophe or period is left anywhere in the cleaned
    answer. *)
Lemma clean_answer_chars raw c :
  c ∈ Py.chars (App.clean_answer raw) →
  c ≠ "034"%char ∧ c ≠ "'"%char ∧ c ≠ "."%char.
Proof.
  unfold App.clean_answer. intros Hc. split; [|split]; intros ->.
  - apply remove_char_subset, remove_char_subset in Hc. by apply remove_char_gone in Hc.
  - apply remove_char_subset in Hc. by apply remove_char_gone in Hc.
  - by apply remove_char_gone in Hc.
Qed.

End extraction_facts.

(** C8, as the code has it.  On the language-model path the response is
    stripped of surrounding whitespace and then every double quote, every
    apostrophe and every period is deleted from it, wherever it stands; if
    the cleaned response contains [None] or is longer than 50 characters the
    extractor returns no answer; an exception of the language model yields no
    answer and does not propagate.  The one prompt is recorded either way. *)
Theorem llm_answer_postprocessing `{Env} (text query : string) (w : Service.World) :
  Py.contains "age" (Py.lower query) = false ∨ App.calculate_smart_age text = None →
  let prompt := App.prompt_for text query in
  let w' := {| Service.collection := Service.collection w;
               Service.prompts := Service.prompts w ++ [prompt] |} in
  (∀ raw, generate_content prompt = Ok raw →
     let answer :=
       Py.remove_char "." (Py.remove_char "'" (Py.remove_char "034" (Py.strip raw))) in
     (∀ c, c ∈ Py.chars answer → c ≠ "034"%char ∧ c ≠ "'"%char ∧ c ≠ "."%char)
     ∧ App.get_ai_extraction text query w
       = (Ok (if Py.contains "None" answer || (50 <? Py.len answer)
              then None else Some answer), w'))
  ∧ (∀ e, generate_content prompt = Raise e →
       App.get_ai_extraction text query w = (Ok None, w')).
Proof.
  intros Hpath prompt w'. split.
  - intros raw Hraw answer. split; [apply clean_answer_chars|].
    rewrite get_ai_extraction_fallback by done. fold prompt. by rewrite Hraw.
  - intros e He. rewrite get_ai_extraction_fallback by done. fold prompt. by rewrite He.
Qed.

(** The language-model path on the concrete environment: the response
    [3.14] comes back as [314]. *)
Lemma llm_answer_postprocessing_witness :
  (Py.contains "age" (Py.lower "name of pi") = false
   ∨ @App.calculate_smart_age Demo.env "nothing here" = None)
  ∧ @App.get_ai_extraction Demo.env "nothing here" "name of pi" Demo.world0
    = (Ok (Some "314"),
       {| Service.collection := ∅;
          Service.prompts := [@App.prompt_for Demo.env "nothing here" "name of pi"] |}).
Proof.
  split; [by left|].
  destruct (llm_answer_postprocessing (H:=Demo.env) "nothing here" "name of pi"
              Demo.world0 (or_introl eq_refl)) as [Hok _].
  destruct (Hok "3.14" eq_refl) as [_ Hrun]. exact Hrun.
Defined.

(** C8, as the specification words it, fails: stripping what surrounds the
    response would keep the period of [3.14]; the code deletes it. *)
Lemma llm_answer_not_surrounding_strip :
  ¬ (∀ (E : Env) (text query raw : string) (w : Service.World),
       Py.contains "age" (Py.lower query) = false →
       generate_content (App.prompt_for text query) = Ok raw →
       (App.get_ai_extraction text query w).1
       = Ok (let answer := App.strip_surrounding raw in
             if Py.contains "None" answer || (50 <? Py.len answer)
             then None else Some answer)).
Proof.
  intros Hclaim.
  specialize (Hclaim Demo.env "nothing here" "name of pi" "3.14" Demo.world0 eq_refl eq_refl).
  vm_compute in Hclaim. discriminate Hclaim.
Qed.

(** ** The year scan *)

Section year_scan_facts.

Lemma startswith_same_length p q s :
  Py.startswith p s = true → Py.startswith q s = true →
  Py.len p = Py.len q → p = q.
Proof.
  revert q s. induction p as [|a p IH]; intros [|b q] [|c s]; simpl; try done.
  intros Hp Hq Hlen.
  apply andb_true_iff in Hp as [Ha Hp]. apply andb_true_iff in Hq as [Hb Hq].
  apply bool_decide_eq_true in Ha, Hb. subst.
  f_equal. eapply IH; eauto.
Qed.

Lemma matches_lit p s :
  Re.matches (Re.lit p) s = if Py.startswith p s then [Py.len p] else [].
Proof.
  revert s. induction p as [|a p IH]; intros s; [done|].
  destruct s as [|c s]; [done|]. simpl.
  destruct (decide (c = a)) as [->|Hne].
  - rewrite !bool_decide_eq_true_2 by done. simpl.
    rewrite app_nil_r, IH. by destruct (Py.startswith p s).
  - rewrite (bool_decide_eq_false_2 (c = a)) by done.
    rewrite (bool_decide_eq_false_2 (a = c)) by congruence. done.
Qed.

Lemma drop_startswith p s :
  Py.startswith p s = true → s = p +:+ Py.drop (Py.len p) s.
Proof.
  revert s. induction p as [|a p IH]; intros [|c s]; simpl; try done.
  intros Hp. apply andb_true_iff in Hp as [Ha Hp].
  apply bool_decide_eq_true in Ha as ->.
  change (String c p +:+ Py.drop (Py.len p) s) with (String c (p +:+ Py.drop (Py.len p) s)).
  f_equal. by apply IH.
Qed.

(** A literal followed by one digit. *)
Lemma matches_lit_digit p s :
  Re.matches (Re.Cat (Re.lit p) Re.digit) s
  = if Py.startswith p s
    then match Py.drop (Py.len p) s with
         | String d _ => if Py.isdigit d then [Py.len p + 1] else []
         | "" => []
         end
    else [].
Proof.
  change (Re.matches (Re.Cat (Re.lit p) Re.digit) s)
    with (n1 ← Re.matches (Re.lit p) s;
          (λ n2, n1 + n2) <$> Re.matches Re.digit (Py.drop n1 s)).
  rewrite matches_lit. destruct (Py.startswith p s); [|done].
  simpl. rewrite app_nil_r.
  destruct (Py.drop (Py.len p) s) as [|d r]; [done|].
  by destruct (Py.isdigit d).
Qed.

Lemma isdigit_value c : Py.isdigit c = true → (0 ≤ Py.digit_value c ≤ 9)%Z.
Proof.
  destruct c as [[] [] [] [] [] [] [] []]; try discriminate; vm_compute; intros _; split; discriminate.
Qed.

Lemma year_pattern_matches s :
  Re.matches App.year_pattern s = []
  ∨ (Re.matches App.year_pattern s = [4]
     ∧ ∃ y, Py.len (Py.take 4 s) = 4 ∧ Py.int (Py.take 4 s) = Ok y
            ∧ (1990 ≤ y ≤ 2019)%Z).
Proof.
  change (Re.matches App.year_pattern s)
    with ((Re.matches (Re.Cat (Re.lit "199") Re.digit) s
           ++ Re.matches (Re.Cat (Re.lit "200") Re.digit) s)
          ++ Re.matches (Re.Cat (Re.lit "201") Re.digit) s).
  rewrite !matches_lit_digit.
  destruct (Py.startswith "199" s) eqn:H199;
    [|destruct (Py.startswith "200" s) eqn:H200;
      [|destruct (Py.startswith "201" s) eqn:H201; [|by left]]].
  - assert (Py.startswith "200" s = false) as ->.
    { destruct (Py.startswith "200" s) eqn:E; [|done].
      by pose proof (startswith_same_length _ _ _ H199 E eq_refl). }
    assert (Py.startswith "201" s = false) as ->.
    { destruct (Py.startswith "201" s) eqn:E; [|done].
      by pose proof (startswith_same_length _ _ _ H199 E eq_refl). }
    apply drop_startswith in H199. simpl Py.len in *.
    destruct (Py.drop 3 s) as [|d r]; [by left|].
    destruct (Py.isdigit d) eqn:Hd; [|by left]. right. split; [done|].
    rewrite H199. exists (1990 + Py.digit_value d)%Z.
    change ("199" +:+ String d r) with (String "1" (String "9" (String "9" (String d r)))).
    split; [done|]. split; [|pose proof (isdigit_value d Hd); lia].
    simpl. rewrite Hd. f_equal.
  - assert (Py.startswith "201" s = false) as ->.
    { destruct (Py.startswith "201" s) eqn:E; [|done].
      by pose proof (startswith_same_length _ _ _ H200 E eq_refl). }
    apply drop_startswith in H200. simpl Py.len in *.
    destruct (Py.drop 3 s) as [|d r]; [by left|].
    destruct (Py.isdigit d) eqn:Hd; [|by left]. right. split; [done|].
    rewrite H200. exists (2000 + Py.digit_value d)%Z.
    change ("200" +:+ String d r) with (String "2" (String "0" (String "0" (String d r)))).
    split; [done|]. split; [|pose proof (isdigit_value d Hd); lia].
    simpl. rewrite Hd. f_equal.
  - apply drop_startswith in H201. simpl Py.len in *.
    destruct (Py.drop 3 s) as [|d r]; [by left|].
    destruct (Py.isdigit d) eqn:Hd; [|by left]. right. split; [done|].
    rewrite H201. exists (2010 + Py.digit_value d)%Z.
    change ("201" +:+ String d r) with (String "2" (String "0" (String "1" (String d r)))).
    split; [done|]. split; [|pose proof (isdigit_value d Hd); lia].
    simpl. rewrite Hd. f_equal.
Qed.

End year_scan_facts.

Section findall_facts.
Context `{Env}.

(** Every string [findall] returns is a match of the year pattern at some
    position of the text. *)
Lemma findall_year_elem k s x :
  x ∈ Re.findall_from App.year_pattern k s →
  ∃ i, Re.matches App.year_pattern (Py.drop i s) = [4] ∧ x = Py.take 4 (Py.drop i s).
Proof.
  revert k. induction s as [|c s IH]; intros k Hx.
  { cbn [Re.findall_from] in Hx.
    destruct (year_pattern_matches "") as [Hm | (_ & y & Hlen & _)]; [|done].
    rewrite Hm in Hx. destruct k; by apply elem_of_nil in Hx. }
  assert (∀ k', x ∈ Re.findall_from App.year_pattern k' s →
            ∃ i, Re.matches App.year_pattern (Py.drop i (String c s)) = [4]
                 ∧ x = Py.take 4 (Py.drop i (String c s))) as Hrest.
  { intros k' Hx'. destruct (IH _ Hx') as (i & Hi & ->). by exists (S i). }
  destruct k as [|k]; [|by eapply Hrest].
  cbn [Re.findall_from] in Hx.
  destruct (year_pattern_matches (String c s)) as [Hm | [Hm _]]; rewrite Hm in Hx.
  - by eapply Hrest.
  - apply elem_of_cons in Hx as [->|Hx]; [by exists 0|by eapply Hrest].
Qed.

(** A match at the head of the text is reported when the scan is not inside
    an earlier match. *)
Lemma findall_year_head s :
  Re.matches App.year_pattern s = [4] →
  Py.take 4 s ∈ Re.findall_from App.year_pattern 0 s.
Proof.
  intros Hm. destruct s as [|c s]; [done|].
  cbn [Re.findall_from]. rewrite Hm. apply list_elem_of_here.
Qed.

(** The scan enters what follows a prefix with at most three characters of
    a match left to step over. *)
Lemma findall_year_app pre s k :
  k ≤ 3 →
  ∃ ms k', k' ≤ 3
    ∧ Re.findall_from App.year_pattern k (pre +:+ s)
      = ms ++ Re.findall_from App.year_pattern k' s.
Proof.
  revert k. induction pre as [|c pre IH]; intros k Hk.
  - exists [], k. done.
  - change (String c pre +:+ s) with (String c (pre +:+ s)).
    destruct k as [|k].
    + cbn [Re.findall_from].
      destruct (year_pattern_matches (String c (pre +:+ s))) as [Hm | [Hm _]]; rewrite Hm.
      * apply IH. lia.
      * destruct (IH 3 ltac:(lia)) as (ms & k' & Hk' & Hms).
        exists (Py.take 4 (String c (pre +:+ s)) :: ms), k'. split; [done|].
        change (4 - 1) with 3. by rewrite Hms.
    + cbn [Re.findall_from]. apply IH. lia.
Qed.

Lemma possible_ages_valid (l : list string) :
  Forall (λ x, ∃ y, Py.int x = Ok y) l →
  ∃ ys, Forall2 (λ x y, Py.int x = Ok y) l ys
        ∧ App.possible_ages l
          = Ok ((λ y, current_year - y)%Z
                  <$> filter (λ y, 1980 < y < current_year - 15)%Z ys).
Proof.
  induction 1 as [|x l [y Hy] Hl (ys & Hys & IH)].
  - by exists [].
  - exists (y :: ys). split; [by constructor|].
    simpl. rewrite Hy, IH. simpl. rewrite filter_cons.
    destruct (decide (1980 < y < current_year - 15)%Z) as [Hq|Hq].
    + assert ((1980 <? y)%Z && (y <? current_year - 15)%Z = true) as ->; [|done].
      apply andb_true_iff. split; apply Z.ltb_lt; lia.
    + assert ((1980 <? y)%Z && (y <? current_year - 15)%Z = false) as ->; [|done].
      apply andb_false_iff.
      destruct (decide (1980 < y)%Z); [right|left]; apply Z.ltb_ge; lia.
Qed.

Lemma py_max_spec (a : Z) (l : list Z) :
  Py.max a l ∈ a :: l ∧ ∀ x, x ∈ a :: l → (x ≤ Py.max a l)%Z.
Proof.
  unfold Py.max. revert a. induction l as [|b l IH]; intros a; simpl.
  - split; [apply list_elem_of_here|]. intros x Hx. apply list_elem_of_singleton in Hx. lia.
  - destruct (IH (Z.max a b)) as [Hin Hle]. split.
    + apply elem_of_cons in Hin as [Hm|Hin].
      * rewrite Hm. destruct (Z.max_spec a b) as [[_ ->]|[_ ->]].
        -- apply list_elem_of_further, list_elem_of_here.
        -- apply list_elem_of_here.
      * by do 2 apply list_elem_of_further.
    + intros x Hx. rewrite !elem_of_cons in Hx.
      destruct Hx as [->|[->|Hx]].
      * etrans; [|apply Hle, list_elem_of_here]. lia.
      * etrans; [|apply Hle, list_elem_of_here]. lia.
      * by apply Hle, list_elem_of_further.
Qed.

Lemma findall_year_valid text :
  Forall (λ x, ∃ y, Py.int x = Ok y) (Re.findall App.year_pattern text).
Proof.
  apply Forall_forall. intros x Hx.
  apply findall_year_elem in Hx as (i & Hi & ->).
  destruct (year_pattern_matches (Py.drop i text)) as [Hm|(_ & y & _ & Hy & _)]; [congruence|].
  eauto.
Qed.

(** [calculate_smart_age], by the list of ages it collects. *)
Lemma calculate_smart_age_unfold text :
  ∃ ys, Forall2 (λ x y, Py.int x = Ok y) (Re.findall App.year_pattern text) ys
        ∧ App.calculate_smart_age text
          = match (λ y, current_year - y)%Z
                    <$> filter (λ y, 1980 < y < current_year - 15)%Z ys with
            | [] => None
            | age :: ages => Some (pretty (Py.max age ages))
            end.
Proof.
  destruct (possible_ages_valid _ (findall_year_valid text)) as (ys & Hys & Hages).
  exists ys. split; [done|]. unfold App.calculate_smart_age. rewrite Hages.
  by destruct (_ <$> _).
Qed.

Lemma pretty_Z_nonempty (z : Z) : pretty z ≠ "".
Proof.
  assert (∀ p : positive, pretty p ≠ "") as Hpos.
  { intros p Hp. assert (pretty (N.pos p) = "") as Hp' by done.
    unfold pretty, pretty_N in Hp'. case_decide; [done|].
    assert (∀ x s, s ≠ "" → pretty_N_go x s ≠ "") as Hgo.
    { clear. intros x. induction (N.lt_wf_0 x) as [x _ IH]; intros s Hs.
      destruct (decide (x = 0)%N) as [->|Hx]; [by rewrite pretty_N_go_0|].
      rewrite pretty_N_go_step by lia. apply IH; [apply N.div_lt; lia|done]. }
    rewrite pretty_N_go_step in Hp' by lia. by eapply Hgo in Hp'. }
  destruct z as [|p|p]; [done|apply Hpos|].
  unfold pretty, pretty_Z. done.
Qed.

End findall_facts.

Section age_facts.
Context `{Env}.
Import Service.

Lemma findall_john (pre post : string) :
  "1999" ∈ Re.findall App.year_pattern (pre +:+ "john.1999@mail.com" +:+ post).
Proof.
  unfold Re.findall.
  destruct (findall_year_app pre ("john.1999@mail.com" +:+ post) 0 ltac:(lia))
    as (ms & k & Hk & ->).
  apply elem_of_app. right.
  assert (Re.findall_from App.year_pattern k ("john.1999@mail.com" +:+ post)
          = Re.findall_from App.year_pattern 0 ("1999@mail.com" +:+ post)) as ->.
  { cbv [String.append].
    destruct k as [|[|[|[|k]]]]; [reflexivity..|lia]. }
  cbv [String.append].
  match goal with
  | |- _ ∈ Re.findall_from _ 0 ?s =>
      change "1999" with (Py.take 4 s); apply findall_year_head; reflexivity
  end.
Qed.

(** Every year the scan reads lies between 1990 and 2019. *)
Lemma findall_year_range text years y :
  Forall2 (λ year_str y, Py.int year_str = Ok y) (Re.findall App.year_pattern text) years →
  y ∈ years → (1990 ≤ y ≤ 2019)%Z.
Proof.
  intros Hyears Hy.
  apply list_elem_of_lookup in Hy as [i Hi].
  destruct (Forall2_lookup_r _ _ _ _ _ Hyears Hi) as (x & Hx & Hint).
  apply list_elem_of_lookup_2, findall_year_elem in Hx as (j & Hj & ->).
  destruct (year_pattern_matches (Py.drop j text)) as [Hm|(_ & y' & _ & Hy' & Hrange)];
    [congruence|].
  rewrite Hint in Hy'. by injection Hy' as <-.
Qed.

(** The age shortcut returns without touching the state, hence without a
    prompt. *)
Lemma get_ai_extraction_shortcut text query w (m : Z) :
  Py.contains "age" (Py.lower query) = true →
  App.calculate_smart_age text = Some (pretty m) →
  App.get_ai_extraction text query w = (Ok (Some (pretty m)), w).
Proof.
  intros Hage Hcalc. unfold App.get_ai_extraction. cbv zeta.
  rewrite Hage, Hcalc.
  by rewrite bool_decide_eq_false_2 by apply pretty_Z_nonempty.
Qed.

Lemma Forall2_elem_l {A B} (R : A → B → Prop) l k x :
  Forall2 R l k → x ∈ l → ∃ y, y ∈ k ∧ R x y.
Proof.
  intros HR Hx. apply list_elem_of_lookup in Hx as [i Hi].
  destruct (Forall2_lookup_l _ _ _ _ _ HR Hi) as (y & Hy & Hxy).
  exists y. split; [by eapply list_elem_of_lookup_2|done].
Qed.

Lemma Forall2_elem_r {A B} (R : A → B → Prop) l k y :
  Forall2 R l k → y ∈ k → ∃ x, x ∈ l ∧ R x y.
Proof.
  intros HR Hy. apply list_elem_of_lookup in Hy as [i Hi].
  destruct (Forall2_lookup_r _ _ _ _ _ HR Hi) as (x & Hx & Hxy).
  exists x. split; [by eapply list_elem_of_lookup_2|done].
Qed.

End age_facts.

(** C5.  For a query whose lower-cased form contains [age]: when the scan
    yields at least one qualifying year, the extractor returns the decimal
    string of the largest [current_year - year], which is the largest over
    the qualifying matches and over all matches alike, and the state (with
    its list of prompts) is as before, so the language model was not
    called.  With current year 2025, any text that contains
    [john.1999@mail.com] gets an age of at least 26 this way, and exactly
    26 when no match of the scan is a year before 1999. *)
Theorem age_shortcut_maximum `{Env} (text query : string) (w : Service.World) :
  Py.contains "age" (Py.lower query) = true →
  ∃ years,
    Forall2 (λ year_str y, Py.int year_str = Ok y)
      (Re.findall App.year_pattern text) years
    ∧ let ages := (λ y, current_year - y)%Z
                    <$> filter (λ y, 1980 < y < current_year - 15)%Z years in
      (ages ≠ [] →
         ∃ m, m ∈ ages ∧ (∀ a, a ∈ ages → (a ≤ m)%Z)
              ∧ (∀ y, y ∈ years → (current_year - y ≤ m)%Z)
              ∧ App.get_ai_extraction text query w = (Ok (Some (pretty m)), w))
      ∧ (current_year = 2025%Z →
         ∀ pre post, text = pre +:+ "john.1999@mail.com" +:+ post →
           ∃ m, App.get_ai_extraction text query w = (Ok (Some (pretty m)), w)
                ∧ (26 ≤ m)%Z
                ∧ ((∀ y, y ∈ years → (1999 ≤ y)%Z) → pretty m = "26")).
Proof.
  intros Hage.
  destruct (calculate_smart_age_unfold text) as (years & Hyears & Hcalc).
  exists years. split; [done|]. intros ages. fold ages in Hcalc.
  assert (ages ≠ [] →
          ∃ m, m ∈ ages ∧ (∀ a, a ∈ ages → (a ≤ m)%Z)
               ∧ (∀ y, y ∈ years → (current_year - y ≤ m)%Z)
               ∧ App.get_ai_extraction text query w = (Ok (Some (pretty m)), w)) as Hmax.
  { intros Hne. destruct ages as [|age rest] eqn:Hages; [done|].
    destruct (py_max_spec age rest) as [Hin Hle].
    exists (Py.max age rest). split; [done|]. split; [done|].
    split; [|by apply get_ai_extraction_shortcut].
    intros y Hy.
    destruct (decide (1980 < y < current_year - 15)%Z) as [Hq|Hq].
    - apply Hle. rewrite <- Hages. subst ages. apply list_elem_of_fmap.
      exists y. split; [done|]. by apply list_elem_of_filter.
    - pose proof (findall_year_range _ _ _ Hyears Hy) as Hrange.
      rewrite <- Hages in Hin. subst ages.
      apply list_elem_of_fmap in Hin as (y0 & -> & Hy0).
      apply list_elem_of_filter in Hy0 as [Hq0 _]. lia. }
  split; [done|].
  intros Hcy pre post ->.
  destruct (Forall2_elem_l _ _ _ _ Hyears (findall_john pre post)) as (y & Hy & Hint).
  assert (y = 1999%Z) as -> by (vm_compute in Hint; congruence).
  assert (26%Z ∈ ages) as H26.
  { subst ages. apply list_elem_of_fmap. exists 1999%Z. rewrite Hcy. split; [done|].
    apply list_elem_of_filter. split; [lia|done]. }
  destruct Hmax as (m & Hm & Hle & _ & Hrun);
    [by intros Hnil; rewrite Hnil in H26; apply elem_of_nil in H26|].
  exists m. split; [done|]. split; [by apply Hle|].
  intros Hall. assert (m = 26%Z) as ->; [|done].
  apply Z.le_antisymm; [|by apply Hle].
  subst ages. apply list_elem_of_fmap in Hm as (y & -> & Hyq).
  apply list_elem_of_filter in Hyq as [_ Hyin]. apply Hall in Hyin. lia.
Qed.

(** The age shortcut on the concrete environment. *)
Lemma age_shortcut_maximum_witness :
  Py.contains "age" (Py.lower "What is the AGE of John?") = true
  ∧ ∃ m, @App.get_ai_extraction Demo.env "Contact: john.1999@mail.com, joined 2012"
           "What is the AGE of John?" Demo.world0
         = (Ok (Some (pretty m)), Demo.world0)
         ∧ (26 ≤ m)%Z.
Proof.
  split; [reflexivity|].
  destruct (age_shortcut_maximum (H:=Demo.env)
              "Contact: john.1999@mail.com, joined 2012"
              "What is the AGE of John?" Demo.world0 eq_refl)
    as (years & _ & _ & Hjohn).
  destruct (Hjohn eq_refl "Contact: " ", joined 2012" eq_refl) as (m & Hrun & Hm & _).
  exists m. split; assumption.
Defined.

Section year_window_facts.
Context `{Env}.
Import Service.

Lemma slice_window text i : Py.slice text i (i + 4) = Py.take 4 (Py.drop i text).
Proof. unfold Py.slice. by replace (i + 4 - i) with 4 by lia. Qed.

(** A text none of whose four-character windows is a year from 1990 to 2019
    has no match of the scan. *)
Lemma findall_year_none text :
  (∀ i y, Py.len (Py.slice text i (i + 4)) = 4 →
          Py.int (Py.slice text i (i + 4)) = Ok y → (y < 1990 ∨ 2019 < y)%Z) →
  Re.findall App.year_pattern text = [].
Proof.
  intros Hout. destruct (Re.findall App.year_pattern text) as [|x l] eqn:Hfind; [done|].
  assert (x ∈ Re.findall App.year_pattern text) as Hx by (rewrite Hfind; apply list_elem_of_here).
  apply findall_year_elem in Hx as (i & Hi & _).
  destruct (year_pattern_matches (Py.drop i text)) as [Hm|(_ & y & Hlen & Hy & Hrange)];
    [congruence|].
  rewrite <- slice_window in Hlen, Hy. specialize (Hout i y Hlen Hy). lia.
Qed.

End year_window_facts.

(** C10.  The scan only sees four characters that read 199x, 200x or 201x,
    and keeps a year only if 1980 < year < current year - 15: whatever age
    [calculate_smart_age] returns comes from a year between 1990 and 2019 at
    some position of the text that passes this test.  So for a text none of
    whose four-digit windows is a year from 1990 to 2019 (such as one that
    only mentions 1985 and 2021) it returns [None], and the extraction goes
    to the language model: one prompt is sent, and the answer is the
    post-processed response, or nothing if the call raises. *)
Theorem year_scan_window `{Env} (text : string) :
  (∀ age_str, App.calculate_smart_age text = Some age_str →
     ∃ i y, Py.int (Py.slice text i (i + 4)) = Ok y
            ∧ (1990 ≤ y ≤ 2019)%Z
            ∧ (1980 < y < current_year - 15)%Z
            ∧ age_str = pretty (current_year - y)%Z)
  ∧ ((∀ i y, Py.len (Py.slice text i (i + 4)) = 4 →
             Py.int (Py.slice text i (i + 4)) = Ok y → (y < 1990 ∨ 2019 < y)%Z) →
     App.calculate_smart_age text = None
     ∧ ∀ query w,
         App.get_ai_extraction text query w
         = (match generate_content (App.prompt_for text query) with
            | Ok raw =>
                let answer := App.clean_answer raw in
                Ok (if Py.contains "None" answer || (50 <? Py.len answer)
                    then None else Some answer)
            | Raise _ => Ok None
            end,
            {| Service.collection := Service.collection w;
               Service.prompts := Service.prompts w ++ [App.prompt_for text query] |}))
  ∧ App.calculate_smart_age "Born 1985, enrolled 2021" = None.
Proof.
  split; [|split].
  - intros age_str Hcalc.
    destruct (calculate_smart_age_unfold text) as (years & Hyears & Hunf).
    rewrite Hcalc in Hunf.
    destruct (_ <$> filter _ years) as [|age ages] eqn:Hages; [done|].
    injection Hunf as ->.
    destruct (py_max_spec age ages) as [Hin _]. rewrite <- Hages in Hin.
    apply list_elem_of_fmap in Hin as (y & Hmax & Hy).
    apply list_elem_of_filter in Hy as [Hq Hy].
    destruct (Forall2_elem_r _ _ _ _ Hyears Hy) as (x & Hx & Hint).
    apply findall_year_elem in Hx as (i & Hi & ->).
    exists i, y. rewrite slice_window. split; [done|]. split; [|split; [done|by rewrite Hmax]].
    destruct (year_pattern_matches (Py.drop i text)) as [Hm|(_ & y' & _ & Hy' & Hrange)];
      [congruence|].
    rewrite Hint in Hy'. by injection Hy' as <-.
  - intros Hout.
    assert (App.calculate_smart_age text = None) as Hnone.
    { unfold App.calculate_smart_age. by rewrite findall_year_none. }
    split; [done|]. intros query w. apply get_ai_extraction_fallback. by right.
  - reflexivity.
Qed.

Lemma drop_empty n : Py.drop n "" = "".
Proof. by destruct n. Qed.

(** The premise of C10 holds of the example text, and the extraction then
    goes to the language model. *)
Lemma year_scan_window_witness :
  (∀ i y, Py.len (Py.slice "Born 1985, enrolled 2021" i (i + 4)) = 4 →
          Py.int (Py.slice "Born 1985, enrolled 2021" i (i + 4)) = Ok y →
          (y < 1990 ∨ 2019 < y)%Z)
  ∧ @App.calculate_smart_age Demo.env "Born 1985, enrolled 2021" = None
  ∧ (@App.get_ai_extraction Demo.env "Born 1985, enrolled 2021" "age" Demo.world0).1
    = Ok (Some "42").
Proof.
  assert (∀ i y, Py.len (Py.slice "Born 1985, enrolled 2021" i (i + 4)) = 4 →
                 Py.int (Py.slice "Born 1985, enrolled 2021" i (i + 4)) = Ok y →
                 (y < 1990 ∨ 2019 < y)%Z) as Hout.
  { intros i y. rewrite slice_window.
    do 24 (destruct i as [|i];
           [vm_compute; intros _ Hy;
            first [discriminate Hy | injection Hy as <-; first [by left | by right]]|]).
    cbn [Py.drop]. rewrite drop_empty. discriminate. }
  split; [exact Hout|].
  destruct (year_scan_window (H:=Demo.env) "Born 1985, enrolled 2021") as (_ & Hnone & _).
  destruct (Hnone Hout) as [Hcalc Hrun]. split; [exact Hcalc|].
  rewrite (Hrun "age" Demo.world0). reflexivity.
Defined.

(** ** Date extraction *)

Section date_facts.
Context `{Env}.
Import Service.

(** [re.search] returns the match at the leftmost position that has one. *)
Lemma search_leftmost r s m :
  Re.search r s = Some m →
  ∃ i n rest, Re.matches r (Py.drop i s) = n :: rest
              ∧ m = Py.take n (Py.drop i s)
              ∧ ∀ j, j < i → Re.matches r (Py.drop j s) = [].
Proof.
  induction s as [|c s IH]; simpl.
  - destruct (Re.matches r "") as [|n rest] eqn:Hm; [by destruct (Re.matches r "")|].
    intros [= <-]. exists 0, n, rest. split; [done|]. split; [done|]. lia.
  - destruct (Re.matches r (String c s)) as [|n rest] eqn:Hm.
    + intros Hs. destruct (IH Hs) as (i & n & rest & Hi & -> & Hleft).
      exists (S i), n, rest. split; [done|]. split; [done|].
      intros [|j] Hj; [done|]. apply Hleft. lia.
    + intros [= <-]. exists 0, n, rest. split; [done|]. split; [done|]. lia.
Qed.

Lemma search_skip_prefix r pre s :
  (∀ i, i < Py.len pre → Re.matches r (Py.drop i (pre +:+ s)) = []) →
  Re.search r (pre +:+ s) = Re.search r s.
Proof.
  induction pre as [|c pre IH]; intros Hno; [done|].
  change (String c pre +:+ s) with (String c (pre +:+ s)) in *.
  cbn [Re.search].
  assert (Re.matches r (String c (pre +:+ s)) = []) as -> by (apply (Hno 0); simpl; lia).
  apply IH. intros i Hi. apply (Hno (S i)). simpl. lia.
Qed.

End date_facts.

Section matcher_facts.

Lemma len_app s t : Py.len (s +:+ t) = Py.len s + Py.len t.
Proof. by rewrite !len_chars, chars_app, length_app. Qed.

Lemma drop_app_len u t : Py.drop (Py.len u) (u +:+ t) = t.
Proof. induction u as [|c u IH]; [by destruct t|done]. Qed.

Lemma take_app_add u t n : Py.take (Py.len u + n) (u +:+ t) = u +:+ Py.take n t.
Proof.
  induction u as [|c u IH]; [done|].
  change (String c u +:+ ?s) with (String c (u +:+ s)). simpl. by rewrite IH.
Qed.

Lemma take_zero s : Py.take 0 s = "".
Proof. by destruct s. Qed.

Lemma search_none r s : (∀ i, Re.matches r (Py.drop i s) = []) → Re.search r s = None.
Proof.
  induction s as [|c s IH]; intros Hno.
  - pose proof (Hno 0) as H0. simpl in *. by rewrite H0.
  - pose proof (Hno 0) as H0. cbn [Py.drop] in H0. cbn [Re.search]. rewrite H0.
    apply IH. intros i. apply (Hno (S i)).
Qed.

Lemma search_found r pre s n l :
  (∀ i, i < Py.len pre → Re.matches r (Py.drop i (pre +:+ s)) = []) →
  Re.matches r s = n :: l →
  Re.search r (pre +:+ s) = Some (Py.take n s).
Proof.
  intros Hno Hm. rewrite (search_skip_prefix _ _ _ Hno).
  destruct s; simpl; by rewrite Hm.
Qed.

(** The first match of [r1 r2] is made of the first match of [r1] and, after
    it, the first match of [r2], when there is one. *)
Lemma matches_cat_head r1 r2 u t n2 l1 l2 :
  Re.matches r1 (u +:+ t) = Py.len u :: l1 →
  Re.matches r2 t = n2 :: l2 →
  ∃ l, Re.matches (Re.Cat r1 r2) (u +:+ t) = (Py.len u + n2) :: l.
Proof.
  intros H1 H2. cbn [Re.matches]. rewrite H1, bind_cons, drop_app_len, H2, fmap_cons.
  eexists. apply (app_comm_cons _ _ (Py.len u + n2)).
Qed.

Lemma matches_cat_none_l r1 r2 s :
  Re.matches r1 s = [] → Re.matches (Re.Cat r1 r2) s = [].
Proof. intros H1. cbn [Re.matches]. by rewrite H1. Qed.

Lemma matches_cat_none_r r1 r2 s :
  (∀ n, Re.matches r2 (Py.drop n s) = []) → Re.matches (Re.Cat r1 r2) s = [].
Proof.
  intros H2. cbn [Re.matches]. induction (Re.matches r1 s) as [|n l IH]; [done|].
  by rewrite bind_cons, H2, IH.
Qed.

Lemma span_all p cap u t :
  (∀ c, c ∈ Py.chars u → p c = true) → Py.len u ≤ cap →
  (Py.len u = cap ∨ match t with String c _ => p c = false | "" => True end) →
  Re.span p cap (u +:+ t) = Py.len u.
Proof.
  revert cap. induction u as [|c u IH]; intros cap Hall Hcap Hend.
  - change ("" +:+ t) with t. destruct cap as [|cap]; [by destruct t|].
    destruct t as [|c t]; [done|]. simpl. destruct Hend as [Hend| ->]; done.
  - change (String c u +:+ t) with (String c (u +:+ t)).
    destruct cap as [|cap]; [simpl in Hcap; lia|]. simpl.
    rewrite (Hall c) by (simpl; left). f_equal. apply IH.
    + intros c' Hc'. apply Hall. simpl. by right.
    + simpl in Hcap. lia.
    + destruct Hend as [Hend|Hend]; [left; simpl in Hend; lia|by right].
Qed.

Lemma span_none p cap s :
  match s with String c _ => p c = false | "" => True end → Re.span p cap s = 0.
Proof. destruct cap, s; simpl; try done. by intros ->. Qed.

Lemma countdown_head hi lo : lo ≤ hi → ∃ l, Re.countdown hi lo = hi :: l.
Proof.
  intros Hle. unfold Re.countdown. replace (S hi - lo) with (S (hi - lo)) by lia.
  rewrite seq_S, reverse_snoc. replace (lo + (hi - lo)) with hi by lia. eauto.
Qed.

Lemma countdown_nil hi lo : hi < lo → Re.countdown hi lo = [].
Proof. intros Hlt. unfold Re.countdown. by replace (S hi - lo) with 0 by lia. Qed.

(** A greedy run takes every character of its class that is there. *)
Lemma matches_rep_head p lo hi u t :
  (∀ c, c ∈ Py.chars u → p c = true) → lo ≤ Py.len u →
  match hi with Some h => Py.len u ≤ h | None => True end →
  (hi = Some (Py.len u) ∨ match t with String c _ => p c = false | "" => True end) →
  ∃ l, Re.matches (Re.Rep p lo hi) (u +:+ t) = Py.len u :: l.
Proof.
  intros Hall Hlo Hhi Hend. cbn [Re.matches]. rewrite span_all; [by apply countdown_head|done|..].
  - destruct hi as [h|]; simpl; [done|]. rewrite len_app. lia.
  - destruct Hend as [-> |Hend]; [by left|by right].
Qed.

Lemma matches_rep_none p lo hi s :
  1 ≤ lo → match s with String c _ => p c = false | "" => True end →
  Re.matches (Re.Rep p lo hi) s = [].
Proof.
  intros Hlo Hs. cbn [Re.matches]. rewrite span_none by done. by apply countdown_nil.
Qed.

Lemma matches_lit_i p s :
  Re.matches (Re.lit_i p) s
  = if bool_decide (Py.len p ≤ Py.len s ∧ Py.lower (Py.take (Py.len p) s) = Py.lower p)
    then [Py.len p] else [].
Proof.
  revert s. induction p as [|a p IH]; intros s.
  - rewrite bool_decide_eq_true_2; [done|]. split; [simpl; lia|by destruct s].
  - destruct s as [|c s].
    + rewrite bool_decide_eq_false_2; [done|]. intros [Hle _]. simpl in Hle. lia.
    + cbn [Re.lit_i Re.matches Re.chr_i]. 
      destruct (decide (Py.lower_char c = Py.lower_char a)) as [Heq|Hne].
      * rewrite (bool_decide_eq_true_2 _ Heq). rewrite bind_cons. simpl mbind.
        rewrite app_nil_r. cbn [Py.drop]. rewrite IH.
        change (Py.len (String a p)) with (S (Py.len p)).
        change (Py.len (String c s)) with (S (Py.len s)).
        cbn [Py.take Py.lower].
        case_bool_decide as H1; case_bool_decide as H2; try done.
        -- destruct H2. destruct H1 as [? H1]. split; [lia|by rewrite Heq, H1].
        -- destruct H1. destruct H2 as [? [= _ ?]]. split; [lia|done].
      * rewrite (bool_decide_eq_false_2 _ Hne). simpl mbind.
        change (Py.len (String a p)) with (S (Py.len p)). cbn [Py.take Py.lower].
        rewrite bool_decide_eq_false_2; [done|]. intros [_ [= ? _]]. done.
Qed.

Lemma matches_alts r rs s :
  Re.matches (Re.alts r rs) s = Re.matches r s ++ concat ((λ r', Re.matches r' s) <$> rs).
Proof.
  unfold Re.alts. revert r. induction rs as [|r' rs IH]; intros r; simpl.
  - by rewrite app_nil_r.
  - rewrite IH. cbn [Re.matches]. by rewrite <- app_assoc.
Qed.

(** Literals of one length, tried one after the other on a text that begins
    with one of them, whatever the case of its letters. *)
Lemma matches_alts_lit_i (k : nat) (p : string) (ps : list string) (u t : string) :
  Forall (λ q, Py.len q = k) (p :: ps) →
  Py.lower u ∈ Py.lower <$> (p :: ps) → Py.len u = k →
  ∃ l, Re.matches (Re.alts (Re.lit_i p) (Re.lit_i <$> ps)) (u +:+ t) = k :: l.
Proof.
  intros Hlen Hin Hu. rewrite matches_alts, <- list_fmap_compose.
  change (Re.matches (Re.lit_i p) (u +:+ t)
          ++ concat ((λ r', Re.matches r' (u +:+ t)) ∘ Re.lit_i <$> ps))
    with (concat ((λ q, Re.matches (Re.lit_i q) (u +:+ t)) <$> (p :: ps))).
  revert Hlen Hin. generalize (p :: ps). intros qs Hlen Hin.
  induction Hlen as [|q qs Hq Hlen IH]; [by apply elem_of_nil in Hin|].
  rewrite fmap_cons in Hin. rewrite fmap_cons. cbn [concat]. rewrite matches_lit_i, Hq.
  case_bool_decide as Hm; [simpl; eauto|]. simpl.
  apply elem_of_cons in Hin as [Hin|Hin]; [|by apply IH].
  destruct Hm. split; [rewrite len_app; lia|].
  by rewrite <- Hu, <- (Nat.add_0_r (Py.len u)), take_app_add, take_zero, string_app_empty_r.
Qed.

Lemma matches_alts_lit_i_none (p : string) (ps : list string) (s : string) :
  (∀ q, q ∈ p :: ps → Py.lower (Py.take (Py.len q) s) ≠ Py.lower q) →
  Re.matches (Re.alts (Re.lit_i p) (Re.lit_i <$> ps)) s = [].
Proof.
  intros Hno. rewrite matches_alts, <- list_fmap_compose.
  change (Re.matches (Re.lit_i p) s ++ concat ((λ r', Re.matches r' s) ∘ Re.lit_i <$> ps))
    with (concat ((λ q, Re.matches (Re.lit_i q) s) <$> (p :: ps))).
  revert Hno. generalize (p :: ps). intros qs Hno.
  induction qs as [|q qs IH]; [done|].
  rewrite fmap_cons. cbn [concat]. rewrite matches_lit_i.
  rewrite bool_decide_eq_false_2.
  - apply IH. intros q' Hq'. apply Hno. by right.
  - intros [_ Heq]. by apply (Hno q); [left|].
Qed.

Lemma matches_opt_head r s n l : Re.matches r s = n :: l → ∃ l', Re.matches (Re.Opt r) s = n :: l'.
Proof. intros Hm. cbn [Re.matches]. rewrite Hm. eauto. Qed.

Lemma matches_opt_none r s : Re.matches r s = [] → Re.matches (Re.Opt r) s = [0].
Proof. intros Hm. cbn [Re.matches]. by rewrite Hm. Qed.

End matcher_facts.


Section date_form_facts.

Lemma matches_cat_digits2 r s :
  Re.matches (Re.Cat (Re.digits 2 2) r) s
  = match s with
    | String a (String b t) =>
        if Py.isdigit a && Py.isdigit b then (λ n, 2 + n) <$> Re.matches r t else []
    | _ => []
    end.
Proof.
  unfold Re.digits. cbn [Re.matches default id].
  destruct s as [|a [|b t]]; cbn [Re.span]; [done|by destruct (Py.isdigit a)|].
  destruct (Py.isdigit a); [|done]. destruct (Py.isdigit b); [|done].
  simpl. by rewrite app_nil_r.
Qed.

Lemma matches_cat_digits4 r s :
  Re.matches (Re.Cat (Re.digits 4 4) r) s
  = match s with
    | String a (String b (String c (String d t))) =>
        if Py.isdigit a && Py.isdigit b && Py.isdigit c && Py.isdigit d
        then (λ n, 4 + n) <$> Re.matches r t else []
    | _ => []
    end.
Proof.
  unfold Re.digits. cbn [Re.matches default id].
  destruct s as [|a [|b [|c [|d t]]]]; cbn [Re.span];
    repeat match goal with |- context [Py.isdigit ?x] => destruct (Py.isdigit x) end;
    try done.
  simpl. by rewrite app_nil_r.
Qed.

Lemma matches_cat_chr c r s :
  Re.matches (Re.Cat (Re.chr c) r) s
  = match s with
    | String x t => if bool_decide (x = c) then (λ n, 1 + n) <$> Re.matches r t else []
    | "" => []
    end.
Proof.
  unfold Re.chr. cbn [Re.matches]. destruct s as [|x t]; [done|].
  destruct (bool_decide (x = c)); [|done]. simpl. by rewrite app_nil_r.
Qed.

(** The first pattern finds the form [DD/MM/YYYY], and nothing else. *)
Lemma matches_dmy s :
  Re.matches Service.pattern_dmy s
  = if Service.has_date_form "DD/MM/YYYY" s then [10] else [].
Proof.
  unfold Service.pattern_dmy, Re.cats. cbn [foldr].
  rewrite matches_cat_digits2.
  destruct s as [|d1 [|d2 s]]; [done|by cbn; destruct (Py.isdigit d1)|].
  change (Service.has_date_form "DD/MM/YYYY" (String d1 (String d2 s)))
    with (Py.isdigit d1 && (Py.isdigit d2 && Service.has_date_form "/MM/YYYY" s)).
  destruct (Py.isdigit d1); [|done]. destruct (Py.isdigit d2); [|done]. cbn [andb].
  rewrite matches_cat_chr. destruct s as [|x s]; [done|].
  change (Service.has_date_form "/MM/YYYY" (String x s))
    with (bool_decide (x = "/"%char) && Service.has_date_form "MM/YYYY" s).
  destruct (bool_decide (x = "/"%char)); [|done]. cbn [andb].
  rewrite matches_cat_digits2.
  destruct s as [|m1 [|m2 s]]; [done|by cbn; destruct (Py.isdigit m1)|].
  change (Service.has_date_form "MM/YYYY" (String m1 (String m2 s)))
    with (Py.isdigit m1 && (Py.isdigit m2 && Service.has_date_form "/YYYY" s)).
  destruct (Py.isdigit m1); [|done]. destruct (Py.isdigit m2); [|done]. cbn [andb].
  rewrite matches_cat_chr. destruct s as [|y s]; [done|].
  change (Service.has_date_form "/YYYY" (String y s))
    with (bool_decide (y = "/"%char) && Service.has_date_form "YYYY" s).
  destruct (bool_decide (y = "/"%char)); [|done]. cbn [andb].
  rewrite matches_cat_digits4.
  destruct s as [|y1 [|y2 [|y3 [|y4 s]]]]; cbn;
    repeat match goal with |- context [Py.isdigit ?x] => destruct (Py.isdigit x) end;
    done.
Qed.

(** The second pattern finds the form [YYYY-MM-DD], and nothing else. *)
Lemma matches_ymd s :
  Re.matches Service.pattern_ymd s
  = if Service.has_date_form "YYYY-MM-DD" s then [10] else [].
Proof.
  unfold Service.pattern_ymd, Re.cats. cbn [foldr].
  rewrite matches_cat_digits4.
  destruct s as [|y1 [|y2 [|y3 [|y4 s]]]];
    [done|by cbn; destruct (Py.isdigit y1)
     |by cbn; destruct (Py.isdigit y1), (Py.isdigit y2)
     |by cbn; destruct (Py.isdigit y1), (Py.isdigit y2), (Py.isdigit y3)|].
  change (Service.has_date_form "YYYY-MM-DD" (String y1 (String y2 (String y3 (String y4 s)))))
    with (Py.isdigit y1 && (Py.isdigit y2 && (Py.isdigit y3
            && (Py.isdigit y4 && Service.has_date_form "-MM-DD" s)))).
  destruct (Py.isdigit y1); [|done]. destruct (Py.isdigit y2); [|done].
  destruct (Py.isdigit y3); [|done]. destruct (Py.isdigit y4); [|done]. cbn [andb].
  rewrite matches_cat_chr. destruct s as [|x s]; [done|].
  change (Service.has_date_form "-MM-DD" (String x s))
    with (bool_decide (x = "-"%char) && Service.has_date_form "MM-DD" s).
  destruct (bool_decide (x = "-"%char)); [|done]. cbn [andb].
  rewrite matches_cat_digits2.
  destruct s as [|m1 [|m2 s]]; [done|by cbn; destruct (Py.isdigit m1)|].
  change (Service.has_date_form "MM-DD" (String m1 (String m2 s)))
    with (Py.isdigit m1 && (Py.isdigit m2 && Service.has_date_form "-DD" s)).
  destruct (Py.isdigit m1); [|done]. destruct (Py.isdigit m2); [|done]. cbn [andb].
  rewrite matches_cat_chr. destruct s as [|y s]; [done|].
  change (Service.has_date_form "-DD" (String y s))
    with (bool_decide (y = "-"%char) && Service.has_date_form "DD" s).
  destruct (bool_decide (y = "-"%char)); [|done]. cbn [andb].
  rewrite matches_cat_digits2.
  destruct s as [|d1 [|d2 s]]; cbn;
    repeat match goal with |- context [Py.isdigit ?x] => destruct (Py.isdigit x) end;
    done.
Qed.

End date_form_facts.


Section month_form_facts.

Lemma space_not_alpha c : Py.isspace c = true → Py.isalpha_ascii c = false.
Proof. by destruct c as [[] [] [] [] [] [] [] []]. Qed.

Lemma digit_not_space c : Py.isdigit c = true → Py.isspace c = false.
Proof. by destruct c as [[] [] [] [] [] [] [] []]. Qed.

Lemma space_not_digit c : Py.isspace c = true → Py.isdigit c = false.
Proof. by destruct c as [[] [] [] [] [] [] [] []]. Qed.

Lemma alpha_not_space c : Py.isalpha_ascii c = true → Py.isspace c = false.
Proof. by destruct c as [[] [] [] [] [] [] [] []]. Qed.

Lemma len_lower s : Py.len (Py.lower s) = Py.len s.
Proof. induction s as [|c s IH]; simpl; [done|by rewrite <- IH]. Qed.

(** The first character of a text that begins with a run [u] that is not
    empty. *)
Lemma head_of_run (p q : ascii → bool) (u t : string) :
  u ≠ "" → (∀ c, c ∈ Py.chars u → p c = true) → (∀ c, p c = true → q c = false) →
  match u +:+ t with String c _ => q c = false | "" => True end.
Proof.
  intros Hne Hall Hpq. destruct u as [|c u]; [done|].
  change (String c u +:+ t) with (String c (u +:+ t)). apply Hpq, Hall. simpl. by left.
Qed.

Lemma matches_month name t :
  Py.lower name
    ∈ ["jan"; "feb"; "mar"; "apr"; "may"; "jun"; "jul"; "aug"; "sep"; "oct"; "nov"; "dec"] →
  Py.len name = 3 ∧ ∃ l, Re.matches Service.month (name +:+ t) = Py.len name :: l.
Proof.
  intros Hin.
  assert (Py.len name = 3) as Hlen.
  { rewrite <- len_lower.
    repeat (apply elem_of_cons in Hin as [->|Hin]; [done|]). by apply elem_of_nil in Hin. }
  split; [done|]. rewrite Hlen. unfold Service.month.
  apply matches_alts_lit_i; [by repeat constructor|exact Hin|done].
Qed.

(** A text that begins with a month, the rest of its name, white space, a
    day of one or two digits, a comma or none, white space and a year of
    four digits: the pattern with the month first matches all of it. *)
Lemma matches_month_day_year (name tail ws1 day comma ws2 year post : string) :
  Py.lower name
    ∈ ["jan"; "feb"; "mar"; "apr"; "may"; "jun"; "jul"; "aug"; "sep"; "oct"; "nov"; "dec"] →
  (∀ c, c ∈ Py.chars tail → Py.isalpha_ascii c = true) →
  ws1 ≠ "" → (∀ c, c ∈ Py.chars ws1 → Py.isspace c = true) →
  1 ≤ Py.len day ≤ 2 → (∀ c, c ∈ Py.chars day → Py.isdigit c = true) →
  comma = "" ∨ comma = "," →
  ws2 ≠ "" → (∀ c, c ∈ Py.chars ws2 → Py.isspace c = true) →
  Py.len year = 4 → (∀ c, c ∈ Py.chars year → Py.isdigit c = true) →
  ∃ n l,
    Re.matches Service.pattern_month_day_year
      (name +:+ tail +:+ ws1 +:+ day +:+ comma +:+ ws2 +:+ year +:+ post) = n :: l
    ∧ Py.take n (name +:+ tail +:+ ws1 +:+ day +:+ comma +:+ ws2 +:+ year +:+ post)
      = name +:+ tail +:+ ws1 +:+ day +:+ comma +:+ ws2 +:+ year.
Proof.
  intros Hname Htail Hws1 Hspace1 Hday Hdigits Hcomma Hws2 Hspace2 Hyear Hydigits.
  assert (day ≠ "") as Hdne by (intros ->; simpl in Hday; lia).
  assert (year ≠ "") as Hyne by (intros ->; simpl in Hyear; lia).
  destruct (matches_month name
              (tail +:+ ws1 +:+ day +:+ comma +:+ ws2 +:+ year +:+ post) Hname)
    as (_ & l1 & H1).
  destruct (matches_rep_head Py.isalpha_ascii 0 None tail
              (ws1 +:+ day +:+ comma +:+ ws2 +:+ year +:+ post))
    as [l2 H2]; [done|lia|done| |].
  { right. apply (head_of_run Py.isspace); [done..|apply space_not_alpha]. }
  destruct (matches_rep_head Py.isspace 1 None ws1
              (day +:+ comma +:+ ws2 +:+ year +:+ post))
    as [l3 H3]; [done|destruct ws1; [done|simpl; lia]|done| |].
  { right. apply (head_of_run Py.isdigit); [done..|apply digit_not_space]. }
  destruct (matches_rep_head Py.isdigit 1 (Some 2) day
              (comma +:+ ws2 +:+ year +:+ post))
    as [l4 H4]; [done|lia|simpl; lia| |].
  { right. destruct Hcomma as [-> | ->].
    - change ("" +:+ ?s) with s.
      apply (head_of_run Py.isspace); [done..|apply space_not_digit].
    - done. }
  assert (∃ l5, Re.matches (Re.Opt (Re.chr ",")) (comma +:+ ws2 +:+ year +:+ post)
                = Py.len comma :: l5) as [l5 H5].
  { destruct Hcomma as [-> | ->].
    - exists []. apply matches_opt_none.
      change ("" +:+ ?s) with s. destruct ws2 as [|c ws2]; [done|].
      change (String c ws2 +:+ ?s) with (String c (ws2 +:+ s)).
      unfold Re.chr. cbn [Re.matches]. rewrite bool_decide_eq_false_2; [done|].
      intros ->. by specialize (Hspace2 ","%char ltac:(simpl; by left)).
    - eexists. reflexivity. }
  destruct (matches_rep_head Py.isspace 1 None ws2 (year +:+ post))
    as [l6 H6]; [done|destruct ws2; [done|simpl; lia]|done| |].
  { right. apply (head_of_run Py.isdigit); [done..|apply digit_not_space]. }
  destruct (matches_rep_head Py.isdigit 4 (Some 4) year post)
    as [l7 H7]; [done|lia|simpl; lia|left; by rewrite Hyear|].
  unfold Service.pattern_month_day_year, Re.cats. cbn [foldr]. unfold Re.digits.
  destruct (matches_cat_head _ Re.Eps _ _ 0 _ [] H7 eq_refl) as [k7 G7].
  destruct (matches_cat_head _ _ _ _ _ _ _ H6 G7) as [k6 G6].
  destruct (matches_cat_head _ _ _ _ _ _ _ H5 G6) as [k5 G5].
  destruct (matches_cat_head _ _ _ _ _ _ _ H4 G5) as [k4 G4].
  destruct (matches_cat_head _ _ _ _ _ _ _ H3 G4) as [k3 G3].
  destruct (matches_cat_head _ _ _ _ _ _ _ H2 G3) as [k2 G2].
  destruct (matches_cat_head _ _ _ _ _ _ _ H1 G2) as [k1 G1].
  eexists _, _. split; [exact G1|].
  by rewrite !take_app_add, take_zero, string_app_empty_r.
Qed.

Lemma lower_head_alpha c e (names : list string) :
  Py.lower (String c e) ∈ names →
  Forall (λ q, match q with
               | String a _ => Py.isalpha_ascii a = true
               | "" => False
               end) names →
  Py.isalpha_ascii (Py.lower_char c) = true.
Proof.
  intros Hin Hall. rewrite Forall_forall in Hall. by specialize (Hall _ Hin).
Qed.

Lemma lower_alpha_not_digit c :
  Py.isalpha_ascii (Py.lower_char c) = true → Py.isdigit c = false.
Proof. by destruct c as [[] [] [] [] [] [] [] []]. Qed.

Lemma lower_alpha_not_space c :
  Py.isalpha_ascii (Py.lower_char c) = true → Py.isspace c = false.
Proof. by destruct c as [[] [] [] [] [] [] [] []]. Qed.

(** The same for the form with the day first: a day of one or two digits,
    an ordinal ending or none, white space, a month, the rest of its name,
    white space and a year of four digits. *)
Lemma matches_day_month_year (day ending ws1 name tail ws2 year post : string) :
  1 ≤ Py.len day ≤ 2 → (∀ c, c ∈ Py.chars day → Py.isdigit c = true) →
  Py.lower ending ∈ [""; "st"; "nd"; "rd"; "th"] →
  ws1 ≠ "" → (∀ c, c ∈ Py.chars ws1 → Py.isspace c = true) →
  Py.lower name
    ∈ ["jan"; "feb"; "mar"; "apr"; "may"; "jun"; "jul"; "aug"; "sep"; "oct"; "nov"; "dec"] →
  (∀ c, c ∈ Py.chars tail → Py.isalpha_ascii c = true) →
  ws2 ≠ "" → (∀ c, c ∈ Py.chars ws2 → Py.isspace c = true) →
  Py.len year = 4 → (∀ c, c ∈ Py.chars year → Py.isdigit c = true) →
  ∃ n l,
    Re.matches Service.pattern_day_month_year
      (day +:+ ending +:+ ws1 +:+ name +:+ tail +:+ ws2 +:+ year +:+ post) = n :: l
    ∧ Py.take n (day +:+ ending +:+ ws1 +:+ name +:+ tail +:+ ws2 +:+ year +:+ post)
      = day +:+ ending +:+ ws1 +:+ name +:+ tail +:+ ws2 +:+ year.
Proof.
  intros Hday Hdigits Hending Hws1 Hspace1 Hname Htail Hws2 Hspace2 Hyear Hydigits.
  assert (∃ l1, Re.matches (Re.digits 1 2)
                  (day +:+ ending +:+ ws1 +:+ name +:+ tail +:+ ws2 +:+ year +:+ post)
                = Py.len day :: l1) as [l1 H1].
  { apply matches_rep_head; [done|lia|simpl; lia|]. right.
    destruct ending as [|c ending].
    - change ("" +:+ ?s) with s.
      apply (head_of_run Py.isspace); [done..|apply space_not_digit].
    - change (String c ending +:+ ?s) with (String c (ending +:+ s)).
      apply lower_alpha_not_digit.
      apply (lower_head_alpha c ending (["st"; "nd"; "rd"; "th"])).
      + by apply elem_of_cons in Hending as [Hending|Hending].
      + by repeat constructor. }
  assert (∃ l2, Re.matches (Re.Opt (Re.alts (Re.lit_i "st") (Re.lit_i <$> ["nd"; "rd"; "th"])))
                  (ending +:+ ws1 +:+ name +:+ tail +:+ ws2 +:+ year +:+ post)
                = Py.len ending :: l2) as [l2 H2].
  { destruct (decide (ending = "")) as [->|Hne].
    - exists []. apply matches_opt_none. change ("" +:+ ?s) with s.
      apply matches_alts_lit_i_none. intros q Hq.
      destruct ws1 as [|c ws1]; [done|].
      change (String c ws1 +:+ ?s) with (String c (ws1 +:+ s)).
      specialize (Hspace1 c ltac:(simpl; by left)).
      intros Heq.
      assert (Py.isalpha_ascii (Py.lower_char c) = true) as Hc.
      { repeat (apply elem_of_cons in Hq as [->|Hq];
                [cbn in Heq; by injection Heq as -> _|]).
        by apply elem_of_nil in Hq. }
      apply lower_alpha_not_space in Hc. congruence.
    - assert (Py.lower ending ∈ ["st"; "nd"; "rd"; "th"]) as Hending'.
      { apply elem_of_cons in Hending as [Hending|Hending]; [by destruct ending|done]. }
      assert (Py.len ending = 2) as Hlen.
      { rewrite <- len_lower.
        repeat (apply elem_of_cons in Hending' as [->|Hending']; [done|]).
        by apply elem_of_nil in Hending'. }
      rewrite Hlen.
      destruct (matches_alts_lit_i 2 "st" ["nd"; "rd"; "th"] ending
                  (ws1 +:+ name +:+ tail +:+ ws2 +:+ year +:+ post)) as [l Hl];
        [by repeat constructor|done|done|].
      by apply (matches_opt_head _ _ _ l). }
  destruct (matches_rep_head Py.isspace 1 None ws1
              (name +:+ tail +:+ ws2 +:+ year +:+ post))
    as [l3 H3]; [done|destruct ws1; [done|simpl; lia]|done| |].
  { right. destruct (matches_month name "" Hname) as [Hlen _].
    destruct name as [|c name]; [done|].
    change (String c name +:+ ?s) with (String c (name +:+ s)).
    apply lower_alpha_not_space.
    apply (lower_head_alpha c name _ Hname). by repeat constructor. }
  destruct (matches_month name (tail +:+ ws2 +:+ year +:+ post) Hname) as (_ & l4 & H4).
  destruct (matches_rep_head Py.isalpha_ascii 0 None tail (ws2 +:+ year +:+ post))
    as [l5 H5]; [done|lia|done| |].
  { right. apply (head_of_run Py.isspace); [done..|apply space_not_alpha]. }
  destruct (matches_rep_head Py.isspace 1 None ws2 (year +:+ post))
    as [l6 H6]; [done|destruct ws2; [done|simpl; lia]|done| |].
  { right. apply (head_of_run Py.isdigit);
      [intros ->; simpl in Hyear; lia|done|apply digit_not_space]. }
  destruct (matches_rep_head Py.isdigit 4 (Some 4) year post)
    as [l7 H7]; [done|lia|simpl; lia|left; by rewrite Hyear|].
  unfold Service.pattern_day_month_year, Re.cats. cbn [foldr]. unfold Re.digits in *.
  destruct (matches_cat_head _ Re.Eps _ _ 0 _ [] H7 eq_refl) as [k7 G7].
  destruct (matches_cat_head _ _ _ _ _ _ _ H6 G7) as [k6 G6].
  destruct (matches_cat_head _ _ _ _ _ _ _ H5 G6) as [k5 G5].
  destruct (matches_cat_head _ _ _ _ _ _ _ H4 G5) as [k4 G4].
  destruct (matches_cat_head _ _ _ _ _ _ _ H3 G4) as [k3 G3].
  destruct (matches_cat_head _ _ _ _ _ _ _ H2 G3) as [k2 G2].
  destruct (matches_cat_head _ _ _ _ _ _ _ H1 G2) as [k1 G1].
  eexists _, _. split; [exact G1|].
  by rewrite !take_app_add, take_zero, string_app_empty_r.
Qed.

(** Every pattern needs a digit. *)
Lemma matches_needs_digit pattern s :
  pattern ∈ [Service.pattern_dmy; Service.pattern_ymd; Service.pattern_day_month_year;
             Service.pattern_month_day_year] →
  (∀ c, c ∈ Py.chars s → Py.isdigit c = false) →
  Re.matches pattern s = [].
Proof.
  intros Hp Hno.
  assert (∀ n, match Py.drop n s with
               | String c _ => Py.isdigit c = false
               | "" => True
               end) as Hhead.
  { intros n. destruct (Py.drop n s) as [|c t] eqn:Hd; [done|]. apply Hno.
    apply (f_equal Py.chars) in Hd. rewrite chars_drop in Hd. simpl in Hd.
    apply (subseteq_drop n). rewrite Hd. by left. }
  assert (∀ lo hi n, 1 ≤ lo → Re.matches (Re.Rep Py.isdigit lo hi) (Py.drop n s) = [])
    as Hrep by (intros lo hi n Hlo; apply matches_rep_none; [done|apply Hhead]).
  assert (∀ n m, Py.drop n (Py.drop m s) = Py.drop (m + n) s) as Hdd.
  { intros n m. apply chars_inj. rewrite !chars_drop. by rewrite drop_drop. }
  assert (∀ r lo hi n, 1 ≤ lo →
            Re.matches (Re.Cat r (Re.Cat (Re.Rep Py.isdigit lo hi) Re.Eps)) (Py.drop n s) = [])
    as Hlast.
  { intros r lo hi n Hlo. apply matches_cat_none_r. intros m. rewrite Hdd.
    apply matches_cat_none_l. by apply Hrep. }
  repeat (apply elem_of_cons in Hp as [->|Hp]).
  - apply matches_cat_none_l. apply (Hrep 2 (Some 2) 0). lia.
  - apply matches_cat_none_l. apply (Hrep 4 (Some 4) 0). lia.
  - apply matches_cat_none_l. apply (Hrep 1 (Some 2) 0). lia.
  - unfold Service.pattern_month_day_year, Re.cats. cbn [foldr].
    apply matches_cat_none_r. intros n1. apply matches_cat_none_r. intros n2.
    apply matches_cat_none_r. intros n3. rewrite !Hdd.
    apply matches_cat_none_l. apply Hrep. lia.
  - by apply elem_of_nil in Hp.
Qed.

End month_form_facts.


Section date_search_facts.

Lemma has_date_form_app form s t :
  Service.has_date_form form s = true → Service.has_date_form form (s +:+ t) = true.
Proof.
  revert s. induction form as [|f form IH]; intros [|c s]; simpl; try done.
  intros [Hc Hs]%andb_true_iff. by rewrite Hc, IH.
Qed.

(** A pattern that finds one form of ten characters returns the leftmost
    place of the text that has the form. *)
Lemma search_date_form pattern form pre date post :
  (∀ s, Re.matches pattern s = if Service.has_date_form form s then [10] else []) →
  Py.len date = 10 → Service.has_date_form form date = true →
  (∀ i, i < Py.len pre →
     Service.has_date_form form (Py.drop i (pre +:+ date +:+ post)) = false) →
  Re.search pattern (pre +:+ date +:+ post) = Some date.
Proof.
  intros Hm Hlen Hform Hno.
  rewrite (search_found pattern pre (date +:+ post) 10 []).
  - by rewrite <- Hlen, <- (Nat.add_0_r (Py.len date)), take_app_add, take_zero,
      string_app_empty_r.
  - intros i Hi. by rewrite Hm, Hno.
  - by rewrite Hm, has_date_form_app.
Qed.

Lemma search_no_date_form pattern form text :
  (∀ s, Re.matches pattern s = if Service.has_date_form form s then [10] else []) →
  (∀ i, Service.has_date_form form (Py.drop i text) = false) →
  Re.search pattern text = None.
Proof. intros Hm Hno. apply search_none. intros i. by rewrite Hm, Hno. Qed.

End date_search_facts.

(** C6.  [extract_date_from_text] tries its patterns in the listed order:
    the form [DD/MM/YYYY] first, then [YYYY-MM-DD], then the forms with the
    name of a month, and returns the leftmost match of the first pattern
    that has one.  The first pattern finds two digits, a slash, two digits, a
    slash and four digits, and nothing else; the second four digits, a
    hyphen, two digits, a hyphen and two digits, and nothing else.  A text
    that contains [15/03/2024] with no [DD/MM/YYYY] form starting before it
    gives ["15/03/2024"], wherever [March 20, 2024] stands in it.  A text
    without any digit matches no pattern, and a text that no pattern matches
    gives today's date. *)
Theorem extract_date_priority `{Env} (text : string) :
  let all_of (p : ascii → bool) (s : string) := ∀ c, c ∈ Py.chars s → p c = true in
  let months :=
    ["jan"; "feb"; "mar"; "apr"; "may"; "jun"; "jul"; "aug"; "sep"; "oct"; "nov"; "dec"] in
  let no_form form := ∀ i, Service.has_date_form form (Py.drop i text) = false in
  App.extract_date_from_text text
  = match Re.search Service.pattern_dmy text with
    | Some m => m
    | None =>
        match Re.search Service.pattern_ymd text with
        | Some m => m
        | None =>
            match Re.search Service.pattern_month_day_year text with
            | Some m => m
            | None => today
            end
        end
    end
  ∧ Backend.extract_date_from_text text
    = match Re.search Service.pattern_dmy text with
      | Some m => m
      | None =>
          match Re.search Service.pattern_ymd text with
          | Some m => m
          | None =>
              match Re.search Service.pattern_day_month_year text with
              | Some m => m
              | None =>
                  match Re.search Service.pattern_month_day_year text with
                  | Some m => m
                  | None => today
                  end
              end
          end
      end
  ∧ (∀ s, Re.matches Service.pattern_dmy s
          = if Service.has_date_form "DD/MM/YYYY" s then [10] else [])
  ∧ (∀ s, Re.matches Service.pattern_ymd s
          = if Service.has_date_form "YYYY-MM-DD" s then [10] else [])
  ∧ (∀ pre date post,
       text = pre +:+ date +:+ post →
       Py.len date = 10 → Service.has_date_form "DD/MM/YYYY" date = true →
       (∀ i, i < Py.len pre → Service.has_date_form "DD/MM/YYYY" (Py.drop i text) = false) →
       App.extract_date_from_text text = date
       ∧ Backend.extract_date_from_text text = date)
  ∧ (∀ pre date post,
       text = pre +:+ date +:+ post →
       Py.len date = 10 → Service.has_date_form "YYYY-MM-DD" date = true →
       no_form "DD/MM/YYYY" →
       (∀ i, i < Py.len pre → Service.has_date_form "YYYY-MM-DD" (Py.drop i text) = false) →
       App.extract_date_from_text text = date
       ∧ Backend.extract_date_from_text text = date)
  ∧ (∀ pre name tail ws1 day comma ws2 year post,
       text = pre +:+ name +:+ tail +:+ ws1 +:+ day +:+ comma +:+ ws2 +:+ year +:+ post →
       Py.lower name ∈ months → all_of Py.isalpha_ascii tail →
       ws1 ≠ "" → all_of Py.isspace ws1 →
       1 ≤ Py.len day ≤ 2 → all_of Py.isdigit day →
       comma = "" ∨ comma = "," →
       ws2 ≠ "" → all_of Py.isspace ws2 →
       Py.len year = 4 → all_of Py.isdigit year →
       no_form "DD/MM/YYYY" → no_form "YYYY-MM-DD" →
       (∀ i, i < Py.len pre →
          Re.matches Service.pattern_month_day_year (Py.drop i text) = []) →
       App.extract_date_from_text text
       = name +:+ tail +:+ ws1 +:+ day +:+ comma +:+ ws2 +:+ year
       ∧ (Re.search Service.pattern_day_month_year text = None →
          Backend.extract_date_from_text text
          = name +:+ tail +:+ ws1 +:+ day +:+ comma +:+ ws2 +:+ year))
  ∧ (∀ pre day ending ws1 name tail ws2 year post,
       text = pre +:+ day +:+ ending +:+ ws1 +:+ name +:+ tail +:+ ws2 +:+ year +:+ post →
       1 ≤ Py.len day ≤ 2 → all_of Py.isdigit day →
       Py.lower ending ∈ [""; "st"; "nd"; "rd"; "th"] →
       ws1 ≠ "" → all_of Py.isspace ws1 →
       Py.lower name ∈ months → all_of Py.isalpha_ascii tail →
       ws2 ≠ "" → all_of Py.isspace ws2 →
       Py.len year = 4 → all_of Py.isdigit year →
       no_form "DD/MM/YYYY" → no_form "YYYY-MM-DD" →
       (∀ i, i < Py.len pre →
          Re.matches Service.pattern_day_month_year (Py.drop i text) = []) →
       Backend.extract_date_from_text text
       = day +:+ ending +:+ ws1 +:+ name +:+ tail +:+ ws2 +:+ year)
  ∧ (∀ pre post,
       text = pre +:+ "15/03/2024" +:+ post →
       (∀ i, i < Py.len pre → Service.has_date_form "DD/MM/YYYY" (Py.drop i text) = false) →
       App.extract_date_from_text text = "15/03/2024"
       ∧ Backend.extract_date_from_text text = "15/03/2024")
  ∧ ((∀ c, c ∈ Py.chars text → Py.isdigit c = false) →
     App.extract_date_from_text text = today
     ∧ Backend.extract_date_from_text text = today)
  ∧ App.extract_date_from_text "Exam on 15/03/2024, notice of March 20, 2024" = "15/03/2024"
  ∧ App.extract_date_from_text "Notice of March 20, 2024: exam on 15/03/2024" = "15/03/2024"
  ∧ Backend.extract_date_from_text "Notice of March 20, 2024: exam on 15/03/2024" = "15/03/2024"
  ∧ App.extract_date_from_text "Due March 20, 2024, issued 2024-03-15" = "2024-03-15"
  ∧ Backend.extract_date_from_text "Due 20th March 2024, issued 2024-03-15" = "2024-03-15"
  ∧ App.extract_date_from_text "Issued 2024-03-15 for 15/03/2024" = "15/03/2024"
  ∧ App.extract_date_from_text "Notice of March 20, 2024" = "March 20, 2024"
  ∧ Backend.extract_date_from_text "Notice of March 20, 2024" = "March 20, 2024"
  ∧ Backend.extract_date_from_text "Due March 20, 2024, exam on 5th April 2024"
    = "5th April 2024"
  ∧ App.extract_date_from_text "Due March 20, 2024, exam on 5th April 2024"
    = "March 20, 2024"
  ∧ App.extract_date_from_text "Library closed on Friday" = today
  ∧ Backend.extract_date_from_text "Library closed on Friday" = today.
Proof.
  intros all_of months no_form.
  assert (App.extract_date_from_text text
          = match Re.search Service.pattern_dmy text with
            | Some m => m
            | None =>
                match Re.search Service.pattern_ymd text with
                | Some m => m
                | None =>
                    match Re.search Service.pattern_month_day_year text with
                    | Some m => m
                    | None => today
                    end
                end
            end) as Happ.
  { unfold App.extract_date_from_text, App.patterns. cbn [Service.first_match].
    by repeat destruct (Re.search _ text). }
  assert (Backend.extract_date_from_text text
          = match Re.search Service.pattern_dmy text with
            | Some m => m
            | None =>
                match Re.search Service.pattern_ymd text with
                | Some m => m
                | None =>
                    match Re.search Service.pattern_day_month_year text with
                    | Some m => m
                    | None =>
                        match Re.search Service.pattern_month_day_year text with
                        | Some m => m
                        | None => today
                        end
                    end
                end
            end) as Hback.
  { unfold Backend.extract_date_from_text, Backend.patterns. cbn [Service.first_match].
    by repeat destruct (Re.search _ text). }
  assert (∀ pre date post,
            text = pre +:+ date +:+ post →
            Py.len date = 10 → Service.has_date_form "DD/MM/YYYY" date = true →
            (∀ i, i < Py.len pre →
               Service.has_date_form "DD/MM/YYYY" (Py.drop i text) = false) →
            App.extract_date_from_text text = date
            ∧ Backend.extract_date_from_text text = date) as Hdmy.
  { intros pre date post Htext Hlen Hform Hno. rewrite Happ, Hback. subst text.
    by rewrite (search_date_form _ _ _ _ _ matches_dmy Hlen Hform Hno). }
  split; [exact Happ|]. split; [exact Hback|].
  split; [exact matches_dmy|]. split; [exact matches_ymd|]. split; [exact Hdmy|].
  split; [|split; [|split; [|split; [|split]]]].
  - intros pre date post Htext Hlen Hform Hnone Hno. rewrite Happ, Hback.
    rewrite (search_no_date_form _ _ _ matches_dmy Hnone). subst text.
    by rewrite (search_date_form _ _ _ _ _ matches_ymd Hlen Hform Hno).
  - intros pre name tail ws1 day comma ws2 year post Htext Hname Htail Hws1 Hspace1
      Hday Hdigits Hcomma Hws2 Hspace2 Hyear Hydigits Hnodmy Hnoymd Hno.
    rewrite Happ, Hback.
    rewrite (search_no_date_form _ _ _ matches_dmy Hnodmy).
    rewrite (search_no_date_form _ _ _ matches_ymd Hnoymd).
    destruct (matches_month_day_year name tail ws1 day comma ws2 year post)
      as (n & l & Hm & Htake); try done.
    assert (Re.search Service.pattern_month_day_year text
            = Some (name +:+ tail +:+ ws1 +:+ day +:+ comma +:+ ws2 +:+ year)) as Hs.
    { rewrite <- Htake. subst text. by apply (search_found _ _ _ _ l). }
    rewrite Hs. split; [done|]. by intros ->.
  - intros pre day ending ws1 name tail ws2 year post Htext Hday Hdigits Hending Hws1
      Hspace1 Hname Htail Hws2 Hspace2 Hyear Hydigits Hnodmy Hnoymd Hno.
    rewrite Hback.
    rewrite (search_no_date_form _ _ _ matches_dmy Hnodmy).
    rewrite (search_no_date_form _ _ _ matches_ymd Hnoymd).
    destruct (matches_day_month_year day ending ws1 name tail ws2 year post)
      as (n & l & Hm & Htake); try done.
    assert (Re.search Service.pattern_day_month_year text
            = Some (day +:+ ending +:+ ws1 +:+ name +:+ tail +:+ ws2 +:+ year)) as Hs.
    { rewrite <- Htake. subst text. by apply (search_found _ _ _ _ l). }
    by rewrite Hs.
  - intros pre post Htext Hno. by apply (Hdmy pre "15/03/2024" post).
  - intros Hnodigit. rewrite Happ, Hback.
    assert (∀ pattern,
              pattern ∈ [Service.pattern_dmy; Service.pattern_ymd;
                         Service.pattern_day_month_year; Service.pattern_month_day_year] →
              Re.search pattern text = None) as Hnone.
    { intros pattern Hp. apply search_none. intros i.
      apply matches_needs_digit; [done|]. intros c Hc. apply Hnodigit.
      rewrite chars_drop in Hc. by apply (subseteq_drop i). }
    rewrite !Hnone; [done|rewrite !elem_of_cons; tauto..].
  - repeat split; reflexivity.
Qed.

(** ** The theorems at work on the concrete environment *)

(** A search over the two indexed files. *)
Lemma search_scores_ranked_bounded_witness :
  ∃ hits,
    @SemanticSearchEngine.search Demo.env "fee payment" 2 None
      (Service.collection Demo.world2)
    = (Ok hits, Service.collection Demo.world2)
    ∧ SemanticSearchEngine.id <$> hits = ["b_0_4e5f6a7b"; "a_0_0a1b2c3d"]
    ∧ (∀ i j hi hj, i ≤ j → hits !! i = Some hi → hits !! j = Some hj →
         (SemanticSearchEngine.relevance_score hj
          ≤ SemanticSearchEngine.relevance_score hi)%Qc)
    ∧ (Z.of_nat (length hits) ≤ 2)%Z.
Proof.
  assert (@SemanticSearchEngine.search Demo.env "fee payment" 2 None
            (Service.collection Demo.world2)
          = (Ok Demo.hits, Service.collection Demo.world2)) as Hs by reflexivity.
  exists Demo.hits. split; [exact Hs|]. split; [vm_compute; reflexivity|].
  exact (proj2 (search_scores_ranked_bounded (H:=Demo.env) "fee payment" 2 None
                  (Service.collection Demo.world2) Demo.hits _ Hs)).
Defined.

(** Two passes over one small document, with different random parts. *)
Lemma reindex_accumulates_witness :
  SemanticSearchEngine.chunk_text "Lab syllabus" ≠ []
  ∧ @SemanticSearchEngine.index_document Demo.env Demo.uuid_a "Lab syllabus" Demo.notes ∅
    = (Ok tt, Demo.pass1)
  ∧ @SemanticSearchEngine.index_document Demo.env Demo.uuid_b "Lab syllabus" Demo.notes
      Demo.pass1
    = (Ok tt, Demo.pass2)
  ∧ (∀ k e, Demo.pass1 !! k = Some e → Demo.pass2 !! k = Some e)
  ∧ ∃ n1 n2,
      SemanticSearchEngine.get_document_count Demo.pass1 = (Ok n1, Demo.pass1)
      ∧ SemanticSearchEngine.get_document_count Demo.pass2 = (Ok n2, Demo.pass2)
      ∧ n1 < n2.
Proof.
  assert (SemanticSearchEngine.chunk_text "Lab syllabus" ≠ []) as Hne by discriminate.
  assert (@SemanticSearchEngine.index_document Demo.env Demo.uuid_a "Lab syllabus"
            Demo.notes ∅ = (Ok tt, Demo.pass1)) as Hold by reflexivity.
  assert (@SemanticSearchEngine.index_document Demo.env Demo.uuid_b "Lab syllabus"
            Demo.notes Demo.pass1 = (Ok tt, Demo.pass2)) as Hnew by reflexivity.
  split; [exact Hne|]. split; [exact Hold|]. split; [exact Hnew|].
  destruct (reindex_accumulates (H:=Demo.env) Demo.uuid_a Demo.uuid_b "Lab syllabus"
              Demo.notes ∅ Demo.pass1 Demo.pass2 Hne Hold Hnew)
    as (title & n1 & n2 & Htitle & Hn1 & Hn2 & _ & _ & _ & _ & Hfresh & _).
  assert (title = "notes") as -> by (by injection Htitle).
  destruct Hfresh as (Hkeep & _ & _ & Hlt).
  { intros i Hi. destruct i as [|i]; [reflexivity|simpl in Hi; lia]. }
  split; [exact Hkeep|]. exists n1, n2. split; [exact Hn1|]. split; [exact Hn2|exact Hlt].
Defined.

(** Two files are processed and the first is deleted. *)
Lemma delete_after_index_witness :
  @App.process_file Demo.env Demo.uuid_a Demo.path_a Demo.world0 = (Ok true, Demo.world1)
  ∧ @App.process_file Demo.env Demo.uuid_b Demo.path_b Demo.world1 = (Ok true, Demo.world2)
  ∧ @print Demo.env "Deleting vectors for: http://localhost:8000/files/a.pdf" = Ok tt
  ∧ Service.name Demo.path_a ≠ Service.name Demo.path_b
  ∧ ∃ c3,
      @SemanticSearchEngine.delete_document Demo.env "a.pdf" (Service.collection Demo.world2)
      = (Ok tt, c3)
      ∧ (∀ query n filters hits c' h,
           SemanticSearchEngine.search query n filters c3 = (Ok hits, c') → h ∈ hits →
           SemanticSearchEngine.metadata h !! "source_url"
           ≠ Some "http://localhost:8000/files/a.pdf")
      ∧ (∃ n2 n3,
           SemanticSearchEngine.get_document_count (Service.collection Demo.world2)
           = (Ok n2, Service.collection Demo.world2)
           ∧ SemanticSearchEngine.get_document_count c3 = (Ok n3, c3)
           ∧ n3 + 1 = n2)
      ∧ SemanticSearchEngine.delete_document "a.pdf" c3 = (Ok tt, c3).
Proof.
  assert (@App.process_file Demo.env Demo.uuid_a Demo.path_a Demo.world0
          = (Ok true, Demo.world1)) as H1 by reflexivity.
  assert (@App.process_file Demo.env Demo.uuid_b Demo.path_b Demo.world1
          = (Ok true, Demo.world2)) as H2 by reflexivity.
  assert (@print Demo.env
            ("Deleting vectors for: "
             +:+ SemanticSearchEngine.target_url (Service.name Demo.path_a)) = Ok tt)
    as Hprint by reflexivity.
  assert (Service.name Demo.path_a ≠ Service.name Demo.path_b) as Hname by discriminate.
  assert (∀ k e, Service.collection Demo.world0 !! k = Some e →
            Chroma.metadata e !! "source_url"
            ≠ Some (SemanticSearchEngine.target_url (Service.name Demo.path_a))) as Hclean.
  { intros k e Hke. simpl in Hke. by rewrite lookup_empty in Hke. }
  assert (∀ i, Service.collection Demo.world0
                 !! (Service.stem Demo.path_a +:+ "_" +:+ pretty i +:+ "_" +:+ Demo.uuid_a i)
               = None) as HfreshA.
  { intros i. apply lookup_empty. }
  assert (∀ i, Service.collection Demo.world1
                 !! (Service.stem Demo.path_b +:+ "_" +:+ pretty i +:+ "_" +:+ Demo.uuid_b i)
               = None) as HfreshB.
  { intros i.
    destruct (Service.collection Demo.world1
                !! (Service.stem Demo.path_b +:+ "_" +:+ pretty i +:+ "_" +:+ Demo.uuid_b i))
      as [e|] eqn:Hlook; [|reflexivity].
    apply app_process_file_true in H1 as (d & text & _ & _ & Hne & Hidx & _).
    destruct (index_document_ok _ _ _ _ _ (chunk_text_nonempty _ Hne) Hidx)
      as (title & rs & Htitle & Hc1 & Hk & _).
    rewrite Hc1 in Hlook.
    destruct (decide ((Service.stem Demo.path_b +:+ "_" +:+ pretty i +:+ "_" +:+ Demo.uuid_b i)
                      ∈ rs.*1)) as [Hin|Hnotin].
    - rewrite Hk in Hin. apply list_elem_of_fmap in Hin as (j & Heq & _).
      injection Htitle as <-. discriminate Heq.
    - rewrite insert_rows_lookup_other in Hlook by exact Hnotin.
      simpl in Hlook. rewrite lookup_empty in Hlook. discriminate Hlook. }
  split; [exact H1|]. split; [exact H2|]. split; [exact Hprint|]. split; [exact Hname|].
  destruct (delete_after_index (H:=Demo.env) Demo.uuid_a Demo.uuid_b Demo.path_a Demo.path_b
              Demo.world0 Demo.world1 Demo.world2 H1 H2 Hprint Hname Hclean HfreshA HfreshB)
    as (d & text_a & c3 & Hd & Htext & _ & _ & Hdel & Hsearch & Hcount & Htwice).
  assert (text_a = "Exam schedule, 15/03/2024, issued March 20, 2024") as ->.
  { injection Hd as <-. by injection Htext. }
  exists c3. split; [exact Hdel|]. split; [exact Hsearch|]. split; [exact Hcount|exact Htwice].
Defined.

(** * Further properties of the code *)

(** ** More on the chunker *)

Section chunk_shape_facts.

Lemma chunk_text_lookup text i ch :
  SemanticSearchEngine.chunk_text text !! i = Some ch ↔
  i < (Py.len text + 449) / 450 ∧ ch = Py.slice text (450 * i) (450 * i + 500).
Proof.
  unfold SemanticSearchEngine.chunk_text, Py.range3. cbv zeta.
  rewrite <-list_fmap_compose, list_lookup_fmap_Some.
  replace (Py.len text - 0 + (500 - 50 - 1)) with (Py.len text + 449) by lia.
  change (500 - 50) with 450.
  split.
  - intros (k & -> & Hk). apply lookup_seq in Hk as [-> Hk].
    split; [done|]. unfold compose. f_equal; lia.
  - intros [Hi ->]. exists i. split; [unfold compose; f_equal; lia|].
    apply lookup_seq. split; [lia|done].
Qed.

Lemma chunk_count_bound n i : i < (n + 449) / 450 ↔ 450 * i < n.
Proof.
  split; intros Hi.
  - destruct (decide (450 * i < n)) as [|Hn]; [done|]. exfalso.
    assert ((n + 449) / 450 < S i); [|lia].
    apply Nat.Div0.div_lt_upper_bound. lia.
  - apply Nat.div_le_lower_bound; lia.
Qed.

Lemma len_take n s : Py.len (Py.take n s) = min n (Py.len s).
Proof. rewrite !len_chars, chars_take. apply length_take. Qed.

Lemma len_drop n s : Py.len (Py.drop n s) = Py.len s - n.
Proof. rewrite !len_chars, chars_drop. apply length_drop. Qed.

Lemma len_zero s : Py.len s = 0 → s = "".
Proof. by destruct s. Qed.

End chunk_shape_facts.

(** X1.  The number of chunks of a text is its length divided by 450,
    rounded up; chunk [i] is the window of at most 500 characters that starts
    at character [450 * i], which lies inside the text, so no chunk is empty:
    it has 500 characters, or as many as the text has left. *)
Theorem chunk_text_count_and_windows (text : string) :
  let chunks := SemanticSearchEngine.chunk_text text in
  length chunks = (Py.len text + 449) / 450 ∧
  (450 * (length chunks - 1) < Py.len text ∨ text = "") ∧
  Py.len text ≤ 450 * length chunks ∧
  ∀ i, i < length chunks →
    ∃ ch, chunks !! i = Some ch ∧
      ch = Py.slice text (450 * i) (450 * i + 500) ∧
      Py.len ch = min 500 (Py.len text - 450 * i) ∧
      ch ≠ "".
Proof.
  intros chunks.
  assert (length chunks = (Py.len text + 449) / 450) as Hlen.
  { rewrite <-(length_fmap Py.chars). subst chunks.
    rewrite chunk_text_chars. by rewrite length_fmap, length_seq. }
  split; [done|]. split; [|split].
  - destruct text as [|a text]; [by right|left].
    assert (length chunks - 1 < (Py.len (String a text) + 449) / 450); [|by apply chunk_count_bound].
    rewrite <-Hlen. assert (0 < length chunks); [|lia].
    rewrite Hlen. apply chunk_count_bound. simpl. lia.
  - destruct (decide (Py.len text ≤ 450 * length chunks)) as [|Hn]; [done|]. exfalso.
    assert (length chunks < (Py.len text + 449) / 450); [|lia].
    apply chunk_count_bound. lia.
  - intros i Hi. exists (Py.slice text (450 * i) (450 * i + 500)).
    rewrite Hlen in Hi.
    split; [by apply chunk_text_lookup|]. split; [done|].
    apply chunk_count_bound in Hi.
    assert (Py.len (Py.slice text (450 * i) (450 * i + 500))
            = min 500 (Py.len text - 450 * i)) as Hl.
    { unfold Py.slice. rewrite len_take, len_drop. f_equal. lia. }
    split; [done|]. intros Heq. rewrite Heq in Hl. change (Py.len "") with 0 in Hl. lia.
Qed.

(** X2.  Two consecutive chunks overlap by 50 characters: the earlier one is
    full (500 characters) and what it has beyond its first 450 is the
    beginning of the next one. *)
Theorem chunk_text_overlap (text : string) (i : nat) (a b : string) :
  SemanticSearchEngine.chunk_text text !! i = Some a →
  SemanticSearchEngine.chunk_text text !! S i = Some b →
  450 < Py.len a ∧ Py.drop 450 a = Py.take 50 b ∧
  (Py.len a = 500 ∨ Py.len b < 50).
Proof.
  intros [Hi ->]%chunk_text_lookup [Hj ->]%chunk_text_lookup.
  apply chunk_count_bound in Hi, Hj.
  unfold Py.slice.
  replace (450 * i + 500 - 450 * i) with 500 by lia.
  replace (450 * S i + 500 - 450 * S i) with 500 by lia.
  rewrite !len_take, !len_drop.
  split; [lia|]. split; [|lia].
  apply chars_inj. rewrite !chars_drop, !chars_take, !chars_drop.
  rewrite take_take. change (min 50 500) with 50.
  replace (450 * S i) with (450 * i + 450) by lia.
  rewrite <-drop_drop. generalize (drop (450 * i) (Py.chars text)). intros l.
  change 500 with (450 + 50). symmetry. apply take_drop_commute.
Qed.

(** ** Outcomes of [index_document] *)

Section index_outcome_facts.
Context `{Env}.

Lemma traverse_raise {A B} (f : A → result B) (l : list A) e :
  Py.traverse f l = Raise e → ∃ x, x ∈ l ∧ f x = Raise e.
Proof.
  induction l as [|x l IH]; simpl; [done|].
  destruct (f x) as [y|e'] eqn:Hx; simpl.
  - destruct (Py.traverse f l) as [ys|e'']; simpl; [done|].
    intros [= ->]. destruct IH as (x' & Hx' & Hf); [done|].
    exists x'. split; [by right|done].
  - intros [= ->]. exists x. split; [by left|done].
Qed.

Lemma traverse_ok_length {A B} (f : A → result B) (l : list A) ys :
  Py.traverse f l = Ok ys → length ys = length l.
Proof.
  revert ys. induction l as [|x l IH]; simpl; intros ys.
  - by intros [= <-].
  - destruct (f x) as [y|]; simpl; [|done].
    destruct (Py.traverse f l) as [ys'|]; simpl; [|done].
    intros [= <-]. simpl. by rewrite (IH ys').
Qed.

Lemma traverse_all_ok {A B} (f : A → result B) (l : list A) :
  (∀ x, x ∈ l → ∃ y, f x = Ok y) → ∃ ys, Py.traverse f l = Ok ys.
Proof.
  induction l as [|x l IH]; intros Hl; simpl; [eauto|].
  destruct (Hl x) as [y ->]; [by left|]. simpl.
  destruct IH as [ys ->]; [intros x' Hx'; apply Hl; by right|]. simpl. eauto.
Qed.

Lemma rows_same_length (ids : list string) (embeddings : list vec)
    (documents : list string) (metadatas : list (gmap string string)) :
  length embeddings = length ids → length documents = length ids →
  length metadatas = length ids →
  ∃ rs, Chroma.rows ids embeddings documents metadatas = Ok rs.
Proof.
  revert embeddings documents metadatas.
  induction ids as [|i ids IH]; intros [|e es] [|d ds] [|m ms]; simpl; try done; [eauto|].
  intros [=] [=] [=]. destruct (IH es ds ms) as [rs ->]; try done. simpl. eauto.
Qed.

Lemma traverse_ok_all {A B} (f : A → result B) (l : list A) ys :
  Py.traverse f l = Ok ys → ∀ x, x ∈ l → ∃ y, f x = Ok y.
Proof.
  revert ys. induction l as [|a l IH]; intros ys Hys x Hx; [by apply elem_of_nil in Hx|].
  simpl in Hys. destruct (f a) as [v|] eqn:Ha; [|done]. simpl in Hys.
  destruct (Py.traverse f l) as [vs|]; [|done].
  apply elem_of_cons in Hx as [->|Hx]; eauto.
Qed.

(** [index_document] step by step. *)
Lemma index_document_unfold uuid8 text md c :
  SemanticSearchEngine.index_document uuid8 text md c =
  let chunks := SemanticSearchEngine.chunk_text text in
  match chunks with
  | [] => (Ok tt, c)
  | _ :: _ =>
      match Py.traverse encode chunks with
      | Raise e => (Raise e, c)
      | Ok embeddings =>
          match Py.traverse (SemanticSearchEngine.chunk_id uuid8 md)
                  (Py.range (length chunks)) with
          | Raise e => (Raise e, c)
          | Ok ids =>
              match Chroma.rows ids embeddings chunks
                      ((λ _, md) <$> Py.range (length chunks)) with
              | Raise e => (Raise e, c)
              | Ok rs =>
                  (let? title := Py.getitem md "title" in
                   print ("Indexed " +:+ pretty (length chunks) +:+ " chunks for " +:+ title),
                   Chroma.insert_rows rs c)
              end
          end
      end
  end.
Proof.
  unfold SemanticSearchEngine.index_document. cbv zeta.
  destruct (SemanticSearchEngine.chunk_text text) as [|ch chs] eqn:Hch.
  - by rewrite bool_decide_eq_true_2.
  - rewrite bool_decide_eq_false_2 by done.
    unfold Py.bind, Py.lift, Chroma.upsert, Py.bind, Py.lift, Py.get, Py.put.
    destruct (Py.traverse encode (ch :: chs)) as [embs|]; [|done].
    destruct (Py.traverse _ (Py.range _)) as [ids|]; [|done].
    destruct (Chroma.rows _ _ _ _); [|done].
    by destruct (Py.getitem md "title").
Qed.

Lemma chunk_ids_raise uuid8 md n e :
  Py.traverse (SemanticSearchEngine.chunk_id uuid8 md) (Py.range n) = Raise e →
  md !! "title" = None ∧ e = KeyError "title".
Proof.
  intros (i & _ & Hi)%traverse_raise.
  unfold SemanticSearchEngine.chunk_id, Py.getitem in Hi.
  destruct (md !! "title"); simpl in Hi; [done|]. by injection Hi as <-.
Qed.

(** The rows of one pass, once they are in the collection. *)
Lemma insert_rows_stored title uuid8 (chunks : list string) (md : gmap string string)
    (rs : list (string * Chroma.Entry)) (c : gmap string Chroma.Entry) i ch :
  rs.*1 = (λ i, title +:+ "_" +:+ pretty i +:+ "_" +:+ uuid8 i) <$> seq 0 (length chunks) →
  (Chroma.document ∘ snd) <$> rs = chunks →
  Forall (λ r, Chroma.metadata r.2 = md) rs →
  chunks !! i = Some ch →
  ∃ e, Chroma.insert_rows rs c !! (title +:+ "_" +:+ pretty i +:+ "_" +:+ uuid8 i) = Some e
       ∧ Chroma.document e = ch ∧ Chroma.metadata e = md.
Proof.
  intros Hk Hd Hm Hch.
  rewrite <- Hd in Hch. apply list_lookup_fmap_Some in Hch as ([k e] & -> & Hr).
  exists e. simpl. split; [|split; [done|]].
  - assert (rs.*1 !! i = Some k) as Hki by (by rewrite list_lookup_fmap, Hr).
    rewrite Hk, list_lookup_fmap in Hki.
    assert (seq 0 (length chunks) !! i = Some i) as Hseq.
    { apply lookup_seq. split; [done|]. apply lookup_lt_Some in Hr.
      rewrite <- Hd, length_fmap. done. }
    rewrite Hseq in Hki. simpl in Hki. injection Hki as <-.
    apply insert_rows_lookup.
    + rewrite Hk. apply chunk_ids_NoDup.
    + by eapply list_elem_of_lookup_2.
  - rewrite Forall_forall in Hm. apply (Hm (k, e)). by eapply list_elem_of_lookup_2.
Qed.

(** The three ways a call of [index_document] can go: no chunk, and nothing
    is done; an exception before the [upsert]; or the [upsert] of all the
    chunks, after which the call returns or raises as the [print] of its
    last line does. *)
Lemma index_document_cases uuid8 text md c :
  let chunks := SemanticSearchEngine.chunk_text text in
  (chunks = [] ∧ SemanticSearchEngine.index_document uuid8 text md c = (Ok tt, c))
  ∨ (chunks ≠ []
     ∧ ∃ e, SemanticSearchEngine.index_document uuid8 text md c = (Raise e, c)
            ∧ ((∃ ch, ch ∈ chunks ∧ encode ch = Raise e)
               ∨ ((∀ ch, ch ∈ chunks → ∃ v, encode ch = Ok v)
                  ∧ md !! "title" = None ∧ e = KeyError "title")))
  ∨ (chunks ≠ []
     ∧ ∃ title rs,
         md !! "title" = Some title
         ∧ (∀ ch, ch ∈ chunks → ∃ v, encode ch = Ok v)
         ∧ SemanticSearchEngine.index_document uuid8 text md c
           = (print ("Indexed " +:+ pretty (length chunks) +:+ " chunks for " +:+ title),
              Chroma.insert_rows rs c)
         ∧ rs.*1 = (λ i, title +:+ "_" +:+ pretty i +:+ "_" +:+ uuid8 i)
                     <$> seq 0 (length chunks)
         ∧ (Chroma.document ∘ snd) <$> rs = chunks
         ∧ Forall (λ r, Chroma.metadata r.2 = md) rs).
Proof.
  intros chunks. rewrite index_document_unfold. cbv zeta. fold chunks.
  destruct chunks as [|ch chs] eqn:Hch; [by left|]. right.
  destruct (Py.traverse encode (ch :: chs)) as [embs|e1] eqn:Hembs.
  - assert (∀ x, x ∈ ch :: chs → ∃ v, encode x = Ok v) as Henc.
    { clear -Hembs. revert embs Hembs. generalize (ch :: chs).
      intros l. induction l as [|y l IH]; intros embs Hembs x Hx; [by inversion Hx|].
      simpl in Hembs. destruct (encode y) as [v|] eqn:Hy; [|done]. simpl in Hembs.
      destruct (Py.traverse encode l) as [vs|]; [|done].
      inversion Hx; subst; eauto. }
    destruct (Py.traverse _ (Py.range _)) as [ids|e2] eqn:Hids.
    + destruct (rows_same_length ids embs (ch :: chs)
                  ((λ _, md) <$> Py.range (length (ch :: chs)))) as [rs Hrs].
      * apply traverse_ok_length in Hembs, Hids.
        unfold Py.range in Hids. rewrite length_seq in Hids. congruence.
      * apply traverse_ok_length in Hids.
        unfold Py.range in Hids. rewrite length_seq in Hids. congruence.
      * apply traverse_ok_length in Hids. unfold Py.range in *.
        rewrite length_fmap. congruence.
      * rewrite Hrs. right. split; [done|].
        assert (∃ title, md !! "title" = Some title) as [title Htitle].
        { unfold Py.range in Hids. simpl in Hids.
          unfold SemanticSearchEngine.chunk_id at 1 in Hids.
          unfold Py.getitem in Hids. destruct (md !! "title"); [eauto|done]. }
        exists title, rs. split; [done|]. split; [done|].
        unfold Py.getitem. rewrite Htitle. split; [done|].
        apply rows_ok in Hrs as (Hk & Hd & Hm). split; [|split; [done|]].
        -- rewrite Hk. unfold Py.range in Hids.
           erewrite traverse_ok_fmap in Hids; [by injection Hids as <-|].
           intros i _. unfold SemanticSearchEngine.chunk_id, Py.getitem. by rewrite Htitle.
        -- apply Forall_forall. intros r Hr.
           assert (Chroma.metadata r.2 ∈ (Chroma.metadata ∘ snd) <$> rs) as Hin.
           { apply list_elem_of_fmap. by exists r. }
           rewrite Hm in Hin. apply list_elem_of_fmap in Hin as (? & -> & _). done.
    + left. split; [done|]. exists e2. split; [done|]. right.
      apply chunk_ids_raise in Hids as [? ?]. done.
  - left. split; [done|]. exists e1. split; [done|]. left.
    by apply traverse_raise in Hembs.
Qed.

End index_outcome_facts.

(** X3.  [index_document] writes all the chunks or none, but an exception
    does not tell which.  When the encoder raises on a chunk, the call
    raises; when the metadata has no ["title"], it raises a [KeyError]; in
    both cases the collection is as it was.  Otherwise every chunk is stored
    under its id, and then the call returns or raises as the [print] of its
    last line does: a call that raised there has stored every chunk. *)
Theorem index_document_all_or_nothing `{Env} (uuid8 : nat → string) (text : string)
    (md : gmap string string) (c : gmap string Chroma.Entry) :
  let chunks := SemanticSearchEngine.chunk_text text in
  let line title := "Indexed " +:+ pretty (length chunks) +:+ " chunks for " +:+ title in
  let chunk_id title i := title +:+ "_" +:+ pretty i +:+ "_" +:+ uuid8 i in
  let stored (c' : gmap string Chroma.Entry) title :=
    (∀ i ch, chunks !! i = Some ch →
       ∃ e, c' !! chunk_id title i = Some e
            ∧ Chroma.document e = ch ∧ Chroma.metadata e = md)
    ∧ (∀ k, (∀ i, i < length chunks → k ≠ chunk_id title i) → c' !! k = c !! k) in
  (∀ e c', SemanticSearchEngine.index_document uuid8 text md c = (Raise e, c') →
     text ≠ ""
     ∧ (c' = c ∧ ((∃ ch, ch ∈ chunks ∧ encode ch = Raise e)
                  ∨ (md !! "title" = None ∧ e = KeyError "title"))
        ∨ ∃ title, md !! "title" = Some title ∧ print (line title) = Raise e
                   ∧ stored c' title))
  ∧ (∀ c', SemanticSearchEngine.index_document uuid8 text md c = (Ok tt, c') →
       text = "" ∧ c' = c
       ∨ ∃ title, md !! "title" = Some title ∧ print (line title) = Ok tt ∧ stored c' title)
  ∧ (text ≠ "" → md !! "title" = None →
     (∀ ch, ch ∈ chunks → ∃ v, encode ch = Ok v) →
     SemanticSearchEngine.index_document uuid8 text md c = (Raise (KeyError "title"), c))
  ∧ (∀ ch e, ch ∈ chunks → encode ch = Raise e →
     ∃ ch' e', ch' ∈ chunks ∧ encode ch' = Raise e'
               ∧ SemanticSearchEngine.index_document uuid8 text md c = (Raise e', c))
  ∧ (∀ title, text ≠ "" → md !! "title" = Some title →
     (∀ ch, ch ∈ chunks → ∃ v, encode ch = Ok v) →
     ∃ c', SemanticSearchEngine.index_document uuid8 text md c = (print (line title), c')
           ∧ stored c' title).
Proof.
  intros chunks line chunk_id stored.
  assert (text = "" → chunks = []) as Hempty by (by intros ->).
  assert (chunks ≠ [] → text ≠ "") as Htext by (intros Hne ->; by apply Hne).
  assert (∀ title rs,
            rs.*1 = chunk_id title <$> seq 0 (length chunks) →
            (Chroma.document ∘ snd) <$> rs = chunks →
            Forall (λ r, Chroma.metadata r.2 = md) rs →
            stored (Chroma.insert_rows rs c) title) as Hstored.
  { intros title rs Hk Hd Hm. split.
    - intros i ch Hch. by eapply insert_rows_stored.
    - intros k Hk'. apply insert_rows_lookup_other. rewrite Hk.
      intros (i & -> & Hi%elem_of_seq)%list_elem_of_fmap. apply (Hk' i); [lia|done]. }
  assert (∀ ch e, ch ∈ chunks → encode ch = Raise e →
            ∃ ch' e', ch' ∈ chunks ∧ encode ch' = Raise e'
                      ∧ SemanticSearchEngine.index_document uuid8 text md c = (Raise e', c))
    as Hany.
  { intros ch e Hch Hraise. rewrite index_document_unfold. cbv zeta. fold chunks.
    destruct (Py.traverse encode chunks) as [embs|e'] eqn:Hembs.
    - destruct (traverse_ok_all _ _ _ Hembs ch Hch) as [v Hv]. congruence.
    - destruct (traverse_raise _ _ _ Hembs) as (ch' & Hch' & Hraise').
      exists ch', e'. split; [done|]. split; [done|].
      destruct chunks; [by apply elem_of_nil in Hch|done]. }
  cut ((∀ e c', SemanticSearchEngine.index_document uuid8 text md c = (Raise e, c') →
          text ≠ ""
          ∧ (c' = c ∧ ((∃ ch, ch ∈ chunks ∧ encode ch = Raise e)
                       ∨ (md !! "title" = None ∧ e = KeyError "title"))
             ∨ ∃ title, md !! "title" = Some title ∧ print (line title) = Raise e
                        ∧ stored c' title))
       ∧ (∀ c', SemanticSearchEngine.index_document uuid8 text md c = (Ok tt, c') →
            text = "" ∧ c' = c
            ∨ ∃ title, md !! "title" = Some title ∧ print (line title) = Ok tt
                       ∧ stored c' title)
       ∧ (text ≠ "" → md !! "title" = None →
          (∀ ch, ch ∈ chunks → ∃ v, encode ch = Ok v) →
          SemanticSearchEngine.index_document uuid8 text md c = (Raise (KeyError "title"), c))
       ∧ (∀ ch e, chunks !! 0 = Some ch → encode ch = Raise e →
          SemanticSearchEngine.index_document uuid8 text md c = (Raise e, c))
       ∧ (∀ title, text ≠ "" → md !! "title" = Some title →
          (∀ ch, ch ∈ chunks → ∃ v, encode ch = Ok v) →
          ∃ c', SemanticSearchEngine.index_document uuid8 text md c = (print (line title), c')
                ∧ stored c' title)).
  { intros (H1 & H2 & H3 & _ & H5).
    split; [exact H1|]. split; [exact H2|]. split; [exact H3|].
    split; [exact Hany|exact H5]. }
  clear Hany.
  destruct (index_document_cases uuid8 text md c)
    as [[Hnil Hrun]|[(Hne & e0 & Hrun & Hwhy)|(Hne & title & rs & Htitle & Henc & Hrun & Hk & Hd & Hm)]];
    fold chunks in Hnil || fold chunks in Hne.
  - split; [intros e c'; by rewrite Hrun|]. split; [|split; [|split]].
    + intros c'. rewrite Hrun. intros [= <-]. left. split; [|done].
      destruct (decide (text = "")) as [|Hn]; [done|].
      by apply chunk_text_nonempty in Hn.
    + intros Hn. by apply chunk_text_nonempty in Hn.
    + intros ch e Hch. fold chunks in Hch. by rewrite Hnil in Hch.
    + intros title Hn. by apply chunk_text_nonempty in Hn.
  - split; [|split; [|split; [|split]]].
    + intros e c'. rewrite Hrun. intros [= <- <-]. split; [by apply Htext|]. left.
      split; [done|]. destruct Hwhy as [Hwhy|(_ & ? & ?)]; [by left|by right].
    + intros c'. by rewrite Hrun.
    + intros _ Hno Henc. destruct Hwhy as [(ch & Hch & Hraise)|(_ & _ & ->)]; [|done].
      destruct (Henc ch Hch) as [v Hv]. congruence.
    + intros ch e Hch Hraise. rewrite index_document_unfold. cbv zeta.
      fold chunks. fold chunks in Hch. destruct chunks as [|ch' chs]; [done|].
      injection Hch as ->. simpl. by rewrite Hraise.
    + intros title _ Htitle Henc.
      destruct Hwhy as [(ch & Hch & Hraise)|(_ & Hno & _)]; [|congruence].
      destruct (Henc ch Hch) as [v Hv]. congruence.
  - fold chunks in Hrun, Hk, Hd, Henc. fold (line title) in Hrun.
    split; [|split; [|split; [|split]]].
    + intros e c'. rewrite Hrun. intros [= Hp <-]. split; [by apply Htext|]. right.
      exists title. split; [done|]. split; [done|]. by apply Hstored.
    + intros c'. rewrite Hrun. intros [= Hp <-]. right.
      exists title. split; [done|]. split; [done|]. by apply Hstored.
    + intros _ Hno. congruence.
    + intros ch e Hch Hraise. destruct (Henc ch) as [v Hv]; [|congruence].
      by eapply list_elem_of_lookup_2.
    + intros title' _ Htitle' _. assert (title' = title) as -> by congruence.
      eexists. split; [exact Hrun|]. by apply Hstored.
Qed.

(** ** What the collection holds *)

Section collection_facts.
Context `{Env}.

Lemma chunk_text_elem_len text ch :
  ch ∈ SemanticSearchEngine.chunk_text text → 1 ≤ Py.len ch ≤ 500.
Proof.
  intros [i [Hi ->]%chunk_text_lookup]%list_elem_of_lookup.
  apply chunk_count_bound in Hi.
  unfold Py.slice. rewrite len_take, len_drop. lia.
Qed.

Lemma insert_rows_lookup_Some rs (c : gmap string Chroma.Entry) k e :
  Chroma.insert_rows rs c !! k = Some e → (k, e) ∈ rs ∨ c !! k = Some e.
Proof.
  revert c. induction rs as [|r rs IH]; intros c; [by right|].
  rewrite insert_rows_cons. intros [Hin|Hc]%IH.
  - left. by right.
  - apply lookup_insert_Some in Hc as [[<- <-]|[_ Hc]]; [|by right].
    left. destruct r. by left.
Qed.

(** What [index_document] wrote, whether it returned or raised: each row is
    a chunk of the text under the id made of the title, its number and the
    random part. *)
Lemma index_document_rows uuid8 text md c r c' k e :
  SemanticSearchEngine.index_document uuid8 text md c = (r, c') →
  c' !! k = Some e →
  c !! k = Some e
  ∨ ∃ title i ch,
      md !! "title" = Some title
      ∧ SemanticSearchEngine.chunk_text text !! i = Some ch
      ∧ k = title +:+ "_" +:+ pretty i +:+ "_" +:+ uuid8 i
      ∧ Chroma.document e = ch ∧ Chroma.metadata e = md.
Proof.
  intros Hrun Hk.
  destruct (index_document_cases uuid8 text md c)
    as [[_ Hrun']|[(_ & e0 & Hrun' & _)|(_ & title & rs & Htitle & _ & Hrun' & Hids & Hdocs & Hmd)]];
    rewrite Hrun' in Hrun; injection Hrun as _ <-; [by left..|].
  apply insert_rows_lookup_Some in Hk as [Hin|Hc]; [right|by left].
  apply list_elem_of_lookup in Hin as [i Hi].
  assert (rs.*1 !! i = Some k) as Hki by (by rewrite list_lookup_fmap, Hi).
  assert (((Chroma.document ∘ snd) <$> rs) !! i = Some (Chroma.document e)) as Hdi
    by (by rewrite list_lookup_fmap, Hi).
  rewrite Hids in Hki. rewrite Hdocs in Hdi.
  apply list_lookup_fmap_Some in Hki as (j & -> & Hj).
  apply lookup_seq in Hj as [-> _].
  exists title, i, (Chroma.document e). repeat split; try done.
  rewrite Forall_forall in Hmd.
  apply list_elem_of_lookup_2 in Hi. by apply Hmd in Hi.
Qed.

End collection_facts.

(** X4.  Whatever calls of [index_document] and [delete_document] are made
    on an empty collection, in any order and whether they raise or not,
    every entry the collection then holds is a chunk of 1 to 500 characters,
    its metadata has a ["title"], and its id is that title, an underscore, a
    chunk number, an underscore and a random part. *)
Theorem collection_entries_well_formed `{Env} (ks : list Client.call)
    (k : string) (e : Chroma.Entry) :
  Client.run_calls ks ∅ !! k = Some e →
  1 ≤ Py.len (Chroma.document e) ≤ 500
  ∧ ∃ title (i : nat) u,
      Chroma.metadata e !! "title" = Some title
      ∧ k = title +:+ "_" +:+ pretty i +:+ "_" +:+ u.
Proof.
  set (good := λ (k : string) (e : Chroma.Entry),
         1 ≤ Py.len (Chroma.document e) ≤ 500
         ∧ ∃ title (i : nat) u,
             Chroma.metadata e !! "title" = Some title
             ∧ k = title +:+ "_" +:+ pretty i +:+ "_" +:+ u).
  assert (∀ c, map_Forall good c → map_Forall good (Client.run_calls ks c)) as Hinv.
  { induction ks as [|[uuid8 text md|filename] ks IH]; intros c Hc; [done|..];
      cbn [Client.run_calls Client.run_call]; apply IH.
    - destruct (SemanticSearchEngine.index_document uuid8 text md c) as [r c'] eqn:Hrun.
      intros k' e' Hk'. simpl in Hk'.
      destruct (index_document_rows _ _ _ _ _ _ _ _ Hrun Hk')
        as [Hold|(title & i & ch & Htitle & Hch & -> & Hdoc & Hmd)]; [by apply Hc|].
      split.
      + rewrite Hdoc. apply (chunk_text_elem_len text).
        by apply list_elem_of_lookup_2 in Hch.
      + exists title, i, (uuid8 i). by rewrite Hmd.
    - rewrite delete_document_unfold. destruct (print _); simpl; [|done].
      intros k' e' [Hk' _]%map_lookup_filter_Some. by apply Hc. }
  intros Hk. apply (Hinv ∅ (map_Forall_empty _) k e Hk).
Qed.

Section delete_frame_facts.
Context `{Env}.

Lemma target_url_inj a b :
  SemanticSearchEngine.target_url a = SemanticSearchEngine.target_url b → a = b.
Proof. unfold SemanticSearchEngine.target_url. intros Heq. by simplify_eq. Qed.

Lemma delete_document_lookup filename c c' k e :
  SemanticSearchEngine.delete_document filename c = (Ok tt, c') →
  c' !! k = Some e ↔
  c !! k = Some e
  ∧ Chroma.metadata e !! "source_url" ≠ Some (SemanticSearchEngine.target_url filename).
Proof.
  rewrite delete_document_unfold. destruct (print _); [|done]. intros [= <-].
  rewrite map_lookup_filter_Some. simpl. by rewrite where_source_url.
Qed.

Lemma delete_document_outcome filename c :
  print ("Deleting vectors for: " +:+ SemanticSearchEngine.target_url filename) = Ok tt
  ∧ (∃ c', SemanticSearchEngine.delete_document filename c = (Ok tt, c'))
  ∨ ∃ e, print ("Deleting vectors for: " +:+ SemanticSearchEngine.target_url filename)
         = Raise e
         ∧ SemanticSearchEngine.delete_document filename c = (Raise e, c).
Proof.
  rewrite delete_document_unfold. destruct (print _) as [[]|e]; [left|right]; eauto.
Qed.

End delete_frame_facts.

(** X5.  [delete_document] prints a line and then deletes.  When the line
    cannot be printed the call raises and nothing is deleted.  Otherwise it
    returns, and it has removed exactly the entries whose ["source_url"] is
    the locator made from the file name: every other entry stays as it was
    (so the chunks of a file with another name stay), nothing is added, a
    name that no entry carries changes nothing, and two deletions that
    return give the same collection in either order. *)
Theorem delete_document_removes_exactly `{Env} (filename : string)
    (c : gmap string Chroma.Entry) :
  let line name := "Deleting vectors for: http://localhost:8000/files/" +:+ name in
  (∀ e, print (line filename) = Raise e →
     SemanticSearchEngine.delete_document filename c = (Raise e, c))
  ∧ (print (line filename) = Ok tt →
     ∃ c', SemanticSearchEngine.delete_document filename c = (Ok tt, c')
       ∧ (∀ k e, c' !! k = Some e ↔
            c !! k = Some e
            ∧ Chroma.metadata e !! "source_url"
              ≠ Some ("http://localhost:8000/files/" +:+ filename))
       ∧ (∀ other k e, other ≠ filename → c !! k = Some e →
            Chroma.metadata e !! "source_url"
              = Some ("http://localhost:8000/files/" +:+ other) →
            c' !! k = Some e)
       ∧ c' ⊆ c
       ∧ ((∀ k e, c !! k = Some e →
             Chroma.metadata e !! "source_url"
               ≠ Some ("http://localhost:8000/files/" +:+ filename)) → c' = c)
       ∧ ∀ other, print (line other) = Ok tt →
           ∃ c1 c2,
             SemanticSearchEngine.delete_document other c = (Ok tt, c1)
             ∧ SemanticSearchEngine.delete_document filename c1 = (Ok tt, c2)
             ∧ SemanticSearchEngine.delete_document other c' = (Ok tt, c2)).
Proof.
  intros line.
  assert (∀ name c0,
            print (line name) = Ok tt →
            ∃ c1, SemanticSearchEngine.delete_document name c0 = (Ok tt, c1)) as Hret.
  { intros name c0 Hp. rewrite delete_document_unfold.
    change (print ("Deleting vectors for: " +:+ SemanticSearchEngine.target_url name))
      with (print (line name)). rewrite Hp. eauto. }
  split.
  { intros e Hp. rewrite delete_document_unfold.
    change (print ("Deleting vectors for: " +:+ SemanticSearchEngine.target_url filename))
      with (print (line filename)). by rewrite Hp. }
  intros Hp. destruct (Hret filename c Hp) as [c' Hrun]. exists c'.
  split; [done|]. split; [intros k e; apply (delete_document_lookup _ _ _ _ _ Hrun)|].
  split; [|split; [|split]].
  - intros other k e Hne Hk Hurl. apply (delete_document_lookup _ _ _ _ _ Hrun).
    split; [done|].
    rewrite Hurl. intros Heq. apply Hne, target_url_inj.
    change (Some (SemanticSearchEngine.target_url other)
            = Some (SemanticSearchEngine.target_url filename)) in Heq.
    by injection Heq.
  - apply map_subseteq_spec. intros k e Hk.
    by apply (delete_document_lookup _ _ _ _ _ Hrun) in Hk as [? _].
  - intros Hnone. apply map_eq. intros k. apply option_eq. intros e.
    rewrite (delete_document_lookup _ _ _ _ _ Hrun). split; [by intros [? _]|].
    intros Hk. split; [done|]. by apply (Hnone k).
  - intros other Hpo.
    destruct (Hret other c Hpo) as [c1 Hrun1].
    destruct (Hret filename c1 Hp) as [c2 Hrun2].
    destruct (Hret other c' Hpo) as [c3 Hrun3].
    exists c1, c2. split; [done|]. split; [done|].
    rewrite Hrun3. do 2 f_equal.
    apply map_eq. intros k. apply option_eq. intros e.
    rewrite (delete_document_lookup _ _ _ _ _ Hrun3), (delete_document_lookup _ _ _ _ _ Hrun),
      (delete_document_lookup _ _ _ _ _ Hrun2), (delete_document_lookup _ _ _ _ _ Hrun1).
    tauto.
Qed.

(** ** Indexing a file and deleting it again *)

Section round_trip_facts.
Context `{Env}.

Lemma index_then_delete uuid8 text md c c1 filename :
  SemanticSearchEngine.index_document uuid8 text md c = (Ok tt, c1) →
  md !! "source_url" = Some (SemanticSearchEngine.target_url filename) →
  (∀ k e, c !! k = Some e →
     Chroma.metadata e !! "source_url" ≠ Some (SemanticSearchEngine.target_url filename)) →
  (∀ title i, md !! "title" = Some title →
     c !! (title +:+ "_" +:+ pretty i +:+ "_" +:+ uuid8 i) = None) →
  print ("Deleting vectors for: " +:+ SemanticSearchEngine.target_url filename) = Ok tt →
  SemanticSearchEngine.delete_document filename c1 = (Ok tt, c).
Proof.
  intros Hrun Hurl Hclean Hfresh Hprint. rewrite delete_document_unfold, Hprint. f_equal.
  set (P := λ r : string * Chroma.Entry,
         ¬ Chroma.where_matches
             {[ "source_url" := SemanticSearchEngine.target_url filename ]} r.2).
  assert (filter P c = c) as HP0.
  { apply map_filter_id. intros k e Hke HP. apply where_source_url in HP.
    by apply (Hclean k e). }
  destruct (decide (SemanticSearchEngine.chunk_text text = [])) as [Hnil|Hne].
  { rewrite index_document_no_chunks in Hrun by done. by injection Hrun as <-. }
  apply index_document_ok in Hrun as (title & rs & Htitle & -> & Hids & _ & Hmd); [|done].
  rewrite insert_rows_filter_drop; [done| |].
  - eapply Forall_impl; [exact Hmd|]. intros [k e] Hm HP. apply HP.
    apply where_source_url. simpl in *. by rewrite Hm.
  - intros k Hk. rewrite Hids in Hk. apply list_elem_of_fmap in Hk as (i & -> & _).
    by apply Hfresh.
Qed.

End round_trip_facts.

(** X6.  Indexing a file and then deleting it by its name gives back the
    collection as it was, in [app.py] and in [backend_main.py], when no
    entry carried the file's locator before, the ids drawn for the chunks
    were not in use, and the line that [delete_document] prints first can be
    printed. *)
Theorem process_file_then_delete_restores `{Env} (uuid8 : nat → string)
    (p : Service.Path) (w w1 : Service.World) :
  (∀ k e, Service.collection w !! k = Some e →
     Chroma.metadata e !! "source_url"
       ≠ Some ("http://localhost:8000/files/" +:+ Service.name p)) →
  (∀ i, Service.collection w
          !! (Service.stem p +:+ "_" +:+ pretty i +:+ "_" +:+ uuid8 i) = None) →
  print ("Deleting vectors for: http://localhost:8000/files/" +:+ Service.name p) = Ok tt →
  (App.process_file uuid8 p w = (Ok true, w1) →
   SemanticSearchEngine.delete_document (Service.name p) (Service.collection w1)
   = (Ok tt, Service.collection w))
  ∧ (Backend.process_file uuid8 p w = (Ok true, w1) →
     SemanticSearchEngine.delete_document (Service.name p) (Service.collection w1)
     = (Ok tt, Service.collection w)).
Proof.
  intros Hclean Hfresh Hprint. split.
  - intros (d & text & _ & _ & _ & Hidx & _)%app_process_file_true.
    eapply index_then_delete; [exact Hidx| |exact Hclean| |exact Hprint].
    + apply app_metadata_fields.
    + intros title i Htitle.
      rewrite (proj1 (app_metadata_fields _ _ _ _)) in Htitle.
      injection Htitle as <-. apply Hfresh.
  - intros (d & text & _ & _ & _ & Hidx & _)%backend_process_file_true.
    eapply index_then_delete; [exact Hidx| |exact Hclean| |exact Hprint].
    + apply app_metadata_fields.
    + intros title i Htitle.
      rewrite (proj1 (app_metadata_fields _ _ _ _)) in Htitle.
      injection Htitle as <-. apply Hfresh.
Qed.

Lemma process_file_then_delete_restores_witness :
  @App.process_file Demo.env Demo.uuid_a Demo.path_a Demo.world0 = (Ok true, Demo.world1)
  ∧ @SemanticSearchEngine.delete_document Demo.env "a.pdf"
      (Service.collection Demo.world1) = (Ok tt, ∅).
Proof.
  split; [reflexivity|].
  apply (proj1 (process_file_then_delete_restores (H := Demo.env)
                  Demo.uuid_a Demo.path_a Demo.world0 Demo.world1
                  (λ k e Hk, match lookup_empty_Some k e Hk with end)
                  (λ i, lookup_empty _) eq_refl)).
  reflexivity.
Defined.

(** ** What [search] returns *)

Section search_result_facts.
Context `{Env}.

Lemma nearest_ids_NoDup q k filters c :
  NoDup (Chroma.row_id <$> Chroma.nearest q k filters c).
Proof.
  unfold Chroma.nearest. cbv zeta.
  eapply sublist_NoDup; [|apply fmap_sublist, sublist_take].
  rewrite merge_sort_Permutation, <-list_fmap_compose.
  eapply sublist_NoDup; [|apply fmap_sublist, sublist_filter].
  apply (NoDup_fst_map_to_list c).
Qed.

Lemma nearest_count q k filters c :
  length (Chroma.nearest q k filters c)
  = min k (size (filter (λ r, Chroma.selected filters r.2) c)).
Proof.
  unfold Chroma.nearest. cbv zeta.
  rewrite length_take, merge_sort_Permutation, length_fmap. f_equal.
  rewrite map_filter_alt, map_size_list_to_map; [done|].
  eapply sublist_NoDup; [|apply fmap_sublist, sublist_filter].
  apply (NoDup_fst_map_to_list c).
Qed.

(** An entry that matches the filter is among the rows, or no row is
    farther from the query than it is. *)
Lemma nearest_best q k filters c i e :
  c !! i = Some e → Chroma.selected filters e →
  i ∈ Chroma.row_id <$> Chroma.nearest q k filters c
  ∨ (length (Chroma.nearest q k filters c) = k
     ∧ ∀ r, r ∈ Chroma.nearest q k filters c →
         (Chroma.row_distance r ≤ distance q (Chroma.embedding e))%Qc).
Proof.
  intros Hi Hsel.
  set (row := {| Chroma.row_id := i; Chroma.row_entry := e;
                 Chroma.row_distance := distance q (Chroma.embedding e) |}).
  set (scored := (λ r : string * Chroma.Entry,
                    {| Chroma.row_id := r.1; Chroma.row_entry := r.2;
                       Chroma.row_distance := distance q (Chroma.embedding r.2) |})
                 <$> filter (λ r, Chroma.selected filters r.2) (map_to_list c)).
  assert (row ∈ merge_sort Chroma.nearer scored) as Hin.
  { rewrite merge_sort_Permutation. apply list_elem_of_fmap.
    exists (i, e). split; [done|]. apply list_elem_of_filter. split; [done|].
    by apply elem_of_map_to_list. }
  assert (StronglySorted Chroma.nearer (merge_sort Chroma.nearer scored)) as Hsorted.
  { apply StronglySorted_merge_sort; apply _. }
  change (Chroma.nearest q k filters c) with (take k (merge_sort Chroma.nearer scored)).
  apply list_elem_of_lookup in Hin as [j Hj].
  destruct (decide (j < k)) as [Hlt|Hge].
  - left. apply list_elem_of_fmap. exists row. split; [done|].
    apply list_elem_of_lookup. exists j. by rewrite lookup_take_lt.
  - right. split.
    + rewrite length_take. apply lookup_lt_Some in Hj. lia.
    + intros r [j' Hj']%list_elem_of_lookup.
      assert (j' < k) as Hlt.
      { apply lookup_lt_Some in Hj'. rewrite length_take in Hj'. lia. }
      rewrite lookup_take_lt in Hj' by done.
      change (Chroma.nearer r row).
      eapply (StronglySorted_lookup_le Chroma.nearer _ j' j); [done|lia|done|done].
Qed.

(** With room for every matching entry, every matching entry is a row. *)
Lemma nearest_complete q k filters c i e :
  size (filter (λ r, Chroma.selected filters r.2) c) ≤ k →
  c !! i = Some e → Chroma.selected filters e →
  ∃ r, r ∈ Chroma.nearest q k filters c ∧ Chroma.row_id r = i ∧ Chroma.row_entry r = e.
Proof.
  intros Hfew Hi Hsel.
  assert ({| Chroma.row_id := i; Chroma.row_entry := e;
             Chroma.row_distance := distance q (Chroma.embedding e) |}
          ∈ Chroma.nearest q k filters c) as Hin; [|eauto].
  unfold Chroma.nearest. cbv zeta. rewrite take_ge.
  - rewrite merge_sort_Permutation. apply list_elem_of_fmap.
    exists (i, e). split; [done|]. apply list_elem_of_filter. split; [done|].
    by apply elem_of_map_to_list.
  - rewrite merge_sort_Permutation, length_fmap.
    rewrite map_filter_alt, map_size_list_to_map in Hfew; [done|].
    eapply sublist_NoDup; [|apply fmap_sublist, sublist_filter].
    apply (NoDup_fst_map_to_list c).
Qed.

End search_result_facts.

(** X7.  [search] never changes the collection, whether it returns or
    raises.  The hits it returns are entries of the collection that match
    the filter, each under its own id and no id twice, scored against the
    embedding of the query; there are as many as the limit allows, or as
    many as match if that is fewer, and then every matching entry is among
    them. *)
Theorem search_hits_are_stored_entries `{Env} (query : string) (n_results : Z)
    (filters : option (gmap string string)) (c : gmap string Chroma.Entry) :
  (SemanticSearchEngine.search query n_results filters c).2 = c
  ∧ ∀ hits, (SemanticSearchEngine.search query n_results filters c).1 = Ok hits →
      let matching := filter (λ r, Chroma.selected filters r.2) c in
      NoDup (SemanticSearchEngine.id <$> hits)
      ∧ (∀ h, h ∈ hits →
           ∃ e v, c !! SemanticSearchEngine.id h = Some e
             ∧ matching !! SemanticSearchEngine.id h = Some e
             ∧ SemanticSearchEngine.document h = Chroma.document e
             ∧ SemanticSearchEngine.metadata h = Chroma.metadata e
             ∧ encode query = Ok v
             ∧ SemanticSearchEngine.relevance_score h
               = (1 - distance v (Chroma.embedding e))%Qc)
      ∧ length hits = min (Z.to_nat n_results) (size matching)
      ∧ ((size matching ≤ Z.to_nat n_results)%nat →
         ∀ k e, matching !! k = Some e → k ∈ (SemanticSearchEngine.id <$> hits)).
Proof.
  rewrite search_unfold.
  destruct (encode query) as [v|err] eqn:Hv; [|by split].
  destruct (n_results <=? 0)%Z; [by split|].
  split; [done|]. intros hits [= <-] matching.
  rewrite <-list_fmap_compose, length_fmap.
  change (SemanticSearchEngine.id ∘ _) with Chroma.row_id.
  split; [apply nearest_ids_NoDup|]. split; [|split; [apply nearest_count|]].
  - intros h (r & -> & Hr)%list_elem_of_fmap.
    apply nearest_elem in Hr as (Hr & Hsel & Hd). simpl.
    exists (Chroma.row_entry r), v. repeat split; try done.
    + by apply map_lookup_filter_Some.
    + by rewrite Hd.
  - intros Hfew k e [Hk Hsel]%map_lookup_filter_Some. simpl in Hsel.
    destruct (nearest_complete v (Z.to_nat n_results) filters c k e Hfew Hk Hsel)
      as (r & Hr & <- & _).
    apply list_elem_of_fmap. by exists r.
Qed.

(** X8.  [search] leaves out nothing better than what it returns: an entry
    of the collection that matches the filter and is not among the hits
    scores no higher than any hit, and this only happens when the hits are
    as many as the limit. *)
Theorem search_returns_the_nearest `{Env} (query : string) (n_results : Z)
    (filters : option (gmap string string)) (c c' : gmap string Chroma.Entry)
    (hits : list SemanticSearchEngine.Hit) (k : string) (e : Chroma.Entry)
    (v : vec) :
  SemanticSearchEngine.search query n_results filters c = (Ok hits, c') →
  encode query = Ok v →
  c !! k = Some e → Chroma.selected filters e →
  k ∉ (SemanticSearchEngine.id <$> hits) →
  Z.of_nat (length hits) = n_results
  ∧ ∀ h, h ∈ hits →
      (1 - distance v (Chroma.embedding e)
       ≤ SemanticSearchEngine.relevance_score h)%Qc.
Proof.
  rewrite search_unfold. intros Hrun Hv Hk Hsel Hout. rewrite Hv in Hrun.
  destruct (n_results <=? 0)%Z eqn:Hn; [done|]. injection Hrun as <- <-.
  rewrite <-list_fmap_compose in Hout.
  change (SemanticSearchEngine.id ∘ _) with Chroma.row_id in Hout.
  destruct (nearest_best v (Z.to_nat n_results) filters c k e Hk Hsel)
    as [Hin|[Hfull Hbest]]; [done|].
  split.
  - rewrite length_fmap, Hfull. lia.
  - intros h (r & -> & Hr)%list_elem_of_fmap. simpl.
    apply Qc_one_minus_antitone. by apply Hbest.
Qed.

(** ** [process_file] and the jobs that call it *)

Section process_file_outcome_facts.
Context `{Env}.

(** [process_file] of [app.py], by what the recogniser and [index_document]
    did: with no usable text it answers [False] and nothing has changed;
    otherwise it answers [True] or [False] as [index_document] returned or
    raised, and the collection is what [index_document] left. *)
Lemma app_process_file_unfold uuid8 p w :
  App.process_file uuid8 p w = (Ok false, w)
  ∨ ∃ d text r c,
      process_document (Service.to_str p) = Ok d
      ∧ d !! "text" = Some (VStr text) ∧ text ≠ ""
      ∧ SemanticSearchEngine.index_document uuid8 text
          {[ "title" := Service.stem p;
             "source_url" := "http://localhost:8000/files/" +:+ Service.name p;
             "date" := App.extract_date_from_text text;
             "category" := App.categorize (Py.lower text) ]} (Service.collection w)
        = (r, c)
      ∧ App.process_file uuid8 p w
        = (Ok (match r with Ok _ => true | Raise _ => false end),
           {| Service.collection := c; Service.prompts := Service.prompts w |}).
Proof.
  unfold App.process_file, App.process_file_body, Py.try_except, Py.bind, Py.lift, Py.ret.
  destruct (process_document (Service.to_str p)) as [d|e]; [|by left].
  destruct (d !! "text") as [[| n |text]|] eqn:Htext; simpl; [by left| |..|by left].
  - destruct (negb (n =? 0)%Z); simpl; [|by left].
    unfold Py.getitem. rewrite Htext. by left.
  - case_bool_decide as Hempty; simpl; [by left|].
    unfold Py.getitem. rewrite Htext. simpl. unfold Service.on_engine.
    destruct (SemanticSearchEngine.index_document _ _ _ _) as [r c] eqn:Hidx.
    right. exists d, text, r, c. split; [done|]. split; [done|]. split; [done|].
    split; [done|]. by destruct r.
Qed.

Lemma backend_process_file_unfold uuid8 p w :
  Backend.process_file uuid8 p w = (Ok false, w)
  ∨ ∃ d text r c,
      process_document (Service.to_str p) = Ok d
      ∧ d !! "text" = Some (VStr text) ∧ text ≠ ""
      ∧ SemanticSearchEngine.index_document uuid8 text
          {[ "title" := Service.stem p;
             "source_url" := "http://localhost:8000/files/" +:+ Service.name p;
             "date" := Backend.extract_date_from_text text;
             "category" := Backend.categorize (Py.lower text) ]} (Service.collection w)
        = (r, c)
      ∧ Backend.process_file uuid8 p w
        = (Ok (match r with Ok _ => true | Raise _ => false end),
           {| Service.collection := c; Service.prompts := Service.prompts w |}).
Proof.
  unfold Backend.process_file, Backend.process_file_body, Py.try_except, Py.bind, Py.lift,
    Py.ret.
  destruct (process_document (Service.to_str p)) as [d|e]; [|by left].
  destruct (d !! "text") as [[| n |text]|] eqn:Htext; simpl; [by left| |..|by left].
  - destruct (negb (n =? 0)%Z); simpl; [|by left].
    unfold Py.getitem. rewrite Htext. by left.
  - case_bool_decide as Hempty; simpl; [by left|].
    unfold Py.getitem. rewrite Htext. simpl. unfold Service.on_engine.
    destruct (SemanticSearchEngine.index_document _ _ _ _) as [r c] eqn:Hidx.
    right. exists d, text, r, c. split; [done|]. split; [done|]. split; [done|].
    split; [done|]. by destruct r.
Qed.

(** A call of [index_document] that raised has changed nothing, unless it
    was its last line that could not be printed. *)
Lemma index_document_raised uuid8 text md c e c' :
  SemanticSearchEngine.index_document uuid8 text md c = (Raise e, c') →
  c' = c
  ∨ ∃ title,
      md !! "title" = Some title
      ∧ print ("Indexed " +:+ pretty (length (SemanticSearchEngine.chunk_text text))
               +:+ " chunks for " +:+ title) = Raise e
      ∧ ∀ i ch, SemanticSearchEngine.chunk_text text !! i = Some ch →
          ∃ entry, c' !! (title +:+ "_" +:+ pretty i +:+ "_" +:+ uuid8 i) = Some entry
                   ∧ Chroma.document entry = ch ∧ Chroma.metadata entry = md.
Proof.
  intros Hrun.
  destruct (index_document_cases uuid8 text md c)
    as [[_ Hrun']|[(_ & e0 & Hrun' & _)|(_ & title & rs & Htitle & _ & Hrun' & Hk & Hd & Hm)]];
    rewrite Hrun' in Hrun.
  - done.
  - injection Hrun as _ <-. by left.
  - injection Hrun as Hp <-. right. exists title. split; [done|]. split; [done|].
    intros i ch Hch. by eapply insert_rows_stored.
Qed.

(** An answer of [False] with a changed collection: the chunks are stored,
    and the last line of [index_document] could not be printed. *)
Lemma app_process_file_false uuid8 p w w' :
  App.process_file uuid8 p w = (Ok false, w') →
  w' = w
  ∨ ∃ d text e,
      process_document (Service.to_str p) = Ok d
      ∧ d !! "text" = Some (VStr text) ∧ text ≠ ""
      ∧ print ("Indexed " +:+ pretty (length (SemanticSearchEngine.chunk_text text))
               +:+ " chunks for " +:+ Service.stem p) = Raise e
      ∧ ∀ i ch, SemanticSearchEngine.chunk_text text !! i = Some ch →
          ∃ entry,
            Service.collection w'
              !! (Service.stem p +:+ "_" +:+ pretty i +:+ "_" +:+ uuid8 i) = Some entry
            ∧ Chroma.document entry = ch
            ∧ Chroma.metadata entry !! "source_url"
              = Some ("http://localhost:8000/files/" +:+ Service.name p).
Proof.
  intros Hrun.
  destruct (app_process_file_unfold uuid8 p w)
    as [Hno|(d & text & r & c & Hd & Htext & Hne & Hidx & Hrun')];
    [rewrite Hno in Hrun; injection Hrun as <-; by left|].
  rewrite Hrun' in Hrun. destruct r as [[]|e]; [done|]. injection Hrun as <-.
  apply index_document_raised in Hidx as [->|(title & Htitle & Hp & Hst)];
    [left; by destruct w|].
  right. exists d, text, e. split; [done|]. split; [done|]. split; [done|].
  rewrite (proj1 (app_metadata_fields _ _ _ _)) in Htitle. injection Htitle as <-.
  split; [done|]. intros i ch Hch. destruct (Hst i ch Hch) as (entry & He & Hdoc & Hmd).
  exists entry. split; [done|]. split; [done|]. rewrite Hmd.
  apply app_metadata_fields.
Qed.

Lemma backend_process_file_false uuid8 p w w' :
  Backend.process_file uuid8 p w = (Ok false, w') →
  w' = w
  ∨ ∃ d text e,
      process_document (Service.to_str p) = Ok d
      ∧ d !! "text" = Some (VStr text) ∧ text ≠ ""
      ∧ print ("Indexed " +:+ pretty (length (SemanticSearchEngine.chunk_text text))
               +:+ " chunks for " +:+ Service.stem p) = Raise e
      ∧ ∀ i ch, SemanticSearchEngine.chunk_text text !! i = Some ch →
          ∃ entry,
            Service.collection w'
              !! (Service.stem p +:+ "_" +:+ pretty i +:+ "_" +:+ uuid8 i) = Some entry
            ∧ Chroma.document entry = ch
            ∧ Chroma.metadata entry !! "source_url"
              = Some ("http://localhost:8000/files/" +:+ Service.name p).
Proof.
  intros Hrun.
  destruct (backend_process_file_unfold uuid8 p w)
    as [Hno|(d & text & r & c & Hd & Htext & Hne & Hidx & Hrun')];
    [rewrite Hno in Hrun; injection Hrun as <-; by left|].
  rewrite Hrun' in Hrun. destruct r as [[]|e]; [done|]. injection Hrun as <-.
  apply index_document_raised in Hidx as [->|(title & Htitle & Hp & Hst)];
    [left; by destruct w|].
  right. exists d, text, e. split; [done|]. split; [done|]. split; [done|].
  rewrite (proj1 (app_metadata_fields _ _ _ _)) in Htitle. injection Htitle as <-.
  split; [done|]. intros i ch Hch. destruct (Hst i ch Hch) as (entry & He & Hdoc & Hmd).
  exists entry. split; [done|]. split; [done|]. rewrite Hmd.
  apply app_metadata_fields.
Qed.

(** [process_file] of [app.py] on a text that is not empty. *)
Lemma app_process_file_run uuid8 p w d text r c :
  process_document (Service.to_str p) = Ok d →
  d !! "text" = Some (VStr text) → text ≠ "" →
  SemanticSearchEngine.index_document uuid8 text
    {[ "title" := Service.stem p;
       "source_url" := "http://localhost:8000/files/" +:+ Service.name p;
       "date" := App.extract_date_from_text text;
       "category" := App.categorize (Py.lower text) ]} (Service.collection w)
  = (r, c) →
  App.process_file uuid8 p w
  = (Ok (match r with Ok _ => true | Raise _ => false end),
     {| Service.collection := c; Service.prompts := Service.prompts w |}).
Proof.
  intros Hd Htext Hne Hidx.
  unfold App.process_file, App.process_file_body, Py.try_except, Py.bind, Py.lift, Py.ret.
  rewrite Hd, Htext. simpl. rewrite bool_decide_eq_false_2 by done. simpl.
  unfold Py.getitem. rewrite Htext. simpl. unfold Service.on_engine.
  rewrite Hidx. by destruct r.
Qed.

Lemma app_process_file_outcome uuid8 p w :
  ∃ b w', App.process_file uuid8 p w = (Ok b, w')
    ∧ Service.prompts w' = Service.prompts w
    ∧ (b = false → (∀ s, print s = Ok tt) → w' = w).
Proof.
  destruct (app_process_file_unfold uuid8 p w) as [->|(d & text & r & c & _ & _ & _ & Hidx & ->)].
  - by exists false, w.
  - eexists _, _. split; [done|]. split; [done|]. intros Hb Hprint.
    destruct r as [[]|e]; [done|].
    apply index_document_raised in Hidx as [->|(title & _ & Hp & _)]; [by destruct w|].
    rewrite Hprint in Hp. done.
Qed.

Lemma backend_process_file_outcome uuid8 p w :
  ∃ b w', Backend.process_file uuid8 p w = (Ok b, w')
    ∧ Service.prompts w' = Service.prompts w
    ∧ (b = false → (∀ s, print s = Ok tt) → w' = w).
Proof.
  destruct (backend_process_file_unfold uuid8 p w)
    as [->|(d & text & r & c & _ & _ & _ & Hidx & ->)].
  - by exists false, w.
  - eexists _, _. split; [done|]. split; [done|]. intros Hb Hprint.
    destruct r as [[]|e]; [done|].
    apply index_document_raised in Hidx as [->|(title & _ & Hp & _)]; [by destruct w|].
    rewrite Hprint in Hp. done.
Qed.

End process_file_outcome_facts.

(** X9.  When [process_file] answers [False], the collection and the list
    of prompts are as before the call, with one exception: [index_document]
    had stored the chunks, and its last line could not be printed.  Then
    [False] is answered with every chunk of the file in the collection.
    When what is printed never raises, [False] means that nothing has
    changed.  [process_file] never calls the language model.  Both for
    [app.py] and [backend_main.py]. *)
Theorem process_file_false_changes_nothing `{Env} (uuid8 : nat → string)
    (p : Service.Path) (w : Service.World) :
  let stored_unprinted (w' : Service.World) :=
    ∃ d text e,
      process_document (Service.to_str p) = Ok d
      ∧ d !! "text" = Some (VStr text) ∧ text ≠ ""
      ∧ print ("Indexed " +:+ pretty (length (SemanticSearchEngine.chunk_text text))
               +:+ " chunks for " +:+ Service.stem p) = Raise e
      ∧ ∀ i ch, SemanticSearchEngine.chunk_text text !! i = Some ch →
          ∃ entry,
            Service.collection w'
              !! (Service.stem p +:+ "_" +:+ pretty i +:+ "_" +:+ uuid8 i) = Some entry
            ∧ Chroma.document entry = ch
            ∧ Chroma.metadata entry !! "source_url"
              = Some ("http://localhost:8000/files/" +:+ Service.name p) in
  (∀ w', App.process_file uuid8 p w = (Ok false, w') → w' = w ∨ stored_unprinted w')
  ∧ (∀ w', Backend.process_file uuid8 p w = (Ok false, w') → w' = w ∨ stored_unprinted w')
  ∧ ((∀ s, print s = Ok tt) →
     (∀ w', App.process_file uuid8 p w = (Ok false, w') → w' = w)
     ∧ (∀ w', Backend.process_file uuid8 p w = (Ok false, w') → w' = w))
  ∧ (∀ r w', App.process_file uuid8 p w = (r, w') →
       Service.prompts w' = Service.prompts w)
  ∧ (∀ r w', Backend.process_file uuid8 p w = (r, w') →
       Service.prompts w' = Service.prompts w)
  ∧ (∀ d text err c,
       process_document (Service.to_str p) = Ok d →
       d !! "text" = Some (VStr text) → text ≠ "" →
       SemanticSearchEngine.index_document uuid8 text
         {[ "title" := Service.stem p;
            "source_url" := "http://localhost:8000/files/" +:+ Service.name p;
            "date" := App.extract_date_from_text text;
            "category" := App.categorize (Py.lower text) ]} (Service.collection w)
       = (Raise err, c) →
       App.process_file uuid8 p w
       = (Ok false, {| Service.collection := c; Service.prompts := Service.prompts w |})).
Proof.
  intros stored_unprinted.
  destruct (app_process_file_outcome uuid8 p w) as (b & w1 & Happ & Hp1 & Hf1).
  destruct (backend_process_file_outcome uuid8 p w) as (b' & w2 & Hback & Hp2 & Hf2).
  split; [|split; [|split; [|split; [|split]]]].
  - intros w' Hrun. by apply app_process_file_false.
  - intros w' Hrun. by apply backend_process_file_false.
  - intros Hprint. split.
    + intros w' Hrun. rewrite Happ in Hrun. injection Hrun as -> <-. by apply Hf1.
    + intros w' Hrun. rewrite Hback in Hrun. injection Hrun as -> <-. by apply Hf2.
  - intros r w' Hrun. rewrite Happ in Hrun. by injection Hrun as _ <-.
  - intros r w' Hrun. rewrite Hback in Hrun. by injection Hrun as _ <-.
  - intros d text err c Hd Htext Hne Hidx.
    by rewrite (app_process_file_run uuid8 p w d text (Raise err) c).
Qed.

Section loop_facts.
Context `{Env}.

(** A [process_file]: it returns, sends no prompt, and changes nothing when
    it answers [False], as long as what is printed never raises. *)
Variable process : (nat → string) → Service.Path → Py.M Service.World bool.
Hypothesis process_outcome :
  ∀ uuid8 p w, ∃ b w', process uuid8 p w = (Ok b, w')
                 ∧ Service.prompts w' = Service.prompts w
                 ∧ (b = false → (∀ s, print s = Ok tt) → w' = w).

Variable docs_file : string → Service.Path.
Variable suffix : Service.Path → string.

Lemma for_each_process uuid8 (files : list string) i w :
  ∃ bs, Py.for_each (λ i filename, process (uuid8 i) (docs_file filename)) i files w
        = (Ok bs,
           foldl (λ w' f, (process (uuid8 f.1) (docs_file f.2) w').2) w
             (zip (seq i (length files)) files))
        ∧ length bs = length files.
Proof.
  revert i w. induction files as [|f files IH]; intros i w; simpl.
  - by exists [].
  - unfold Py.bind at 1.
    destruct (process_outcome (uuid8 i) (docs_file f) w) as (b & w' & Hrun & _).
    rewrite Hrun. simpl. unfold Py.bind at 1.
    destruct (IH (S i) w') as (bs & -> & Hlen).
    exists (b :: bs). split; [done|]. simpl. by rewrite Hlen.
Qed.

Lemma foldl_process_prompts uuid8 (l : list (nat * string)) w :
  Service.prompts (foldl (λ w' f, (process (uuid8 f.1) (docs_file f.2) w').2) w l)
  = Service.prompts w.
Proof.
  revert w. induction l as [|f l IH]; intros w; simpl; [done|].
  rewrite IH.
  destruct (process_outcome (uuid8 f.1) (docs_file f.2) w) as (b & w' & Hrun & Hp & _).
  by rewrite Hrun.
Qed.

Lemma foldl_scan_prompts uuid8 (l : list (nat * Service.Path)) w :
  Service.prompts
    (foldl (λ w' f,
              if bool_decide (Py.lower (suffix f.2) ∈ [".pdf"; ".png"; ".jpg"; ".jpeg"])
              then (process (uuid8 f.1) f.2 w').2 else w') w l)
  = Service.prompts w.
Proof.
  revert w. induction l as [|f l IH]; intros w; [done|].
  cbn [foldl]. rewrite IH. case_bool_decide; [|done].
  destruct (process_outcome (uuid8 f.1) f.2 w) as (b & w' & Hrun & Hp & _).
  by rewrite Hrun.
Qed.

End loop_facts.

Section job_facts.
Context `{Env}.
Variable docs_file : string → Service.Path.
Variable suffix : Service.Path → string.

Lemma scan_loop_outcome uuid8 files i count w :
  ∃ n, AppApi.scan_loop suffix uuid8 i files count w
       = (Ok n,
          foldl (λ w' f,
                   if bool_decide (Py.lower (suffix f.2) ∈ [".pdf"; ".png"; ".jpg"; ".jpeg"])
                   then (App.process_file (uuid8 f.1) f.2 w').2 else w') w
            (zip (seq i (length files)) files))
    ∧ count ≤ n
      ≤ count + length (filter (λ f, Py.lower (suffix f) ∈ [".pdf"; ".png"; ".jpg"; ".jpeg"])
                         files)
    ∧ (n = count → (∀ s, print s = Ok tt) →
       foldl (λ w' f,
                if bool_decide (Py.lower (suffix f.2) ∈ [".pdf"; ".png"; ".jpg"; ".jpeg"])
                then (App.process_file (uuid8 f.1) f.2 w').2 else w') w
         (zip (seq i (length files)) files) = w).
Proof.
  revert i count w. induction files as [|f files IH]; intros i count w.
  - exists count. repeat split; simpl; lia || done.
  - rewrite filter_cons. cbn [AppApi.scan_loop length seq zip zip_with foldl fst snd].
    case_bool_decide as Hel.
    + rewrite decide_True by done. unfold Py.bind at 1.
      destruct (app_process_file_outcome (uuid8 i) f w) as (b & w1 & -> & Hp & Hf).
      destruct (IH (S i) (if b then count + 1 else count) w1) as (n & -> & Hn & Hsame).
      exists n. split; [done|]. cbn [length snd]. destruct b.
      * split; [lia|]. intros ->. lia.
      * split; [lia|]. intros -> Hprint. rewrite Hsame by done. by apply Hf.
    + rewrite decide_False by done.
      destruct (IH (S i) count w) as (n & -> & Hn & Hsame).
      exists n. done.
Qed.

Lemma backend_scan_loop_outcome uuid8 files i count w :
  ∃ n, BackendApi.scan_loop suffix uuid8 i files count w
       = (Ok n,
          foldl (λ w' f,
                   if bool_decide (Py.lower (suffix f.2) ∈ [".pdf"; ".png"; ".jpg"; ".jpeg"])
                   then (Backend.process_file (uuid8 f.1) f.2 w').2 else w') w
            (zip (seq i (length files)) files))
    ∧ count ≤ n
      ≤ count + length (filter (λ f, Py.lower (suffix f) ∈ [".pdf"; ".png"; ".jpg"; ".jpeg"])
                         files)
    ∧ (n = count → (∀ s, print s = Ok tt) →
       foldl (λ w' f,
                if bool_decide (Py.lower (suffix f.2) ∈ [".pdf"; ".png"; ".jpg"; ".jpeg"])
                then (Backend.process_file (uuid8 f.1) f.2 w').2 else w') w
         (zip (seq i (length files)) files) = w).
Proof.
  revert i count w. induction files as [|f files IH]; intros i count w.
  - exists count. repeat split; simpl; lia || done.
  - rewrite filter_cons. cbn [BackendApi.scan_loop length seq zip zip_with foldl fst snd].
    case_bool_decide as Hel.
    + rewrite decide_True by done. unfold Py.bind at 1.
      destruct (backend_process_file_outcome (uuid8 i) f w) as (b & w1 & -> & Hp & Hf).
      destruct (IH (S i) (if b then count + 1 else count) w1) as (n & -> & Hn & Hsame).
      exists n. split; [done|]. cbn [length snd]. destruct b.
      * split; [lia|]. intros ->. lia.
      * split; [lia|]. intros -> Hprint. rewrite Hsame by done. by apply Hf.
    + rewrite decide_False by done.
      destruct (IH (S i) count w) as (n & -> & Hn & Hsame).
      exists n. done.
Qed.

Lemma backend_index_loop_outcome uuid8 (files : list string) i count w :
  ∃ n, BackendApi.index_loop docs_file uuid8 i files count w
       = (Ok n,
          foldl (λ w' f, (Backend.process_file (uuid8 f.1) (docs_file f.2) w').2) w
            (zip (seq i (length files)) files)).
Proof.
  revert i count w. induction files as [|f files IH]; intros i count w.
  - by exists count.
  - cbn [BackendApi.index_loop length seq zip zip_with foldl fst snd].
    unfold Py.bind at 1.
    destruct (backend_process_file_outcome (uuid8 i) (docs_file f) w) as (b & w1 & -> & _).
    destruct (IH (S i) (if b then count + 1 else count) w1) as (n & -> ).
    by exists n.
Qed.

End job_facts.

(** X10.  The scraper jobs (the hourly one and the one an operator starts,
    in [app.py] and in [backend_main.py]) hand every new file to
    [process_file], in the order the scraper gave them, and a file that
    cannot be processed does not stop the ones after it: the job never
    raises, what it leaves is what the calls of [process_file] leave one
    after the other, and it sends nothing to the language model.  The hourly
    job is the other one on the address of the notice board. *)
Theorem scraper_jobs_process_every_file `{Env}
    (docs_file : string → Service.Path) (scrape_website : string → list string)
    (uuid8 : nat → nat → string) (url : string) (w : Service.World) :
  let after (process : (nat → string) → Service.Path → Py.M Service.World bool)
        (new_files : list string) :=
    foldl (λ w' f, (process (uuid8 f.1) (docs_file f.2) w').2) w
      (zip (seq 0 (length new_files)) new_files) in
  let notice_board := "https://www.giet.edu/news-events/notice-board/" in
  AppApi.scheduled_scraper_job docs_file scrape_website uuid8 w
  = (Ok tt, after App.process_file (scrape_website notice_board))
  ∧ AppApi.scrape_and_index docs_file scrape_website url uuid8 w
    = (Ok tt, after App.process_file (scrape_website url))
  ∧ BackendApi.scheduled_scraper_job docs_file scrape_website uuid8 w
    = (Ok tt, after Backend.process_file (scrape_website notice_board))
  ∧ BackendApi.scrape_and_index docs_file scrape_website url uuid8 w
    = (Ok tt, after Backend.process_file (scrape_website url))
  ∧ Service.prompts (after App.process_file (scrape_website url)) = Service.prompts w
  ∧ Service.prompts (after Backend.process_file (scrape_website url)) = Service.prompts w.
Proof.
  intros after notice_board. subst after. cbv beta.
  split; [|split; [|split; [|split; [|split]]]].
  - unfold AppApi.scheduled_scraper_job. cbv zeta.
    change (scrape_website AppApi.TARGET_WEBSITE) with (scrape_website notice_board).
    destruct (scrape_website notice_board) as [|f files] eqn:Hfiles; [done|].
    unfold Py.bind.
    destruct (for_each_process App.process_file app_process_file_outcome docs_file uuid8
                (f :: files) 0 w) as (bs & -> & _).
    done.
  - unfold AppApi.scrape_and_index. cbv zeta. unfold Py.bind.
    destruct (for_each_process App.process_file app_process_file_outcome docs_file uuid8
                (scrape_website url) 0 w) as (bs & -> & _).
    done.
  - unfold BackendApi.scheduled_scraper_job. cbv zeta.
    change (scrape_website BackendApi.TARGET_WEBSITE) with (scrape_website notice_board).
    destruct (scrape_website notice_board) as [|f files] eqn:Hfiles; [done|].
    unfold Py.bind.
    destruct (for_each_process Backend.process_file backend_process_file_outcome docs_file
                uuid8 (f :: files) 0 w) as (bs & -> & _).
    done.
  - unfold BackendApi.scrape_and_index. cbv zeta. unfold Py.bind.
    destruct (backend_index_loop_outcome docs_file uuid8 (scrape_website url) 0 0 w)
      as (n & ->).
    done.
  - apply (foldl_process_prompts App.process_file app_process_file_outcome).
  - apply (foldl_process_prompts Backend.process_file backend_process_file_outcome).
Qed.

(** The comprehension that lists the files of the folder. *)
Lemma files_among_outcome (is_file : Service.Path → result bool)
    (entries : list Service.Path) :
  ((∀ f, f ∈ entries → ∃ b, is_file f = Ok b)
   ∧ Service.files_among is_file entries
     = Ok (filter (λ f, is_file f = Ok true) entries))
  ∨ ∃ f e, f ∈ entries ∧ is_file f = Raise e
           ∧ Service.files_among is_file entries = Raise e.
Proof.
  induction entries as [|f entries IH]; [left; split; [by intros f Hf; inversion Hf|done]|].
  simpl. destruct (is_file f) as [b|e] eqn:Hf; simpl.
  - destruct IH as [[Hall ->]|(f' & e & Hin & Hraise & ->)]; simpl.
    + left. split.
      * intros f' [->|Hin]%elem_of_cons; eauto.
      * rewrite filter_cons. destruct b.
        -- by rewrite decide_True by done.
        -- rewrite decide_False; [done|]. rewrite Hf. done.
    + right. exists f', e. split; [by right|done].
  - right. exists f, e. split; [by left|done].
Qed.

(** X11.  The rescan (in [app.py] and in [backend_main.py]) first lists the
    files of the folder, outside any [try]: when the listing raises (the
    folder cannot be read, or the test of an entry fails) the endpoint
    raises and nothing has been processed.  Otherwise it does not raise.  It
    hands to [process_file], one after the other, the files whose suffix in
    lower case is one of [.pdf], [.png], [.jpg], [.jpeg], and passes over the
    others.  The number it reports is at most the number of those files, and
    nothing is sent to the language model.  When what is printed never
    raises, a report of 0 indexed files means that the collection is as it
    was. *)
Theorem scan_documents_folder_report `{Env} (suffix : Service.Path → string)
    (iterdir : result (list Service.Path)) (is_file : Service.Path → result bool)
    (uuid8 : nat → nat → string) (w : Service.World) :
  let supported f := Py.lower (suffix f) ∈ [".pdf"; ".png"; ".jpg"; ".jpeg"] in
  let after (process : (nat → string) → Service.Path → Py.M Service.World bool)
        (files : list Service.Path) :=
    foldl (λ w' f, if bool_decide (supported f.2)
                   then (process (uuid8 f.1) f.2 w').2 else w') w
      (zip (seq 0 (length files)) files) in
  (∀ e, iterdir = Raise e →
     AppApi.scan_documents_folder suffix iterdir is_file uuid8 w = (Raise e, w)
     ∧ BackendApi.scan_documents_folder suffix iterdir is_file uuid8 w = (Raise e, w))
  ∧ (∀ entries, iterdir = Ok entries →
     (∃ f e, f ∈ entries ∧ is_file f = Raise e
             ∧ AppApi.scan_documents_folder suffix iterdir is_file uuid8 w = (Raise e, w)
             ∧ BackendApi.scan_documents_folder suffix iterdir is_file uuid8 w
               = (Raise e, w))
     ∨ (∀ f, f ∈ entries → ∃ b, is_file f = Ok b)
       ∧ let files := filter (λ f, is_file f = Ok true) entries in
         (∃ n,
            AppApi.scan_documents_folder suffix iterdir is_file uuid8 w
            = (Ok ("Rescanned. Indexed " +:+ pretty n +:+ "."),
               after App.process_file files)
            ∧ n ≤ length (filter supported files)
            ∧ Service.prompts (after App.process_file files) = Service.prompts w
            ∧ ((∀ s, print s = Ok tt) → n = 0 → after App.process_file files = w))
         ∧ (∃ n,
              BackendApi.scan_documents_folder suffix iterdir is_file uuid8 w
              = (Ok ("Rescanned folder. Indexed " +:+ pretty n +:+ " documents."),
                 after Backend.process_file files)
              ∧ n ≤ length (filter supported files)
              ∧ Service.prompts (after Backend.process_file files) = Service.prompts w
              ∧ ((∀ s, print s = Ok tt) → n = 0 →
                 after Backend.process_file files = w))).
Proof.
  intros supported after. split.
  { intros e ->. done. }
  intros entries ->.
  unfold AppApi.scan_documents_folder, BackendApi.scan_documents_folder.
  unfold Py.bind at 1 3. unfold Py.lift. cbn [Py.rbind].
  destruct (files_among_outcome is_file entries) as [[Hall ->]|(f & e & Hin & Hf & ->)].
  - right. split; [done|]. cbv zeta. split.
    + unfold Py.bind, Py.ret.
      destruct (scan_loop_outcome suffix uuid8 (filter (λ f, is_file f = Ok true) entries)
                  0 0 w) as (n & -> & Hn & Hsame).
      exists n. split; [done|]. split; [subst supported; simpl in *; lia|].
      split; [apply (foldl_scan_prompts App.process_file app_process_file_outcome)|].
      intros Hprint ->. by apply Hsame.
    + unfold Py.bind, Py.ret.
      destruct (backend_scan_loop_outcome suffix uuid8
                  (filter (λ f, is_file f = Ok true) entries) 0 0 w)
        as (n & -> & Hn & Hsame).
      exists n. split; [done|]. split; [subst supported; simpl in *; lia|].
      split; [apply (foldl_scan_prompts Backend.process_file backend_process_file_outcome)|].
      intros Hprint ->. by apply Hsame.
  - left. by exists f, e.
Qed.

(** ** The extractor as a whole *)

Section extractor_facts.
Context `{Env}.

Lemma smart_age_bounds text s :
  App.calculate_smart_age text = Some s →
  ∃ m, s = pretty m ∧ (16 ≤ m ≤ current_year - 1990)%Z.
Proof.
  destruct (calculate_smart_age_unfold text) as (ys & Hys & ->).
  destruct ((λ y, current_year - y)%Z <$> filter (λ y, 1980 < y < current_year - 15)%Z ys)
    as [|age ages] eqn:Hages; [done|].
  intros [= <-]. exists (Py.max age ages). split; [done|].
  destruct (py_max_spec age ages) as [Hin _]. rewrite <-Hages in Hin.
  apply list_elem_of_fmap in Hin as (y & -> & Hy).
  apply list_elem_of_filter in Hy as [Hwin Hy].
  pose proof (findall_year_range text ys y Hys Hy). lia.
Qed.

Lemma filter_all {A} (P : A → Prop) `{!∀ x, Decision (P x)} (l : list A) :
  Forall P l → filter P l = l.
Proof.
  induction 1 as [|x l Hx Hl IH]; [done|]. by rewrite filter_cons_True, IH.
Qed.

Lemma ask_model_answer raw a :
  (if Py.contains "None" (App.clean_answer raw) || (50 <? Py.len (App.clean_answer raw))
   then None else Some (App.clean_answer raw)) = Some a →
  a = App.clean_answer raw ∧ Py.len a ≤ 50 ∧ Py.contains "None" a = false.
Proof.
  destruct (Py.contains "None" (App.clean_answer raw)) eqn:Hnone; [done|].
  destruct (50 <? Py.len (App.clean_answer raw)) eqn:Hlen; [done|].
  intros [= <-]. apply Nat.ltb_ge in Hlen. done.
Qed.

Lemma get_ai_extraction_fallback_answer text query w :
  Py.contains "age" (Py.lower query) = false ∨ App.calculate_smart_age text = None →
  ∃ answer,
    App.get_ai_extraction text query w
    = (Ok answer,
       {| Service.collection := Service.collection w;
          Service.prompts := Service.prompts w ++ [App.prompt_for text query] |})
    ∧ ∀ a, answer = Some a →
        Py.len a ≤ 50 ∧ Py.contains "None" a = false
        ∧ ∀ ch, ch ∈ Py.chars a → ch ≠ "034"%char ∧ ch ≠ "'"%char ∧ ch ≠ "."%char.
Proof.
  intros Hllm. rewrite get_ai_extraction_fallback by done.
  destruct (generate_content (App.prompt_for text query)) as [raw|].
  - eexists. split; [done|]. cbv zeta. intros a Ha.
    apply ask_model_answer in Ha as (-> & Hlen & Hnone).
    split; [done|]. split; [done|]. apply clean_answer_chars.
  - by exists None.
Qed.

End extractor_facts.

(** X12.  The age that [calculate_smart_age] gives is a number between 16
    and the current year minus 1990, written in decimal; before 2006 it
    gives none, whatever the text; and from 2035 on it gives one exactly
    when the text has a year from 1990 to 2019 in it. *)
Theorem smart_age_between_16_and_years_since_1990 `{Env} (text : string) :
  (∀ s, App.calculate_smart_age text = Some s →
     ∃ m, s = pretty m ∧ (16 ≤ m ≤ current_year - 1990)%Z)
  ∧ ((current_year ≤ 2005)%Z → App.calculate_smart_age text = None)
  ∧ ((2035 ≤ current_year)%Z →
     (App.calculate_smart_age text = None ↔ Re.findall App.year_pattern text = [])).
Proof.
  split; [apply smart_age_bounds|]. split.
  - intros Hyear. destruct (App.calculate_smart_age text) as [s|] eqn:Hs; [|done].
    apply smart_age_bounds in Hs as (m & _ & Hm). lia.
  - intros Hyear.
    destruct (calculate_smart_age_unfold text) as (ys & Hys & ->).
    assert (filter (λ y, 1980 < y < current_year - 15)%Z ys = ys) as ->.
    { apply filter_all, Forall_forall. intros y Hy.
      pose proof (findall_year_range text ys y Hys Hy). lia. }
    destruct Hys as [|x y l k Hxy Hrest]; [done|].
    rewrite fmap_cons. split; [done|]. done.
Qed.

(** X13.  [get_ai_extraction] never raises and never touches the
    collection, and one of two things happened.  Either nothing was sent to
    the language model: then the query mentions age and the answer is a
    number between 16 and the current year minus 1990.  Or exactly one
    prompt was sent, the one made from the text and the query: then an
    answer, if there is one, has at most 50 characters, none of them a
    double quote, an apostrophe or a period, and does not contain [None]. *)
Theorem get_ai_extraction_contract `{Env} (text query : string) (w : Service.World) :
  ∃ answer w',
    App.get_ai_extraction text query w = (Ok answer, w')
    ∧ Service.collection w' = Service.collection w
    ∧ ((w' = w ∧ Py.contains "age" (Py.lower query) = true
        ∧ ∃ m, answer = Some (pretty m) ∧ (16 ≤ m ≤ current_year - 1990)%Z)
       ∨ (Service.prompts w' = Service.prompts w ++ [App.prompt_for text query]
          ∧ ∀ a, answer = Some a →
              Py.len a ≤ 50 ∧ Py.contains "None" a = false
              ∧ ∀ ch, ch ∈ Py.chars a →
                  ch ≠ "034"%char ∧ ch ≠ "'"%char ∧ ch ≠ "."%char)).
Proof.
  assert (Py.contains "age" (Py.lower query) = false ∨ App.calculate_smart_age text = None
          ∨ (Py.contains "age" (Py.lower query) = true
             ∧ ∃ s, App.calculate_smart_age text = Some s)) as [Hllm|[Hllm|[Hage [s Hs]]]].
  { destruct (Py.contains "age" (Py.lower query)); [|by left].
    destruct (App.calculate_smart_age text) as [s|]; [right; right; eauto|right; by left]. }
  1, 2: destruct (get_ai_extraction_fallback_answer text query w) as (answer & -> & Ha);
    [eauto|]; eexists _, _; (split; [done|]); (split; [done|]); right; by split.
  destruct (smart_age_bounds text s Hs) as (m & -> & Hm).
  rewrite (get_ai_extraction_shortcut text query w m) by done.
  exists (Some (pretty m)), w. split; [done|]. split; [done|]. left. eauto.
Qed.

(** X14.  When the query does not mention age, the extractor reads the text
    only through its first 2000 characters: two texts that agree there get
    the same prompt, and so the same answer. *)
Theorem extraction_reads_first_2000_characters `{Env} (text1 text2 query : string)
    (w : Service.World) :
  Py.contains "age" (Py.lower query) = false →
  Py.take 2000 text1 = Py.take 2000 text2 →
  App.get_ai_extraction text1 query w = App.get_ai_extraction text2 query w
  ∧ App.get_ai_extraction text1 query w
    = App.get_ai_extraction (Py.take 2000 text1) query w.
Proof.
  intros Hage Heq.
  assert (∀ t1 t2, Py.take 2000 t1 = Py.take 2000 t2 →
            App.get_ai_extraction t1 query w = App.get_ai_extraction t2 query w) as Hsame.
  { intros t1 t2 Ht. rewrite !get_ai_extraction_fallback by eauto.
    unfold App.prompt_for. by rewrite Ht. }
  split; [by apply Hsame|]. apply Hsame.
  apply chars_inj. rewrite !chars_take, take_take. f_equal. 
Qed.

(** ** The search endpoint of [app.py] *)

Section search_endpoint_facts.
Context `{Env}.

Lemma get_ai_extraction_prompts text query w :
  ∃ answer sent,
    App.get_ai_extraction text query w
    = (Ok answer,
       {| Service.collection := Service.collection w;
          Service.prompts := Service.prompts w ++ sent |})
    ∧ (sent = [] ∨ sent = [App.prompt_for text query]).
Proof.
  assert (Py.contains "age" (Py.lower query) = false ∨ App.calculate_smart_age text = None
          ∨ (Py.contains "age" (Py.lower query) = true
             ∧ ∃ s, App.calculate_smart_age text = Some s)) as [Hllm|[Hllm|[Hage [s Hs]]]].
  { destruct (Py.contains "age" (Py.lower query)); [|by left].
    destruct (App.calculate_smart_age text) as [s|]; [right; right; eauto|right; by left]. }
  1, 2: destruct (get_ai_extraction_fallback_answer text query w) as (answer & -> & _);
    [eauto|]; eexists _, _; split; [done|by right].
  destruct (smart_age_bounds text s Hs) as (m & -> & Hm).
  rewrite (get_ai_extraction_shortcut text query w m) by done.
  exists (Some (pretty m)), []. rewrite app_nil_r. split; [by destruct w|by left].
Qed.

(** [search_documents] of [app.py] in one equation. *)
Lemma app_search_documents_unfold (q : App.SearchQuery) (w : Service.World) :
  (∃ err, SemanticSearchEngine.search (App.query q) (App.limit q) None (Service.collection w)
          = (Raise err, Service.collection w)
     ∧ App.search_documents q w = (Raise err, w))
  ∨ ∃ hits answers sent,
      SemanticSearchEngine.search (App.query q) (App.limit q) None (Service.collection w)
      = (Ok hits, Service.collection w)
      ∧ App.search_documents q w
        = (Ok (zip_with
                 (λ r extracted,
                    {| App.id := SemanticSearchEngine.id r;
                       App.title :=
                         default "Untitled" (SemanticSearchEngine.metadata r !! "title");
                       App.content := SemanticSearchEngine.document r;
                       App.source_url :=
                         default "#" (SemanticSearchEngine.metadata r !! "source_url");
                       App.date := default "N/A" (SemanticSearchEngine.metadata r !! "date");
                       App.relevance_score := SemanticSearchEngine.relevance_score r;
                       App.category :=
                         default "General" (SemanticSearchEngine.metadata r !! "category");
                       App.extracted_answer := extracted |})
                 hits answers),
           {| Service.collection := Service.collection w;
              Service.prompts := Service.prompts w ++ sent |})
      ∧ length answers = length hits
      ∧ (∀ j a, answers !! j = Some a → 3 ≤ j → a = None)
      ∧ sent ⊆+ ((λ h, App.prompt_for (SemanticSearchEngine.document h) (App.query q))
                   <$> take 3 hits).
Proof.
  destruct (SemanticSearchEngine.search (App.query q) (App.limit q) None (Service.collection w))
    as [r c] eqn:Hrun.
  assert (c = Service.collection w) as ->.
  { rewrite search_unfold in Hrun.
    destruct (encode (App.query q)); [destruct (App.limit q <=? 0)%Z|]; congruence. }
  destruct r as [hits|err].
  - right.
    destruct (submit_all_outcome
                (λ r (_ : option string) sent,
                   sent = []
                   ∨ sent = [App.prompt_for (SemanticSearchEngine.document r) (App.query q)])
                pool_order
                (λ r, App.get_ai_extraction (SemanticSearchEngine.document r) (App.query q))
                (take 3 hits) w) as (ys & sents & sent & Hpool & Hall & Hperm).
    { intros r w0.
      destruct (get_ai_extraction_prompts (SemanticSearchEngine.document r) (App.query q) w0)
        as (answer & sent & -> & Hsent). eauto. }
    { rewrite length_take. lia. }
    exists hits, ((λ j, default None (ys !! j)) <$> seq 0 (length hits)), sent.
    split; [done|]. split; [|split; [|split]].
    + unfold App.search_documents. unfold Py.bind at 1. unfold Service.on_engine.
      rewrite Hrun. cbv beta zeta.
      replace {| Service.collection := Service.collection w;
                 Service.prompts := Service.prompts w |} with w by (by destruct w).
      unfold Py.bind at 1. rewrite Hpool. by rewrite for_each_futures.
    + by rewrite length_fmap, length_seq.
    + intros j a Ha Hj. apply list_lookup_fmap_Some in Ha as (k & -> & Hk).
      apply lookup_seq in Hk as [-> _]. simpl.
      rewrite lookup_ge_None_2; [done|].
      apply Forall3_length_lm in Hall. rewrite <- Hall, length_take. lia.
    + rewrite Hperm. apply sublist_submseteq. clear -Hall.
      revert Hall. generalize (take 3 hits). intros tasks Hall.
      induction Hall as [|r y s tasks ys sents Hs _ IH]; [done|].
      rewrite fmap_cons. destruct Hs as [->| ->]; simpl;
        [by apply sublist_cons|by apply sublist_skip].
  - left. exists err. split; [done|].
    unfold App.search_documents. unfold Py.bind at 1. unfold Service.on_engine.
    rewrite Hrun. by destruct w.
Qed.

Lemma zip_with_fmap_l {A B C D} (f : A → B → C) (g : C → D) (h : A → D)
    (l : list A) (k : list B) :
  length k = length l → (∀ x y, g (f x y) = h x) →
  g <$> zip_with f l k = h <$> l.
Proof.
  intros Hlen Hgf. revert k Hlen.
  induction l as [|x l IH]; intros [|y k] Hlen; simpl in *; try done.
  rewrite Hgf, IH; [done|lia].
Qed.

End search_endpoint_facts.

Section search_answers_facts.
Context `{Env}.

(** What one call of [get_ai_extraction] returns and sends does not depend
    on the prompts sent before it. *)
Lemma get_ai_extraction_fixed text query :
  ∃ answer,
    ∀ w, App.get_ai_extraction text query w
         = (Ok answer,
            {| Service.collection := Service.collection w;
               Service.prompts :=
                 Service.prompts w
                 ++ (if decide (Py.contains "age" (Py.lower query) = false
                                ∨ App.calculate_smart_age text = None)
                     then [App.prompt_for text query] else []) |}).
Proof.
  destruct (decide (Py.contains "age" (Py.lower query) = false
                    ∨ App.calculate_smart_age text = None)) as [Hllm|Hage].
  - destruct (generate_content (App.prompt_for text query)) as [raw|e] eqn:Hraw.
    + eexists. intros w. rewrite get_ai_extraction_fallback by done. by rewrite Hraw.
    + exists None. intros w. rewrite get_ai_extraction_fallback by done. by rewrite Hraw.
  - destruct (Py.contains "age" (Py.lower query)) eqn:Hq; [|by destruct Hage; left].
    destruct (App.calculate_smart_age text) as [s|] eqn:Hs; [|by destruct Hage; right].
    destruct (smart_age_bounds text s Hs) as (m & -> & _).
    exists (Some (pretty m)). intros w.
    rewrite (get_ai_extraction_shortcut text query w m) by done.
    rewrite app_nil_r. by destruct w.
Qed.

(** [search_documents] of [app.py]: the answers of the first three hits are
    those of [get_ai_extraction], and the prompts sent are those of the hits
    among them that are not answered by the scan for years. *)
Lemma app_search_documents_run (q : App.SearchQuery) (w : Service.World) hits :
  SemanticSearchEngine.search (App.query q) (App.limit q) None (Service.collection w)
  = (Ok hits, Service.collection w) →
  ∃ answers sent,
    App.search_documents q w
    = (Ok (zip_with
             (λ r extracted,
                {| App.id := SemanticSearchEngine.id r;
                   App.title :=
                     default "Untitled" (SemanticSearchEngine.metadata r !! "title");
                   App.content := SemanticSearchEngine.document r;
                   App.source_url :=
                     default "#" (SemanticSearchEngine.metadata r !! "source_url");
                   App.date := default "N/A" (SemanticSearchEngine.metadata r !! "date");
                   App.relevance_score := SemanticSearchEngine.relevance_score r;
                   App.category :=
                     default "General" (SemanticSearchEngine.metadata r !! "category");
                   App.extracted_answer := extracted |})
             hits answers),
       {| Service.collection := Service.collection w;
          Service.prompts := Service.prompts w ++ sent |})
    ∧ length answers = length hits
    ∧ (∀ j a, answers !! j = Some a → 3 ≤ j → a = None)
    ∧ (∀ j h a w0, hits !! j = Some h → answers !! j = Some a → j < 3 →
         (App.get_ai_extraction (SemanticSearchEngine.document h) (App.query q) w0).1 = Ok a)
    ∧ sent ≡ₚ (λ h, App.prompt_for (SemanticSearchEngine.document h) (App.query q))
               <$> filter (λ h, Py.contains "age" (Py.lower (App.query q)) = false
                                ∨ App.calculate_smart_age (SemanticSearchEngine.document h)
                                  = None)
                     (take 3 hits).
Proof.
  intros Hrun.
  destruct (submit_all_outcome
              (λ r (a : option string) sent,
                 (∀ w0, (App.get_ai_extraction (SemanticSearchEngine.document r)
                           (App.query q) w0).1 = Ok a)
                 ∧ sent
                   = if decide (Py.contains "age" (Py.lower (App.query q)) = false
                                ∨ App.calculate_smart_age (SemanticSearchEngine.document r)
                                  = None)
                     then [App.prompt_for (SemanticSearchEngine.document r) (App.query q)]
                     else [])
              pool_order
              (λ r, App.get_ai_extraction (SemanticSearchEngine.document r) (App.query q))
              (take 3 hits) w) as (ys & sents & sent & Hpool & Hall & Hperm).
  { intros r w0.
    destruct (get_ai_extraction_fixed (SemanticSearchEngine.document r) (App.query q))
      as (answer & Hanswer).
    eexists answer, _. split; [apply Hanswer|]. split; [|done].
    intros w1. by rewrite Hanswer. }
  { rewrite length_take. lia. }
  exists ((λ j, default None (ys !! j)) <$> seq 0 (length hits)), sent.
  split; [|split; [|split; [|split]]].
  - unfold App.search_documents. unfold Py.bind at 1. unfold Service.on_engine.
    rewrite Hrun. cbv beta zeta.
    replace {| Service.collection := Service.collection w;
               Service.prompts := Service.prompts w |} with w by (by destruct w).
    unfold Py.bind at 1. rewrite Hpool. by rewrite for_each_futures.
  - by rewrite length_fmap, length_seq.
  - intros j a Ha Hj. apply list_lookup_fmap_Some in Ha as (k & -> & Hk).
    apply lookup_seq in Hk as [-> _]. simpl.
    rewrite lookup_ge_None_2; [done|].
    apply Forall3_length_lm in Hall. rewrite <- Hall, length_take. lia.
  - intros j h a w0 Hh Ha Hj. apply list_lookup_fmap_Some in Ha as (k & -> & Hk).
    apply lookup_seq in Hk as [-> _]. simpl.
    assert (take 3 hits !! j = Some h) as Hh3 by (by rewrite lookup_take_lt).
    destruct (Forall3_lookup_l _ _ _ _ _ _ Hall Hh3) as (y & s & -> & _ & Hy & _).
    apply Hy.
  - rewrite Hperm. clear -Hall.
    revert Hall. generalize (take 3 hits). intros tasks Hall.
    induction Hall as [|r y s tasks ys sents [_ ->] _ IH]; [done|].
    rewrite filter_cons. cbn [concat]. rewrite IH.
    by destruct (decide _).
Qed.

End search_answers_facts.

(** X15.  The search endpoint of [app.py] raises only when the engine's
    [search] raises, and never changes the collection.  It answers with one
    result per hit, in the order of the hits and with their texts and
    scores.  The extracted answer of each of the first three results is what
    [get_ai_extraction] returns on the text of the hit, and a result after
    the third never has one.  The language model is asked once about each of
    the first three hits that the scan for years does not answer, with the
    prompt made from the hit's text (about all of them when the query does
    not mention age), in whatever order the worker threads get to it. *)
Theorem search_documents_asks_about_first_three `{Env} (q : App.SearchQuery)
    (w : Service.World) :
  let asks h :=
    Py.contains "age" (Py.lower (App.query q)) = false
    ∨ App.calculate_smart_age (SemanticSearchEngine.document h) = None in
  let prompt_of h := App.prompt_for (SemanticSearchEngine.document h) (App.query q) in
  (∀ err c, SemanticSearchEngine.search (App.query q) (App.limit q) None (Service.collection w)
            = (Raise err, c) →
     App.search_documents q w = (Raise err, w))
  ∧ (∀ hits c, SemanticSearchEngine.search (App.query q) (App.limit q) None (Service.collection w)
               = (Ok hits, c) →
     ∃ results sent,
       App.search_documents q w
       = (Ok results,
          {| Service.collection := Service.collection w;
             Service.prompts := Service.prompts w ++ sent |})
       ∧ App.content <$> results = SemanticSearchEngine.document <$> hits
       ∧ App.relevance_score <$> results = SemanticSearchEngine.relevance_score <$> hits
       ∧ (∀ j r, results !! j = Some r → 3 ≤ j → App.extracted_answer r = None)
       ∧ (∀ j r h w0, results !! j = Some r → hits !! j = Some h → j < 3 →
            (App.get_ai_extraction (SemanticSearchEngine.document h) (App.query q) w0).1
            = Ok (App.extracted_answer r))
       ∧ sent ≡ₚ prompt_of <$> filter asks (take 3 hits)
       ∧ (Py.contains "age" (Py.lower (App.query q)) = false →
          sent ≡ₚ prompt_of <$> take 3 hits)
       ∧ sent ⊆+ (prompt_of <$> take 3 hits)
       ∧ length sent ≤ 3).
Proof.
  intros asks prompt_of.
  destruct (SemanticSearchEngine.search (App.query q) (App.limit q) None (Service.collection w))
    as [r c0] eqn:Hs.
  assert (c0 = Service.collection w) as ->.
  { rewrite search_unfold in Hs.
    destruct (encode (App.query q)); [destruct (App.limit q <=? 0)%Z|]; congruence. }
  split.
  - intros err c [= -> <-].
    unfold App.search_documents. unfold Py.bind at 1. unfold Service.on_engine.
    rewrite Hs. by destruct w.
  - intros hits c [= -> <-].
    destruct (app_search_documents_run q w hits Hs)
      as (answers & sent & Hrun & Hlen & Hnone & Hanswers & Hsent).
    fold asks prompt_of in Hsent.
    assert (sent ⊆+ prompt_of <$> take 3 hits) as Hsub.
    { rewrite Hsent. apply fmap_submseteq, sublist_submseteq, sublist_filter. }
    eexists _, sent. split; [exact Hrun|].
    split; [by apply zip_with_fmap_l|]. split; [by apply zip_with_fmap_l|].
    split; [|split; [|split; [done|split; [|split; [done|]]]]].
    + intros j r Hr Hj. apply lookup_zip_with_Some in Hr as (h & a & -> & _ & Ha).
      simpl. by apply (Hnone j a Ha).
    + intros j r h w0 Hr Hh Hj. apply lookup_zip_with_Some in Hr as (h' & a & -> & Hh' & Ha).
      simpl. assert (h' = h) as -> by congruence. by apply (Hanswers j).
    + intros Hq. rewrite Hsent, filter_all; [done|].
      apply Forall_forall. intros h _. by left.
    + apply submseteq_length in Hsub. rewrite length_fmap, length_take in Hsub. lia.
Qed.

(** ** Where the date comes from *)

Section date_origin_facts.
Context `{Env}.

Lemma startswith_take n s : Py.startswith (Py.take n s) s = true.
Proof.
  revert s. induction n as [|n IH]; intros [|c s]; simpl; try done.
  by rewrite bool_decide_eq_true_2, IH.
Qed.

Lemma contains_at p s i : Py.startswith p (Py.drop i s) = true → Py.contains p s = true.
Proof.
  revert i. induction s as [|c s IH]; intros i Hp.
  - destruct i; simpl in *; by rewrite Hp.
  - destruct i as [|i].
    + cbn [Py.drop] in Hp. cbn [Py.contains]. by rewrite Hp.
    + cbn [Py.drop] in Hp. cbn [Py.contains]. rewrite (IH i Hp). apply orb_true_r.
Qed.

Lemma first_match_Some patterns text m :
  Service.first_match patterns text = Some m →
  ∃ pattern, pattern ∈ patterns ∧ Re.search pattern text = Some m.
Proof.
  induction patterns as [|pattern rest IH]; simpl; [done|].
  destruct (Re.search pattern text) as [m'|] eqn:Hs.
  - intros [= ->]. exists pattern. split; [by left|done].
  - intros (p & Hp & Hm)%IH. exists p. split; [by right|done].
Qed.

Lemma first_match_None patterns text :
  Service.first_match patterns text = None →
  ∀ pattern, pattern ∈ patterns → Re.search pattern text = None.
Proof.
  induction patterns as [|pattern rest IH]; simpl; [by intros _ p ?%elem_of_nil|].
  destruct (Re.search pattern text) as [m'|] eqn:Hs; [done|].
  intros Hrest p [->|Hp]%elem_of_cons; [done|by apply IH].
Qed.

Lemma search_at_head r s n rest :
  Re.matches r s = n :: rest → Re.search r s = Some (Py.take n s).
Proof. intros Hm. destruct s; simpl; by rewrite Hm. Qed.

Lemma matches_cat_single r1 r2 s n :
  Re.matches r1 s = [n] →
  Re.matches (Re.Cat r1 r2) s = (λ n2, n + n2) <$> Re.matches r2 (Py.drop n s).
Proof. intros Hm. cbn [Re.matches]. rewrite Hm. simpl. apply app_nil_r. Qed.

Lemma matches_two_digits a b s :
  Py.isdigit a = true → Py.isdigit b = true →
  Re.matches (Re.digits 2 2) (String a (String b s)) = [2].
Proof.
  intros Ha Hb. unfold Re.digits. cbn [Re.matches default id Re.span].
  by rewrite Ha, Hb.
Qed.

Lemma matches_four_digits a b c d s :
  Py.isdigit a = true → Py.isdigit b = true →
  Py.isdigit c = true → Py.isdigit d = true →
  Re.matches (Re.digits 4 4) (String a (String b (String c (String d s)))) = [4].
Proof.
  intros Ha Hb Hc Hd. unfold Re.digits. cbn [Re.matches default id Re.span].
  by rewrite Ha, Hb, Hc, Hd.
Qed.

Lemma search_dmy_digits (d1 d2 m1 m2 y1 y2 y3 y4 : ascii) (rest : string) :
  Forall (λ c, Py.isdigit c = true) [d1; d2; m1; m2; y1; y2; y3; y4] →
  Re.search Service.pattern_dmy
    (Py.of_chars [d1; d2; "/"; m1; m2; "/"; y1; y2; y3; y4]%char +:+ rest)
  = Some (Py.of_chars [d1; d2; "/"; m1; m2; "/"; y1; y2; y3; y4]%char).
Proof.
  intros Hdigits.
  repeat match goal with
         | Hd : Forall _ (_ :: _) |- _ => apply Forall_cons in Hd as [? Hd]
         end.
  rewrite (search_at_head _ _ 10 []); [reflexivity|].
  unfold Service.pattern_dmy, Re.cats. cbn [foldr].
  cbv [Py.of_chars string_of_list_ascii].
  repeat change (String ?a ?s +:+ ?t) with (String a (s +:+ t)).
  rewrite (matches_cat_single _ _ _ 2) by (by apply matches_two_digits).
  cbn [Py.drop].
  rewrite (matches_cat_single _ _ _ 1) by reflexivity. cbn [Py.drop].
  rewrite (matches_cat_single _ _ _ 2) by (by apply matches_two_digits).
  cbn [Py.drop].
  rewrite (matches_cat_single _ _ _ 1) by reflexivity. cbn [Py.drop].
  rewrite (matches_cat_single _ _ _ 4) by (by apply matches_four_digits).
  reflexivity.
Qed.

End date_origin_facts.

Section first_match_facts.

(** The loop over the patterns stops at the first one found in the text. *)
Lemma first_match_found patterns text :
  (∃ pattern, pattern ∈ patterns ∧ Re.search pattern text ≠ None) →
  ∃ k pattern m,
    patterns !! k = Some pattern
    ∧ (∀ j p, j < k → patterns !! j = Some p → Re.search p text = None)
    ∧ Re.search pattern text = Some m
    ∧ Service.first_match patterns text = Some m.
Proof.
  induction patterns as [|pattern rest IH]; intros (p & Hp & Hfound).
  - by apply elem_of_nil in Hp.
  - cbn [Service.first_match].
    destruct (Re.search pattern text) as [m|] eqn:Hs.
    + exists 0, pattern, m. split; [done|]. split; [lia|done].
    + destruct IH as (k & q & m & Hk & Hbefore & Hq & Hm).
      { apply elem_of_cons in Hp as [->|Hp]; [done|by exists p]. }
      exists (S k), q, m. split; [done|]. split; [|done].
      intros [|j] p' Hj Hp'; [by injection Hp' as <-|].
      apply (Hbefore j); [lia|done].
Qed.

Lemma first_match_all_none patterns text :
  (∀ pattern, pattern ∈ patterns → Re.search pattern text = None) →
  Service.first_match patterns text = None.
Proof.
  induction patterns as [|pattern rest IH]; intros Hnone; [done|].
  cbn [Service.first_match]. rewrite Hnone by apply list_elem_of_here.
  apply IH. intros p Hp. by apply Hnone, list_elem_of_further.
Qed.

(** What the loop returns when some pattern is found: the leftmost match of
    the first pattern of the list that has one, a piece of the text. *)
Lemma first_match_piece patterns text :
  (∃ pattern, pattern ∈ patterns ∧ Re.search pattern text ≠ None) →
  ∃ k pattern i n rest,
    patterns !! k = Some pattern
    ∧ (∀ j p, j < k → patterns !! j = Some p → Re.search p text = None)
    ∧ Re.matches pattern (Py.drop i text) = n :: rest
    ∧ (∀ j, j < i → Re.matches pattern (Py.drop j text) = [])
    ∧ Service.first_match patterns text = Some (Py.slice text i (i + n))
    ∧ Py.contains (Py.slice text i (i + n)) text = true.
Proof.
  intros (k & pattern & m & Hk & Hbefore & Hs & Hm)%first_match_found.
  apply search_leftmost in Hs as (i & n & rest & Hi & -> & Hleft).
  exists k, pattern, i, n, rest.
  assert (Py.slice text i (i + n) = Py.take n (Py.drop i text)) as ->.
  { unfold Py.slice. f_equal. lia. }
  split; [done|]. split; [done|]. split; [done|]. split; [done|]. split; [done|].
  apply (contains_at _ _ i), startswith_take.
Qed.

End first_match_facts.

(** X16.  When none of the patterns is found anywhere in the text,
    [extract_date_from_text] gives today's date.  When some pattern is found,
    it gives a piece of the text, [text[i:i+n]]: the leftmost match of the
    first pattern of the list that is found.  So a date other than today's
    is always a piece of the text.  In [app.py] and in [backend_main.py]. *)
Theorem extract_date_is_a_piece_of_the_text `{Env} (text : string) :
  let found patterns := ∃ pattern, pattern ∈ patterns ∧ Re.search pattern text ≠ None in
  let piece_of patterns date :=
    ∃ k pattern i n rest,
      patterns !! k = Some pattern
      ∧ (∀ j p, j < k → patterns !! j = Some p → Re.search p text = None)
      ∧ Re.matches pattern (Py.drop i text) = n :: rest
      ∧ (∀ j, j < i → Re.matches pattern (Py.drop j text) = [])
      ∧ date = Py.slice text i (i + n)
      ∧ Py.contains date text = true in
  ((∀ pattern, pattern ∈ App.patterns → Re.search pattern text = None) →
   App.extract_date_from_text text = today)
  ∧ (found App.patterns → piece_of App.patterns (App.extract_date_from_text text))
  ∧ (App.extract_date_from_text text ≠ today →
     piece_of App.patterns (App.extract_date_from_text text))
  ∧ ((∀ pattern, pattern ∈ Backend.patterns → Re.search pattern text = None) →
     Backend.extract_date_from_text text = today)
  ∧ (found Backend.patterns →
     piece_of Backend.patterns (Backend.extract_date_from_text text))
  ∧ (Backend.extract_date_from_text text ≠ today →
     piece_of Backend.patterns (Backend.extract_date_from_text text)).
Proof.
  intros found piece_of.
  assert (∀ patterns,
            ((∀ pattern, pattern ∈ patterns → Re.search pattern text = None) →
             default today (Service.first_match patterns text) = today)
            ∧ (found patterns →
               piece_of patterns (default today (Service.first_match patterns text)))
            ∧ (default today (Service.first_match patterns text) ≠ today →
               piece_of patterns (default today (Service.first_match patterns text))))
    as Hall.
  { intros patterns.
    assert (found patterns →
            piece_of patterns (default today (Service.first_match patterns text))) as Hpiece.
    { intros Hfound.
      destruct (first_match_piece patterns text Hfound)
        as (k & pattern & i & n & rest & Hk & Hbefore & Hm & Hleft & -> & Hin).
      by exists k, pattern, i, n, rest. }
    split; [|split; [exact Hpiece|]].
    - intros Hnone. by rewrite first_match_all_none.
    - intros Hdate. apply Hpiece.
      destruct (Service.first_match patterns text) as [m|] eqn:Hm; [|done].
      apply first_match_Some in Hm as (p & Hp & Hs). exists p. split; [done|].
      by rewrite Hs. }
  destruct (Hall App.patterns) as (Ha1 & Ha2 & Ha3).
  destruct (Hall Backend.patterns) as (Hb1 & Hb2 & Hb3).
  done.
Qed.

(** X17.  No calendar check is made: a text that begins with two digits, a
    slash, two digits, a slash and four digits has these ten characters as
    its date, whatever the digits are and whatever follows. *)
Theorem extract_date_takes_any_digits `{Env} (d1 d2 m1 m2 y1 y2 y3 y4 : ascii)
    (rest : string) :
  Forall (λ c, Py.isdigit c = true) [d1; d2; m1; m2; y1; y2; y3; y4] →
  let date := Py.of_chars [d1; d2; "/"; m1; m2; "/"; y1; y2; y3; y4]%char in
  App.extract_date_from_text (date +:+ rest) = date
  ∧ Backend.extract_date_from_text (date +:+ rest) = date.
Proof.
  intros Hdigits date.
  pose proof (search_dmy_digits d1 d2 m1 m2 y1 y2 y3 y4 rest Hdigits) as Hs.
  fold date in Hs.
  unfold App.extract_date_from_text, Backend.extract_date_from_text,
    App.patterns, Backend.patterns.
  cbn [Service.first_match]. by rewrite Hs.
Qed.

(** ** The chat endpoints *)

Section chat_facts.
Context `{Env}.

Lemma startswith_app p s : Py.startswith p (p +:+ s) = true.
Proof.
  induction p as [|c p IH]; [done|].
  change (String c p +:+ s) with (String c (p +:+ s)). simpl.
  by rewrite bool_decide_eq_true_2, IH.
Qed.

Lemma startswith_refl p : Py.startswith p p = true.
Proof. induction p as [|c p IH]; [done|]. simpl. by rewrite bool_decide_eq_true_2. Qed.

Lemma startswith_app_r p s t : Py.startswith p s = true → Py.startswith p (s +:+ t) = true.
Proof.
  revert s. induction p as [|c p IH]; intros [|d s]; simpl; try done.
  change (String d s +:+ t) with (String d (s +:+ t)). simpl.
  intros [Hc Hp]%andb_true_iff. by rewrite Hc, IH.
Qed.

Lemma contains_app_r p s t : Py.contains p s = true → Py.contains p (s +:+ t) = true.
Proof.
  induction s as [|c s IH].
  - simpl. rewrite orb_false_r. intros Hp. destruct p; [by destruct t|done].
  - change (String c s +:+ t) with (String c (s +:+ t)). cbn [Py.contains].
    intros [Hp|Hp]%orb_true_iff.
    + pose proof (startswith_app_r _ (String c s) t Hp) as Hst.
      change (String c s +:+ t) with (String c (s +:+ t)) in Hst. by rewrite Hst.
    + rewrite (IH Hp). apply orb_true_r.
Qed.

Lemma contains_app_l p s t : Py.contains p t = true → Py.contains p (s +:+ t) = true.
Proof.
  intros Hp. induction s as [|c s IH]; [done|].
  change (String c s +:+ t) with (String c (s +:+ t)). cbn [Py.contains].
  rewrite IH. apply orb_true_r.
Qed.

Lemma contains_self p s t : Py.contains p (s +:+ p +:+ t) = true.
Proof.
  apply contains_app_l. apply (contains_at _ _ 0). apply startswith_app.
Qed.

(** Every joined piece is in the joined text. *)
Lemma join_contains sep (l : list string) x p :
  x ∈ l → Py.contains p x = true → Py.contains p (PyStr.join sep l) = true.
Proof.
  intros Hx Hp. induction l as [|y l IH]; [by apply elem_of_nil in Hx|].
  cbn [PyStr.join]. destruct l as [|z l].
  - apply list_elem_of_singleton in Hx as ->. done.
  - apply elem_of_cons in Hx as [->|Hx].
    + by apply contains_app_r.
    + apply contains_app_l, contains_app_l. by apply IH.
Qed.

Lemma search_five_outcome question w :
  ∃ r, SemanticSearchEngine.search question 5 None (Service.collection w)
       = (r, Service.collection w)
    ∧ Service.on_engine (SemanticSearchEngine.search question 5 None) w = (r, w)
    ∧ (∀ hits, r = Ok hits → length hits ≤ 5)
    ∧ (∀ e, r = Raise e → encode question = Raise e)
    ∧ (Service.collection w = ∅ → ∀ v, encode question = Ok v → r = Ok []).
Proof.
  unfold Service.on_engine. rewrite search_unfold.
  destruct (encode question) as [v|e] eqn:Hv.
  - change (5 <=? 0)%Z with false. cbv iota.
    eexists. split; [done|]. split; [by destruct w|]. split; [|split].
    + intros hits [= <-]. rewrite length_fmap.
      apply (nearest_length v (Z.to_nat 5)).
    + done.
    + intros Hempty v' _. f_equal.
      assert (length (Chroma.nearest v (Z.to_nat 5) None (Service.collection w)) = 0) as Hn.
      { rewrite nearest_count, Hempty, map_filter_empty, map_size_empty. lia. }
      by destruct (Chroma.nearest v (Z.to_nat 5) None (Service.collection w)).
  - eexists. split; [done|]. split; [by destruct w|]. split; [done|]. split; [|done].
    by intros e' [= ->].
Qed.

End chat_facts.

(** X18.  The chat endpoint of [app.py].  It never changes the collection.
    When the question cannot be embedded, the exception leaves the endpoint:
    nothing catches it.  When the search finds nothing, which is the case on
    an empty collection, the answer is the fixed sentence and the language
    model is not called.  When the search finds chunks, exactly one prompt is
    sent: [Context:], the chunks found (at most 5), each after [Source: ],
    and the question; the answer is the model's text, or ["AI Error"] when
    the model raises, and the sources are an empty list in both cases. *)
Theorem chat_with_data_outcomes `{Env} (query : AppApi.ChatQuery) (w : Service.World) :
  let question := AppApi.question query in
  (∀ e, encode question = Raise e → AppApi.chat_with_data query w = (Raise e, w))
  ∧ (∀ e w', AppApi.chat_with_data query w = (Raise e, w') →
       encode question = Raise e ∧ w' = w)
  ∧ (∀ v, encode question = Ok v → Service.collection w = ∅ →
       AppApi.chat_with_data query w
       = (Ok {| AppApi.answer := "No relevant info found."; AppApi.sources := None |}, w))
  ∧ (∀ reply w', AppApi.chat_with_data query w = (Ok reply, w') →
       Service.collection w' = Service.collection w
       ∧ ((w' = w ∧ reply = {| AppApi.answer := "No relevant info found.";
                               AppApi.sources := None |})
          ∨ ∃ hits prompt,
              SemanticSearchEngine.search question 5 None (Service.collection w)
              = (Ok hits, Service.collection w)
              ∧ 0 < length hits ≤ 5
              ∧ Service.prompts w' = Service.prompts w ++ [prompt]
              ∧ (∀ h, h ∈ hits →
                   Py.contains (SemanticSearchEngine.document h) prompt = true)
              ∧ Py.contains question prompt = true
              ∧ AppApi.sources reply = Some []
              ∧ AppApi.answer reply
                = match generate_content prompt with
                  | Ok text => text
                  | Raise _ => "AI Error"
                  end))
  ∧ (SemanticSearchEngine.search question 5 None (Service.collection w)
     = (Ok [], Service.collection w) →
     AppApi.chat_with_data query w
     = (Ok {| AppApi.answer := "No relevant info found."; AppApi.sources := None |}, w))
  ∧ (∀ hits,
       SemanticSearchEngine.search question 5 None (Service.collection w)
       = (Ok hits, Service.collection w) →
       hits ≠ [] →
       let prompt :=
         "Context:" +:+ Service.nl
         +:+ PyStr.join (Service.nl +:+ Service.nl)
               ((λ r, "Source: " +:+ SemanticSearchEngine.document r) <$> hits)
         +:+ Service.nl +:+ Service.nl +:+ "Question: " +:+ question in
       AppApi.chat_with_data query w
       = (Ok {| AppApi.answer := match generate_content prompt with
                                 | Ok text => text
                                 | Raise _ => "AI Error"
                                 end;
                AppApi.sources := Some [] |},
          {| Service.collection := Service.collection w;
             Service.prompts := Service.prompts w ++ [prompt] |})).
Proof.
  intros question.
  destruct (search_five_outcome question w) as (r & Hsearch & Hrun & Hlen & Hraise & Hempty).
  assert (AppApi.chat_with_data query w
          = match r with
            | Ok [] =>
                (Ok {| AppApi.answer := "No relevant info found."; AppApi.sources := None |}, w)
            | Ok hits =>
                let prompt :=
                  "Context:" +:+ Service.nl
                  +:+ PyStr.join (Service.nl +:+ Service.nl)
                        ((λ r, "Source: " +:+ SemanticSearchEngine.document r) <$> hits)
                  +:+ Service.nl +:+ Service.nl +:+ "Question: " +:+ question in
                (Ok {| AppApi.answer := match generate_content prompt with
                                        | Ok text => text
                                        | Raise _ => "AI Error"
                                        end;
                       AppApi.sources := Some [] |},
                 {| Service.collection := Service.collection w;
                    Service.prompts := Service.prompts w ++ [prompt] |})
            | Raise e => (Raise e, w)
            end) as ->.
  { unfold AppApi.chat_with_data. unfold Py.bind at 1. fold question. rewrite Hrun.
    destruct r as [[|h hits]|e']; [done| |done].
    unfold Py.try_except, Py.bind, Service.model_generate, Py.ret. cbv zeta.
    by destruct (generate_content _). }
  split; [|split; [|split; [|split; [|split]]]].
  - intros e He. destruct r as [hits|e']; [|by rewrite (Hraise e' eq_refl) in He; simplify_eq].
    rewrite search_unfold, He in Hsearch. done.
  - destruct r as [[|h hits]|e']; [done|done|].
    intros e w' [= <- <-]. split; [by apply Hraise|done].
  - intros v Hv Hc. by rewrite (Hempty Hc v Hv).
  - intros reply w'. destruct r as [[|h hits]|e']; [| |done].
    + intros [= <- <-]. split; [done|]. by left.
    + cbv zeta. set (prompt := "Context:" +:+ _). intros [= <- <-].
      split; [done|]. right. exists (h :: hits), prompt.
      split; [done|]. split; [specialize (Hlen _ eq_refl); simpl in *; lia|].
      split; [done|]. split; [|split; [|done]].
      * intros h' Hh'. subst prompt.
        apply contains_app_l, contains_app_l, contains_app_r.
        apply (join_contains _ _ ("Source: " +:+ SemanticSearchEngine.document h')).
        -- apply list_elem_of_fmap. by exists h'.
        -- apply contains_app_l. apply (contains_at _ _ 0), startswith_refl.
      * subst prompt.
        repeat apply contains_app_l. apply (contains_at _ _ 0), startswith_refl.
  - intros Hnone. rewrite Hsearch in Hnone. by injection Hnone as ->.
  - intros hits Hhits Hne. rewrite Hsearch in Hhits. injection Hhits as ->.
    by destruct hits.
Qed.

(** X19.  The chat endpoint of [backend_main.py].  As in [app.py] it never
    changes the collection, lets an exception of the encoder through, and
    answers with a fixed sentence, without calling the language model, when
    the search finds nothing.  When the search finds chunks, exactly one
    prompt is sent: [Context:], every chunk found after [Source (title): ]
    ([None] for a chunk without a title), the question and the closing
    instruction; when the model answers, the sources are the metadata of the
    chunks, in their order and at most 5; when the model raises, the answer
    is ["AI Service Error"] and the sources are empty. *)
Theorem backend_chat_with_data_outcomes `{Env} (query : BackendApi.ChatQuery)
    (w : Service.World) :
  let question := BackendApi.question query in
  (∀ e, encode question = Raise e → BackendApi.chat_with_data query w = (Raise e, w))
  ∧ (∀ e w', BackendApi.chat_with_data query w = (Raise e, w') →
       encode question = Raise e ∧ w' = w)
  ∧ (∀ v, encode question = Ok v → Service.collection w = ∅ →
       BackendApi.chat_with_data query w
       = (Ok {| BackendApi.answer := "I couldn't find relevant documents.";
                BackendApi.sources := None |}, w))
  ∧ (∀ reply w', BackendApi.chat_with_data query w = (Ok reply, w') →
       Service.collection w' = Service.collection w
       ∧ ((w' = w ∧ reply = {| BackendApi.answer := "I couldn't find relevant documents.";
                               BackendApi.sources := None |})
          ∨ ∃ hits prompt,
              SemanticSearchEngine.search question 5 None (Service.collection w)
              = (Ok hits, Service.collection w)
              ∧ 0 < length hits ≤ 5
              ∧ Service.prompts w' = Service.prompts w ++ [prompt]
              ∧ (∀ h, h ∈ hits →
                   Py.contains (SemanticSearchEngine.document h) prompt = true
                   ∧ ∀ title, SemanticSearchEngine.metadata h !! "title" = Some title →
                       Py.contains title prompt = true)
              ∧ Py.contains question prompt = true
              ∧ reply
                = match generate_content prompt with
                  | Ok text =>
                      {| BackendApi.answer := text;
                         BackendApi.sources :=
                           Some (SemanticSearchEngine.metadata <$> hits) |}
                  | Raise _ =>
                      {| BackendApi.answer := "AI Service Error";
                         BackendApi.sources := Some [] |}
                  end))
  ∧ (SemanticSearchEngine.search question 5 None (Service.collection w)
     = (Ok [], Service.collection w) →
     BackendApi.chat_with_data query w
     = (Ok {| BackendApi.answer := "I couldn't find relevant documents.";
              BackendApi.sources := None |}, w))
  ∧ (∀ hits,
       SemanticSearchEngine.search question 5 None (Service.collection w)
       = (Ok hits, Service.collection w) →
       hits ≠ [] →
       let prompt :=
         "Context:" +:+ Service.nl
         +:+ PyStr.join (Service.nl +:+ Service.nl)
               ((λ r, "Source ("
                      +:+ default "None" (SemanticSearchEngine.metadata r !! "title")
                      +:+ "): " +:+ SemanticSearchEngine.document r) <$> hits)
         +:+ Service.nl +:+ Service.nl +:+ "Question: " +:+ question
         +:+ Service.nl +:+ Service.nl
         +:+ "Answer (be direct and cite the source name):" in
       BackendApi.chat_with_data query w
       = (Ok match generate_content prompt with
             | Ok text =>
                 {| BackendApi.answer := text;
                    BackendApi.sources := Some (SemanticSearchEngine.metadata <$> hits) |}
             | Raise _ =>
                 {| BackendApi.answer := "AI Service Error";
                    BackendApi.sources := Some [] |}
             end,
          {| Service.collection := Service.collection w;
             Service.prompts := Service.prompts w ++ [prompt] |})).
Proof.
  intros question.
  destruct (search_five_outcome question w) as (r & Hsearch & Hrun & Hlen & Hraise & Hempty).
  assert (BackendApi.chat_with_data query w
          = match r with
            | Ok [] =>
                (Ok {| BackendApi.answer := "I couldn't find relevant documents.";
                       BackendApi.sources := None |}, w)
            | Ok hits =>
                let prompt :=
                  "Context:" +:+ Service.nl
                  +:+ PyStr.join (Service.nl +:+ Service.nl)
                        ((λ r, "Source ("
                               +:+ default "None" (SemanticSearchEngine.metadata r !! "title")
                               +:+ "): " +:+ SemanticSearchEngine.document r) <$> hits)
                  +:+ Service.nl +:+ Service.nl +:+ "Question: " +:+ question
                  +:+ Service.nl +:+ Service.nl
                  +:+ "Answer (be direct and cite the source name):" in
                (Ok match generate_content prompt with
                    | Ok text =>
                        {| BackendApi.answer := text;
                           BackendApi.sources :=
                             Some (SemanticSearchEngine.metadata <$> hits) |}
                    | Raise _ =>
                        {| BackendApi.answer := "AI Service Error";
                           BackendApi.sources := Some [] |}
                    end,
                 {| Service.collection := Service.collection w;
                    Service.prompts := Service.prompts w ++ [prompt] |})
            | Raise e => (Raise e, w)
            end) as ->.
  { unfold BackendApi.chat_with_data. unfold Py.bind at 1. fold question. rewrite Hrun.
    destruct r as [[|h hits]|e']; [done| |done].
    unfold Py.try_except, Py.bind, Service.model_generate, Py.ret. cbv zeta.
    by destruct (generate_content _). }
  split; [|split; [|split; [|split; [|split]]]].
  - intros e He. destruct r as [hits|e']; [|by rewrite (Hraise e' eq_refl) in He; simplify_eq].
    rewrite search_unfold, He in Hsearch. done.
  - destruct r as [[|h hits]|e']; [done|done|].
    intros e w' [= <- <-]. split; [by apply Hraise|done].
  - intros v Hv Hc. by rewrite (Hempty Hc v Hv).
  - intros reply w'. destruct r as [[|h hits]|e']; [| |done].
    + intros [= <- <-]. split; [done|]. by left.
    + cbv zeta. set (prompt := "Context:" +:+ _). intros [= <- <-].
      split; [done|]. right. exists (h :: hits), prompt.
      split; [done|]. split; [specialize (Hlen _ eq_refl); simpl in *; lia|].
      split; [done|]. split; [|split; [|done]].
      * intros h' Hh'.
        assert (∀ p,
                  Py.contains p
                    ("Source (" +:+ default "None" (SemanticSearchEngine.metadata h' !! "title")
                     +:+ "): " +:+ SemanticSearchEngine.document h') = true →
                  Py.contains p prompt = true) as Hpiece.
        { intros p Hp. subst prompt.
          apply contains_app_l, contains_app_l, contains_app_r.
          eapply join_contains; [|exact Hp].
          apply list_elem_of_fmap. by exists h'. }
        split.
        -- apply Hpiece. repeat apply contains_app_l.
           apply (contains_at _ _ 0), startswith_refl.
        -- intros title Htitle. apply Hpiece. rewrite Htitle. cbn [default from_option id].
           apply contains_app_l, contains_app_r.
           apply (contains_at _ _ 0), startswith_refl.
      * subst prompt.
        do 6 apply contains_app_l. apply contains_app_r.
        apply (contains_at _ _ 0), startswith_refl.
  - intros Hnone. rewrite Hsearch in Hnone. by injection Hnone as ->.
  - intros hits Hhits Hne. rewrite Hsearch in Hhits. injection Hhits as ->.
    by destruct hits.
Qed.

(** ** Cleaning recognised text *)

Section strip_facts.
Variable p : ascii → bool.

Lemma lstrip_head s c t : Py.lstrip_with p s = String c t → p c = false.
Proof.
  induction s as [|a s IH]; simpl; [done|].
  destruct (p a) eqn:Ha; [done|]. by intros [= <- _].
Qed.

Lemma rstrip_head s c t : Py.rstrip_with p s = String c t → ∃ t', s = String c t'.
Proof.
  destruct s as [|a s]; simpl; [done|].
  destruct (Py.rstrip_with p s); [destruct (p a)|]; intros [= <- _]; eauto.
Qed.

Lemma rstrip_idemp s : Py.rstrip_with p (Py.rstrip_with p s) = Py.rstrip_with p s.
Proof.
  induction s as [|a s IH]; simpl; [done|].
  destruct (Py.rstrip_with p s) as [|b t] eqn:Hs.
  - destruct (p a) eqn:Ha; simpl; [done|]. by rewrite Ha.
  - change (Py.rstrip_with p (String a (String b t)))
      with (match Py.rstrip_with p (String b t) with
            | "" => if p a then "" else String a ""
            | String _ _ as t' => String a t'
            end).
    by rewrite IH.
Qed.

Lemma strip_with_head s c t : Py.strip_with p s = String c t → p c = false.
Proof.
  unfold Py.strip_with. intros Hs.
  destruct (rstrip_head _ _ _ Hs) as [t' Ht']. by apply lstrip_head in Ht'.
Qed.

Lemma lstrip_chars s c : c ∈ Py.chars (Py.lstrip_with p s) → c ∈ Py.chars s.
Proof.
  induction s as [|a s IH]; simpl; [done|].
  destruct (p a); [|done]. intros Hc. right. by apply IH.
Qed.

Lemma rstrip_chars s c : c ∈ Py.chars (Py.rstrip_with p s) → c ∈ Py.chars s.
Proof.
  induction s as [|a s IH]; simpl; [done|].
  destruct (Py.rstrip_with p s) as [|b t] eqn:Hs.
  - destruct (p a); simpl; [by intros ?%elem_of_nil|].
    intros ->%list_elem_of_singleton. by left.
  - intros [->|Hc]%elem_of_cons; [by left|]. right. by apply IH.
Qed.

Lemma strip_with_chars s c : c ∈ Py.chars (Py.strip_with p s) → c ∈ Py.chars s.
Proof. intros Hc. by apply lstrip_chars, rstrip_chars. Qed.

Lemma rstrip_app s t :
  Py.rstrip_with p t = t → t ≠ "" → Py.rstrip_with p (s +:+ t) = s +:+ t.
Proof.
  intros Ht Hne. induction s as [|a s IH]; [done|].
  change (String a s +:+ t) with (String a (s +:+ t)). cbn [Py.rstrip_with].
  rewrite IH. destruct s; [by destruct t|done].
Qed.

(** A stripped string that is not empty is kept by both halves of [strip]. *)
Lemma strip_with_fixed s :
  Py.strip_with p (Py.strip_with p s) = Py.strip_with p s.
Proof.
  destruct (Py.strip_with p s) as [|c t] eqn:Hs; [done|].
  pose proof (strip_with_head _ _ _ Hs) as Hc.
  unfold Py.strip_with at 1. cbn [Py.lstrip_with]. rewrite Hc.
  rewrite <-Hs. apply rstrip_idemp.
Qed.

End strip_facts.

Section split_facts.

Lemma split_nonempty sep s : PyStr.split sep s ≠ [].
Proof.
  destruct s as [|c s]; simpl; [done|].
  case_bool_decide; [done|]. by destruct (PyStr.split sep s).
Qed.

Lemma split_no_sep sep s x : x ∈ PyStr.split sep s → sep ∉ Py.chars x.
Proof.
  revert x. induction s as [|c s IH]; intros x; simpl.
  - intros ->%list_elem_of_singleton. by intros ?%elem_of_nil.
  - case_bool_decide as Hc.
    + intros [->|Hx]%elem_of_cons; [by intros ?%elem_of_nil|by apply IH].
    + destruct (PyStr.split sep s) as [|y ys] eqn:Hs.
      * intros ->%list_elem_of_singleton. simpl.
        intros [->|?%elem_of_nil]%elem_of_cons; done.
      * intros [->|Hx]%elem_of_cons.
        -- simpl. intros [->|Hy]%elem_of_cons; [done|].
           by apply (IH y); [left|].
        -- apply IH. by right.
Qed.

Lemma split_one sep x : sep ∉ Py.chars x → PyStr.split sep x = [x].
Proof.
  induction x as [|c x IH]; simpl; [done|]. intros Hsep.
  rewrite bool_decide_eq_false_2 by (intros ->; apply Hsep; by left).
  rewrite IH; [done|]. intros Hin. apply Hsep. by right.
Qed.

Lemma split_app_sep sep x rest :
  sep ∉ Py.chars x →
  PyStr.split sep (x +:+ String sep "" +:+ rest) = x :: PyStr.split sep rest.
Proof.
  induction x as [|c x IH]; intros Hsep.
  - change ("" +:+ String sep "" +:+ rest) with (String sep rest). simpl.
    by rewrite bool_decide_eq_true_2.
  - change (String c x +:+ String sep "" +:+ rest)
      with (String c (x +:+ String sep "" +:+ rest)).
    cbn [PyStr.split].
    rewrite bool_decide_eq_false_2 by (intros ->; apply Hsep; by left).
    rewrite IH; [done|]. intros Hin. apply Hsep. by right.
Qed.

Lemma split_join sep (l : list string) :
  l ≠ [] → (∀ x, x ∈ l → sep ∉ Py.chars x) →
  PyStr.split sep (PyStr.join (String sep "") l) = l.
Proof.
  induction l as [|x l IH]; [done|]. intros _ Hl.
  cbn [PyStr.join]. destruct l as [|y l].
  - apply split_one, Hl. by left.
  - rewrite split_app_sep by (apply Hl; by left).
    rewrite IH; [done|done|]. intros z Hz. apply Hl. by right.
Qed.

End split_facts.

Section cleanup_facts.

Lemma findall_class_length (p : ascii → bool) (s : string) :
  length (Re.findall (Re.Cls p) s) = PyStr.count p s.
Proof.
  unfold Re.findall. induction s as [|c s IH]; [done|].
  cbn [Re.findall_from Re.matches PyStr.count].
  destruct (p c); [|done]. cbn [length Nat.sub]. by rewrite IH.
Qed.

Lemma half_alnum (a l : nat) :
  0 < l →
  (Q2Qc (Z.of_nat a # Pos.of_nat l) < Q2Qc (1 # 2))%Qc ↔ 2 * a < l.
Proof.
  intros Hl. unfold Qclt. simpl. rewrite !Qred_correct. unfold Qlt. simpl.
  assert (Z.pos (Pos.of_nat l) = Z.of_nat l) as ->.
  { destruct l; [lia|]. by rewrite <-Pos.of_nat_succ, Zpos_P_of_succ_nat, Nat2Z.inj_succ. }
  lia.
Qed.

(** The test a stripped line passes to be kept. *)
Lemma cleaned_lines_cons raw rest :
  OCRProcessor.cleaned_lines (raw :: rest)
  = if bool_decide (2 ≤ PyStr.count PyStr.isalnum_ascii (Py.strip raw)
                    ∧ Py.len (Py.strip raw) ≤ 2 * PyStr.count PyStr.isalnum (Py.strip raw))
    then Py.strip raw :: OCRProcessor.cleaned_lines rest
    else OCRProcessor.cleaned_lines rest.
Proof.
  cbn [OCRProcessor.cleaned_lines]. cbv zeta. rewrite findall_class_length.
  generalize (Py.strip raw). intros line.
  case_bool_decide as Hempty.
  - rewrite bool_decide_eq_false_2; [done|]. rewrite Hempty. simpl. lia.
  - assert (0 < Py.len line) as Hlen by (destruct line; [done|simpl; lia]).
    destruct (PyStr.count PyStr.isalnum_ascii line <? 2) eqn:Hcount.
    + apply Nat.ltb_lt in Hcount. by rewrite bool_decide_eq_false_2 by lia.
    + apply Nat.ltb_ge in Hcount.
      rewrite (proj2 (Nat.ltb_lt 0 (Py.len line)) Hlen). cbn [andb].
      pose proof (half_alnum (PyStr.count PyStr.isalnum line) (Py.len line) Hlen) as Hhalf.
      case_bool_decide as Hratio.
      * apply Hhalf in Hratio. by rewrite bool_decide_eq_false_2 by lia.
      * rewrite bool_decide_eq_true_2; [done|]. split; [done|].
        destruct (decide (Py.len line ≤ 2 * PyStr.count PyStr.isalnum line)); [done|].
        exfalso. apply Hratio, Hhalf. lia.
Qed.

Lemma cleaned_lines_filter lines :
  OCRProcessor.cleaned_lines lines
  = filter (λ line, 2 ≤ PyStr.count PyStr.isalnum_ascii line
                    ∧ Py.len line ≤ 2 * PyStr.count PyStr.isalnum line)
      (Py.strip <$> lines).
Proof.
  induction lines as [|raw rest IH]; [done|].
  rewrite cleaned_lines_cons, fmap_cons, filter_cons, IH.
  case_bool_decide; [by rewrite decide_True|by rewrite decide_False].
Qed.

End cleanup_facts.

Section cleanup_output_facts.

Lemma kept_line_shape (lines : list string) (line : string) :
  line ∈ OCRProcessor.cleaned_lines lines →
  (∃ raw, raw ∈ lines ∧ line = Py.strip raw)
  ∧ 2 ≤ PyStr.count PyStr.isalnum_ascii line
  ∧ Py.len line ≤ 2 * PyStr.count PyStr.isalnum line
  ∧ line ≠ "".
Proof.
  rewrite cleaned_lines_filter. intros [[Hascii Hhalf] Hin]%list_elem_of_filter.
  apply list_elem_of_fmap in Hin as (raw & -> & Hraw).
  split; [eauto|]. split; [done|]. split; [done|].
  intros Hempty. rewrite Hempty in Hascii. simpl in Hascii. lia.
Qed.

Lemma cleaned_lines_fixed (lines : list string) :
  OCRProcessor.cleaned_lines (OCRProcessor.cleaned_lines lines)
  = OCRProcessor.cleaned_lines lines.
Proof.
  rewrite (cleaned_lines_filter (OCRProcessor.cleaned_lines lines)).
  assert (Py.strip <$> OCRProcessor.cleaned_lines lines = OCRProcessor.cleaned_lines lines)
    as ->.
  { rewrite <-(list_fmap_id (OCRProcessor.cleaned_lines lines)) at 2.
    apply list_fmap_ext. intros i line Hline.
    apply list_elem_of_lookup_2, kept_line_shape in Hline as ((raw & _ & ->) & _).
    apply strip_with_fixed. }
  apply filter_all, Forall_forall. intros line Hline.
  by apply kept_line_shape in Hline as (_ & ? & ? & _).
Qed.

Lemma kept_line_no_newline (text line : string) :
  line ∈ OCRProcessor.cleaned_lines (PyStr.split "010" text) →
  "010"%char ∉ Py.chars line.
Proof.
  intros ((raw & Hraw & ->) & _)%kept_line_shape Hin.
  apply strip_with_chars in Hin. by apply split_no_sep in Hraw.
Qed.

Lemma join_stripped (sep : string) (l : list string) :
  (∀ x, x ∈ l → x ≠ "" ∧ ∃ raw, x = Py.strip raw) →
  Py.strip (PyStr.join sep l) = PyStr.join sep l.
Proof.
  intros Hl. destruct l as [|x l]; [done|].
  assert (Py.rstrip_with Py.isspace (PyStr.join sep (x :: l)) = PyStr.join sep (x :: l)
          ∧ PyStr.join sep (x :: l) ≠ "") as [Hr Hne].
  { revert x Hl. induction l as [|y l IH]; intros x Hl.
    - destruct (Hl x) as (Hx & raw & ->); [by left|]. split; [|done].
      apply rstrip_idemp.
    - destruct (IH y) as [Hr Hne]; [intros z Hz; apply Hl; by right|].
      destruct (Hl x) as (Hx & _); [by left|].
      change (PyStr.join sep (x :: y :: l)) with (x +:+ sep +:+ PyStr.join sep (y :: l)).
      split.
      + apply rstrip_app; [by apply rstrip_app|].
        destruct sep; [done|]. done.
      + destruct x; done. }
  destruct (Hl x) as (Hx & raw & Hraw); [by left|].
  destruct x as [|c t]; [done|].
  pose proof (strip_with_head _ _ _ _ (eq_sym Hraw)) as Hc.
  unfold Py.strip, Py.strip_with.
  assert (∃ t', PyStr.join sep (String c t :: l) = String c t') as [t' Ht'].
  { cbn [PyStr.join]. destruct l; eauto. }
  rewrite Ht' at 1. cbn [Py.lstrip_with]. rewrite Hc, <-Ht'. exact Hr.
Qed.

End cleanup_output_facts.

(** X20.  [cleanup_text] keeps, in their order, exactly the lines that,
    once stripped, have at least two ASCII letters or digits and are
    alphanumeric for at least half of their characters, and it keeps them
    stripped.  No kept line is empty or has a line break in it, so the lines
    of the result are the kept lines; when no line is kept the result is
    empty. *)
Theorem cleanup_text_keeps_exactly_the_good_lines (text : string) :
  let good line :=
    2 ≤ PyStr.count PyStr.isalnum_ascii line
    ∧ Py.len line ≤ 2 * PyStr.count PyStr.isalnum line in
  let kept := filter good (Py.strip <$> PyStr.split "010" text) in
  OCRProcessor.cleanup_text text = PyStr.join (String "010" "") kept
  ∧ (∀ line, line ∈ kept →
       line ≠ "" ∧ Py.strip line = line ∧ "010"%char ∉ Py.chars line)
  ∧ (kept ≠ [] → PyStr.split "010" (OCRProcessor.cleanup_text text) = kept)
  ∧ (kept = [] → OCRProcessor.cleanup_text text = "").
Proof.
  intros good kept.
  assert (OCRProcessor.cleaned_lines (PyStr.split "010" text) = kept) as Hkept
    by apply cleaned_lines_filter.
  assert (OCRProcessor.cleanup_text text = PyStr.join (String "010" "") kept) as Hclean.
  { unfold OCRProcessor.cleanup_text. cbv zeta. by rewrite Hkept. }
  assert (∀ line, line ∈ kept →
            line ≠ "" ∧ Py.strip line = line ∧ "010"%char ∉ Py.chars line) as Hlines.
  { intros line Hline. rewrite <-Hkept in Hline.
    split; [by apply kept_line_shape in Hline as (_ & _ & _ & ?)|]. split.
    - apply kept_line_shape in Hline as ((raw & _ & ->) & _). apply strip_with_fixed.
    - by apply (kept_line_no_newline text). }
  split; [done|]. split; [done|]. split.
  - intros Hne. rewrite Hclean. apply split_join; [done|].
    intros line Hline. by apply Hlines.
  - intros Hnil. by rewrite Hclean, Hnil.
Qed.

(** ** Documents and their pages *)

Section word_facts.

Lemma split_whitespace_nil s :
  PyStr.split_whitespace s = [] ↔ ∀ c, c ∈ Py.chars s → Py.isspace c = true.
Proof.
  induction s as [|c s IH]; simpl.
  - split; [by intros _ c ?%elem_of_nil|done].
  - destruct (Py.isspace c) eqn:Hc.
    + rewrite IH. split.
      * intros Hs d [->|Hd]%elem_of_cons; [done|by apply Hs].
      * intros Hs d Hd. apply Hs. by right.
    + split.
      * destruct s as [|d s]; [done|]. destruct (Py.isspace d); [done|].
        by destruct (PyStr.split_whitespace (String d s)).
      * intros Hs. specialize (Hs c ltac:(by left)). congruence.
Qed.

Lemma cleanup_text_twice (text : string) :
  OCRProcessor.cleanup_text (OCRProcessor.cleanup_text text)
  = OCRProcessor.cleanup_text text.
Proof.
  unfold OCRProcessor.cleanup_text. cbv zeta.
  destruct (decide (OCRProcessor.cleaned_lines (PyStr.split "010" text) = []))
    as [->|Hne]; [reflexivity|].
  rewrite split_join; [by rewrite cleaned_lines_fixed|done|].
  intros line Hline. by apply (kept_line_no_newline text).
Qed.

Lemma cleanup_text_stripped (text : string) :
  Py.strip (OCRProcessor.cleanup_text text) = OCRProcessor.cleanup_text text.
Proof.
  unfold OCRProcessor.cleanup_text. cbv zeta. apply join_stripped.
  intros line Hline.
  apply kept_line_shape in Hline as ((raw & _ & ->) & _ & _ & Hne). eauto.
Qed.

(** A cleaned text has a word in it unless it is empty. *)
Lemma cleaned_text_words (text : string) :
  PyStr.split_whitespace (OCRProcessor.cleanup_text text) = []
  ↔ OCRProcessor.cleanup_text text = "".
Proof.
  split; [|by intros ->].
  rewrite split_whitespace_nil. intros Hspace.
  pose proof (cleanup_text_stripped text) as Hstrip.
  destruct (OCRProcessor.cleanup_text text) as [|c t] eqn:Hclean; [done|].
  apply (strip_with_head Py.isspace) in Hstrip. rewrite Hspace in Hstrip; [done|by left].
Qed.

End word_facts.

Section page_facts.
Variable FS : Type.
Variable Image : Type.
Variable image_to_string : bool → string → Py.M FS string.
Variable convert_from_path : string → Py.M FS (list Image).
Variable save : Image → string → Py.M FS unit.
Variable unlink : string → Py.M FS unit.

Lemma extract_text_from_image_outcome image_path preprocess fs :
  ∃ text fs',
    OCRProcessor.extract_text_from_image FS image_to_string image_path preprocess fs = (Ok text, fs')
    ∧ OCRProcessor.cleanup_text text = text
    ∧ ((∃ raw, image_to_string preprocess image_path fs = (Ok raw, fs')
               ∧ text = OCRProcessor.cleanup_text raw)
       ∨ (∃ e, image_to_string preprocess image_path fs = (Raise e, fs') ∧ text = "")).
Proof.
  unfold OCRProcessor.extract_text_from_image, Py.try_except, Py.bind, Py.ret.
  destruct (image_to_string preprocess image_path fs) as [[raw|e] fs'] eqn:Hrun.
  - eexists _, _. split; [done|]. rewrite cleanup_text_stripped.
    split; [apply cleanup_text_twice|]. left. eauto.
  - eexists _, _. split; [done|]. split; [done|]. right. eauto.
Qed.

(** The loop of [extract_text_from_pdf] over the pages from the [i]-th on. *)
Lemma pages_loop_outcome (images : list Image) (i : nat) (fs : FS) :
  ∃ r fs',
    Py.for_each
      (λ i image,
         let* _ := save image ("temp_page_" +:+ pretty i +:+ ".png") in
         let* page_text :=
           OCRProcessor.extract_text_from_image FS image_to_string
             ("temp_page_" +:+ pretty i +:+ ".png") true in
         let* _ := unlink ("temp_page_" +:+ pretty i +:+ ".png") in
         Py.ret page_text)
      i images fs = (r, fs')
    ∧ (∀ pages, r = Ok pages →
         length pages = length images
         ∧ Forall (λ page, OCRProcessor.cleanup_text page = page) pages)
    ∧ ((∀ image path fs0, ∃ fs1, save image path fs0 = (Ok tt, fs1)) →
       (∀ path fs0, ∃ fs1, unlink path fs0 = (Ok tt, fs1)) →
       ∃ pages, r = Ok pages
         ∧ ((∀ path fs0 raw fs1, image_to_string true path fs0 = (Ok raw, fs1) →
               OCRProcessor.cleanup_text raw = "") →
            pages = replicate (length images) "")).
Proof.
  revert i fs. induction images as [|image images IH]; intros i fs.
  - exists (Ok []), fs. split; [done|]. split.
    + intros pages [= <-]. by split.
    + intros _ _. exists []. by split.
  - cbn [Py.for_each]. unfold Py.bind at 1 2.
    destruct (save image ("temp_page_" +:+ pretty i +:+ ".png") fs) as [[[]|e] fs1] eqn:Hsave.
    + unfold Py.bind at 1.
      destruct (extract_text_from_image_outcome ("temp_page_" +:+ pretty i +:+ ".png") true fs1)
        as (page & fs2 & -> & Hclean & Hpage).
      unfold Py.bind at 1.
      destruct (unlink ("temp_page_" +:+ pretty i +:+ ".png") fs2) as [[[]|e] fs3] eqn:Hunlink.
      * unfold Py.ret at 1. unfold Py.bind at 1.
        destruct (IH (S i) fs3) as (r & fs' & -> & Hok & Hall).
        destruct r as [pages|e].
        -- eexists _, _. split; [done|]. split.
           ++ intros pages' [= <-]. destruct (Hok pages eq_refl) as [Hlen Hcl].
              split; [by rewrite !length_cons, Hlen|by constructor].
           ++ intros Hsaves Hunlinks.
              destruct (Hall Hsaves Hunlinks) as (pages' & [= <-] & Hblank).
              exists (page :: pages). split; [done|]. intros Hnone.
              cbn [length replicate]. rewrite <-(Hblank Hnone). f_equal.
              destruct Hpage as [(raw & Hraw & ->)|(e & _ & ->)]; [|done].
              by apply (Hnone _ _ _ _ Hraw).
        -- eexists _, _. split; [done|]. split; [done|].
           intros Hsaves Hunlinks. by destruct (Hall Hsaves Hunlinks) as (? & ? & _).
      * eexists _, _. split; [done|]. split; [done|].
        intros _ Hunlinks.
        destruct (Hunlinks ("temp_page_" +:+ pretty i +:+ ".png") fs2) as [? ?]. congruence.
    + eexists _, _. split; [done|]. split; [done|].
      intros Hsaves _.
      destruct (Hsaves image ("temp_page_" +:+ pretty i +:+ ".png") fs) as [? ?]. congruence.
Qed.

End page_facts.

Section line_by_line_facts.

Lemma string_app_assoc_r (a b c : string) : (a +:+ b) +:+ c = a +:+ (b +:+ c).
Proof. apply chars_inj. by rewrite !chars_app, (assoc_L (++)). Qed.

Lemma split_app sep a b :
  PyStr.split sep (a +:+ String sep "" +:+ b) = PyStr.split sep a ++ PyStr.split sep b.
Proof.
  induction a as [|c a IH].
  - change ("" +:+ String sep "" +:+ b) with (String sep b). simpl.
    by rewrite bool_decide_eq_true_2.
  - change (String c a +:+ String sep "" +:+ b) with (String c (a +:+ String sep "" +:+ b)).
    cbn [PyStr.split]. rewrite IH. case_bool_decide; [done|].
    pose proof (split_nonempty sep a) as Hne.
    by destruct (PyStr.split sep a).
Qed.

Lemma join_app sep (l1 l2 : list string) :
  l1 ≠ [] → l2 ≠ [] →
  PyStr.join sep (l1 ++ l2) = PyStr.join sep l1 +:+ sep +:+ PyStr.join sep l2.
Proof.
  intros Hl1 Hl2. induction l1 as [|x l1 IH]; [done|].
  destruct l1 as [|y l1].
  - destruct l2 as [|z l2]; [done|]. done.
  - change (PyStr.join sep ((x :: y :: l1) ++ l2))
      with (x +:+ sep +:+ PyStr.join sep ((y :: l1) ++ l2)).
    rewrite IH by done.
    change (PyStr.join sep (x :: y :: l1)) with (x +:+ sep +:+ PyStr.join sep (y :: l1)).
    by rewrite !string_app_assoc_r.
Qed.

Lemma cleanup_text_empty text :
  OCRProcessor.cleanup_text text = ""
  ↔ OCRProcessor.cleaned_lines (PyStr.split "010" text) = [].
Proof.
  unfold OCRProcessor.cleanup_text. cbv zeta. split; [|by intros ->].
  destruct (OCRProcessor.cleaned_lines (PyStr.split "010" text)) as [|x l] eqn:Hkept; [done|].
  assert (x ≠ "") as Hx.
  { assert (x ∈ OCRProcessor.cleaned_lines (PyStr.split "010" text)) as Hin
      by (rewrite Hkept; by left).
    by apply kept_line_shape in Hin as (_ & _ & _ & ?). }
  cbn [PyStr.join]. destruct l; [done|]. by destruct x.
Qed.

End line_by_line_facts.

(** X21.  [cleanup_text] works line by line, and it is idempotent.  Cleaning
    two texts joined by a line break gives the two cleaned texts joined by a
    line break, or the one of them that is not empty; and cleaning a cleaned
    text changes nothing. *)
Theorem cleanup_text_line_by_line (a b : string) :
  OCRProcessor.cleanup_text (a +:+ String "010" "" +:+ b)
  = (if bool_decide (OCRProcessor.cleanup_text a = "") then OCRProcessor.cleanup_text b
     else if bool_decide (OCRProcessor.cleanup_text b = "") then OCRProcessor.cleanup_text a
     else OCRProcessor.cleanup_text a +:+ String "010" "" +:+ OCRProcessor.cleanup_text b)
  ∧ OCRProcessor.cleanup_text (OCRProcessor.cleanup_text a) = OCRProcessor.cleanup_text a.
Proof.
  split; [|apply cleanup_text_twice].
  pose proof (cleanup_text_empty a) as Ha. pose proof (cleanup_text_empty b) as Hb.
  unfold OCRProcessor.cleanup_text in *. cbv zeta in *.
  rewrite split_app, !cleaned_lines_filter, fmap_app, filter_app.
  rewrite !cleaned_lines_filter in Ha, Hb.
  case_bool_decide as Hea.
  - apply Ha in Hea. by rewrite Hea.
  - case_bool_decide as Heb.
    + apply Hb in Heb. by rewrite Heb, app_nil_r.
    + apply join_app; [intros Hnil; by apply Hea, Ha|intros Hnil; by apply Heb, Hb].
Qed.

(** X22.  [extract_text_from_image] never raises.  It returns the cleaned
    output of the recognition, and the empty string when opening,
    preprocessing or recognising the image raises.  The [strip] it applies
    last changes nothing, since a cleaned text neither begins nor ends with
    white space; and what it returns is clean: cleaning it again gives it
    back. *)
Theorem extract_text_from_image_is_cleaned_text (FS : Type)
    (image_to_string : bool → string → Py.M FS string) (image_path : string)
    (preprocess : bool) (fs : FS) :
  (∃ text fs',
     OCRProcessor.extract_text_from_image FS image_to_string image_path preprocess fs
     = (Ok text, fs')
     ∧ OCRProcessor.cleanup_text text = text)
  ∧ (∀ raw fs', image_to_string preprocess image_path fs = (Ok raw, fs') →
       OCRProcessor.extract_text_from_image FS image_to_string image_path preprocess fs
       = (Ok (OCRProcessor.cleanup_text raw), fs'))
  ∧ (∀ e fs', image_to_string preprocess image_path fs = (Raise e, fs') →
       OCRProcessor.extract_text_from_image FS image_to_string image_path preprocess fs
       = (Ok "", fs'))
  ∧ (∀ text, Py.strip (OCRProcessor.cleanup_text text) = OCRProcessor.cleanup_text text).
Proof.
  split; [|split; [|split]].
  - destruct (extract_text_from_image_outcome FS image_to_string image_path preprocess fs)
      as (text & fs' & Hrun & Hclean & _). eauto.
  - intros raw fs' Hraw.
    unfold OCRProcessor.extract_text_from_image, Py.try_except, Py.bind, Py.ret.
    by rewrite Hraw, cleanup_text_stripped.
  - intros e fs' Hraise.
    unfold OCRProcessor.extract_text_from_image, Py.try_except, Py.bind, Py.ret.
    by rewrite Hraise.
  - apply cleanup_text_stripped.
Qed.

Section pdf_facts.
Variable FS : Type.
Variable Image : Type.
Variable image_to_string : bool → string → Py.M FS string.
Variable convert_from_path : string → Py.M FS (list Image).
Variable save : Image → string → Py.M FS unit.
Variable unlink : string → Py.M FS unit.

Lemma extract_text_from_pdf_unfold pdf_path fs :
  ∃ r fs',
    OCRProcessor.extract_text_from_pdf FS Image image_to_string convert_from_path save unlink
      pdf_path fs
    = (Ok match r with
          | Ok pages => PyStr.join (String "010" (String "010" "")) pages
          | Raise _ => ""
          end, fs')
    ∧ (∀ e fs1, convert_from_path pdf_path fs = (Raise e, fs1) →
         r = Raise e ∧ fs' = fs1)
    ∧ (∀ images fs1, convert_from_path pdf_path fs = (Ok images, fs1) →
         (∀ pages, r = Ok pages →
            length pages = length images
            ∧ Forall (λ page, OCRProcessor.cleanup_text page = page) pages)
         ∧ ((∀ image path fs0, ∃ fs1, save image path fs0 = (Ok tt, fs1)) →
            (∀ path fs0, ∃ fs1, unlink path fs0 = (Ok tt, fs1)) →
            ∃ pages, r = Ok pages
              ∧ ((∀ path fs0 raw fs1, image_to_string true path fs0 = (Ok raw, fs1) →
                    OCRProcessor.cleanup_text raw = "") →
                 pages = replicate (length images) ""))).
Proof.
  unfold OCRProcessor.extract_text_from_pdf, Py.try_except. unfold Py.bind at 1.
  destruct (convert_from_path pdf_path fs) as [[images|e] fs1] eqn:Hconvert.
  - unfold Py.bind at 1. cbv zeta.
    destruct (pages_loop_outcome FS Image image_to_string save unlink images 0 fs1)
      as (r & fs' & Hloop & Hok & Hall).
    cbv zeta in Hloop. rewrite Hloop.
    exists r, fs'. split; [by destruct r|]. split; [done|].
    intros images' fs1' [= <- <-]. by split.
  - exists (Raise e), fs1. split; [done|]. split; [|done].
    by intros e' fs1' [= <- <-].
Qed.

End pdf_facts.

Section pdf_failure_facts.
Variable FS : Type.
Variable Image : Type.
Variable image_to_string : bool → string → Py.M FS string.
Variable convert_from_path : string → Py.M FS (list Image).
Variable save : Image → string → Py.M FS unit.
Variable unlink : string → Py.M FS unit.

(** A loop that went through the first elements goes on with the next one;
    when the body raises there, the loop raises. *)
Lemma for_each_raises_at {St A B} (f : nat → A → Py.M St B) (pre : list A) (x : A)
    (post : list A) (i : nat) (s : St) ys s1 e s2 :
  Py.for_each f i pre s = (Ok ys, s1) →
  f (i + length pre) x s1 = (Raise e, s2) →
  Py.for_each f i (pre ++ x :: post) s = (Raise e, s2).
Proof.
  revert i s ys. induction pre as [|a pre IH]; intros i s ys.
  - intros [= <- <-] Hx. cbn [app Py.for_each length] in *.
    rewrite Nat.add_0_r in Hx. unfold Py.bind at 1. by rewrite Hx.
  - cbn [app Py.for_each length]. unfold Py.bind at 1 3.
    destruct (f i a s) as [[y|e'] s'] eqn:Ha; [|done].
    unfold Py.bind at 1 2.
    destruct (Py.for_each f (S i) pre s') as [[ys'|e'] s''] eqn:Hpre; [|done].
    unfold Py.ret at 1. intros [= <- <-] Hx. rewrite (IH (S i) s' ys' Hpre); [done|].
    by rewrite <- Nat.add_succ_comm in Hx.
Qed.

Lemma extract_text_from_pdf_run pdf_path fs :
  OCRProcessor.extract_text_from_pdf FS Image image_to_string convert_from_path save unlink
    pdf_path fs
  = match convert_from_path pdf_path fs with
    | (Ok images, fs1) =>
        match Py.for_each
                (λ i image,
                   let* _ := save image ("temp_page_" +:+ pretty i +:+ ".png") in
                   let* page_text :=
                     OCRProcessor.extract_text_from_image FS image_to_string
                       ("temp_page_" +:+ pretty i +:+ ".png") true in
                   let* _ := unlink ("temp_page_" +:+ pretty i +:+ ".png") in
                   Py.ret page_text)
                0 images fs1 with
        | (Ok pages, fs2) => (Ok (PyStr.join (String "010" (String "010" "")) pages), fs2)
        | (Raise _, fs2) => (Ok "", fs2)
        end
    | (Raise _, fs1) => (Ok "", fs1)
    end.
Proof.
  unfold OCRProcessor.extract_text_from_pdf, Py.try_except. unfold Py.bind at 1.
  destruct (convert_from_path pdf_path fs) as [[images|e] fs1]; [|done].
  unfold Py.bind at 1. cbv zeta.
  by destruct (Py.for_each _ 0 images fs1) as [[pages|e] fs2].
Qed.

End pdf_failure_facts.

(** X26.  [extract_text_from_pdf] never raises.  When the conversion of the
    PDF raises, it returns the empty string.  When saving the image of a
    page raises, or removing it does, after the pages before it went
    through, it returns the empty string as well: the texts of the pages
    before are dropped, and the pages after are not read.  When the loop
    goes through all the pages, it returns their texts, one per page image
    and each of them a cleaned text, joined by two line breaks; and this is
    what happens whenever saving and removing the page images do not
    raise. *)
Theorem extract_text_from_pdf_outcomes (FS Image : Type)
    (image_to_string : bool → string → Py.M FS string)
    (convert_from_path : string → Py.M FS (list Image))
    (save : Image → string → Py.M FS unit) (unlink : string → Py.M FS unit)
    (pdf_path : string) (fs : FS) :
  let page (i : nat) (image : Image) : Py.M FS string :=
    let* _ := save image ("temp_page_" +:+ pretty i +:+ ".png") in
    let* page_text :=
      OCRProcessor.extract_text_from_image FS image_to_string
        ("temp_page_" +:+ pretty i +:+ ".png") true in
    let* _ := unlink ("temp_page_" +:+ pretty i +:+ ".png") in
    Py.ret page_text in
  ∃ text fs',
    OCRProcessor.extract_text_from_pdf FS Image image_to_string convert_from_path save unlink
      pdf_path fs = (Ok text, fs')
    ∧ (∀ e fs1, convert_from_path pdf_path fs = (Raise e, fs1) → text = "" ∧ fs' = fs1)
    ∧ (∀ images fs1, convert_from_path pdf_path fs = (Ok images, fs1) →
         (text = ""
          ∨ ∃ pages,
              length pages = length images
              ∧ Forall (λ page, OCRProcessor.cleanup_text page = page) pages
              ∧ text = PyStr.join (String "010" (String "010" "")) pages)
         ∧ ((∀ image path fs0, ∃ fs1, save image path fs0 = (Ok tt, fs1)) →
            (∀ path fs0, ∃ fs1, unlink path fs0 = (Ok tt, fs1)) →
            ∃ pages,
              length pages = length images
              ∧ Forall (λ page, OCRProcessor.cleanup_text page = page) pages
              ∧ text = PyStr.join (String "010" (String "010" "")) pages)
         ∧ (∀ image rest e fs2,
              images = image :: rest →
              save image "temp_page_0.png" fs1 = (Raise e, fs2) →
              text = "" ∧ fs' = fs2)
         ∧ (∀ image rest fs2 text0 fs3 e fs4,
              images = image :: rest →
              save image "temp_page_0.png" fs1 = (Ok tt, fs2) →
              OCRProcessor.extract_text_from_image FS image_to_string
                "temp_page_0.png" true fs2 = (Ok text0, fs3) →
              unlink "temp_page_0.png" fs3 = (Raise e, fs4) →
              text = "" ∧ fs' = fs4)
         ∧ (∀ before image after texts fs2,
              images = before ++ image :: after →
              Py.for_each page 0 before fs1 = (Ok texts, fs2) →
              let temp_path := "temp_page_" +:+ pretty (length before) +:+ ".png" in
              (∀ e fs3, save image temp_path fs2 = (Raise e, fs3) →
                 text = "" ∧ fs' = fs3)
              ∧ (∀ fs3 text0 fs4 e fs5,
                   save image temp_path fs2 = (Ok tt, fs3) →
                   OCRProcessor.extract_text_from_image FS image_to_string
                     temp_path true fs3 = (Ok text0, fs4) →
                   unlink temp_path fs4 = (Raise e, fs5) →
                   text = "" ∧ fs' = fs5))
         ∧ (∀ texts fs2,
              Py.for_each page 0 images fs1 = (Ok texts, fs2) →
              text = PyStr.join (String "010" (String "010" "")) texts ∧ fs' = fs2)).
Proof.
  intros page.
  destruct (extract_text_from_pdf_unfold FS Image image_to_string convert_from_path
              save unlink pdf_path fs) as (r & fs' & Hrun & Hraise & Hok).
  eexists _, fs'. split; [exact Hrun|].
  pose proof (extract_text_from_pdf_run FS Image image_to_string convert_from_path
                save unlink pdf_path fs) as Hcode.
  rewrite Hrun in Hcode. fold page in Hcode.
  split.
  - intros e fs1 Hconvert. destruct (Hraise e fs1 Hconvert) as [-> ->]. done.
  - intros images fs1 Hconvert. destruct (Hok images fs1 Hconvert) as [Hpages Hall].
    rewrite Hconvert in Hcode.
    assert (∀ before image after texts fs2 e fs3,
              images = before ++ image :: after →
              Py.for_each page 0 before fs1 = (Ok texts, fs2) →
              page (length before) image fs2 = (Raise e, fs3) →
              match r with
              | Ok pages => PyStr.join (String "010" (String "010" "")) pages
              | Raise _ => ""
              end = "" ∧ fs' = fs3) as Hfail.
    { intros before image after texts fs2 e fs3 -> Hbefore Himage.
      rewrite (for_each_raises_at page before image after 0 fs1 texts fs2 e fs3) in Hcode;
        [|done|done].
      by injection Hcode as -> ->. }
    split; [|split; [|split; [|split; [|split]]]].
    + destruct r as [pages|e]; [right|by left].
      destruct (Hpages pages eq_refl) as [Hlen Hclean]. eauto.
    + intros Hsaves Hunlinks. destruct (Hall Hsaves Hunlinks) as (pages & -> & _).
      destruct (Hpages pages eq_refl) as [Hlen Hclean]. eauto.
    + intros image rest e fs2 Himages Hsave.
      apply (Hfail [] image rest [] fs1 e fs2); [done|done|].
      unfold page, Py.bind. cbn [length].
      change ("temp_page_" +:+ pretty 0 +:+ ".png") with "temp_page_0.png".
      by rewrite Hsave.
    + intros image rest fs2 text0 fs3 e fs4 Himages Hsave Htext Hunlink.
      apply (Hfail [] image rest [] fs1 e fs4); [done|done|].
      unfold page, Py.bind. cbn [length].
      change ("temp_page_" +:+ pretty 0 +:+ ".png") with "temp_page_0.png".
      by rewrite Hsave, Htext, Hunlink.
    + intros before image after texts fs2 Himages Hbefore. cbv zeta. split.
      * intros e fs3 Hsave.
        apply (Hfail before image after texts fs2 e fs3); [done|done|].
        unfold page, Py.bind. by rewrite Hsave.
      * intros fs3 text0 fs4 e fs5 Hsave Htext Hunlink.
        apply (Hfail before image after texts fs2 e fs5); [done|done|].
        unfold page, Py.bind. by rewrite Hsave, Htext, Hunlink.
    + intros texts fs2 Hloop. rewrite Hloop in Hcode. by injection Hcode as -> ->.
Qed.

(** X27.  [process_document] never raises and returns a [dict] with the
    keys [text], [filename], [format] and [word_count]: the text is a [str],
    the format is the suffix in lower case, and the word count is the number
    of words of the text.  The count is 0 exactly when the text is white
    space throughout; for a file that is not a PDF the text is a cleaned
    text, and then the count is 0 only for the empty text. *)
Theorem process_document_outcomes (FS Image : Type)
    (image_to_string : bool → string → Py.M FS string)
    (convert_from_path : string → Py.M FS (list Image))
    (save : Image → string → Py.M FS unit) (unlink : string → Py.M FS unit)
    (path_suffix path_name path_str : string → string)
    (file_path : string) (fs : FS) :
  ∃ text fs',
    OCRProcessor.process_document FS Image image_to_string convert_from_path save unlink
      path_suffix path_name path_str file_path fs
    = (Ok {[ "text" := VStr text;
             "filename" := VStr (path_name file_path);
             "format" := VStr (Py.lower (path_suffix file_path));
             "word_count" := VInt (Z.of_nat (length (PyStr.split_whitespace text))) ]},
       fs')
    ∧ (length (PyStr.split_whitespace text) = 0
       ↔ ∀ c, c ∈ Py.chars text → Py.isspace c = true)
    ∧ (Py.lower (path_suffix file_path) ≠ ".pdf" →
       OCRProcessor.cleanup_text text = text
       ∧ (length (PyStr.split_whitespace text) = 0 ↔ text = "")).
Proof.
  unfold OCRProcessor.process_document, Py.bind, Py.ret. case_bool_decide as Hpdf.
  - destruct (extract_text_from_pdf_unfold FS Image image_to_string convert_from_path
                save unlink (path_str file_path) fs) as (r & fs' & -> & _).
    eexists _, fs'. split; [done|]. split; [|done].
    rewrite length_zero_iff_nil. apply split_whitespace_nil.
  - destruct (extract_text_from_image_outcome FS image_to_string (path_str file_path) true fs)
      as (text & fs' & -> & Hclean & _).
    exists text, fs'. split; [done|].
    rewrite length_zero_iff_nil. split; [apply split_whitespace_nil|].
    intros _. split; [done|]. rewrite <-Hclean. apply cleaned_text_words.
Qed.

Section blank_page_facts.
Context `{Env}.

Lemma join_blank_chars (sep : string) (n : nat) (c : ascii) :
  c ∈ Py.chars (PyStr.join sep (replicate n "")) → c ∈ Py.chars sep.
Proof.
  induction n as [|n IH]; [by intros ?%elem_of_nil|].
  cbn [replicate PyStr.join]. destruct n as [|n]; [by intros ?%elem_of_nil|].
  cbn [replicate] in *. change ("" +:+ ?s) with s.
  rewrite chars_app. intros [Hc|Hc]%elem_of_app; [done|by apply IH].
Qed.

Lemma join_blank_nonempty (sep : string) (n : nat) :
  sep ≠ "" → 2 ≤ n → PyStr.join sep (replicate n "") ≠ "".
Proof.
  intros Hsep Hn. destruct n as [|[|n]]; [lia|lia|].
  cbn [replicate PyStr.join]. change ("" +:+ ?s) with s.
  destruct sep; [done|]. done.
Qed.

(** A text that is not empty is indexed when the encoder accepts every
    chunk, whatever its characters are; the answer is [True] when the last
    line of [index_document] can be printed. *)
Lemma app_process_file_indexes uuid8 (p : Service.Path) (w : Service.World) d text :
  process_document (Service.to_str p) = Ok d →
  d !! "text" = Some (VStr text) → text ≠ "" →
  (∀ s, ∃ v, encode s = Ok v) →
  ∃ b w' ch e,
    App.process_file uuid8 p w = (Ok b, w')
    ∧ (b = true ↔
       print ("Indexed " +:+ pretty (length (SemanticSearchEngine.chunk_text text))
              +:+ " chunks for " +:+ Service.stem p) = Ok tt)
    ∧ SemanticSearchEngine.chunk_text text !! 0 = Some ch
    ∧ Service.collection w'
        !! (Service.stem p +:+ "_" +:+ pretty 0 +:+ "_" +:+ uuid8 0) = Some e
    ∧ Chroma.document e = ch.
Proof.
  intros Hd Htext Hne Hencode.
  set (md := ({[ "title" := Service.stem p;
                 "source_url" := "http://localhost:8000/files/" +:+ Service.name p;
                 "date" := App.extract_date_from_text text;
                 "category" := App.categorize (Py.lower text) ]} : gmap string string)).
  assert (md !! "title" = Some (Service.stem p)) as Htitle by apply app_metadata_fields.
  destruct (index_document_cases uuid8 text md (Service.collection w))
    as [[Hnil _]|[(_ & e0 & _ & Hwhy)|(Hchunks & title & rs & Htitle' & _ & Hidx & Hk & Hdocs & Hm)]].
  - by apply chunk_text_nonempty in Hne.
  - destruct Hwhy as [(ch & _ & Hraise)|(_ & Hno & _)]; [|congruence].
    destruct (Hencode ch) as [v Hv]. congruence.
  - assert (title = Service.stem p) as -> by congruence.
    destruct (SemanticSearchEngine.chunk_text text) as [|ch chs] eqn:Hch; [done|].
    destruct (insert_rows_stored (Service.stem p) uuid8 (ch :: chs) md rs
                (Service.collection w) 0 ch Hk Hdocs Hm eq_refl) as (e & He & Hdoc & _).
    eexists _, _, ch, e.
    split; [exact (app_process_file_run uuid8 p w d text _ _ Hd Htext Hne Hidx)|].
    split; [|done]. by destruct (print _) as [[]|].
Qed.

End blank_page_facts.

(** X28.  A text of line breaks is indexed.  When a PDF has two pages or
    more, nothing readable is recognised on any of them, and the page
    images are written and removed without error, [process_document] gives
    a text that is not empty: the line breaks that join the empty page
    texts, with a word count of 0.  [process_file] only skips an empty text,
    so with this recogniser, and an encoder that accepts every chunk, it
    stores a chunk that consists of line breaks, and it answers [True] (when
    the last line of [index_document] can be printed; [False] otherwise,
    with the chunk stored all the same). *)
Theorem blank_pdf_pages_are_indexed `{Env} (FS Image : Type)
    (image_to_string : bool → string → Py.M FS string)
    (convert_from_path : string → Py.M FS (list Image))
    (save : Image → string → Py.M FS unit) (unlink : string → Py.M FS unit)
    (path_suffix path_name path_str : string → string)
    (uuid8 : nat → string) (p : Service.Path) (w : Service.World)
    (fs fs1 : FS) (images : list Image) :
  process_document (Service.to_str p)
  = (OCRProcessor.process_document FS Image image_to_string convert_from_path save unlink
       path_suffix path_name path_str (Service.to_str p) fs).1 →
  Py.lower (path_suffix (Service.to_str p)) = ".pdf" →
  convert_from_path (path_str (Service.to_str p)) fs = (Ok images, fs1) →
  2 ≤ length images →
  (∀ image path fs0, ∃ fs1, save image path fs0 = (Ok tt, fs1)) →
  (∀ path fs0, ∃ fs1, unlink path fs0 = (Ok tt, fs1)) →
  (∀ path fs0 raw fs1, image_to_string true path fs0 = (Ok raw, fs1) →
     OCRProcessor.cleanup_text raw = "") →
  (∀ s, ∃ v, encode s = Ok v) →
  ∃ d text indexed w' e,
    process_document (Service.to_str p) = Ok d
    ∧ d !! "text" = Some (VStr text)
    ∧ d !! "word_count" = Some (VInt 0)
    ∧ text ≠ ""
    ∧ App.process_file uuid8 p w = (Ok indexed, w')
    ∧ (indexed = true ↔
       print ("Indexed " +:+ pretty (length (SemanticSearchEngine.chunk_text text))
              +:+ " chunks for " +:+ Service.stem p) = Ok tt)
    ∧ Service.collection w'
        !! (Service.stem p +:+ "_" +:+ pretty 0 +:+ "_" +:+ uuid8 0) = Some e
    ∧ Chroma.document e ≠ ""
    ∧ ∀ c, c ∈ Py.chars (Chroma.document e) → c = "010"%char.
Proof.
  intros Hocr Hpdf Hconvert Hpages Hsaves Hunlinks Hblank Hencode.
  set (text := PyStr.join (String "010" (String "010" "")) (replicate (length images) "")).
  assert (process_document (Service.to_str p)
          = Ok {[ "text" := VStr text;
                  "filename" := VStr (path_name (Service.to_str p));
                  "format" := VStr (Py.lower (path_suffix (Service.to_str p)));
                  "word_count" := VInt (Z.of_nat (length (PyStr.split_whitespace text))) ]})
    as Hd.
  { rewrite Hocr. unfold OCRProcessor.process_document, Py.bind, Py.ret.
    rewrite bool_decide_eq_true_2 by done.
    destruct (extract_text_from_pdf_unfold FS Image image_to_string convert_from_path
                save unlink (path_str (Service.to_str p)) fs) as (r & fs' & -> & _ & Hok).
    destruct (Hok images fs1 Hconvert) as [_ Hall].
    destruct (Hall Hsaves Hunlinks) as (pages & -> & Hempty).
    by rewrite (Hempty Hblank). }
  assert (∀ c, c ∈ Py.chars text → c = "010"%char) as Hbreaks.
  { intros c Hc. apply join_blank_chars in Hc. simpl in Hc.
    repeat (apply elem_of_cons in Hc as [->|Hc]; [done|]). by apply elem_of_nil in Hc. }
  assert (text ≠ "") as Hne by (by apply join_blank_nonempty).
  assert (PyStr.split_whitespace text = []) as Hwords.
  { apply split_whitespace_nil. intros c Hc. by rewrite (Hbreaks c Hc). }
  rewrite Hwords in Hd.
  destruct (app_process_file_indexes uuid8 p w _ text Hd)
    as (indexed & w' & ch & e & Hrun & Hprinted & Hch & He & Hdoc);
    [by simplify_map_eq|done|done|].
  eexists _, text, indexed, w', e. split; [exact Hd|].
  split; [by simplify_map_eq|]. split; [by simplify_map_eq|]. split; [done|].
  split; [done|]. split; [done|]. split; [done|]. rewrite Hdoc.
  apply list_elem_of_lookup_2 in Hch as Hin.
  split.
  - apply chunk_text_elem_len in Hin. intros ->. simpl in Hin. lia.
  - apply chunk_text_lookup in Hch as [_ ->]. intros c Hc. apply Hbreaks.
    rewrite chars_slice in Hc. by apply subseteq_take, subseteq_drop in Hc.
Qed.

(** ** The upload and delete endpoints *)

(** X29.  The delete endpoints, in [app.py] and in [backend_main.py].  When
    removing the file raises, the endpoint raises the HTTP error with the
    text of that exception, and the collection is as it was: the chunks of
    the file stay in the index.  When the file is out of the way but the
    line that [delete_document] prints first cannot be printed, the endpoint
    raises the HTTP error as well and nothing is deleted from the
    collection, although the file may be gone from the disk.  Otherwise it
    answers [success], whether there was a file to remove or not, and the
    collection is what [delete_document] leaves: no entry has the locator of
    the file, and the others are as they were. *)
Theorem delete_endpoints_outcomes `{Env} (docs_file : string → Service.Path)
    (remove_file : Service.Path → result bool) (str_of : exn → string)
    (filename : string) (w : Service.World) :
  let line := "Deleting vectors for: http://localhost:8000/files/" +:+ filename in
  (∀ e, remove_file (docs_file filename) = Raise e →
     AppApi.delete_document docs_file remove_file str_of filename w
     = (Raise (ExternalError ("500: " +:+ str_of e)), w)
     ∧ BackendApi.delete_document docs_file remove_file str_of filename w
       = (Raise (ExternalError ("500: " +:+ str_of e)), w))
  ∧ (∀ file_deleted e, remove_file (docs_file filename) = Ok file_deleted →
       print line = Raise e →
       AppApi.delete_document docs_file remove_file str_of filename w
       = (Raise (ExternalError ("500: " +:+ str_of e)), w)
       ∧ BackendApi.delete_document docs_file remove_file str_of filename w
         = (Raise (ExternalError ("500: " +:+ str_of e)), w))
  ∧ (∀ file_deleted, remove_file (docs_file filename) = Ok file_deleted →
       print line = Ok tt →
       ∃ c',
         let cleaned :=
           {| Service.collection := c'; Service.prompts := Service.prompts w |} in
         SemanticSearchEngine.delete_document filename (Service.collection w) = (Ok tt, c')
         ∧ AppApi.delete_document docs_file remove_file str_of filename w
           = (Ok {| AppApi.status := "success";
                    AppApi.message := "Deleted " +:+ filename |}, cleaned)
         ∧ BackendApi.delete_document docs_file remove_file str_of filename w
           = (Ok {| BackendApi.status := "success";
                    BackendApi.message :=
                      if file_deleted
                      then "Deleted " +:+ filename +:+ " from disk and memory."
                      else "Cleaned " +:+ filename
                           +:+ " from memory (file was already gone)." |}, cleaned)
         ∧ (∀ k e, c' !! k = Some e ↔
              Service.collection w !! k = Some e
              ∧ Chroma.metadata e !! "source_url"
                ≠ Some ("http://localhost:8000/files/" +:+ filename))).
Proof.
  intros line. split; [|split].
  - intros e He.
    unfold AppApi.delete_document, BackendApi.delete_document,
      Py.try_except, Py.bind, Py.lift, Py.raise.
    by rewrite He.
  - intros file_deleted e Hok Hp.
    unfold AppApi.delete_document, BackendApi.delete_document, Py.try_except.
    unfold Py.bind at 1 3. unfold Py.lift at 1 2. rewrite Hok.
    unfold Py.bind, Service.on_engine. rewrite delete_document_unfold.
    change (print ("Deleting vectors for: " +:+ SemanticSearchEngine.target_url filename))
      with (print line). rewrite Hp. unfold Py.raise. by destruct w.
  - intros file_deleted Hok Hp.
    assert (∃ c', SemanticSearchEngine.delete_document filename (Service.collection w)
                  = (Ok tt, c')) as [c' Hrun].
    { rewrite delete_document_unfold.
      change (print ("Deleting vectors for: " +:+ SemanticSearchEngine.target_url filename))
        with (print line). rewrite Hp. eauto. }
    exists c'. cbv zeta. split; [done|].
    unfold AppApi.delete_document, BackendApi.delete_document, Py.try_except.
    unfold Py.bind at 1 3. unfold Py.lift at 1 2. rewrite Hok.
    unfold Py.bind, Service.on_engine. rewrite Hrun.
    split; [done|]. split; [by destruct file_deleted|].
    intros k e. apply (delete_document_lookup _ _ _ _ _ Hrun).
Qed.

(** X30.  The upload endpoints, in [app.py] and in [backend_main.py].  When
    writing the uploaded file raises, the endpoint raises the HTTP error and
    nothing is indexed.  Otherwise it does not raise: it answers [success]
    when [process_file] answered [True], and [warning] when it answered
    [False].  After a [warning] the collection is as it was before the
    upload, unless the chunks were stored and the last line of
    [index_document] could not be printed; then the chunks of the file are
    in the collection.  It never calls the language model. *)
Theorem upload_endpoints_outcomes `{Env} (docs_file : string → Service.Path)
    (write_upload : Service.Path → result unit) (str_of : exn → string)
    (filename : string) (uuid8 : nat → string) (w : Service.World) :
  let stored_unprinted (w' : Service.World) :=
    ∃ text e,
      text ≠ ""
      ∧ print ("Indexed " +:+ pretty (length (SemanticSearchEngine.chunk_text text))
               +:+ " chunks for " +:+ Service.stem (docs_file filename)) = Raise e
      ∧ ∀ i ch, SemanticSearchEngine.chunk_text text !! i = Some ch →
          ∃ entry,
            Service.collection w'
              !! (Service.stem (docs_file filename) +:+ "_" +:+ pretty i +:+ "_" +:+ uuid8 i)
            = Some entry
            ∧ Chroma.document entry = ch in
  (∀ e, write_upload (docs_file filename) = Raise e →
     AppApi.upload_file docs_file write_upload str_of filename uuid8 w
     = (Raise (ExternalError ("500: " +:+ str_of e)), w)
     ∧ BackendApi.upload_file docs_file write_upload str_of filename uuid8 w
       = (Raise (ExternalError ("500: " +:+ str_of e)), w))
  ∧ (write_upload (docs_file filename) = Ok tt →
     (∃ indexed w',
        App.process_file uuid8 (docs_file filename) w = (Ok indexed, w')
        ∧ AppApi.upload_file docs_file write_upload str_of filename uuid8 w
          = (Ok (if indexed
                 then {| AppApi.status := "success";
                         AppApi.message := "Uploaded " +:+ filename |}
                 else {| AppApi.status := "warning";
                         AppApi.message := "Failed to process text." |}), w')
        ∧ Service.prompts w' = Service.prompts w
        ∧ (indexed = false → w' = w ∨ stored_unprinted w')
        ∧ (indexed = false → (∀ s, print s = Ok tt) → w' = w))
     ∧ (∃ indexed w',
          Backend.process_file uuid8 (docs_file filename) w = (Ok indexed, w')
          ∧ BackendApi.upload_file docs_file write_upload str_of filename uuid8 w
            = (Ok (if indexed
                   then {| BackendApi.status := "success";
                           BackendApi.message := "Uploaded and indexed " +:+ filename |}
                   else {| BackendApi.status := "warning";
                           BackendApi.message := "Uploaded but text extraction failed." |}),
               w')
          ∧ Service.prompts w' = Service.prompts w
          ∧ (indexed = false → w' = w ∨ stored_unprinted w')
          ∧ (indexed = false → (∀ s, print s = Ok tt) → w' = w))).
Proof.
  intros stored_unprinted. split.
  - intros e He.
    unfold AppApi.upload_file, BackendApi.upload_file,
      Py.try_except, Py.bind, Py.lift, Py.raise.
    by rewrite He.
  - intros Hok. split.
    + destruct (app_process_file_outcome uuid8 (docs_file filename) w)
        as (indexed & w' & Hrun & Hp & Hfalse).
      exists indexed, w'. split; [done|]. split; [|split; [done|split; [|done]]].
      * unfold AppApi.upload_file, Py.try_except. unfold Py.bind at 1. unfold Py.lift.
        rewrite Hok. unfold Py.bind. rewrite Hrun. by destruct indexed.
      * intros ->.
        apply app_process_file_false in Hrun
          as [->|(d & text & e & _ & _ & Hne & Hprint & Hst)]; [by left|].
        right. exists text, e. split; [done|]. split; [done|].
        intros i ch Hch. destruct (Hst i ch Hch) as (entry & He & Hdoc & _). eauto.
    + destruct (backend_process_file_outcome uuid8 (docs_file filename) w)
        as (indexed & w' & Hrun & Hp & Hfalse).
      exists indexed, w'. split; [done|]. split; [|split; [done|split; [|done]]].
      * unfold BackendApi.upload_file, Py.try_except. unfold Py.bind at 1. unfold Py.lift.
        rewrite Hok. unfold Py.bind. rewrite Hrun. by destruct indexed.
      * intros ->.
        apply backend_process_file_false in Hrun
          as [->|(d & text & e & _ & _ & Hne & Hprint & Hst)]; [by left|].
        right. exists text, e. split; [done|]. split; [done|].
        intros i ch Hch. destruct (Hst i ch Hch) as (entry & He & Hdoc & _). eauto.
Qed.

(** ** The two search endpoints, and searching after indexing *)

Section endpoints_agree_facts.
Context `{Env}.

Lemma backend_search_documents_unfold (q : Backend.SearchQuery) (w : Service.World) :
  Backend.search_documents q w
  = match SemanticSearchEngine.search (Backend.query q) (Backend.limit q) None
            (Service.collection w) with
    | (Ok hits, _) =>
        (Ok ((λ r,
                {| Backend.id := SemanticSearchEngine.id r;
                   Backend.title :=
                     default "Untitled" (SemanticSearchEngine.metadata r !! "title");
                   Backend.content := SemanticSearchEngine.document r;
                   Backend.source_url :=
                     default "#" (SemanticSearchEngine.metadata r !! "source_url");
                   Backend.date := default "N/A" (SemanticSearchEngine.metadata r !! "date");
                   Backend.relevance_score := SemanticSearchEngine.relevance_score r;
                   Backend.category :=
                     default "General" (SemanticSearchEngine.metadata r !! "category") |})
               <$> hits), w)
    | (Raise err, _) => (Raise err, w)
    end.
Proof.
  unfold Backend.search_documents, Py.bind, Service.on_engine, Py.ret.
  destruct (SemanticSearchEngine.search _ _ _ _) as [[hits|err] c] eqn:Hrun;
    rewrite search_unfold in Hrun;
    (destruct (encode (Backend.query q)); [destruct (Backend.limit q <=? 0)%Z|]);
    simplify_eq; by destruct w.
Qed.

End endpoints_agree_facts.

(** X23.  The search endpoints of [app.py] and [backend_main.py] agree: on
    the same query and collection the second returns the results of the
    first without their extracted answers, and raises when the first raises.
    The second sends nothing to the language model and changes nothing. *)
Theorem search_endpoints_agree `{Env} (q : App.SearchQuery) (w : Service.World) :
  let qb := {| Backend.query := App.query q; Backend.filters := App.filters q;
               Backend.limit := App.limit q |} in
  (∀ results w', App.search_documents q w = (Ok results, w') →
     Backend.search_documents qb w
     = (Ok ((λ r, {| Backend.id := App.id r; Backend.title := App.title r;
                     Backend.content := App.content r;
                     Backend.source_url := App.source_url r;
                     Backend.date := App.date r;
                     Backend.relevance_score := App.relevance_score r;
                     Backend.category := App.category r |}) <$> results), w))
  ∧ (∀ err w', App.search_documents q w = (Raise err, w') →
       Backend.search_documents qb w = (Raise err, w))
  ∧ (∀ r w', Backend.search_documents qb w = (r, w') → w' = w).
Proof.
  intros qb. rewrite backend_search_documents_unfold. cbn [qb Backend.query Backend.limit].
  destruct (app_search_documents_unfold q w)
    as [(err & Hs & Hrun)|(hits & answers & sent & Hs & Hrun & Hlen & _)];
    rewrite Hs, Hrun.
  - split; [done|]. split; [by intros ? ? [= <- _]|]. by intros ? ? [= _ <-].
  - split; [|split; [done|by intros ? ? [= _ <-]]].
    intros results w' [= <- _]. f_equal. f_equal. symmetry.
    by apply zip_with_fmap_l.
Qed.

Section found_after_indexing_facts.
Context `{Env}.

Lemma search_finds_stored query n filters c hits c' k e :
  SemanticSearchEngine.search query n filters c = (Ok hits, c') →
  (size (filter (λ r, Chroma.selected filters r.2) c) ≤ Z.to_nat n)%nat →
  c !! k = Some e → Chroma.selected filters e →
  ∃ h, h ∈ hits ∧ SemanticSearchEngine.id h = k
       ∧ SemanticSearchEngine.document h = Chroma.document e
       ∧ SemanticSearchEngine.metadata h = Chroma.metadata e.
Proof.
  rewrite search_unfold. destruct (encode query) as [v|]; [|done].
  destruct (n <=? 0)%Z; [done|]. intros [= <- <-] Hfew Hk Hsel.
  destruct (nearest_complete v (Z.to_nat n) filters c k e Hfew Hk Hsel)
    as (r & Hr & <- & <-).
  eexists. split; [apply list_elem_of_fmap; by exists r|]. done.
Qed.

End found_after_indexing_facts.

(** X24.  What was indexed can be found: after [index_document] returned,
    a search filtered on the document's locator, with a limit that leaves
    room for every entry under that locator, has every chunk of the text
    among its hits, with the metadata it was indexed with. *)
Theorem indexed_chunks_are_found `{Env} (uuid8 : nat → string) (text : string)
    (md : gmap string string) (c c' c'' : gmap string Chroma.Entry) (url query : string)
    (n_results : Z) (hits : list SemanticSearchEngine.Hit) :
  SemanticSearchEngine.index_document uuid8 text md c = (Ok tt, c') →
  md !! "source_url" = Some url →
  SemanticSearchEngine.search query n_results (Some {[ "source_url" := url ]}) c'
  = (Ok hits, c'') →
  (size (filter (λ r, Chroma.metadata r.2 !! "source_url" = Some url) c')
   ≤ Z.to_nat n_results)%nat →
  ∀ i ch, SemanticSearchEngine.chunk_text text !! i = Some ch →
    ∃ h, h ∈ hits ∧ SemanticSearchEngine.document h = ch
         ∧ SemanticSearchEngine.metadata h = md
         ∧ SemanticSearchEngine.chunk_id uuid8 md i = Ok (SemanticSearchEngine.id h).
Proof.
  intros Hidx Hurl Hsearch Hfew i ch Hch.
  assert (SemanticSearchEngine.chunk_text text ≠ []) as Hne by (by intros Hnil; rewrite Hnil in Hch).
  destruct (index_document_ok _ _ _ _ _ Hne Hidx) as (title & _ & Htitle & _).
  destruct (index_document_stored _ _ _ _ _ _ _ _ Hidx Htitle Hch) as (e & He & Hdoc & Hmd).
  destruct (search_finds_stored _ _ _ _ _ _
              (title +:+ "_" +:+ pretty i +:+ "_" +:+ uuid8 i) e Hsearch)
    as (h & Hh & Hid & Hhd & Hhm); [|exact He| |].
  - assert (filter (λ r : string * Chroma.Entry,
                      Chroma.selected (Some {[ "source_url" := url ]}) r.2) c'
            = filter (λ r, Chroma.metadata r.2 !! "source_url" = Some url) c') as ->;
      [|exact Hfew].
    apply map_filter_ext. intros k e' _. simpl. apply where_source_url.
  - simpl. apply where_source_url. by rewrite Hmd.
  - exists h. split; [done|]. split; [congruence|]. split; [congruence|].
    unfold SemanticSearchEngine.chunk_id, Py.getitem. rewrite Htitle. simpl. by rewrite Hid.
Qed.

(** ** From the rescan to the search results *)

Section rescan_search_facts.
Context `{Env}.

Lemma app_categorize_names text_lower :
  App.categorize text_lower ∈ ["Resume"; "Exams"; "Fees"; "General"].
Proof.
  unfold App.categorize.
  destruct (_ || _); [by left|]. destruct (Py.contains "exam" _); [right; by left|].
  destruct (Py.contains "fee" _); [right; right; by left|]. right; right; right; by left.
Qed.

Lemma app_metadata_lookups (title url date category : string) :
  let md : gmap string string :=
    {[ "title" := title; "source_url" := url; "date" := date; "category" := category ]} in
  md !! "title" = Some title ∧ md !! "source_url" = Some url
  ∧ md !! "date" = Some date ∧ md !! "category" = Some category.
Proof. intros md. subst md. repeat split; by simplify_map_eq. Qed.

(** Entries written by [process_file] of [app.py] on files that satisfy
    [P]. *)
Lemma app_process_file_entries (P : Service.Path → Prop) uuid8 p w r w' :
  P p →
  (∀ k e, Service.collection w !! k = Some e →
     1 ≤ Py.len (Chroma.document e) ≤ 500
     ∧ ∃ p text, P p ∧ Chroma.metadata e
         = {[ "title" := Service.stem p;
              "source_url" := "http://localhost:8000/files/" +:+ Service.name p;
              "date" := App.extract_date_from_text text;
              "category" := App.categorize (Py.lower text) ]}) →
  App.process_file uuid8 p w = (r, w') →
  ∀ k e, Service.collection w' !! k = Some e →
    1 ≤ Py.len (Chroma.document e) ≤ 500
    ∧ ∃ p text, P p ∧ Chroma.metadata e
        = {[ "title" := Service.stem p;
             "source_url" := "http://localhost:8000/files/" +:+ Service.name p;
             "date" := App.extract_date_from_text text;
             "category" := App.categorize (Py.lower text) ]}.
Proof.
  intros Hp Hinv Hrun.
  destruct (app_process_file_unfold uuid8 p w)
    as [Hno|(d & text & r0 & c & _ & _ & _ & Hidx & Hrun')].
  { rewrite Hrun in Hno. by injection Hno as _ ->. }
  rewrite Hrun in Hrun'. injection Hrun' as _ ->.
  intros k e Hk. simpl in Hk.
  destruct (index_document_rows _ _ _ _ _ _ _ _ Hidx Hk)
    as [Hold|(title & i & ch & _ & Hch & _ & Hdoc & Hmd)]; [by apply (Hinv k)|].
  split.
  - rewrite Hdoc. apply (chunk_text_elem_len text). by apply list_elem_of_lookup_2 in Hch.
  - exists p, text. by split.
Qed.

End rescan_search_facts.

(** X25.  From the rescan to the search results of [app.py]: when the
    collection was filled by a rescan of the documents folder, starting
    empty, every result of a search carries the stem of one of the files of
    the folder as its title and that file's locator under [/files/] as its
    source, the file has one of the four suffixes, the category is one of
    [Resume], [Exams], [Fees] and [General], and the content is a chunk of 1
    to 500 characters; none of the defaults [Untitled], [#] shows up. *)
Theorem rescan_then_search_shows_file_fields `{Env} (suffix : Service.Path → string)
    (iterdir : result (list Service.Path)) (is_file : Service.Path → result bool)
    (uuid8 : nat → nat → string) (sent : list string)
    (message : string) (w1 w2 : Service.World) (q : App.SearchQuery)
    (results : list App.SearchResult) :
  AppApi.scan_documents_folder suffix iterdir is_file uuid8
    {| Service.collection := ∅; Service.prompts := sent |} = (Ok message, w1) →
  App.search_documents q w1 = (Ok results, w2) →
  ∀ r, r ∈ results →
    ∃ entries p,
      iterdir = Ok entries ∧ p ∈ entries ∧ is_file p = Ok true
      ∧ Py.lower (suffix p) ∈ [".pdf"; ".png"; ".jpg"; ".jpeg"]
      ∧ App.title r = Service.stem p
      ∧ App.source_url r = "http://localhost:8000/files/" +:+ Service.name p
      ∧ App.category r ∈ ["Resume"; "Exams"; "Fees"; "General"]
      ∧ 1 ≤ Py.len (App.content r) ≤ 500.
Proof.
  intros Hscan Hsearch r Hr.
  unfold AppApi.scan_documents_folder in Hscan. unfold Py.bind at 1 in Hscan.
  unfold Py.lift in Hscan. destruct iterdir as [entries|]; [|done]. cbn [Py.rbind] in Hscan.
  destruct (files_among_outcome is_file entries) as [[_ Hfiles]|(f & e & _ & _ & Hfiles)];
    rewrite Hfiles in Hscan; [|done].
  set (files := filter (λ f, is_file f = Ok true) entries) in *.
  set (P := λ p : Service.Path,
         p ∈ files ∧ Py.lower (suffix p) ∈ [".pdf"; ".png"; ".jpg"; ".jpeg"]).
  set (inv := λ c : gmap string Chroma.Entry,
         ∀ k e, c !! k = Some e →
           1 ≤ Py.len (Chroma.document e) ≤ 500
           ∧ ∃ p text, P p ∧ Chroma.metadata e
               = {[ "title" := Service.stem p;
                    "source_url" := "http://localhost:8000/files/" +:+ Service.name p;
                    "date" := App.extract_date_from_text text;
                    "category" := App.categorize (Py.lower text) ]}).
  assert (∀ (l : list (nat * Service.Path)) w,
            (∀ f, f ∈ l → f.2 ∈ files) → inv (Service.collection w) →
            inv (Service.collection
                   (foldl (λ w' f,
                             if bool_decide (Py.lower (suffix f.2)
                                             ∈ [".pdf"; ".png"; ".jpg"; ".jpeg"])
                             then (App.process_file (uuid8 f.1) f.2 w').2 else w') w l)))
    as Hfold.
  { induction l as [|f l IH]; intros w Hl Hw; [done|]. cbn [foldl].
    apply IH; [intros f' Hf'; apply Hl; by right|].
    case_bool_decide as Hel; [|done].
    destruct (App.process_file (uuid8 f.1) f.2 w) as [r' w'] eqn:Hrun.
    exact (app_process_file_entries P _ _ _ _ _ (conj (Hl f ltac:(by left)) Hel) Hw Hrun). }
  assert (inv (Service.collection w1)) as Hw1.
  { unfold Py.bind, Py.ret in Hscan.
    destruct (scan_loop_outcome suffix uuid8 files 0 0
                {| Service.collection := ∅; Service.prompts := sent |}) as (n & Hloop & _).
    rewrite Hloop in Hscan. injection Hscan as _ <-.
    apply Hfold; [|intros k e Hk; simpl in Hk; by apply lookup_empty_Some in Hk].
    intros [i p] Hf. by apply elem_of_zip_r in Hf. }
  destruct (app_search_documents_unfold q w1)
    as [(err & _ & Hrun)|(hits & answers & sent' & Hs & Hrun & Hlen & _)];
    rewrite Hrun in Hsearch; [done|].
  injection Hsearch as <- _.
  apply list_elem_of_lookup in Hr as [j Hr].
  apply lookup_zip_with_Some in Hr as (h & a & -> & Hh & _).
  apply list_elem_of_lookup_2 in Hh.
  destruct (search_hit_stored _ _ _ _ _ _ _ Hs Hh) as (e & He & Hmeta & Hdoc).
  destruct (Hw1 _ _ He) as (Hlen' & p & text & [Hp Hel] & Hmd).
  apply list_elem_of_filter in Hp as [Hfile Hp].
  exists entries, p. split; [done|]. split; [done|]. split; [done|]. split; [done|]. cbn.
  rewrite Hmeta, Hmd, Hdoc.
  destruct (app_metadata_lookups (Service.stem p)
              ("http://localhost:8000/files/" +:+ Service.name p)
              (App.extract_date_from_text text) (App.categorize (Py.lower text)))
    as (-> & -> & _ & ->).
  split; [done|]. split; [done|]. split; [apply app_categorize_names|done].
Qed.

(** ** Instances of the properties that have premises *)

Lemma chunk_text_overlap_witness :
  450 < Py.len (Py.slice Samples.two_chunks 0 500)
  ∧ Py.drop 450 (Py.slice Samples.two_chunks 0 500)
    = Py.take 50 (Py.slice Samples.two_chunks 450 950)
  ∧ (Py.len (Py.slice Samples.two_chunks 0 500) = 500
     ∨ Py.len (Py.slice Samples.two_chunks 450 950) < 50).
Proof.
  apply (chunk_text_overlap Samples.two_chunks 0); reflexivity.
Defined.

Lemma collection_entries_well_formed_witness :
  ∃ e, @Client.run_calls Demo.env
         [Client.IndexDocument Demo.uuid_a "Lab syllabus" Demo.notes] ∅
       !! "notes_0_0a1b2c3d" = Some e
    ∧ 1 ≤ Py.len (Chroma.document e) ≤ 500.
Proof.
  assert (∃ e, @Client.run_calls Demo.env
                 [Client.IndexDocument Demo.uuid_a "Lab syllabus" Demo.notes] ∅
               !! "notes_0_0a1b2c3d" = Some e) as [e He] by (eexists; reflexivity).
  exists e. split; [exact He|].
  exact (proj1 (collection_entries_well_formed _ _ _ He)).
Defined.

Lemma search_returns_the_nearest_witness :
  ∃ hits e,
    @SemanticSearchEngine.search Demo.env "fee payment" 1 None
      (Service.collection Demo.world2)
    = (Ok hits, Service.collection Demo.world2)
    ∧ Service.collection Demo.world2 !! "a_0_0a1b2c3d" = Some e
    ∧ ("a_0_0a1b2c3d" ∉ SemanticSearchEngine.id <$> hits)
    ∧ Z.of_nat (length hits) = 1%Z
    ∧ ∀ h, h ∈ hits →
        (1 - (@distance Demo.env 11%Z (Chroma.embedding e))
         ≤ SemanticSearchEngine.relevance_score h)%Qc.
Proof.
  assert (∃ hits,
            @SemanticSearchEngine.search Demo.env "fee payment" 1 None
              (Service.collection Demo.world2)
            = (Ok hits, Service.collection Demo.world2)
            ∧ SemanticSearchEngine.id <$> hits = ["b_0_4e5f6a7b"])
    as (hits & Hs & Hids) by (eexists; split; reflexivity).
  assert (∃ e, Service.collection Demo.world2 !! "a_0_0a1b2c3d" = Some e) as [e He]
    by (eexists; reflexivity).
  assert ("a_0_0a1b2c3d" ∉ (SemanticSearchEngine.id <$> hits)) as Hout.
  { rewrite Hids. by intros ?%list_elem_of_singleton. }
  exists hits, e. split; [exact Hs|]. split; [exact He|]. split; [exact Hout|].
  exact (search_returns_the_nearest (H := Demo.env) "fee payment" 1 None _ _ hits
           "a_0_0a1b2c3d" e 11%Z Hs eq_refl He I Hout).
Defined.

Lemma extraction_reads_first_2000_characters_witness :
  @App.get_ai_extraction Demo.env Samples.long_x "name of pi" Demo.world0
  = @App.get_ai_extraction Demo.env Samples.long_y "name of pi" Demo.world0.
Proof.
  exact (proj1 (extraction_reads_first_2000_characters (H := Demo.env)
                  Samples.long_x Samples.long_y "name of pi" Demo.world0
                  eq_refl eq_refl)).
Defined.

Lemma extract_date_takes_any_digits_witness :
  @App.extract_date_from_text Demo.env "99/99/9999 is the deadline" = "99/99/9999".
Proof.
  apply (proj1 (extract_date_takes_any_digits (H := Demo.env)
                  "9" "9" "9" "9" "9" "9" "9" "9" " is the deadline"
                  ltac:(repeat constructor))).
Defined.

Lemma indexed_chunks_are_found_witness :
  ∃ h hits,
    @SemanticSearchEngine.search Demo.env "fee" 5
      (Some {[ "source_url" := "http://localhost:8000/files/fees.pdf" ]})
      Samples.fees_indexed
    = (Ok hits, Samples.fees_indexed)
    ∧ h ∈ hits ∧ SemanticSearchEngine.document h = "Fee payment is due".
Proof.
  assert (∃ hits,
            @SemanticSearchEngine.search Demo.env "fee" 5
              (Some {[ "source_url" := "http://localhost:8000/files/fees.pdf" ]})
              Samples.fees_indexed
            = (Ok hits, Samples.fees_indexed)) as [hits Hs] by (eexists; reflexivity).
  assert (size (filter (λ r : string * @Chroma.Entry Demo.env,
                          Chroma.metadata r.2 !! "source_url"
                          = Some "http://localhost:8000/files/fees.pdf")
                  Samples.fees_indexed) ≤ Z.to_nat 5) as Hfew
    by (apply Nat.leb_le; reflexivity).
  destruct (indexed_chunks_are_found (H := Demo.env) Demo.uuid_a "Fee payment is due"
              Samples.fees ∅ Samples.fees_indexed Samples.fees_indexed
              "http://localhost:8000/files/fees.pdf" "fee" 5 hits
              eq_refl eq_refl Hs Hfew 0 "Fee payment is due" eq_refl)
    as (h & Hh & Hdoc & _).
  exists h, hits. split; [exact Hs|]. split; [exact Hh|exact Hdoc].
Defined.

Lemma rescan_then_search_shows_file_fields_witness :
  ∃ message w1 results w2,
    @AppApi.scan_documents_folder Demo.env Samples.suffix_of Samples.folder
      Samples.is_file_of Samples.uuid_of Demo.world0 = (Ok message, w1)
    ∧ @App.search_documents Demo.env
        {| App.query := "fee payment"; App.filters := None; App.limit := 2 |} w1
      = (Ok results, w2)
    ∧ length results = 2
    ∧ ∀ r, r ∈ results →
        ∃ p, p ∈ [Demo.path_a; Samples.archive; Demo.path_b]
          ∧ Samples.is_file_of p = Ok true
          ∧ App.title r = Service.stem p
          ∧ App.source_url r = "http://localhost:8000/files/" +:+ Service.name p.
Proof.
  assert (∃ message w1,
            @AppApi.scan_documents_folder Demo.env Samples.suffix_of Samples.folder
              Samples.is_file_of Samples.uuid_of Demo.world0 = (Ok message, w1))
    as (message & w1 & Hscan) by (eexists _, _; reflexivity).
  assert (∃ results w2,
            @App.search_documents Demo.env
              {| App.query := "fee payment"; App.filters := None; App.limit := 2 |} w1
            = (Ok results, w2) ∧ length results = 2)
    as (results & w2 & Hsearch & Hlen).
  { injection Hscan as _ <-. eexists _, _. split; reflexivity. }
  exists message, w1, results, w2. split; [exact Hscan|]. split; [exact Hsearch|].
  split; [exact Hlen|]. intros r Hr.
  destruct (rescan_then_search_shows_file_fields (H := Demo.env) Samples.suffix_of
              Samples.folder Samples.is_file_of Samples.uuid_of [] message w1 w2
              {| App.query := "fee payment"; App.filters := None; App.limit := 2 |}
              results Hscan Hsearch r Hr)
    as (entries & p & Hentries & Hp & Hfile & _ & Htitle & Hurl & _).
  injection Hentries as <-.
  exists p. split; [exact Hp|]. split; [exact Hfile|]. split; [exact Htitle|exact Hurl].
Defined.

Lemma blank_pdf_pages_are_indexed_witness :
  ∃ w' e,
    @App.process_file Samples.blank_scanner Demo.uuid_a Samples.path_scan
      {| Service.collection := ∅; Service.prompts := [] |} = (Ok true, w')
    ∧ Service.collection w' !! "scan_0_0a1b2c3d" = Some e
    ∧ Chroma.document e ≠ ""
    ∧ ∀ c, c ∈ Py.chars (Chroma.document e) → c = "010"%char.
Proof.
  destruct (blank_pdf_pages_are_indexed (H := Samples.blank_scanner) unit unit
              Samples.nothing_readable Samples.two_pages Samples.written
              Samples.removed Samples.last_four id id Demo.uuid_a Samples.path_scan
              {| Service.collection := ∅; Service.prompts := [] |} tt tt [tt; tt]
              eq_refl eq_refl eq_refl (le_n 2)
              (λ _ _ fs0, ex_intro _ fs0 eq_refl)
              (λ _ fs0, ex_intro _ fs0 eq_refl)
              (λ _ _ raw _ Hraw,
                 match Hraw in (_ = y) return
                       (OCRProcessor.cleanup_text
                          match y.1 with Ok t => t | Raise _ => "" end = "")
                 with eq_refl => eq_refl end)
              (λ s, ex_intro _ (Z.of_nat (Py.len s)) eq_refl))
    as (d & text & indexed & w' & e & _ & _ & _ & _ & Hrun & Hprinted & He & Hne & Hbreaks).
  rewrite (proj2 Hprinted eq_refl) in Hrun.
  exists w', e. split; [exact Hrun|]. split; [exact He|]. split; [exact Hne|exact Hbreaks].
Defined.
